(** * rlgl: the vertex-batching layer of raylib, as a state-passing model

    This development embeds the batching engine of [src/rlgl.c] (the code
    compiled under [GRAPHICS_API_OPENGL_33] or [GRAPHICS_API_OPENGL_ES2]):
    the matrix stack, the immediate-mode vertex calls, the draw-call ledger
    kept by [rlEnableTexture], and the flush done by [rlglDraw].

    The module-level globals of the C file become the fields of one record
    [State]; every C function becomes a computation in a small monad [M]
    whose outcomes are a normal return, a call of [exit] (made by
    [TraceLog] on the [ERROR] level), or an access outside an array, which
    C leaves undefined and the model reports as [OutOfBounds]. *)

From Stdlib Require Import ZArith Lia Bool Ascii String.
From Stdlib Require Import DecimalString.
From Stdlib Require Import Floats.SpecFloat.
From stdpp Require Import base tactics option list.

Local Open Scope Z_scope.

(** ** Numbers

    [float] is IEEE-754 binary32 (24 bits of mantissa, infinities at
    exponent 128), with the operations of [SpecFloat]. [double] is binary64.
    The batching code only stores floats, except for the depth increment of
    [rlEnd] and the conversion of [rlVertex2i]. *)

Definition float : Type := spec_float.
Definition double : Type := spec_float.

Definition f32_add : float -> float -> float := SFadd 24 128.
Definition f32_mul : float -> float -> float := SFmul 24 128.
Definition f32_div : float -> float -> float := SFdiv 24 128.
Definition f32_opp : float -> float := SFopp.
Definition f32_of_int (n : Z) : float := binary_normalize 24 128 n 0 false.

Definition f32_0 : float := S754_zero false.          (* 0.0f *)
Definition f32_1 : float := f32_of_int 1.             (* 1.0f *)

(** [unsigned char] values are [Byte.byte]; [int], [GLuint] and [GLint]
    values are [Z]. The [int] counters of the file never leave the range of
    the arrays they index (a store outside an array is [OutOfBounds] before
    the counter can grow further), so no wrap-around is written for them. *)

Abbreviation byte := Byte.byte.

(** ** Configuration taken from [rlgl.h]

    [rlgl.h] is not part of the sources at hand. The batch sizes it defines
    and the back end it selects are parameters of the model. *)

Inductive GraphicsAPI := GRAPHICS_API_OPENGL_33 | GRAPHICS_API_OPENGL_ES2.

Class Config := {
  graphics_api : GraphicsAPI;
  MAX_LINES_BATCH : Z;
  MAX_TRIANGLES_BATCH : Z;
  MAX_QUADS_BATCH : Z
}.

Definition MATRIX_STACK_SIZE : Z := 16.
Definition MAX_DRAWS_BY_TEXTURE : Z := 256.
Definition TEMP_VERTEX_BUFFER_SIZE : Z := 4096.

(** Width in bits of one element of [quads.indices]: [unsigned int] on
    OpenGL 3.3, [unsigned short] on OpenGL ES 2. *)
Definition index_bits `{Config} : Z :=
  match graphics_api with
  | GRAPHICS_API_OPENGL_33 => 32
  | GRAPHICS_API_OPENGL_ES2 => 16
  end.

(** [sizeof(GLuint)] or [sizeof(GLushort)]. *)
Definition index_size `{Config} : Z :=
  match graphics_api with
  | GRAPHICS_API_OPENGL_33 => 4
  | GRAPHICS_API_OPENGL_ES2 => 2
  end.

(** Conversion of an [int] to the element type of [quads.indices]. *)
Definition to_index `{Config} (v : Z) : Z := v mod 2 ^ index_bits.

(** ** Types of [rlgl.h] and [raymath.h] used by the batching code *)

Inductive MatrixMode := RL_PROJECTION | RL_MODELVIEW | RL_TEXTURE.
Inductive DrawMode := RL_LINES | RL_TRIANGLES | RL_QUADS.

Module Vector3.
Record t := mk { x : float; y : float; z : float }.
End Vector3.

Record Matrix := mkMatrix {
  m0 : float; m4 : float; m8 : float; m12 : float;
  m1 : float; m5 : float; m9 : float; m13 : float;
  m2 : float; m6 : float; m10 : float; m14 : float;
  m3 : float; m7 : float; m11 : float; m15 : float
}.

(** The linear algebra of [raymath.h] is consumed through its interface:
    the functions below are parameters. [MatrixFromArray] is the braced
    initialiser of a [Matrix] from sixteen floats, whose meaning depends on
    the field order of the struct. *)
Class Raymath := {
  MatrixIdentity : Matrix;
  MatrixMultiply : Matrix -> Matrix -> Matrix;
  MatrixTranspose : Matrix -> Matrix;
  MatrixTranslate : float -> float -> float -> Matrix;
  MatrixRotate : Vector3.t -> float -> Matrix;
  MatrixScale : float -> float -> float -> Matrix;
  MatrixFrustum : double -> double -> double -> double -> double -> double -> Matrix;
  MatrixOrtho : double -> double -> double -> double -> double -> double -> Matrix;
  MatrixFromArray : list float -> Matrix;
  VectorNormalize : Vector3.t -> Vector3.t;
  VectorTransform : Vector3.t -> Matrix -> Vector3.t;
  VectorZero : Vector3.t;
  DEG2RAD : float
}.

(** ** Structures of [rlgl.c] *)

(** Vertex buffer (position + color arrays), used for lines and triangles. *)
Module VertexPositionColorBuffer.
Record t := mk {
  vCounter : Z;
  cCounter : Z;
  vertices : list float;      (* 3 components per vertex *)
  colors : list byte          (* 4 components per vertex *)
}.
End VertexPositionColorBuffer.

(** Vertex buffer (position + texcoords + colors + indices arrays), used
    for quads. *)
Module VertexPositionColorTextureIndexBuffer.
Record t := mk {
  vCounter : Z;
  tcCounter : Z;
  cCounter : Z;
  vertices : list float;      (* 3 components per vertex *)
  texcoords : list float;     (* 2 components per vertex *)
  colors : list byte;         (* 4 components per vertex *)
  indices : list Z            (* 6 indices per quad *)
}.
End VertexPositionColorTextureIndexBuffer.

Module PC := VertexPositionColorBuffer.
Module PCTI := VertexPositionColorTextureIndexBuffer.

(** Draw call type: required draw-calls, organized by texture. *)
Module DrawCall.
Record t := mk { textureId : Z; vertexCount : Z }.
End DrawCall.

Module Shader.
Record t := mk {
  id : Z;
  vertexLoc : Z; texcoordLoc : Z; normalLoc : Z; colorLoc : Z;
  mvpLoc : Z; tintColorLoc : Z;
  mapDiffuseLoc : Z; mapNormalLoc : Z; mapSpecularLoc : Z
}.
End Shader.

Inductive TraceLogType := INFO | ERROR | WARNING | DEBUG | OTHER.

(** ** The OpenGL calls made by the flush

    The driver is outside the model: a call is recorded, with its
    arguments, in the order it is made. A buffer upload records the
    elements it reads from the CPU-side array. *)

Inductive GLenum :=
  | GL_ARRAY_BUFFER | GL_ELEMENT_ARRAY_BUFFER | GL_TEXTURE_2D
  | GL_FLOAT | GL_UNSIGNED_BYTE | GL_UNSIGNED_INT | GL_UNSIGNED_SHORT
  | GL_LINES | GL_TRIANGLES.

Inductive GLData :=
  | GLfloats (l : list float)
  | GLbytes (l : list byte).

Inductive GLCall :=
  | glUseProgram (program : Z)
  | glUniformMatrix4fv (location count : Z) (transpose : bool) (value : list float)
  | glUniform1i (location v0 : Z)
  | glUniform4f (location : Z) (v0 v1 v2 v3 : float)
  | glBindTexture (target : GLenum) (texture : Z)
  | glBindVertexArray (array : Z)
  | glBindBuffer (target : GLenum) (buffer : Z)
  | glBufferSubData (target : GLenum) (offset size : Z) (data : GLData)
  | glVertexAttribPointer (index size : Z) (type : GLenum) (normalized : bool)
                          (stride pointer : Z)
  | glEnableVertexAttribArray (index : Z)
  | glDrawArrays (mode : GLenum) (first count : Z)
  | glDrawElements (mode : GLenum) (count : Z) (type : GLenum) (offset : Z).

(** ** Global variables *)

(** [currentMatrix] points to one of the two matrices of the module. *)
Inductive MatrixRef := ref_projection | ref_modelview.

Record State := mkState {
  stack : list Matrix;                  (* Matrix stack[MATRIX_STACK_SIZE] *)
  stackCounter : Z;
  modelview : Matrix;
  projection : Matrix;
  currentMatrix : MatrixRef;
  currentMatrixMode : MatrixMode;
  currentDrawMode : DrawMode;
  currentDepth : float;
  lines : PC.t;
  triangles : PC.t;
  quads : PCTI.t;
  vaoLines : Z;
  vaoTriangles : Z;
  vaoQuads : Z;
  linesBuffer : list Z;                 (* position, color *)
  trianglesBuffer : list Z;             (* position, color *)
  quadsBuffer : list Z;                 (* position, texcoord, color, index *)
  draws : list DrawCall.t;              (* MAX_DRAWS_BY_TEXTURE entries *)
  drawsCounter : Z;
  tempBuffer : list Vector3.t;          (* TEMP_VERTEX_BUFFER_SIZE entries *)
  tempBufferCount : Z;
  useTempBuffer : bool;
  defaultShader : Shader.t;
  currentShader : Shader.t;
  vaoSupported : bool;
  whiteTexture : Z;
  stdout : list string;                 (* what was printed, oldest first *)
  gl_calls : list GLCall                (* the OpenGL calls made, oldest first *)
}.

(** Assignment to one global: the other fields are kept. *)

Definition set_stack (v : list Matrix) (st : State) : State :=
  mkState v (stackCounter st) (modelview st) (projection st)
    (currentMatrix st) (currentMatrixMode st) (currentDrawMode st)
    (currentDepth st) (lines st) (triangles st) (quads st) (vaoLines st)
    (vaoTriangles st) (vaoQuads st) (linesBuffer st) (trianglesBuffer st)
    (quadsBuffer st) (draws st) (drawsCounter st) (tempBuffer st)
    (tempBufferCount st) (useTempBuffer st) (defaultShader st)
    (currentShader st) (vaoSupported st) (whiteTexture st) (stdout st)
    (gl_calls st).

Definition set_stackCounter (v : Z) (st : State) : State :=
  mkState (stack st) v (modelview st) (projection st) (currentMatrix st)
    (currentMatrixMode st) (currentDrawMode st) (currentDepth st) (lines st)
    (triangles st) (quads st) (vaoLines st) (vaoTriangles st) (vaoQuads st)
    (linesBuffer st) (trianglesBuffer st) (quadsBuffer st) (draws st)
    (drawsCounter st) (tempBuffer st) (tempBufferCount st) (useTempBuffer st)
    (defaultShader st) (currentShader st) (vaoSupported st) (whiteTexture st)
    (stdout st) (gl_calls st).

Definition set_modelview (v : Matrix) (st : State) : State :=
  mkState (stack st) (stackCounter st) v (projection st) (currentMatrix st)
    (currentMatrixMode st) (currentDrawMode st) (currentDepth st) (lines st)
    (triangles st) (quads st) (vaoLines st) (vaoTriangles st) (vaoQuads st)
    (linesBuffer st) (trianglesBuffer st) (quadsBuffer st) (draws st)
    (drawsCounter st) (tempBuffer st) (tempBufferCount st) (useTempBuffer st)
    (defaultShader st) (currentShader st) (vaoSupported st) (whiteTexture st)
    (stdout st) (gl_calls st).

Definition set_projection (v : Matrix) (st : State) : State :=
  mkState (stack st) (stackCounter st) (modelview st) v (currentMatrix st)
    (currentMatrixMode st) (currentDrawMode st) (currentDepth st) (lines st)
    (triangles st) (quads st) (vaoLines st) (vaoTriangles st) (vaoQuads st)
    (linesBuffer st) (trianglesBuffer st) (quadsBuffer st) (draws st)
    (drawsCounter st) (tempBuffer st) (tempBufferCount st) (useTempBuffer st)
    (defaultShader st) (currentShader st) (vaoSupported st) (whiteTexture st)
    (stdout st) (gl_calls st).

Definition set_currentMatrix (v : MatrixRef) (st : State) : State :=
  mkState (stack st) (stackCounter st) (modelview st) (projection st) v
    (currentMatrixMode st) (currentDrawMode st) (currentDepth st) (lines st)
    (triangles st) (quads st) (vaoLines st) (vaoTriangles st) (vaoQuads st)
    (linesBuffer st) (trianglesBuffer st) (quadsBuffer st) (draws st)
    (drawsCounter st) (tempBuffer st) (tempBufferCount st) (useTempBuffer st)
    (defaultShader st) (currentShader st) (vaoSupported st) (whiteTexture st)
    (stdout st) (gl_calls st).

Definition set_currentMatrixMode (v : MatrixMode) (st : State) : State :=
  mkState (stack st) (stackCounter st) (modelview st) (projection st)
    (currentMatrix st) v (currentDrawMode st) (currentDepth st) (lines st)
    (triangles st) (quads st) (vaoLines st) (vaoTriangles st) (vaoQuads st)
    (linesBuffer st) (trianglesBuffer st) (quadsBuffer st) (draws st)
    (drawsCounter st) (tempBuffer st) (tempBufferCount st) (useTempBuffer st)
    (defaultShader st) (currentShader st) (vaoSupported st) (whiteTexture st)
    (stdout st) (gl_calls st).

Definition set_currentDrawMode (v : DrawMode) (st : State) : State :=
  mkState (stack st) (stackCounter st) (modelview st) (projection st)
    (currentMatrix st) (currentMatrixMode st) v (currentDepth st) (lines st)
    (triangles st) (quads st) (vaoLines st) (vaoTriangles st) (vaoQuads st)
    (linesBuffer st) (trianglesBuffer st) (quadsBuffer st) (draws st)
    (drawsCounter st) (tempBuffer st) (tempBufferCount st) (useTempBuffer st)
    (defaultShader st) (currentShader st) (vaoSupported st) (whiteTexture st)
    (stdout st) (gl_calls st).

Definition set_currentDepth (v : float) (st : State) : State :=
  mkState (stack st) (stackCounter st) (modelview st) (projection st)
    (currentMatrix st) (currentMatrixMode st) (currentDrawMode st) v
    (lines st) (triangles st) (quads st) (vaoLines st) (vaoTriangles st)
    (vaoQuads st) (linesBuffer st) (trianglesBuffer st) (quadsBuffer st)
    (draws st) (drawsCounter st) (tempBuffer st) (tempBufferCount st)
    (useTempBuffer st) (defaultShader st) (currentShader st) (vaoSupported st)
    (whiteTexture st) (stdout st) (gl_calls st).

Definition set_lines (v : PC.t) (st : State) : State :=
  mkState (stack st) (stackCounter st) (modelview st) (projection st)
    (currentMatrix st) (currentMatrixMode st) (currentDrawMode st)
    (currentDepth st) v (triangles st) (quads st) (vaoLines st)
    (vaoTriangles st) (vaoQuads st) (linesBuffer st) (trianglesBuffer st)
    (quadsBuffer st) (draws st) (drawsCounter st) (tempBuffer st)
    (tempBufferCount st) (useTempBuffer st) (defaultShader st)
    (currentShader st) (vaoSupported st) (whiteTexture st) (stdout st)
    (gl_calls st).

Definition set_triangles (v : PC.t) (st : State) : State :=
  mkState (stack st) (stackCounter st) (modelview st) (projection st)
    (currentMatrix st) (currentMatrixMode st) (currentDrawMode st)
    (currentDepth st) (lines st) v (quads st) (vaoLines st) (vaoTriangles st)
    (vaoQuads st) (linesBuffer st) (trianglesBuffer st) (quadsBuffer st)
    (draws st) (drawsCounter st) (tempBuffer st) (tempBufferCount st)
    (useTempBuffer st) (defaultShader st) (currentShader st) (vaoSupported st)
    (whiteTexture st) (stdout st) (gl_calls st).

Definition set_quads (v : PCTI.t) (st : State) : State :=
  mkState (stack st) (stackCounter st) (modelview st) (projection st)
    (currentMatrix st) (currentMatrixMode st) (currentDrawMode st)
    (currentDepth st) (lines st) (triangles st) v (vaoLines st)
    (vaoTriangles st) (vaoQuads st) (linesBuffer st) (trianglesBuffer st)
    (quadsBuffer st) (draws st) (drawsCounter st) (tempBuffer st)
    (tempBufferCount st) (useTempBuffer st) (defaultShader st)
    (currentShader st) (vaoSupported st) (whiteTexture st) (stdout st)
    (gl_calls st).

Definition set_draws (v : list DrawCall.t) (st : State) : State :=
  mkState (stack st) (stackCounter st) (modelview st) (projection st)
    (currentMatrix st) (currentMatrixMode st) (currentDrawMode st)
    (currentDepth st) (lines st) (triangles st) (quads st) (vaoLines st)
    (vaoTriangles st) (vaoQuads st) (linesBuffer st) (trianglesBuffer st)
    (quadsBuffer st) v (drawsCounter st) (tempBuffer st) (tempBufferCount st)
    (useTempBuffer st) (defaultShader st) (currentShader st) (vaoSupported st)
    (whiteTexture st) (stdout st) (gl_calls st).

Definition set_drawsCounter (v : Z) (st : State) : State :=
  mkState (stack st) (stackCounter st) (modelview st) (projection st)
    (currentMatrix st) (currentMatrixMode st) (currentDrawMode st)
    (currentDepth st) (lines st) (triangles st) (quads st) (vaoLines st)
    (vaoTriangles st) (vaoQuads st) (linesBuffer st) (trianglesBuffer st)
    (quadsBuffer st) (draws st) v (tempBuffer st) (tempBufferCount st)
    (useTempBuffer st) (defaultShader st) (currentShader st) (vaoSupported st)
    (whiteTexture st) (stdout st) (gl_calls st).

Definition set_tempBuffer (v : list Vector3.t) (st : State) : State :=
  mkState (stack st) (stackCounter st) (modelview st) (projection st)
    (currentMatrix st) (currentMatrixMode st) (currentDrawMode st)
    (currentDepth st) (lines st) (triangles st) (quads st) (vaoLines st)
    (vaoTriangles st) (vaoQuads st) (linesBuffer st) (trianglesBuffer st)
    (quadsBuffer st) (draws st) (drawsCounter st) v (tempBufferCount st)
    (useTempBuffer st) (defaultShader st) (currentShader st) (vaoSupported st)
    (whiteTexture st) (stdout st) (gl_calls st).

Definition set_tempBufferCount (v : Z) (st : State) : State :=
  mkState (stack st) (stackCounter st) (modelview st) (projection st)
    (currentMatrix st) (currentMatrixMode st) (currentDrawMode st)
    (currentDepth st) (lines st) (triangles st) (quads st) (vaoLines st)
    (vaoTriangles st) (vaoQuads st) (linesBuffer st) (trianglesBuffer st)
    (quadsBuffer st) (draws st) (drawsCounter st) (tempBuffer st) v
    (useTempBuffer st) (defaultShader st) (currentShader st) (vaoSupported st)
    (whiteTexture st) (stdout st) (gl_calls st).

Definition set_useTempBuffer (v : bool) (st : State) : State :=
  mkState (stack st) (stackCounter st) (modelview st) (projection st)
    (currentMatrix st) (currentMatrixMode st) (currentDrawMode st)
    (currentDepth st) (lines st) (triangles st) (quads st) (vaoLines st)
    (vaoTriangles st) (vaoQuads st) (linesBuffer st) (trianglesBuffer st)
    (quadsBuffer st) (draws st) (drawsCounter st) (tempBuffer st)
    (tempBufferCount st) v (defaultShader st) (currentShader st)
    (vaoSupported st) (whiteTexture st) (stdout st) (gl_calls st).

Definition set_stdout (v : list string) (st : State) : State :=
  mkState (stack st) (stackCounter st) (modelview st) (projection st)
    (currentMatrix st) (currentMatrixMode st) (currentDrawMode st)
    (currentDepth st) (lines st) (triangles st) (quads st) (vaoLines st)
    (vaoTriangles st) (vaoQuads st) (linesBuffer st) (trianglesBuffer st)
    (quadsBuffer st) (draws st) (drawsCounter st) (tempBuffer st)
    (tempBufferCount st) (useTempBuffer st) (defaultShader st)
    (currentShader st) (vaoSupported st) (whiteTexture st) v (gl_calls st).

Definition set_gl_calls (v : list GLCall) (st : State) : State :=
  mkState (stack st) (stackCounter st) (modelview st) (projection st)
    (currentMatrix st) (currentMatrixMode st) (currentDrawMode st)
    (currentDepth st) (lines st) (triangles st) (quads st) (vaoLines st)
    (vaoTriangles st) (vaoQuads st) (linesBuffer st) (trianglesBuffer st)
    (quadsBuffer st) (draws st) (drawsCounter st) (tempBuffer st)
    (tempBufferCount st) (useTempBuffer st) (defaultShader st)
    (currentShader st) (vaoSupported st) (whiteTexture st) (stdout st) v.

Definition set_x (v : float) (p : Vector3.t) : Vector3.t :=
  Vector3.mk v (Vector3.y p) (Vector3.z p).
Definition set_y (v : float) (p : Vector3.t) : Vector3.t :=
  Vector3.mk (Vector3.x p) v (Vector3.z p).
Definition set_z (v : float) (p : Vector3.t) : Vector3.t :=
  Vector3.mk (Vector3.x p) (Vector3.y p) v.

Definition set_textureId (v : Z) (d : DrawCall.t) : DrawCall.t :=
  DrawCall.mk v (DrawCall.vertexCount d).
Definition set_vertexCount (v : Z) (d : DrawCall.t) : DrawCall.t :=
  DrawCall.mk (DrawCall.textureId d) v.

(** ** Outcomes of a call, and the monad of the model *)

Inductive Outcome (A : Type) : Type :=
  | Ret (a : A) (st : State)            (* the function returns *)
  | Exit (status : Z) (st : State)      (* the process ends in exit(status) *)
  | OutOfBounds (st : State).           (* an access outside an array *)

Arguments Ret {A} a st.
Arguments Exit {A} status st.
Arguments OutOfBounds {A} st.

Definition M (A : Type) : Type := State -> Outcome A.

#[global] Instance M_ret : MRet M := fun A a st => Ret a st.

#[global] Instance M_bind : MBind M := fun A B f m st =>
  match m st with
  | Ret a st' => f a st'
  | Exit status st' => Exit status st'
  | OutOfBounds st' => OutOfBounds st'
  end.

Definition get : M State := fun st => Ret st st.
Definition exit (status : Z) : M unit := fun st => Exit status st.
Definition out_of_bounds {A : Type} : M A := fun st => OutOfBounds st.
Definition when (b : bool) (c : M unit) : M unit := if b then c else mret tt.

(** An lvalue of the C program: how to read it in a state and how to
    assign to it. *)
Record Var (A : Type) := mkVar { rd : State -> A; wr : A -> State -> State }.
Arguments mkVar {A} rd wr.
Arguments rd {A} v st.
Arguments wr {A} v a st.

Definition read {A : Type} (v : Var A) : M A := fun st => Ret (rd v st) st.
Definition assign {A : Type} (v : Var A) (a : A) : M unit :=
  fun st => Ret tt (wr v a st).

(** Arrays are lists of the allocated length. An index is valid when it
    lies in [0, length). *)
Definition in_bounds {A : Type} (a : list A) (i : Z) : bool :=
  (0 <=? i) && (i <? Z.of_nat (length a)).

Definition array_get {A : Type} (a : list A) (i : Z) : M A :=
  if in_bounds a i then
    match a !! Z.to_nat i with
    | Some v => mret v
    | None => out_of_bounds
    end
  else out_of_bounds.

Definition array_set {A : Type} (a : list A) (i : Z) (v : A) : M (list A) :=
  if in_bounds a i then mret (<[Z.to_nat i := v]> a) else out_of_bounds.

(** [arr[i]] as an rvalue, and [arr[i] = x]. *)
Definition load {A : Type} (arr : Var (list A)) (i : Z) : M A :=
  a ← read arr; array_get a i.
Definition store {A : Type} (arr : Var (list A)) (i : Z) (x : A) : M unit :=
  a ← read arr; a' ← array_set a i x; assign arr a'.

(** [for (int i = i0; i < bound; i += step) body], for a bound that the
    body leaves alone and a step of at least one. The fuel is the distance
    to the bound, which such a loop cannot outrun; [acc] carries the local
    variables that the body changes. *)
Fixpoint for_fuel {A : Type} (fuel : nat) (i bound step : Z)
    (body : Z -> A -> M A) (acc : A) : M A :=
  match fuel with
  | O => mret acc
  | S fuel' =>
      if i <? bound
      then acc' ← body i acc; for_fuel fuel' (i + step) bound step body acc'
      else mret acc
  end.

Definition for_loop {A : Type} (i0 bound step : Z) (body : Z -> A -> M A)
    (acc : A) : M A :=
  for_fuel (Z.to_nat (bound - i0)) i0 bound step body acc.

Definition for_each (i0 bound : Z) (body : Z -> M unit) : M unit :=
  for_loop i0 bound 1 (fun i _ => body i) tt.

(** ** The globals as lvalues *)

Definition v_stack := mkVar stack set_stack.
Definition v_modelview := mkVar modelview set_modelview.
Definition v_projection := mkVar projection set_projection.
Definition v_currentMatrix := mkVar currentMatrix set_currentMatrix.
Definition v_stackCounter := mkVar stackCounter set_stackCounter.
Definition v_currentMatrixMode := mkVar currentMatrixMode set_currentMatrixMode.
Definition v_currentDrawMode := mkVar currentDrawMode set_currentDrawMode.
Definition v_currentDepth := mkVar currentDepth set_currentDepth.
Definition v_draws := mkVar draws set_draws.
Definition v_drawsCounter := mkVar drawsCounter set_drawsCounter.
Definition v_tempBuffer := mkVar tempBuffer set_tempBuffer.
Definition v_tempBufferCount := mkVar tempBufferCount set_tempBufferCount.
Definition v_useTempBuffer := mkVar useTempBuffer set_useTempBuffer.

(** [*currentMatrix]: the matrix that [currentMatrix] points to. *)
Definition deref_currentMatrix : Var Matrix :=
  mkVar
    (fun st => match currentMatrix st with
               | ref_projection => projection st
               | ref_modelview => modelview st
               end)
    (fun m st => match currentMatrix st with
                 | ref_projection => set_projection m st
                 | ref_modelview => set_modelview m st
                 end).

Definition lines_vCounter : Var Z :=
  mkVar (fun st => PC.vCounter (lines st))
    (fun v st => let b := lines st in
       set_lines (PC.mk v (PC.cCounter b) (PC.vertices b) (PC.colors b)) st).
Definition lines_cCounter : Var Z :=
  mkVar (fun st => PC.cCounter (lines st))
    (fun v st => let b := lines st in
       set_lines (PC.mk (PC.vCounter b) v (PC.vertices b) (PC.colors b)) st).
Definition lines_vertices : Var (list float) :=
  mkVar (fun st => PC.vertices (lines st))
    (fun v st => let b := lines st in
       set_lines (PC.mk (PC.vCounter b) (PC.cCounter b) v (PC.colors b)) st).
Definition lines_colors : Var (list byte) :=
  mkVar (fun st => PC.colors (lines st))
    (fun v st => let b := lines st in
       set_lines (PC.mk (PC.vCounter b) (PC.cCounter b) (PC.vertices b) v) st).

Definition triangles_vCounter : Var Z :=
  mkVar (fun st => PC.vCounter (triangles st))
    (fun v st => let b := triangles st in
       set_triangles (PC.mk v (PC.cCounter b) (PC.vertices b) (PC.colors b)) st).
Definition triangles_cCounter : Var Z :=
  mkVar (fun st => PC.cCounter (triangles st))
    (fun v st => let b := triangles st in
       set_triangles (PC.mk (PC.vCounter b) v (PC.vertices b) (PC.colors b)) st).
Definition triangles_vertices : Var (list float) :=
  mkVar (fun st => PC.vertices (triangles st))
    (fun v st => let b := triangles st in
       set_triangles (PC.mk (PC.vCounter b) (PC.cCounter b) v (PC.colors b)) st).
Definition triangles_colors : Var (list byte) :=
  mkVar (fun st => PC.colors (triangles st))
    (fun v st => let b := triangles st in
       set_triangles (PC.mk (PC.vCounter b) (PC.cCounter b) (PC.vertices b) v) st).

Definition quads_vCounter : Var Z :=
  mkVar (fun st => PCTI.vCounter (quads st))
    (fun v st => let b := quads st in
       set_quads (PCTI.mk v (PCTI.tcCounter b) (PCTI.cCounter b)
                    (PCTI.vertices b) (PCTI.texcoords b) (PCTI.colors b)
                    (PCTI.indices b)) st).
Definition quads_tcCounter : Var Z :=
  mkVar (fun st => PCTI.tcCounter (quads st))
    (fun v st => let b := quads st in
       set_quads (PCTI.mk (PCTI.vCounter b) v (PCTI.cCounter b)
                    (PCTI.vertices b) (PCTI.texcoords b) (PCTI.colors b)
                    (PCTI.indices b)) st).
Definition quads_cCounter : Var Z :=
  mkVar (fun st => PCTI.cCounter (quads st))
    (fun v st => let b := quads st in
       set_quads (PCTI.mk (PCTI.vCounter b) (PCTI.tcCounter b) v
                    (PCTI.vertices b) (PCTI.texcoords b) (PCTI.colors b)
                    (PCTI.indices b)) st).
Definition quads_vertices : Var (list float) :=
  mkVar (fun st => PCTI.vertices (quads st))
    (fun v st => let b := quads st in
       set_quads (PCTI.mk (PCTI.vCounter b) (PCTI.tcCounter b) (PCTI.cCounter b)
                    v (PCTI.texcoords b) (PCTI.colors b)
                    (PCTI.indices b)) st).
Definition quads_texcoords : Var (list float) :=
  mkVar (fun st => PCTI.texcoords (quads st))
    (fun v st => let b := quads st in
       set_quads (PCTI.mk (PCTI.vCounter b) (PCTI.tcCounter b) (PCTI.cCounter b)
                    (PCTI.vertices b) v (PCTI.colors b)
                    (PCTI.indices b)) st).
Definition quads_colors : Var (list byte) :=
  mkVar (fun st => PCTI.colors (quads st))
    (fun v st => let b := quads st in
       set_quads (PCTI.mk (PCTI.vCounter b) (PCTI.tcCounter b) (PCTI.cCounter b)
                    (PCTI.vertices b) (PCTI.texcoords b) v
                    (PCTI.indices b)) st).
Definition quads_indices : Var (list Z) :=
  mkVar (fun st => PCTI.indices (quads st))
    (fun v st => let b := quads st in
       set_quads (PCTI.mk (PCTI.vCounter b) (PCTI.tcCounter b) (PCTI.cCounter b)
                    (PCTI.vertices b) (PCTI.texcoords b) (PCTI.colors b)
                    v) st).

(** ** Logging and OpenGL *)

Definition fprintf (text : string) : M unit :=
  fun st => Ret tt (set_stdout (stdout st ++ [text]) st).

Definition is_ERROR (msgType : TraceLogType) : bool :=
  match msgType with ERROR => true | _ => false end.

(** Output a trace log message. [text] is the message after formatting. *)
Definition TraceLog (msgType : TraceLogType) (text : string) : M unit :=
  match msgType with
  | INFO => fprintf "INFO: "
  | ERROR => fprintf "ERROR: "
  | WARNING => fprintf "WARNING: "
  | DEBUG => fprintf "DEBUG: "
  | OTHER => mret tt
  end;;
  fprintf text;;
  fprintf (String "010"%char EmptyString);;
  when (is_ERROR msgType) (exit 1).

Definition gl (c : GLCall) : M unit :=
  fun st => Ret tt (set_gl_calls (gl_calls st ++ [c]) st).

(** Converts Matrix to float array. *)
Definition MatrixToFloat (mat : Matrix) : list float :=
  [ m0 mat; m4 mat; m8 mat; m12 mat;
    m1 mat; m5 mat; m9 mat; m13 mat;
    m2 mat; m6 mat; m10 mat; m14 mat;
    m3 mat; m7 mat; m11 mat; m15 mat ].

Section Rlgl.
Context `{cfg : Config} `{rm : Raymath}.

(** ** Matrix operations *)

(** Choose the current matrix to be transformed. *)
Definition rlMatrixMode (mode : MatrixMode) : M unit :=
  match mode with
  | RL_PROJECTION => assign v_currentMatrix ref_projection
  | RL_MODELVIEW => assign v_currentMatrix ref_modelview
  | RL_TEXTURE => mret tt                       (* not supported *)
  end;;
  assign v_currentMatrixMode mode.

(** Reset current matrix to identity matrix. *)
Definition rlLoadIdentity : M unit :=
  assign deref_currentMatrix MatrixIdentity.

Definition is_RL_MODELVIEW (mode : MatrixMode) : bool :=
  match mode with RL_MODELVIEW => true | _ => false end.

(** Push the current matrix to stack. *)
Definition rlPushMatrix : M unit :=
  n ← read v_stackCounter;
  when (n =? MATRIX_STACK_SIZE - 1)
    (TraceLog ERROR "Stack Buffer Overflow (MAX 16 Matrix)");;
  n ← read v_stackCounter;
  m ← read deref_currentMatrix;
  store v_stack n m;;
  rlLoadIdentity;;
  n ← read v_stackCounter;
  assign v_stackCounter (n + 1);;
  mode ← read v_currentMatrixMode;
  when (is_RL_MODELVIEW mode) (assign v_useTempBuffer true).

(** Pop lattest inserted matrix from stack. *)
Definition rlPopMatrix : M unit :=
  n ← read v_stackCounter;
  when (0 <? n)
    (mat ← load v_stack (n - 1);
     assign deref_currentMatrix mat;;
     assign v_stackCounter (n - 1)).

(** Multiply the current matrix by a translation matrix. *)
Definition rlTranslatef (x y z : float) : M unit :=
  let matTranslation := MatrixTranspose (MatrixTranslate x y z) in
  m ← read deref_currentMatrix;
  assign deref_currentMatrix (MatrixMultiply m matTranslation).

(** Multiply the current matrix by a rotation matrix. *)
Definition rlRotatef (angleDeg x y z : float) : M unit :=
  let axis := VectorNormalize (Vector3.mk x y z) in
  let matRotation := MatrixTranspose (MatrixRotate axis (f32_mul angleDeg DEG2RAD)) in
  m ← read deref_currentMatrix;
  assign deref_currentMatrix (MatrixMultiply m matRotation).

(** Multiply the current matrix by a scaling matrix. *)
Definition rlScalef (x y z : float) : M unit :=
  let matScale := MatrixTranspose (MatrixScale x y z) in
  m ← read deref_currentMatrix;
  assign deref_currentMatrix (MatrixMultiply m matScale).

(** Multiply the current matrix by another matrix, given as sixteen floats. *)
Definition rlMultMatrixf (m : list float) : M unit :=
  let mat := MatrixFromArray m in
  cur ← read deref_currentMatrix;
  assign deref_currentMatrix (MatrixMultiply cur mat).

(** Multiply the current matrix by a perspective matrix. *)
Definition rlFrustum (left right bottom top near far : double) : M unit :=
  let matPerps := MatrixTranspose (MatrixFrustum left right bottom top near far) in
  m ← read deref_currentMatrix;
  assign deref_currentMatrix (MatrixMultiply m matPerps).

(** Multiply the current matrix by an orthographic matrix. *)
Definition rlOrtho (left right bottom top near far : double) : M unit :=
  let matOrtho := MatrixTranspose (MatrixOrtho left right bottom top near far) in
  m ← read deref_currentMatrix;
  assign deref_currentMatrix (MatrixMultiply m matOrtho).

(** ** Vertex level operations *)

(** Initialize drawing mode (how to organize vertex). *)
Definition rlBegin (mode : DrawMode) : M unit :=
  assign v_currentDrawMode mode.

(** Define one vertex (position). *)
Definition rlVertex3f (x y z : float) : M unit :=
  temp ← read v_useTempBuffer;
  if temp : bool then
    n ← read v_tempBufferCount;
    p ← load v_tempBuffer n; store v_tempBuffer n (set_x x p);;
    p ← load v_tempBuffer n; store v_tempBuffer n (set_y y p);;
    p ← load v_tempBuffer n; store v_tempBuffer n (set_z z p);;
    assign v_tempBufferCount (n + 1)
  else
    mode ← read v_currentDrawMode;
    match mode with
    | RL_LINES =>
        v ← read lines_vCounter;
        (* Verify that MAX_LINES_BATCH limit not reached *)
        if v ÷ 2 <? MAX_LINES_BATCH then
          store lines_vertices (3 * v) x;;
          store lines_vertices (3 * v + 1) y;;
          store lines_vertices (3 * v + 2) z;;
          assign lines_vCounter (v + 1)
        else TraceLog ERROR "MAX_LINES_BATCH overflow"
    | RL_TRIANGLES =>
        v ← read triangles_vCounter;
        (* Verify that MAX_TRIANGLES_BATCH limit not reached *)
        if v ÷ 3 <? MAX_TRIANGLES_BATCH then
          store triangles_vertices (3 * v) x;;
          store triangles_vertices (3 * v + 1) y;;
          store triangles_vertices (3 * v + 2) z;;
          assign triangles_vCounter (v + 1)
        else TraceLog ERROR "MAX_TRIANGLES_BATCH overflow"
    | RL_QUADS =>
        v ← read quads_vCounter;
        (* Verify that MAX_QUADS_BATCH limit not reached *)
        if v ÷ 4 <? MAX_QUADS_BATCH then
          store quads_vertices (3 * v) x;;
          store quads_vertices (3 * v + 1) y;;
          store quads_vertices (3 * v + 2) z;;
          assign quads_vCounter (v + 1);;
          n ← read v_drawsCounter;
          d ← load v_draws (n - 1);
          store v_draws (n - 1) (set_vertexCount (DrawCall.vertexCount d + 1) d)
        else TraceLog ERROR "MAX_QUADS_BATCH overflow"
    end.

(** Define one vertex (position). *)
Definition rlVertex2f (x y : float) : M unit :=
  d ← read v_currentDepth;
  rlVertex3f x y d.

(** Define one vertex (position). *)
Definition rlVertex2i (x y : Z) : M unit :=
  d ← read v_currentDepth;
  rlVertex3f (f32_of_int x) (f32_of_int y) d.

Definition is_RL_QUADS (mode : DrawMode) : bool :=
  match mode with RL_QUADS => true | _ => false end.

(** Define one vertex (texture coordinate).
    NOTE: Texture coordinates are limited to QUADS only. *)
Definition rlTexCoord2f (x y : float) : M unit :=
  mode ← read v_currentDrawMode;
  when (is_RL_QUADS mode)
    (t ← read quads_tcCounter;
     store quads_texcoords (2 * t) x;;
     store quads_texcoords (2 * t + 1) y;;
     assign quads_tcCounter (t + 1)).

(** Define one vertex (normal): normals are not used. *)
Definition rlNormal3f (x y z : float) : M unit := mret tt.

(** Define one vertex (color). *)
Definition rlColor4ub (x y z w : byte) : M unit :=
  mode ← read v_currentDrawMode;
  match mode with
  | RL_LINES =>
      c ← read lines_cCounter;
      store lines_colors (4 * c) x;;
      store lines_colors (4 * c + 1) y;;
      store lines_colors (4 * c + 2) z;;
      store lines_colors (4 * c + 3) w;;
      assign lines_cCounter (c + 1)
  | RL_TRIANGLES =>
      c ← read triangles_cCounter;
      store triangles_colors (4 * c) x;;
      store triangles_colors (4 * c + 1) y;;
      store triangles_colors (4 * c + 2) z;;
      store triangles_colors (4 * c + 3) w;;
      assign triangles_cCounter (c + 1)
  | RL_QUADS =>
      c ← read quads_cCounter;
      store quads_colors (4 * c) x;;
      store quads_colors (4 * c + 1) y;;
      store quads_colors (4 * c + 2) z;;
      store quads_colors (4 * c + 3) w;;
      assign quads_cCounter (c + 1)
  end.

(** One round of the loop of [rlEnd] that completes the colors of a
    buffer: the color at [cCounter] is copied, component by component,
    from the one before it. *)
Definition repeat_last_color (cCounter : Var Z) (colors : Var (list byte))
    : M unit :=
  c ← read cCounter; b ← load colors (4 * c - 4); store colors (4 * c) b;;
  c ← read cCounter; b ← load colors (4 * c - 3); store colors (4 * c + 1) b;;
  c ← read cCounter; b ← load colors (4 * c - 2); store colors (4 * c + 2) b;;
  c ← read cCounter; b ← load colors (4 * c - 1); store colors (4 * c + 3) b;;
  c ← read cCounter; assign cCounter (c + 1).

(** First part of [rlEnd]: when the temp buffer is in use, its vertices
    are transformed and handed to [rlVertex3f]. The bound of both loops,
    [tempBufferCount], is not changed by their bodies. *)
Definition rlEnd_temp : M unit :=
  temp ← read v_useTempBuffer;
  when temp
    (n ← read v_tempBufferCount;
     (* Apply transformation matrix to all temp vertices *)
     for_each 0 n (fun i =>
       p ← load v_tempBuffer i;
       m ← read deref_currentMatrix;
       store v_tempBuffer i (VectorTransform p m));;
     (* Deactivate tempBuffer usage to allow rlVertex3f do its job *)
     assign v_useTempBuffer false;;
     (* Copy all transformed vertices to right VAO *)
     n ← read v_tempBufferCount;
     for_each 0 n (fun i =>
       p ← load v_tempBuffer i;
       rlVertex3f (Vector3.x p) (Vector3.y p) (Vector3.z p));;
     (* Reset temp buffer *)
     assign v_tempBufferCount 0).

(** The loop of [rlEnd] that completes the colors of a buffer. *)
Definition add_colors (vCounter cCounter : Var Z) (colors : Var (list byte))
    : M unit :=
  v ← read vCounter; c ← read cCounter;
  when (negb (v =? c))
    (let addColors := v - c in
     for_each 0 addColors (fun _ => repeat_last_color cCounter colors)).

(** The loop of [rlEnd] that completes the texcoords of the quads. *)
Definition add_texcoords : M unit :=
  v ← read quads_vCounter; t ← read quads_tcCounter;
  when (negb (v =? t))
    (let addTexCoords := v - t in
     for_each 0 addTexCoords (fun _ =>
       t ← read quads_tcCounter;
       store quads_texcoords (2 * t) f32_0;;
       store quads_texcoords (2 * t + 1) f32_0;;
       assign quads_tcCounter (t + 1))).

(** Second part of [rlEnd]: make sure vertexCount is the same for
    vertices-texcoords-normals-colors. *)
Definition rlEnd_counts : M unit :=
  mode ← read v_currentDrawMode;
  match mode with
  | RL_LINES => add_colors lines_vCounter lines_cCounter lines_colors
  | RL_TRIANGLES =>
      add_colors triangles_vCounter triangles_cCounter triangles_colors
  | RL_QUADS =>
      (* Make sure colors count match vertex count *)
      add_colors quads_vCounter quads_cCounter quads_colors;;
      (* Make sure texcoords count match vertex count *)
      add_texcoords
  end.

(** Finish vertex providing. *)
Definition rlEnd : M unit :=
  rlEnd_temp;;
  rlEnd_counts;;
  d ← read v_currentDepth;
  assign v_currentDepth (f32_add d (f32_div f32_1 (f32_of_int 20000))).

(** ** OpenGL equivalent functions *)

(** Enable texture usage. *)
Definition rlEnableTexture (id : Z) : M unit :=
  n ← read v_drawsCounter;
  d ← load v_draws (n - 1);
  when (negb (DrawCall.textureId d =? id))
    (when (0 <? DrawCall.vertexCount d) (assign v_drawsCounter (n + 1));;
     n ← read v_drawsCounter;
     d ← load v_draws (n - 1); store v_draws (n - 1) (set_textureId id d);;
     d ← load v_draws (n - 1); store v_draws (n - 1) (set_vertexCount 0 d)).

(** Disable texture usage: nothing to do on OpenGL 3.3 and ES 2. *)
Definition rlDisableTexture : M unit := mret tt.

(** ** Default buffers *)

Definition v_lines := mkVar lines set_lines.
Definition v_triangles := mkVar triangles set_triangles.
Definition v_quads := mkVar quads set_quads.

(** [malloc] of [n] elements followed by the loop that stores [v] in each
    of them. *)
Definition fill_array {A : Type} (n : Z) (v : A) : list A :=
  replicate (Z.to_nat n) v.

(** Load default internal buffers (lines, triangles, quads): the part that
    allocates and initializes the CPU arrays. The objects that the driver
    creates in the second part are taken as given (see [Boot]). *)
Definition LoadDefaultBuffers : M unit :=
  (* Initialize lines arrays (vertex position and color data) *)
  assign v_lines
    (PC.mk 0 0 (fill_array (3 * 2 * MAX_LINES_BATCH) f32_0)
               (fill_array (4 * 2 * MAX_LINES_BATCH) Byte.x00));;
  (* Initialize triangles arrays (vertex position and color data) *)
  assign v_triangles
    (PC.mk 0 0 (fill_array (3 * 3 * MAX_TRIANGLES_BATCH) f32_0)
               (fill_array (4 * 3 * MAX_TRIANGLES_BATCH) Byte.x00));;
  (* Initialize quads arrays (vertex position, texcoord and color data... and indexes) *)
  assign v_quads
    (PCTI.mk 0 0 0 (fill_array (3 * 4 * MAX_QUADS_BATCH) f32_0)
                   (fill_array (2 * 4 * MAX_QUADS_BATCH) f32_0)
                   (fill_array (4 * 4 * MAX_QUADS_BATCH) Byte.x00)
                   (fill_array (6 * MAX_QUADS_BATCH) 0));;
  (* Indices can be initialized right now *)
  _ ← for_loop 0 (6 * MAX_QUADS_BATCH) 6 (fun i k =>
        store quads_indices i (to_index (4 * k));;
        store quads_indices (i + 1) (to_index (4 * k + 1));;
        store quads_indices (i + 2) (to_index (4 * k + 2));;
        store quads_indices (i + 3) (to_index (4 * k));;
        store quads_indices (i + 4) (to_index (4 * k + 2));;
        store quads_indices (i + 5) (to_index (4 * k + 3));;
        mret (k + 1)) 0;
  assign quads_vCounter 0;;
  assign quads_tcCounter 0;;
  assign quads_cCounter 0.

(** What initialisation receives from outside the batching code: the
    answers of the driver and of the texture and shader loaders, and the
    value that the zero-initialised [currentMatrixMode] denotes. *)
Record Boot := mkBoot {
  boot_vaoSupported : bool;
  boot_whiteTexture : Z;
  boot_defaultShader : Shader.t;
  boot_vaoLines : Z;
  boot_vaoTriangles : Z;
  boot_vaoQuads : Z;
  boot_linesBuffer : list Z;
  boot_trianglesBuffer : list Z;
  boot_quadsBuffer : list Z;
  boot_currentMatrixMode : MatrixMode;
  boot_currentDrawMode : DrawMode
}.

Definition zero_Matrix : Matrix :=
  mkMatrix f32_0 f32_0 f32_0 f32_0 f32_0 f32_0 f32_0 f32_0
           f32_0 f32_0 f32_0 f32_0 f32_0 f32_0 f32_0 f32_0.

(** The globals when [rlglInit] reaches "Initialize buffers, default
    shaders and default textures": statics hold their initialisers, the
    arrays are not allocated yet. *)
Definition static_state (b : Boot) : State :=
  {| stack := replicate (Z.to_nat MATRIX_STACK_SIZE) zero_Matrix;
     stackCounter := 0;
     modelview := zero_Matrix;
     projection := zero_Matrix;
     currentMatrix := ref_modelview;
     currentMatrixMode := boot_currentMatrixMode b;
     currentDrawMode := boot_currentDrawMode b;
     currentDepth := f32_opp f32_1;
     lines := PC.mk 0 0 [] [];
     triangles := PC.mk 0 0 [] [];
     quads := PCTI.mk 0 0 0 [] [] [] [];
     vaoLines := boot_vaoLines b;
     vaoTriangles := boot_vaoTriangles b;
     vaoQuads := boot_vaoQuads b;
     linesBuffer := boot_linesBuffer b;
     trianglesBuffer := boot_trianglesBuffer b;
     quadsBuffer := boot_quadsBuffer b;
     draws := [];
     drawsCounter := 0;
     tempBuffer := [];
     tempBufferCount := 0;
     useTempBuffer := false;
     defaultShader := boot_defaultShader b;
     currentShader := boot_defaultShader b;
     vaoSupported := boot_vaoSupported b;
     whiteTexture := boot_whiteTexture b;
     stdout := [];
     gl_calls := [] |}.

(** Init OpenGL 3.3+ required data: the initialisation of the globals. *)
Definition rlglInit : M unit :=
  (* Set default draw mode *)
  assign v_currentDrawMode RL_TRIANGLES;;
  (* Reset projection and modelview matrices *)
  assign v_projection MatrixIdentity;;
  assign v_modelview MatrixIdentity;;
  assign v_currentMatrix ref_modelview;;
  (* Initialize matrix stack *)
  for_each 0 MATRIX_STACK_SIZE (fun i => store v_stack i MatrixIdentity);;
  LoadDefaultBuffers;;
  (* Init temp vertex buffer *)
  assign v_tempBuffer (fill_array TEMP_VERTEX_BUFFER_SIZE VectorZero);;
  (* Init draw calls tracking system *)
  assign v_draws (fill_array MAX_DRAWS_BY_TEXTURE (DrawCall.mk 0 0));;
  assign v_drawsCounter 1;;
  n ← read v_drawsCounter;
  st ← get;
  d ← load v_draws (n - 1);
  store v_draws (n - 1) (set_textureId (whiteTexture st) d).

(** ** Flush *)

(** Update default buffers (VAOs/VBOs) with vertex array data. *)
Definition UpdateDefaultBuffers : M unit :=
  st ← get;
  (* Update lines vertex buffers *)
  when (0 <? PC.vCounter (lines st))
    (when (vaoSupported st) (gl (glBindVertexArray (vaoLines st)));;
     gl (glBindBuffer GL_ARRAY_BUFFER (linesBuffer st !!! 0%nat));;
     gl (glBufferSubData GL_ARRAY_BUFFER 0 (4 * 3 * PC.vCounter (lines st))
           (GLfloats (take (Z.to_nat (3 * PC.vCounter (lines st)))
                           (PC.vertices (lines st)))));;
     gl (glBindBuffer GL_ARRAY_BUFFER (linesBuffer st !!! 1%nat));;
     gl (glBufferSubData GL_ARRAY_BUFFER 0 (1 * 4 * PC.cCounter (lines st))
           (GLbytes (take (Z.to_nat (4 * PC.cCounter (lines st)))
                          (PC.colors (lines st))))));;
  (* Update triangles vertex buffers *)
  when (0 <? PC.vCounter (triangles st))
    (when (vaoSupported st) (gl (glBindVertexArray (vaoTriangles st)));;
     gl (glBindBuffer GL_ARRAY_BUFFER (trianglesBuffer st !!! 0%nat));;
     gl (glBufferSubData GL_ARRAY_BUFFER 0 (4 * 3 * PC.vCounter (triangles st))
           (GLfloats (take (Z.to_nat (3 * PC.vCounter (triangles st)))
                           (PC.vertices (triangles st)))));;
     gl (glBindBuffer GL_ARRAY_BUFFER (trianglesBuffer st !!! 1%nat));;
     gl (glBufferSubData GL_ARRAY_BUFFER 0 (1 * 4 * PC.cCounter (triangles st))
           (GLbytes (take (Z.to_nat (4 * PC.cCounter (triangles st)))
                          (PC.colors (triangles st))))));;
  (* Update quads vertex buffers *)
  when (0 <? PCTI.vCounter (quads st))
    (when (vaoSupported st) (gl (glBindVertexArray (vaoQuads st)));;
     gl (glBindBuffer GL_ARRAY_BUFFER (quadsBuffer st !!! 0%nat));;
     gl (glBufferSubData GL_ARRAY_BUFFER 0 (4 * 3 * PCTI.vCounter (quads st))
           (GLfloats (take (Z.to_nat (3 * PCTI.vCounter (quads st)))
                           (PCTI.vertices (quads st)))));;
     gl (glBindBuffer GL_ARRAY_BUFFER (quadsBuffer st !!! 1%nat));;
     gl (glBufferSubData GL_ARRAY_BUFFER 0 (4 * 2 * PCTI.vCounter (quads st))
           (GLfloats (take (Z.to_nat (2 * PCTI.vCounter (quads st)))
                           (PCTI.texcoords (quads st)))));;
     gl (glBindBuffer GL_ARRAY_BUFFER (quadsBuffer st !!! 2%nat));;
     gl (glBufferSubData GL_ARRAY_BUFFER 0 (1 * 4 * PCTI.vCounter (quads st))
           (GLbytes (take (Z.to_nat (4 * PCTI.vCounter (quads st)))
                          (PCTI.colors (quads st))))));;
  (* Unbind the current VAO *)
  when (vaoSupported st) (gl (glBindVertexArray 0)).

(** The element type of the index buffer, as given to [glDrawElements]. *)
Definition index_type : GLenum :=
  match graphics_api with
  | GRAPHICS_API_OPENGL_33 => GL_UNSIGNED_INT
  | GRAPHICS_API_OPENGL_ES2 => GL_UNSIGNED_SHORT
  end.

(** One round of the loop of [rlglDraw] over the draw calls: [i] is the
    loop variable, the accumulator is [indicesOffset]. *)
Definition draw_entry (i indicesOffset : Z) : M Z :=
  d ← load v_draws i;
  let quadsCount := DrawCall.vertexCount d ÷ 4 in
  let numIndicesToProcess := quadsCount * 6 in
  d ← load v_draws i;
  gl (glBindTexture GL_TEXTURE_2D (DrawCall.textureId d));;
  gl (glDrawElements GL_TRIANGLES numIndicesToProcess index_type
        (index_size * indicesOffset));;
  d ← load v_draws i;
  mret (indicesOffset + DrawCall.vertexCount d ÷ 4 * 6).

(** The part of [rlglDraw] that issues the draw commands. *)
Definition rlglDraw_batches : M unit :=
  st ← get;
  let sh := currentShader st in
  let vao := vaoSupported st in
  when ((0 <? PC.vCounter (lines st)) || (0 <? PC.vCounter (triangles st))
        || (0 <? PCTI.vCounter (quads st)))
    (gl (glUseProgram (Shader.id sh));;
     let matMVP := MatrixMultiply (modelview st) (projection st) in
     gl (glUniformMatrix4fv (Shader.mvpLoc sh) 1 false (MatrixToFloat matMVP));;
     gl (glUniform1i (Shader.mapDiffuseLoc sh) 0);;
     gl (glUniform4f (Shader.tintColorLoc sh) f32_1 f32_1 f32_1 f32_1));;
  (* NOTE: We draw in this order: lines, triangles, quads *)
  when (0 <? PC.vCounter (lines st))
    (gl (glBindTexture GL_TEXTURE_2D (whiteTexture st));;
     (if vao then gl (glBindVertexArray (vaoLines st))
      else
        gl (glBindBuffer GL_ARRAY_BUFFER (linesBuffer st !!! 0%nat));;
        gl (glVertexAttribPointer (Shader.vertexLoc sh) 3 GL_FLOAT false 0 0);;
        gl (glEnableVertexAttribArray (Shader.vertexLoc sh));;
        when (negb (Shader.colorLoc sh =? -1))
          (gl (glBindBuffer GL_ARRAY_BUFFER (linesBuffer st !!! 1%nat));;
           gl (glVertexAttribPointer (Shader.colorLoc sh) 4 GL_UNSIGNED_BYTE true 0 0);;
           gl (glEnableVertexAttribArray (Shader.colorLoc sh))));;
     gl (glDrawArrays GL_LINES 0 (PC.vCounter (lines st)));;
     when (negb vao) (gl (glBindBuffer GL_ARRAY_BUFFER 0));;
     gl (glBindTexture GL_TEXTURE_2D 0));;
  when (0 <? PC.vCounter (triangles st))
    (gl (glBindTexture GL_TEXTURE_2D (whiteTexture st));;
     (if vao then gl (glBindVertexArray (vaoTriangles st))
      else
        gl (glBindBuffer GL_ARRAY_BUFFER (trianglesBuffer st !!! 0%nat));;
        gl (glVertexAttribPointer (Shader.vertexLoc sh) 3 GL_FLOAT false 0 0);;
        gl (glEnableVertexAttribArray (Shader.vertexLoc sh));;
        when (negb (Shader.colorLoc sh =? -1))
          (gl (glBindBuffer GL_ARRAY_BUFFER (trianglesBuffer st !!! 1%nat));;
           gl (glVertexAttribPointer (Shader.colorLoc sh) 4 GL_UNSIGNED_BYTE true 0 0);;
           gl (glEnableVertexAttribArray (Shader.colorLoc sh))));;
     gl (glDrawArrays GL_TRIANGLES 0 (PC.vCounter (triangles st)));;
     when (negb vao) (gl (glBindBuffer GL_ARRAY_BUFFER 0));;
     gl (glBindTexture GL_TEXTURE_2D 0));;
  when (0 <? PCTI.vCounter (quads st))
    ((if vao then gl (glBindVertexArray (vaoQuads st))
      else
        (* Enable vertex attributes *)
        gl (glBindBuffer GL_ARRAY_BUFFER (quadsBuffer st !!! 0%nat));;
        gl (glVertexAttribPointer (Shader.vertexLoc sh) 3 GL_FLOAT false 0 0);;
        gl (glEnableVertexAttribArray (Shader.vertexLoc sh));;
        gl (glBindBuffer GL_ARRAY_BUFFER (quadsBuffer st !!! 1%nat));;
        gl (glVertexAttribPointer (Shader.texcoordLoc sh) 2 GL_FLOAT false 0 0);;
        gl (glEnableVertexAttribArray (Shader.texcoordLoc sh));;
        when (negb (Shader.colorLoc sh =? -1))
          (gl (glBindBuffer GL_ARRAY_BUFFER (quadsBuffer st !!! 2%nat));;
           gl (glVertexAttribPointer (Shader.colorLoc sh) 4 GL_UNSIGNED_BYTE true 0 0);;
           gl (glEnableVertexAttribArray (Shader.colorLoc sh)));;
        gl (glBindBuffer GL_ELEMENT_ARRAY_BUFFER (quadsBuffer st !!! 3%nat)));;
     n ← read v_drawsCounter;
     _ ← for_loop 0 n 1 draw_entry 0;
     when (negb vao)
       (gl (glBindBuffer GL_ARRAY_BUFFER 0);;
        gl (glBindBuffer GL_ELEMENT_ARRAY_BUFFER 0));;
     gl (glBindTexture GL_TEXTURE_2D 0));;         (* Unbind textures *)
  when vao (gl (glBindVertexArray 0));;            (* Unbind VAO *)
  gl (glUseProgram 0).                             (* Unbind shader program *)

(** The part of [rlglDraw] that resets the counters for the next frame. *)
Definition rlglDraw_reset : M unit :=
  (* Reset draws counter *)
  assign v_drawsCounter 1;;
  st ← get;
  d ← load v_draws 0; store v_draws 0 (set_textureId (whiteTexture st) d);;
  d ← load v_draws 0; store v_draws 0 (set_vertexCount 0 d);;
  (* Reset vertex counters for next frame *)
  assign lines_vCounter 0;;
  assign lines_cCounter 0;;
  assign triangles_vCounter 0;;
  assign triangles_cCounter 0;;
  assign quads_vCounter 0;;
  assign quads_tcCounter 0;;
  assign quads_cCounter 0;;
  (* Reset depth for next draw *)
  assign v_currentDepth (f32_opp f32_1).

(** Drawing batches: triangles, quads, lines. *)
Definition rlglDraw : M unit :=
  UpdateDefaultBuffers;;
  rlglDraw_batches;;
  rlglDraw_reset.

(** ** The calls of a client, and runs *)

Inductive Call :=
  | c_rlMatrixMode (mode : MatrixMode)
  | c_rlPushMatrix
  | c_rlPopMatrix
  | c_rlLoadIdentity
  | c_rlTranslatef (x y z : float)
  | c_rlRotatef (angleDeg x y z : float)
  | c_rlScalef (x y z : float)
  | c_rlMultMatrixf (m : list float)
  | c_rlFrustum (left right bottom top near far : double)
  | c_rlOrtho (left right bottom top near far : double)
  | c_rlBegin (mode : DrawMode)
  | c_rlEnd
  | c_rlVertex2i (x y : Z)
  | c_rlVertex2f (x y : float)
  | c_rlVertex3f (x y z : float)
  | c_rlTexCoord2f (x y : float)
  | c_rlNormal3f (x y z : float)
  | c_rlColor4ub (x y z w : byte)
  | c_rlEnableTexture (id : Z)
  | c_rlDisableTexture
  | c_rlglDraw.

Definition call (c : Call) : M unit :=
  match c with
  | c_rlMatrixMode mode => rlMatrixMode mode
  | c_rlPushMatrix => rlPushMatrix
  | c_rlPopMatrix => rlPopMatrix
  | c_rlLoadIdentity => rlLoadIdentity
  | c_rlTranslatef x y z => rlTranslatef x y z
  | c_rlRotatef a x y z => rlRotatef a x y z
  | c_rlScalef x y z => rlScalef x y z
  | c_rlMultMatrixf m => rlMultMatrixf m
  | c_rlFrustum l r b t n f => rlFrustum l r b t n f
  | c_rlOrtho l r b t n f => rlOrtho l r b t n f
  | c_rlBegin mode => rlBegin mode
  | c_rlEnd => rlEnd
  | c_rlVertex2i x y => rlVertex2i x y
  | c_rlVertex2f x y => rlVertex2f x y
  | c_rlVertex3f x y z => rlVertex3f x y z
  | c_rlTexCoord2f x y => rlTexCoord2f x y
  | c_rlNormal3f x y z => rlNormal3f x y z
  | c_rlColor4ub x y z w => rlColor4ub x y z w
  | c_rlEnableTexture id => rlEnableTexture id
  | c_rlDisableTexture => rlDisableTexture
  | c_rlglDraw => rlglDraw
  end.

Fixpoint run (cs : list Call) : M unit :=
  match cs with
  | [] => mret tt
  | c :: cs' => call c;; run cs'
  end.

(** The states a client can reach: initialisation, then calls that
    return. *)
Inductive reachable : State -> Prop :=
  | reachable_init b st :
      rlglInit (static_state b) = Ret tt st -> reachable st
  | reachable_call st c st' :
      reachable st -> call c st = Ret tt st' -> reachable st'.

End Rlgl.

(** ** Vocabulary of the statements *)

(** The state in which a call ends, whatever the outcome. *)
Definition final_state {A : Type} (o : Outcome A) : State :=
  match o with
  | Ret _ st => st
  | Exit _ st => st
  | OutOfBounds st => st
  end.

(** [m] leaves the observation [f] of the state as it was. *)
Definition keeps {A B : Type} (f : State -> B) (m : M A) : Prop :=
  forall st, f (final_state (m st)) = f st.

(** [m] maintains the invariant [P]. *)
Definition preserves {A : Type} (P : State -> Prop) (m : M A) : Prop :=
  forall st, P st -> P (final_state (m st)).

(** When [m] returns, [P] holds of the state it returns in. *)
Definition ensures {A : Type} (P : State -> Prop) (m : M A) : Prop :=
  forall st a st', m st = Ret a st' -> P st'.

(** Assigning to [v] does not change the observation [f]. *)
Definition untouched {A B : Type} (f : State -> B) (v : Var A) : Prop :=
  forall a st, f (wr v a st) = f st.

(** ** A configuration and a stand-in for [raymath], to run the model

    The theorems below hold for every [Config] and every [Raymath]. To
    evaluate the model on concrete calls, the batch sizes are set to a few
    primitives, and the linear algebra is the usual one on matrices of
    floats; the matrices that need trigonometry or a division are not
    computed: the stand-in answers the identity for them. *)

#[global] Instance small_config : Config :=
  {| graphics_api := GRAPHICS_API_OPENGL_33;
     MAX_LINES_BATCH := 2;
     MAX_TRIANGLES_BATCH := 2;
     MAX_QUADS_BATCH := 3 |}.

Definition identity_Matrix : Matrix :=
  mkMatrix f32_1 f32_0 f32_0 f32_0
           f32_0 f32_1 f32_0 f32_0
           f32_0 f32_0 f32_1 f32_0
           f32_0 f32_0 f32_0 f32_1.

Definition dot4 (a1 b1 a2 b2 a3 b3 a4 b4 : float) : float :=
  f32_add (f32_add (f32_add (f32_mul a1 b1) (f32_mul a2 b2)) (f32_mul a3 b3))
          (f32_mul a4 b4).

Definition multiply_Matrix (l r : Matrix) : Matrix :=
  {| m0 := dot4 (m0 r) (m0 l) (m1 r) (m4 l) (m2 r) (m8 l) (m3 r) (m12 l);
     m1 := dot4 (m0 r) (m1 l) (m1 r) (m5 l) (m2 r) (m9 l) (m3 r) (m13 l);
     m2 := dot4 (m0 r) (m2 l) (m1 r) (m6 l) (m2 r) (m10 l) (m3 r) (m14 l);
     m3 := dot4 (m0 r) (m3 l) (m1 r) (m7 l) (m2 r) (m11 l) (m3 r) (m15 l);
     m4 := dot4 (m4 r) (m0 l) (m5 r) (m4 l) (m6 r) (m8 l) (m7 r) (m12 l);
     m5 := dot4 (m4 r) (m1 l) (m5 r) (m5 l) (m6 r) (m9 l) (m7 r) (m13 l);
     m6 := dot4 (m4 r) (m2 l) (m5 r) (m6 l) (m6 r) (m10 l) (m7 r) (m14 l);
     m7 := dot4 (m4 r) (m3 l) (m5 r) (m7 l) (m6 r) (m11 l) (m7 r) (m15 l);
     m8 := dot4 (m8 r) (m0 l) (m9 r) (m4 l) (m10 r) (m8 l) (m11 r) (m12 l);
     m9 := dot4 (m8 r) (m1 l) (m9 r) (m5 l) (m10 r) (m9 l) (m11 r) (m13 l);
     m10 := dot4 (m8 r) (m2 l) (m9 r) (m6 l) (m10 r) (m10 l) (m11 r) (m14 l);
     m11 := dot4 (m8 r) (m3 l) (m9 r) (m7 l) (m10 r) (m11 l) (m11 r) (m15 l);
     m12 := dot4 (m12 r) (m0 l) (m13 r) (m4 l) (m14 r) (m8 l) (m15 r) (m12 l);
     m13 := dot4 (m12 r) (m1 l) (m13 r) (m5 l) (m14 r) (m9 l) (m15 r) (m13 l);
     m14 := dot4 (m12 r) (m2 l) (m13 r) (m6 l) (m14 r) (m10 l) (m15 r) (m14 l);
     m15 := dot4 (m12 r) (m3 l) (m13 r) (m7 l) (m14 r) (m11 l) (m15 r) (m15 l) |}.

Definition transpose_Matrix (m : Matrix) : Matrix :=
  {| m0 := m0 m; m1 := m4 m; m2 := m8 m; m3 := m12 m;
     m4 := m1 m; m5 := m5 m; m6 := m9 m; m7 := m13 m;
     m8 := m2 m; m9 := m6 m; m10 := m10 m; m11 := m14 m;
     m12 := m3 m; m13 := m7 m; m14 := m11 m; m15 := m15 m |}.

Definition translate_Matrix (x y z : float) : Matrix :=
  mkMatrix f32_1 f32_0 f32_0 f32_0
           f32_0 f32_1 f32_0 f32_0
           f32_0 f32_0 f32_1 f32_0
           x y z f32_1.

Definition scale_Matrix (x y z : float) : Matrix :=
  mkMatrix x f32_0 f32_0 f32_0
           f32_0 y f32_0 f32_0
           f32_0 f32_0 z f32_0
           f32_0 f32_0 f32_0 f32_1.

Definition transform_Vector3 (v : Vector3.t) (mat : Matrix) : Vector3.t :=
  let x := Vector3.x v in
  let y := Vector3.y v in
  let z := Vector3.z v in
  Vector3.mk
    (dot4 (m0 mat) x (m4 mat) y (m8 mat) z (m12 mat) f32_1)
    (dot4 (m1 mat) x (m5 mat) y (m9 mat) z (m13 mat) f32_1)
    (dot4 (m2 mat) x (m6 mat) y (m10 mat) z (m14 mat) f32_1).

Definition Matrix_of_list (m : list float) : Matrix :=
  let e (i : nat) := nth i m f32_0 in
  mkMatrix (e 0%nat) (e 1%nat) (e 2%nat) (e 3%nat)
           (e 4%nat) (e 5%nat) (e 6%nat) (e 7%nat)
           (e 8%nat) (e 9%nat) (e 10%nat) (e 11%nat)
           (e 12%nat) (e 13%nat) (e 14%nat) (e 15%nat).

#[global] Instance raymath_standin : Raymath :=
  {| MatrixIdentity := identity_Matrix;
     MatrixMultiply := multiply_Matrix;
     MatrixTranspose := transpose_Matrix;
     MatrixTranslate := translate_Matrix;
     MatrixRotate := fun _ _ => identity_Matrix;
     MatrixScale := scale_Matrix;
     MatrixFrustum := fun _ _ _ _ _ _ => identity_Matrix;
     MatrixOrtho := fun _ _ _ _ _ _ => identity_Matrix;
     MatrixFromArray := Matrix_of_list;
     VectorNormalize := fun v => v;
     VectorTransform := transform_Vector3;
     VectorZero := Vector3.mk f32_0 f32_0 f32_0;
     DEG2RAD := f32_div (f32_of_int 314159265) (f32_of_int 18000000000) |}.

(** A boot record for the examples: texture 1 is the white texture. *)
Definition example_boot : Boot :=
  {| boot_vaoSupported := true;
     boot_whiteTexture := 1;
     boot_defaultShader := Shader.mk 3 0 1 2 3 0 1 2 3 4;
     boot_vaoLines := 1; boot_vaoTriangles := 2; boot_vaoQuads := 3;
     boot_linesBuffer := [1; 2];
     boot_trianglesBuffer := [3; 4];
     boot_quadsBuffer := [5; 6; 7; 8];
     boot_currentMatrixMode := RL_PROJECTION;
     boot_currentDrawMode := RL_LINES |}.

(** Initialisation, then the calls [cs]. *)
Definition boot_then `{Config} `{Raymath} (b : Boot) (cs : list Call)
    : Outcome unit :=
  (rlglInit;; run cs) (static_state b).

(** ** States used in the examples *)

(** The state of the example after initialisation. *)
Definition example_init : State :=
  final_state (boot_then example_boot []).

(** The same after fifteen calls of [rlPushMatrix]. *)
Definition example_pushed15 : State :=
  final_state (boot_then example_boot (replicate 15 c_rlPushMatrix)).

(** The lines buffer filled to its limit, in lines mode. *)
Definition example_lines_full : State :=
  final_state
    (boot_then example_boot
       (c_rlBegin RL_LINES
        :: replicate (Z.to_nat (2 * MAX_LINES_BATCH))
             (c_rlVertex3f f32_0 f32_0 f32_0))).

(** What [TraceLog] prints for a message of the ERROR level. *)
Definition error_lines (text : string) : list string :=
  ["ERROR: "%string; text; String "010"%char EmptyString].

(** The selected primitive buffer, read through [currentDrawMode]. *)
Definition active_vCounter (st : State) : Z :=
  match currentDrawMode st with
  | RL_LINES => PC.vCounter (lines st)
  | RL_TRIANGLES => PC.vCounter (triangles st)
  | RL_QUADS => PCTI.vCounter (quads st)
  end.

Definition active_cCounter (st : State) : Z :=
  match currentDrawMode st with
  | RL_LINES => PC.cCounter (lines st)
  | RL_TRIANGLES => PC.cCounter (triangles st)
  | RL_QUADS => PCTI.cCounter (quads st)
  end.

Definition active_vertices (st : State) : list float :=
  match currentDrawMode st with
  | RL_LINES => PC.vertices (lines st)
  | RL_TRIANGLES => PC.vertices (triangles st)
  | RL_QUADS => PCTI.vertices (quads st)
  end.

Definition active_colors (st : State) : list byte :=
  match currentDrawMode st with
  | RL_LINES => PC.colors (lines st)
  | RL_TRIANGLES => PC.colors (triangles st)
  | RL_QUADS => PCTI.colors (quads st)
  end.

(** Vertices of one primitive of a topology, the limit that [rlVertex3f]
    tests for it, and the message of its overflow. *)
Definition vertices_per (mode : DrawMode) : Z :=
  match mode with RL_LINES => 2 | RL_TRIANGLES => 3 | RL_QUADS => 4 end.

Definition batch_limit `{Config} (mode : DrawMode) : Z :=
  match mode with
  | RL_LINES => MAX_LINES_BATCH
  | RL_TRIANGLES => MAX_TRIANGLES_BATCH
  | RL_QUADS => MAX_QUADS_BATCH
  end.

Definition overflow_text (mode : DrawMode) : string :=
  match mode with
  | RL_LINES => "MAX_LINES_BATCH overflow"
  | RL_TRIANGLES => "MAX_TRIANGLES_BATCH overflow"
  | RL_QUADS => "MAX_QUADS_BATCH overflow"
  end.

(** [a[i]] for an index of type [int]: defined for [0 <= i < length]. *)
Definition elt {A : Type} (a : list A) (i : Z) : option A :=
  if 0 <=? i then a !! Z.to_nat i else None.

(** A counter and an array that are distinct lvalues: assigning to one is
    seen when it is read back and leaves the other as it was. *)
Record distinct_vars {A : Type} (n : Var Z) (arr : Var (list A)) : Prop := {
  rd_arr_wr_arr : forall a st, rd arr (wr arr a st) = a;
  rd_n_wr_arr : forall a st, rd n (wr arr a st) = rd n st;
  rd_n_wr_n : forall k st, rd n (wr n k st) = k;
  rd_arr_wr_n : forall k st, rd arr (wr n k st) = rd arr st
}.

(** The colors of the quads do not stop [rlEnd]: there are no less colors
    than vertices, or there is a color to copy and room for the copies. *)
Definition quads_colors_ready (st : State) : Prop :=
  PCTI.vCounter (quads st) <= PCTI.cCounter (quads st)
  \/ (1 <= PCTI.cCounter (quads st)
      /\ 4 * PCTI.vCounter (quads st)
           <= Z.of_nat (length (PCTI.colors (quads st)))).

(** After a color, a texcoord (1, 1) and two vertices of a quad. *)
Definition example_quads_open : State :=
  final_state
    (boot_then example_boot
       [c_rlBegin RL_QUADS;
        c_rlColor4ub Byte.xff Byte.x00 Byte.x00 Byte.xff;
        c_rlTexCoord2f f32_1 f32_1;
        c_rlVertex3f f32_0 f32_0 f32_0;
        c_rlVertex3f f32_1 f32_0 f32_0]).

(** After one vertex of a line, and no color. *)
Definition example_line_no_color : State :=
  final_state
    (boot_then example_boot
       [c_rlBegin RL_LINES; c_rlVertex3f f32_0 f32_0 f32_0]).

(** The texcoords of the quads do not stop [rlEnd]. *)
Definition quads_texcoords_ready (st : State) : Prop :=
  PCTI.vCounter (quads st) <= PCTI.tcCounter (quads st)
  \/ (0 <= PCTI.tcCounter (quads st)
      /\ 2 * PCTI.vCounter (quads st)
           <= Z.of_nat (length (PCTI.texcoords (quads st)))).

(** After a red color and three vertices of a triangle. *)
Definition example_triangle_open : State :=
  final_state
    (boot_then example_boot
       [c_rlBegin RL_TRIANGLES;
        c_rlColor4ub Byte.xff Byte.x00 Byte.x00 Byte.xff;
        c_rlVertex3f f32_0 f32_0 f32_0;
        c_rlVertex3f f32_1 f32_0 f32_0;
        c_rlVertex3f f32_0 f32_1 f32_0]).

(** ** The draw-call ledger *)

(** The ledger of a state: the entries of [draws] in use, oldest first. *)
Definition ledger (st : State) : list DrawCall.t :=
  take (Z.to_nat (drawsCounter st)) (draws st).

(** [drawsCounter] designates an entry of [draws], the current entry,
    whose vertex count is not negative. *)
Definition ledger_ok (st : State) : Prop :=
  exists cur,
    elt (draws st) (drawsCounter st - 1) = Some cur
    /\ 0 <= DrawCall.vertexCount cur.

(** [setActiveTexture] as the specification words it, on the ledger as a
    list. If the handle differs from the texture of the current (last)
    entry: a new entry with no vertex is appended when the current one has
    vertices, otherwise the current, empty entry is reused; the texture of
    the (possibly new) current entry is set to the handle. *)
Definition setActiveTexture (handle : Z) (l : list DrawCall.t)
    : list DrawCall.t :=
  match last l with
  | None => l
  | Some cur =>
      if DrawCall.textureId cur =? handle then l
      else if DrawCall.vertexCount cur =? 0
           then removelast l ++ [set_textureId handle cur]
           else l ++ [DrawCall.mk handle 0]
  end.

(** A quad vertex is counted in the current entry. *)
Definition countQuadVertex (l : list DrawCall.t) : list DrawCall.t :=
  match last l with
  | None => l
  | Some cur =>
      removelast l ++ [set_vertexCount (DrawCall.vertexCount cur + 1) cur]
  end.

(** Sum of the vertex counts of the entries. *)
Definition ledger_total (l : list DrawCall.t) : Z :=
  foldr (fun d acc => DrawCall.vertexCount d + acc) 0 l.

(** No two consecutive entries have the same texture. *)
Fixpoint neighbours_differ (l : list DrawCall.t) : Prop :=
  match l with
  | d1 :: rest =>
      match rest with
      | d2 :: _ => DrawCall.textureId d1 <> DrawCall.textureId d2
      | [] => True
      end /\ neighbours_differ rest
  | [] => True
  end.

(** Every entry but the last has vertices. *)
Definition closed_entries_nonempty (l : list DrawCall.t) : Prop :=
  Forall (fun d => 0 < DrawCall.vertexCount d) (removelast l).

(** Binding [handle] re-selects the texture of the entry before the
    current one while the current one is still empty. *)
Definition rebinds_previous (handle : Z) (l : list DrawCall.t) : bool :=
  match last l, last (removelast l) with
  | Some cur, Some prev =>
      (DrawCall.vertexCount cur =? 0)
      && (DrawCall.textureId prev =? handle)
      && negb (DrawCall.textureId cur =? handle)
  | _, _ => false
  end.

(** The two calls that act on the ledger, for sequences of them. *)
Inductive LedgerCall :=
  | bind_texture (handle : Z)
  | quad_vertex (x y z : float).

Definition ledger_call `{Config} (c : LedgerCall) : M unit :=
  match c with
  | bind_texture handle => rlEnableTexture handle
  | quad_vertex x y z => rlVertex3f x y z
  end.

Fixpoint ledger_run `{Config} (cs : list LedgerCall) : M unit :=
  match cs with
  | [] => mret tt
  | c :: cs' => ledger_call c;; ledger_run cs'
  end.

(** The same sequence on the ledger as a list. *)
Fixpoint ledger_after (cs : list LedgerCall) (l : list DrawCall.t)
    : list DrawCall.t :=
  match cs with
  | [] => l
  | bind_texture handle :: cs' => ledger_after cs' (setActiveTexture handle l)
  | quad_vertex _ _ _ :: cs' => ledger_after cs' (countQuadVertex l)
  end.

Definition is_quad_vertex (c : LedgerCall) : bool :=
  match c with quad_vertex _ _ _ => true | bind_texture _ => false end.

(** Number of quad vertices, and of texture bindings, in a sequence. *)
Definition quad_vertices (cs : list LedgerCall) : Z :=
  Z.of_nat (length (filter (fun c => is_quad_vertex c = true) cs)).

Definition bindings (cs : list LedgerCall) : Z :=
  Z.of_nat (length (filter (fun c => is_quad_vertex c = false) cs)).

(** No binding of the sequence re-selects the texture of the entry before
    an empty current entry. *)
Fixpoint no_rebind_previous (cs : list LedgerCall) (l : list DrawCall.t)
    : Prop :=
  match cs with
  | [] => True
  | bind_texture handle :: cs' =>
      rebinds_previous handle l = false
      /\ no_rebind_previous cs' (setActiveTexture handle l)
  | quad_vertex _ _ _ :: cs' => no_rebind_previous cs' (countQuadVertex l)
  end.

(** A state between shapes of quads, right after a flush or after
    initialisation: quads mode, no temp buffer, empty quads buffer, and
    the ledger made of one empty entry. *)
Definition quads_batch_start `{Config} (st : State) : Prop :=
  currentDrawMode st = RL_QUADS
  /\ useTempBuffer st = false
  /\ PCTI.vCounter (quads st) = 0
  /\ Z.of_nat (length (PCTI.vertices (quads st))) = 3 * 4 * MAX_QUADS_BATCH
  /\ Z.of_nat (length (draws st)) = MAX_DRAWS_BY_TEXTURE
  /\ drawsCounter st = 1
  /\ exists texture, ledger st = [DrawCall.mk texture 0].

(** All the globals of [st'] but the draw calls and their counter are
    those of [st]. *)
Definition same_but_ledger (st st' : State) : Prop :=
  st' = set_draws (draws st') (set_drawsCounter (drawsCounter st') st).

(** The branch of [rlVertex3f] that is taken when the temp buffer is not
    in use, under a name of its own. *)
Definition rlVertex3f_batch `{Config} (x y z : float) : M unit :=
  mode ← read v_currentDrawMode;
  match mode with
  | RL_LINES =>
      v ← read lines_vCounter;
      if v ÷ 2 <? MAX_LINES_BATCH then
        store lines_vertices (3 * v) x;;
        store lines_vertices (3 * v + 1) y;;
        store lines_vertices (3 * v + 2) z;;
        assign lines_vCounter (v + 1)
      else TraceLog ERROR "MAX_LINES_BATCH overflow"
  | RL_TRIANGLES =>
      v ← read triangles_vCounter;
      if v ÷ 3 <? MAX_TRIANGLES_BATCH then
        store triangles_vertices (3 * v) x;;
        store triangles_vertices (3 * v + 1) y;;
        store triangles_vertices (3 * v + 2) z;;
        assign triangles_vCounter (v + 1)
      else TraceLog ERROR "MAX_TRIANGLES_BATCH overflow"
  | RL_QUADS =>
      v ← read quads_vCounter;
      if v ÷ 4 <? MAX_QUADS_BATCH then
        store quads_vertices (3 * v) x;;
        store quads_vertices (3 * v + 1) y;;
        store quads_vertices (3 * v + 2) z;;
        assign quads_vCounter (v + 1);;
        n ← read v_drawsCounter;
        d ← load v_draws (n - 1);
        store v_draws (n - 1) (set_vertexCount (DrawCall.vertexCount d + 1) d)
      else TraceLog ERROR "MAX_QUADS_BATCH overflow"
  end.

(** The three floats of a position, stored from index [3 * v]. *)
Definition put_position (x y z : float) (v : Z) (vertices : list float)
    : list float :=
  <[Z.to_nat (3 * v + 2) := z]>
    (<[Z.to_nat (3 * v + 1) := y]> (<[Z.to_nat (3 * v) := x]> vertices)).

(** What a sequence of bindings and quad vertices relies on: quads mode,
    no temp buffer, a quads buffer of the allocated size, and a current
    ledger entry. *)
Definition quads_batch_open `{Config} (st : State) : Prop :=
  currentDrawMode st = RL_QUADS
  /\ useTempBuffer st = false
  /\ 0 <= PCTI.vCounter (quads st)
  /\ Z.of_nat (length (PCTI.vertices (quads st))) = 3 * 4 * MAX_QUADS_BATCH
  /\ Z.of_nat (length (draws st)) = MAX_DRAWS_BY_TEXTURE
  /\ drawsCounter st = Z.of_nat (length (ledger st))
  /\ ledger_ok st.

(** The example, in quads mode after initialisation. *)
Definition example_quads_start : State :=
  final_state (boot_then example_boot [c_rlBegin RL_QUADS]).

(** One quad: four vertices. *)
Definition one_quad : list LedgerCall :=
  [quad_vertex f32_0 f32_0 f32_0; quad_vertex f32_1 f32_0 f32_0;
   quad_vertex f32_1 f32_1 f32_0; quad_vertex f32_0 f32_1 f32_0].

(** Texture 5 with a quad, then texture 6 without any vertex, then
    texture 5 again with a quad. *)
Definition example_rebind : list LedgerCall :=
  [bind_texture 5] ++ one_quad ++ [bind_texture 6; bind_texture 5] ++ one_quad.

(** Texture [A] with a quad, texture [B] with a quad, texture [A] with a
    quad. *)
Definition scenario_ABA (A B : Z) : list LedgerCall :=
  [bind_texture A] ++ one_quad ++ [bind_texture B] ++ one_quad
  ++ [bind_texture A] ++ one_quad.

(** ** The calls that a flush makes *)

(** [st] with the OpenGL calls [cs] made after those it records. *)
Definition with_gl (cs : list GLCall) (st : State) : State :=
  set_gl_calls (gl_calls st ++ cs) st.

(** From [st], [m] returns and does nothing but make OpenGL calls, all
    of which satisfy [P]. *)
Definition emits {A : Type} (P : GLCall -> Prop) (m : M A) (st : State)
    : Prop :=
  exists a cs, m st = Ret a (with_gl cs st) /\ Forall P cs.

(** The same, with the calls [mid] made in the middle. *)
Definition emits_around {A : Type} (P : GLCall -> Prop) (mid : list GLCall)
    (m : M A) (st : State) : Prop :=
  exists a before after,
    m st = Ret a (with_gl (before ++ mid ++ after) st)
    /\ Forall P before /\ Forall P after.

Definition any_call (c : GLCall) : Prop := True.

(** A call that is not an indexed draw. *)
Definition not_indexed_draw (c : GLCall) : Prop :=
  match c with
  | glDrawElements _ _ _ _ => False
  | _ => True
  end.

(** A call that neither uploads buffer data nor draws. *)
Definition no_upload_no_draw (c : GLCall) : Prop :=
  match c with
  | glBufferSubData _ _ _ _ => False
  | glDrawArrays _ _ _ => False
  | glDrawElements _ _ _ _ => False
  | _ => True
  end.

(** The draws of the quads as the specification words them: for each
    entry of the ledger, in order, its texture is bound and one indexed
    draw of [(vertexCount / 4) * 6] indices is issued, starting at the
    running index offset, which then advances by that count. *)
Fixpoint ledger_draw_calls `{Config} (l : list DrawCall.t) (offset : Z)
    : list GLCall :=
  match l with
  | [] => []
  | entry :: rest =>
      let indexCount := DrawCall.vertexCount entry ÷ 4 * 6 in
      glBindTexture GL_TEXTURE_2D (DrawCall.textureId entry)
      :: glDrawElements GL_TRIANGLES indexCount index_type
           (index_size * offset)
      :: ledger_draw_calls rest (offset + indexCount)
  end.

(** Number of indices that the entries of a ledger draw. *)
Definition ledger_indices (l : list DrawCall.t) : Z :=
  foldr (fun d acc => DrawCall.vertexCount d ÷ 4 * 6 + acc) 0 l.

(** The reset that ends a flush: the counters of the three buffers are 0,
    the ledger is the single entry (white texture, 0), the depth is
    [-1.0f]; every other global is as it was. *)
Definition reset_batches (st : State) : State :=
  {| stack := stack st;
     stackCounter := stackCounter st;
     modelview := modelview st;
     projection := projection st;
     currentMatrix := currentMatrix st;
     currentMatrixMode := currentMatrixMode st;
     currentDrawMode := currentDrawMode st;
     currentDepth := f32_opp f32_1;
     lines := PC.mk 0 0 (PC.vertices (lines st)) (PC.colors (lines st));
     triangles :=
       PC.mk 0 0 (PC.vertices (triangles st)) (PC.colors (triangles st));
     quads :=
       PCTI.mk 0 0 0 (PCTI.vertices (quads st)) (PCTI.texcoords (quads st))
         (PCTI.colors (quads st)) (PCTI.indices (quads st));
     vaoLines := vaoLines st;
     vaoTriangles := vaoTriangles st;
     vaoQuads := vaoQuads st;
     linesBuffer := linesBuffer st;
     trianglesBuffer := trianglesBuffer st;
     quadsBuffer := quadsBuffer st;
     draws := <[0%nat := DrawCall.mk (whiteTexture st) 0]> (draws st);
     drawsCounter := 1;
     tempBuffer := tempBuffer st;
     tempBufferCount := tempBufferCount st;
     useTempBuffer := useTempBuffer st;
     defaultShader := defaultShader st;
     currentShader := currentShader st;
     vaoSupported := vaoSupported st;
     whiteTexture := whiteTexture st;
     stdout := stdout st;
     gl_calls := gl_calls st |}.

(** The draw calls that the flush reads and writes are inside [draws]:
    the first entry exists and, when there are quads to draw, so do the
    entries below [drawsCounter]. *)
Definition draws_in_bounds (st : State) : Prop :=
  0 < Z.of_nat (length (draws st))
  /\ (0 < PCTI.vCounter (quads st) ->
      0 <= drawsCounter st <= Z.of_nat (length (draws st))).

(** The three primitive buffers hold no vertex. *)
Definition buffers_empty (st : State) : Prop :=
  PC.vCounter (lines st) = 0
  /\ PC.vCounter (triangles st) = 0
  /\ PCTI.vCounter (quads st) = 0.

(** The index sextuple of quad [k]: two triangles. *)
Definition quad_indices (k : Z) : list Z :=
  [4 * k; 4 * k + 1; 4 * k + 2; 4 * k; 4 * k + 2; 4 * k + 3].

(** The example with one quad of texture 5 and one of texture 6, colors
    and texcoords given, the shape ended. *)
Definition example_two_quads : State :=
  final_state
    (boot_then example_boot
       ([c_rlBegin RL_QUADS; c_rlEnableTexture 5;
         c_rlColor4ub Byte.xff Byte.xff Byte.xff Byte.xff]
        ++ replicate 4 (c_rlVertex3f f32_0 f32_0 f32_0)
        ++ [c_rlEnableTexture 6]
        ++ replicate 4 (c_rlVertex3f f32_1 f32_1 f32_0)
        ++ [c_rlEnd])).

(** The ledger array has its allocated length and [drawsCounter] lies
    inside it. *)
Definition draws_ok (st : State) : Prop :=
  Z.of_nat (length (draws st)) = MAX_DRAWS_BY_TEXTURE
  /\ 1 <= drawsCounter st <= MAX_DRAWS_BY_TEXTURE.

(** ** The temp buffer *)

(** The points in the temp buffer, in the order of their submission. *)
Definition staged (st : State) : list Vector3.t :=
  take (Z.to_nat (tempBufferCount st)) (tempBuffer st).

(** The state with one more point in the temp buffer: nothing but
    [tempBuffer] and [tempBufferCount] differs. *)
Definition stage (p : Vector3.t) (st : State) : State :=
  set_tempBufferCount (tempBufferCount st + 1)
    (set_tempBuffer (<[Z.to_nat (tempBufferCount st) := p]> (tempBuffer st))
       st).

(** The positions of [points] stored in [vertices], one vertex after the
    other, from vertex [v] on. *)
Fixpoint replay (points : list Vector3.t) (v : Z) (vertices : list float)
    : list float :=
  match points with
  | [] => vertices
  | p :: rest =>
      replay rest (v + 1)
        (put_position (Vector3.x p) (Vector3.y p) (Vector3.z p) v vertices)
  end.

(** The first [n] points of [buffer] transformed by [mat], as the first
    loop of [rlEnd] leaves them. *)
Definition transform_staged `{Raymath} (mat : Matrix) (n : Z)
    (buffer : list Vector3.t) : list Vector3.t :=
  ((fun p => VectorTransform p mat) <$> take (Z.to_nat n) buffer)
  ++ drop (Z.to_nat n) buffer.

(** The active buffer takes [n] more vertices: the limit that
    [rlVertex3f] tests is not reached by any of them, the array has the
    room, and in quads mode the current entry of the ledger exists. *)
Definition replay_room `{Config} (n : Z) (st : State) : Prop :=
  0 <= active_vCounter st
  /\ (0 < n ->
      (active_vCounter st + n - 1) ÷ vertices_per (currentDrawMode st)
      < batch_limit (currentDrawMode st))
  /\ 3 * (active_vCounter st + n) <= Z.of_nat (length (active_vertices st))
  /\ (currentDrawMode st = RL_QUADS -> ledger_ok st).

(** The colors and, in quads mode, the texcoords of the active buffer do
    not stop [rlEnd] with [v] vertices: there are no less of them than
    vertices, or there is room for the missing ones and, for the colors, a
    color to copy. *)
Definition end_ready (v : Z) (st : State) : Prop :=
  (v <= active_cCounter st
   \/ (1 <= active_cCounter st
       /\ 4 * v <= Z.of_nat (length (active_colors st))))
  /\ (currentDrawMode st = RL_QUADS ->
      v <= PCTI.tcCounter (quads st)
      \/ (0 <= PCTI.tcCounter (quads st)
          /\ 2 * v <= Z.of_nat (length (PCTI.texcoords (quads st))))).

(** What the replay of the temp buffer leaves alone: the temp buffer
    itself and the colors and texcoords of the three buffers. *)
Definition beside_positions (st : State) :=
  (tempBuffer st, tempBufferCount st,
   (PC.cCounter (lines st), PC.colors (lines st)),
   (PC.cCounter (triangles st), PC.colors (triangles st)),
   (PCTI.cCounter (quads st), PCTI.colors (quads st)),
   (PCTI.tcCounter (quads st), PCTI.texcoords (quads st))).

(** What the second part of [rlEnd] leaves alone: the positions, the
    mode and the temp buffer. *)
Definition beside_colors (st : State) :=
  (currentDrawMode st,
   (PC.vCounter (lines st), PC.vertices (lines st)),
   (PC.vCounter (triangles st), PC.vertices (triangles st)),
   (PCTI.vCounter (quads st), PCTI.vertices (quads st)),
   (tempBufferCount st, useTempBuffer st)).

(** The example in triangles mode: a color, a push of the modelview
    matrix, a translation, and the three vertices of a triangle, which go
    to the temp buffer. *)
Definition example_staged : State :=
  final_state
    (boot_then example_boot
       [c_rlMatrixMode RL_MODELVIEW; c_rlBegin RL_TRIANGLES;
        c_rlColor4ub Byte.xff Byte.x00 Byte.x00 Byte.xff;
        c_rlPushMatrix;
        c_rlTranslatef f32_1 f32_1 f32_0;
        c_rlVertex3f f32_0 f32_0 f32_0;
        c_rlVertex3f f32_1 f32_0 f32_0;
        c_rlVertex3f f32_0 f32_1 f32_0]).

(** ** The matrix stack in use *)

(** The stack has its sixteen slots and [stackCounter] designates one of
    them or none. *)
Definition stack_ok (st : State) : Prop :=
  Z.of_nat (length (stack st)) = MATRIX_STACK_SIZE
  /\ 0 <= stackCounter st <= MATRIX_STACK_SIZE - 1.

(** The calls that assign to the matrix [currentMatrix] points to and to
    nothing else. *)
Definition is_transformation (c : Call) : bool :=
  match c with
  | c_rlLoadIdentity
  | c_rlTranslatef _ _ _
  | c_rlRotatef _ _ _ _
  | c_rlScalef _ _ _
  | c_rlMultMatrixf _
  | c_rlFrustum _ _ _ _ _ _
  | c_rlOrtho _ _ _ _ _ _ => true
  | _ => false
  end.

(** What a push followed by its pop leaves behind: the matrix that was
    current is in the slot of the stack that the push used, and the temp
    buffer is in use when the matrix mode is [RL_MODELVIEW]. *)
Definition after_push_pop (st : State) : State :=
  set_useTempBuffer
    (useTempBuffer st || is_RL_MODELVIEW (currentMatrixMode st))
    (set_stack
       (<[Z.to_nat (stackCounter st) := rd deref_currentMatrix st]> (stack st))
       st).

(** The example after a translation in modelview mode. *)
Definition example_translated : State :=
  final_state
    (boot_then example_boot
       [c_rlMatrixMode RL_MODELVIEW; c_rlTranslatef f32_1 f32_1 f32_0]).

(** ** Invariants of the batch *)

(** From a state where [I] holds, [m] returns only in states where [I]
    holds. *)
Definition maintains {A : Type} (I : State -> Prop) (m : M A) : Prop :=
  forall st a st', I st -> m st = Ret a st' -> I st'.

(** The batch sizes of [rlgl.h] are not negative. *)
Definition capacities_nonneg `{Config} : Prop :=
  0 <= MAX_LINES_BATCH /\ 0 <= MAX_TRIANGLES_BATCH /\ 0 <= MAX_QUADS_BATCH.

(** The lengths of the CPU-side arrays of the three buffers. *)
Definition array_lengths (st : State) :=
  ((length (PC.vertices (lines st)), length (PC.colors (lines st))),
   (length (PC.vertices (triangles st)), length (PC.colors (triangles st))),
   (length (PCTI.vertices (quads st)), length (PCTI.texcoords (quads st)),
    length (PCTI.colors (quads st)), length (PCTI.indices (quads st)))).

(** The arrays are those that [LoadDefaultBuffers] allocated. *)
Definition arrays_allocated `{Config} (st : State) : Prop :=
  Z.of_nat (length (PC.vertices (lines st))) = 3 * 2 * MAX_LINES_BATCH
  /\ Z.of_nat (length (PC.colors (lines st))) = 4 * 2 * MAX_LINES_BATCH
  /\ Z.of_nat (length (PC.vertices (triangles st)))
     = 3 * 3 * MAX_TRIANGLES_BATCH
  /\ Z.of_nat (length (PC.colors (triangles st)))
     = 4 * 3 * MAX_TRIANGLES_BATCH
  /\ Z.of_nat (length (PCTI.vertices (quads st))) = 3 * 4 * MAX_QUADS_BATCH
  /\ Z.of_nat (length (PCTI.texcoords (quads st))) = 2 * 4 * MAX_QUADS_BATCH
  /\ Z.of_nat (length (PCTI.colors (quads st))) = 4 * 4 * MAX_QUADS_BATCH
  /\ Z.of_nat (length (PCTI.indices (quads st))) = 6 * MAX_QUADS_BATCH.

(** The vertex counters of the three buffers. *)
Definition vertex_counters (st : State) : Z * Z * Z :=
  (PC.vCounter (lines st), PC.vCounter (triangles st),
   PCTI.vCounter (quads st)).

(** No buffer holds more vertices than its batch size allows. *)
Definition counters_in_capacity `{Config} (st : State) : Prop :=
  0 <= PC.vCounter (lines st) <= 2 * MAX_LINES_BATCH
  /\ 0 <= PC.vCounter (triangles st) <= 3 * MAX_TRIANGLES_BATCH
  /\ 0 <= PCTI.vCounter (quads st) <= 4 * MAX_QUADS_BATCH.

(** The entries of the ledger count the vertices of the quads buffer. *)
Definition ledger_counted (st : State) : Prop :=
  Forall (fun d => 0 <= DrawCall.vertexCount d) (ledger st)
  /\ ledger_total (ledger st) = PCTI.vCounter (quads st).

(** The invariant of the batch: the arrays are the allocated ones, the
    vertex counters are within capacity, the ledger is inside its array
    and counts the vertices of the quads. *)
Definition batch_ok `{Config} (st : State) : Prop :=
  arrays_allocated st /\ counters_in_capacity st /\ draws_ok st
  /\ ledger_counted st.

(** What [batch_ok] looks at. *)
Definition batch_view (st : State) :=
  (array_lengths st, vertex_counters st, draws st, drawsCounter st).

(** ** Colors and texcoords of a shape *)

(** The four components of a color, stored from index [4 * c]. *)
Definition put_color (x y z w : byte) (c : Z) (colors : list byte)
    : list byte :=
  <[Z.to_nat (4 * c + 3) := w]>
    (<[Z.to_nat (4 * c + 2) := z]>
       (<[Z.to_nat (4 * c + 1) := y]> (<[Z.to_nat (4 * c) := x]> colors))).

(** The two components of a texcoord, stored from index [2 * t]. *)
Definition put_texcoord (x y : float) (t : Z) (texcoords : list float)
    : list float :=
  <[Z.to_nat (2 * t + 1) := y]> (<[Z.to_nat (2 * t) := x]> texcoords).

(** The calls of a shape of one color: the color, the vertices, the end. *)
Definition colored_shape (x y z w : byte) (points : list Vector3.t)
    : list Call :=
  c_rlColor4ub x y z w
  :: map (fun p => c_rlVertex3f (Vector3.x p) (Vector3.y p) (Vector3.z p))
       points
  ++ [c_rlEnd].

(** The example in triangles mode, before any color or vertex. *)
Definition example_triangles_start : State :=
  final_state (boot_then example_boot [c_rlBegin RL_TRIANGLES]).

(** The same with as many colors as the array of the triangles takes. *)
Definition example_colors_full : State :=
  final_state
    (boot_then example_boot
       (c_rlBegin RL_TRIANGLES
        :: replicate 6 (c_rlColor4ub Byte.xff Byte.x00 Byte.x00 Byte.xff))).

(** ** Shaders of the batch *)

Definition set_currentShader (v : Shader.t) (st : State) : State :=
  mkState (stack st) (stackCounter st) (modelview st) (projection st)
    (currentMatrix st) (currentMatrixMode st) (currentDrawMode st)
    (currentDepth st) (lines st) (triangles st) (quads st) (vaoLines st)
    (vaoTriangles st) (vaoQuads st) (linesBuffer st) (trianglesBuffer st)
    (quadsBuffer st) (draws st) (drawsCounter st) (tempBuffer st)
    (tempBufferCount st) (useTempBuffer st) (defaultShader st)
    v (vaoSupported st) (whiteTexture st) (stdout st) (gl_calls st).

Definition v_currentShader := mkVar currentShader set_currentShader.

Section Shaders.
Context `{cfg : Config} `{rm : Raymath}.

(** Set custom shader to be used on batch draw. *)
Definition SetCustomShader (shader : Shader.t) : M unit :=
  cur ← read v_currentShader;
  when (negb (Shader.id cur =? Shader.id shader))
    (rlglDraw;;
     assign v_currentShader shader).

(** Set default shader to be used in batch draw. *)
Definition SetDefaultShader : M unit :=
  st ← get;
  SetCustomShader (defaultShader st).

End Shaders.

(** A call that selects no other program than [program] or 0. *)
Definition uses_program (program : Z) (c : GLCall) : Prop :=
  match c with
  | glUseProgram p => p = program \/ p = 0
  | _ => True
  end.

(** A shader with another program than that of the example. *)
Definition example_shader : Shader.t := Shader.mk 7 0 1 2 3 0 1 2 3 4.

(** ** States at the capacity of the temp buffer and of the ledger *)

(** The staged example with the temp buffer full. *)
Definition example_temp_full : State :=
  set_tempBufferCount TEMP_VERTEX_BUFFER_SIZE example_staged.

(** The example with the 256 entries of the ledger in use, each of
    texture 5 with a quad. *)
Definition example_ledger_full : State :=
  set_drawsCounter MAX_DRAWS_BY_TEXTURE
    (set_draws (replicate (Z.to_nat MAX_DRAWS_BY_TEXTURE) (DrawCall.mk 5 4))
       example_init).

(** ** Pixel blocks

    The texture and screen functions of [rlgl.c] work on blocks that are
    local to one call. A read or a write outside a block is undefined in
    C: the model of such a function is [None] there. The content of a
    block that [malloc] returns is not specified, so it is an argument of
    the model. *)

(** [a[i] = v]. *)
Definition put {A : Type} (a : list A) (i : Z) (v : A) : option (list A) :=
  if in_bounds a i then Some (<[Z.to_nat i := v]> a) else None.

(** [for (int i = i0; i < bound; i++) body]; the fuel is the distance to
    the bound. *)
Fixpoint up_fuel {T : Type} (fuel : nat) (i bound : Z)
    (body : Z -> T -> option T) (acc : T) : option T :=
  match fuel with
  | O => Some acc
  | S fuel' =>
      if i <? bound
      then acc' ← body i acc; up_fuel fuel' (i + 1) bound body acc'
      else Some acc
  end.

Definition count_up {T : Type} (i0 bound : Z) (body : Z -> T -> option T)
    (acc : T) : option T :=
  up_fuel (Z.to_nat (bound - i0)) i0 bound body acc.

(** [for (int i = i0; i >= 0; i--) body]. *)
Fixpoint down_fuel {T : Type} (fuel : nat) (i : Z)
    (body : Z -> T -> option T) (acc : T) : option T :=
  match fuel with
  | O => Some acc
  | S fuel' =>
      if 0 <=? i
      then acc' ← body i acc; down_fuel fuel' (i - 1) body acc'
      else Some acc
  end.

Definition count_down {T : Type} (i0 : Z) (body : Z -> T -> option T)
    (acc : T) : option T :=
  down_fuel (Z.to_nat (i0 + 1)) i0 body acc.

(** [malloc] of [n] elements; [junk] gives what the block holds. *)
Definition malloc {A : Type} (junk : nat -> A) (n : Z) : list A :=
  map junk (seq 0 (Z.to_nat n)).

(** [rlglReadScreenPixels]: [screenData] is the first block as
    [glReadPixels] has filled it. The result is the block that the
    function returns. *)
Definition rlglReadScreenPixels (junk : nat -> byte) (width height : Z)
    (screenData : list byte) : option (list byte) :=
  let imgData := malloc junk (width * height * 4) in
  count_down (height - 1) (fun y imgData =>
    count_up 0 (width * 4) (fun x imgData =>
      v ← elt screenData (y * width * 4 + x);
      imgData ← put imgData (((height - 1) - y) * width * 4 + x) v;
      if Z.rem (x + 1) 4 =? 0
      then put imgData (((height - 1) - y) * width * 4 + x) Byte.xff
      else Some imgData) imgData) imgData.

(** The byte at column [x] of a row of the returned image, given the byte
    of the framebuffer row it is copied from. *)
Definition opaque (x : Z) (v : option byte) : option byte :=
  if Z.rem (x + 1) 4 =? 0 then Some Byte.xff else v.

(** A framebuffer of two rows of one pixel. *)
Definition example_screen : list byte :=
  [Byte.x01; Byte.x02; Byte.x03; Byte.x04; Byte.x05; Byte.x06; Byte.x07; Byte.x08].

(** ** Texture calls

    The OpenGL calls of the texture functions, recorded like those of the
    flush. [data] of an upload is the offset, in the block of the caller,
    of the first byte that the driver reads. *)

Inductive GLparam :=
  | GL_UNPACK_ALIGNMENT | GL_TEXTURE_MAG_FILTER | GL_TEXTURE_MIN_FILTER.

Inductive GLfilter := GL_LINEAR | GL_LINEAR_MIPMAP_LINEAR.

Inductive TextureCall :=
  | batch_call (c : GLCall)             (* a call that the flush makes too *)
  | glPixelStorei (pname : GLparam) (param : Z)
  | glCompressedTexImage2D (target : GLenum)
      (level internalformat width height border imageSize data : Z)
  | glGenerateMipmap (target : GLenum)
  | glTexParameteri (target : GLenum) (pname : GLparam) (param : GLfilter).

Definition GL_COMPRESSED_RGB_S3TC_DXT1_EXT : Z := 0x83F0.
Definition GL_COMPRESSED_RGBA_S3TC_DXT1_EXT : Z := 0x83F1.
Definition GL_COMPRESSED_RGBA_S3TC_DXT3_EXT : Z := 0x83F2.
Definition GL_COMPRESSED_RGBA_S3TC_DXT5_EXT : Z := 0x83F3.
Definition GL_ETC1_RGB8_OES : Z := 0x8D64.
Definition GL_COMPRESSED_RGB8_ETC2 : Z := 0x9274.
Definition GL_COMPRESSED_RGBA8_ETC2_EAC : Z := 0x9278.

(** Conversions between [int] and [unsigned int], both of 32 bits. The
    [int] products and sums below are taken in [Z]: where they leave the
    range of [int] C leaves them undefined. *)
Definition to_unsigned (z : Z) : Z := z mod 2 ^ 32.
Definition to_int (z : Z) : Z := (z + 2 ^ 31) mod 2 ^ 32 - 2 ^ 31.

Section Textures.
Context `{Config}.

(** Bytes of one block of 4 by 4 pixels in [compressedFormat]. *)
Definition blockSize (compressedFormat : Z) : Z :=
  if (compressedFormat =? GL_COMPRESSED_RGB_S3TC_DXT1_EXT)
     || (compressedFormat =? GL_COMPRESSED_RGBA_S3TC_DXT1_EXT)
     || match graphics_api with
        | GRAPHICS_API_OPENGL_ES2 => compressedFormat =? GL_ETC1_RGB8_OES
        | GRAPHICS_API_OPENGL_33 => false
        end
     || (compressedFormat =? GL_COMPRESSED_RGB8_ETC2)
  then 8 else 16.

(** The loop of [LoadCompressedTexture] over the mipmap levels, with its
    local variables as arguments; the fuel is the distance from [level]
    to [mipmapCount]. *)
Fixpoint load_levels (fuel : nat)
    (level mipmapCount compressedFormat blockSize width height offset : Z)
    : list TextureCall :=
  match fuel with
  | O => []
  | S fuel' =>
      if (level <? mipmapCount) && (negb (width =? 0) || negb (height =? 0))
      then
        let size :=
          to_unsigned (((width + 3) ÷ 4) * ((height + 3) ÷ 4) * blockSize) in
        glCompressedTexImage2D GL_TEXTURE_2D level compressedFormat
          width height 0 size offset
        :: (let offset := to_int (to_unsigned (to_unsigned offset + size)) in
            let width := width ÷ 2 in
            let height := height ÷ 2 in
            let width := if width <? 1 then 1 else width in
            let height := if height <? 1 then 1 else height in
            load_levels fuel' (level + 1) mipmapCount compressedFormat
              blockSize width height offset)
      else []
  end.

(** [LoadCompressedTexture(data, width, height, mipmapCount,
    compressedFormat)]: the calls it makes. *)
Definition LoadCompressedTexture
    (width height mipmapCount compressedFormat : Z) : list TextureCall :=
  glPixelStorei GL_UNPACK_ALIGNMENT 1
  :: load_levels (Z.to_nat mipmapCount) 0 mipmapCount compressedFormat
       (blockSize compressedFormat) width height 0.

End Textures.

(** The size of level [k] of a texture whose base level is [d] wide (or
    high): halved [k] times, and at least 1. *)
Definition level_dim (d : Z) (k : nat) : Z := Z.max 1 (d / 2 ^ Z.of_nat k).

(** The bytes of level [k] in blocks of 4 by 4 pixels of [bs] bytes. *)
Definition level_size (bs width height : Z) (k : nat) : Z :=
  ((level_dim width k + 3) / 4) * ((level_dim height k + 3) / 4) * bs.

(** The bytes of the levels before level [k]. *)
Fixpoint level_offset (bs width height : Z) (k : nat) : Z :=
  match k with
  | O => 0
  | S j => level_offset bs width height j + level_size bs width height j
  end.

(** The upload of level [k]. *)
Definition level_upload (bs width height compressedFormat : Z) (k : nat)
    : TextureCall :=
  glCompressedTexImage2D GL_TEXTURE_2D (Z.of_nat k) compressedFormat
    (level_dim width k) (level_dim height k) 0
    (level_size bs width height k) (level_offset bs width height k).

(** ** Mipmaps on the GPU *)

(** [Texture2D] is declared in [rlgl.h]; these are the fields that
    [rlgl.c] reads. *)
Module Texture2D.
Record t := mk { id : Z; width : Z; height : Z }.
End Texture2D.

(** What a texture function does that is seen from outside: an OpenGL call
    or a string written to [stdout]. *)
Inductive Event :=
  | gl_call (c : TextureCall)
  | print_text (text : string).

(** The strings of [TraceLog] on a level other than ERROR. [text] is the
    message after formatting. *)
Definition log (msgType : TraceLogType) (text : string) : list Event :=
  match msgType with
  | INFO => [print_text "INFO: "]
  | ERROR => [print_text "ERROR: "]
  | WARNING => [print_text "WARNING: "]
  | DEBUG => [print_text "DEBUG: "]
  | OTHER => []
  end ++ [print_text text; print_text (String "010"%char EmptyString)].

(** [%i] of [printf], for an argument of type [int]. *)
Definition format_int (z : Z) : string := NilZero.string_of_int (Z.to_int z).

(** The test of [rlglGenerateMipmaps] on one dimension. *)
Definition is_POT (n : Z) : bool := (0 <? n) && (Z.land n (n - 1) =? 0).

(** Generate mipmap data for selected texture, as compiled for OpenGL 3.3
    and OpenGL ES 2; [npotSupported] is the global of that name. *)
Definition rlglGenerateMipmaps (npotSupported : bool) (texture : Texture2D.t)
    : list Event :=
  [gl_call (batch_call (glBindTexture GL_TEXTURE_2D (Texture2D.id texture)))]
  ++ (let texIsPOT :=
        if is_POT (Texture2D.width texture) && is_POT (Texture2D.height texture)
        then true else false in
      if texIsPOT || npotSupported
      then
        [gl_call (glGenerateMipmap GL_TEXTURE_2D)]
        ++ log INFO ("[TEX ID " ++ format_int (to_int (Texture2D.id texture))
                     ++ "] Mipmaps generated automatically")
        ++ [gl_call (glTexParameteri GL_TEXTURE_2D GL_TEXTURE_MAG_FILTER
                       GL_LINEAR);
            gl_call (glTexParameteri GL_TEXTURE_2D GL_TEXTURE_MIN_FILTER
                       GL_LINEAR_MIPMAP_LINEAR)]
      else
        log WARNING ("[TEX ID " ++ format_int (to_int (Texture2D.id texture))
                     ++ "] Mipmaps can not be generated"))
  ++ [gl_call (batch_call (glBindTexture GL_TEXTURE_2D 0))].

(** [n] is a power of two. *)
Definition power_of_two (n : Z) : Prop := exists k, 0 <= k /\ n = 2 ^ k.

(** ** Mipmaps on the CPU

    [GenerateMipmaps] and [GenNextMipmap] are compiled for OpenGL 1.1
    only. They work on blocks of their own, which the model passes as
    values, and write to [stdout] through [TraceLog]. *)

(** [Color] is declared in [rlgl.h]: four [unsigned char] components. *)
Module Color.
Record t := mk { r : byte; g : byte; b : byte; a : byte }.
End Color.

Definition set_r (v : byte) (c : Color.t) : Color.t :=
  Color.mk v (Color.g c) (Color.b c) (Color.a c).
Definition set_g (v : byte) (c : Color.t) : Color.t :=
  Color.mk (Color.r c) v (Color.b c) (Color.a c).
Definition set_b (v : byte) (c : Color.t) : Color.t :=
  Color.mk (Color.r c) (Color.g c) v (Color.a c).
Definition set_a (v : byte) (c : Color.t) : Color.t :=
  Color.mk (Color.r c) (Color.g c) (Color.b c) v.

(** The promotion of an [unsigned char] to [int], and the conversion of
    an [int] to [unsigned char]. *)
Definition int_of (c : byte) : Z := Z.of_N (Byte.to_N c).
Definition uchar (z : Z) : byte :=
  match Byte.of_N (Z.to_N (z mod 256)) with
  | Some c => c
  | None => Byte.x00
  end.

(** [(a[i].f + a[j].f)/2], stored in an [unsigned char]. *)
Definition half_sum (f : Color.t -> byte) (a : list Color.t) (i j : Z)
    : M byte :=
  p ← array_get a i;
  q ← array_get a j;
  mret (uchar ((int_of (f p) + int_of (f q)) ÷ 2)).

(** [a[i].f = v], for the field that [set] assigns. *)
Definition set_field (set : byte -> Color.t -> Color.t) (a : list Color.t)
    (i : Z) (v : byte) : M (list Color.t) :=
  c ← array_get a i;
  array_set a i (set v c).

(** The body of the inner loop of [GenNextMipmap]: the pixel at [x], [y]
    of the mipmap. *)
Definition GenNextMipmap_pixel (srcData : list Color.t) (srcWidth width : Z)
    (y x : Z) (mipmap : list Color.t) : M (list Color.t) :=
  let y2 := 2 * y in
  let x2 := 2 * x in
  prow_r ← half_sum Color.r srcData (y2 * srcWidth + x2) (y2 * srcWidth + x2 + 1);
  prow_g ← half_sum Color.g srcData (y2 * srcWidth + x2) (y2 * srcWidth + x2 + 1);
  prow_b ← half_sum Color.b srcData (y2 * srcWidth + x2) (y2 * srcWidth + x2 + 1);
  prow_a ← half_sum Color.a srcData (y2 * srcWidth + x2) (y2 * srcWidth + x2 + 1);
  pcol_r ← half_sum Color.r srcData ((y2 + 1) * srcWidth + x2)
                                    ((y2 + 1) * srcWidth + x2 + 1);
  pcol_g ← half_sum Color.g srcData ((y2 + 1) * srcWidth + x2)
                                    ((y2 + 1) * srcWidth + x2 + 1);
  pcol_b ← half_sum Color.b srcData ((y2 + 1) * srcWidth + x2)
                                    ((y2 + 1) * srcWidth + x2 + 1);
  pcol_a ← half_sum Color.a srcData ((y2 + 1) * srcWidth + x2)
                                    ((y2 + 1) * srcWidth + x2 + 1);
  mipmap ← set_field set_r mipmap (y * width + x)
             (uchar ((int_of prow_r + int_of pcol_r) ÷ 2));
  mipmap ← set_field set_g mipmap (y * width + x)
             (uchar ((int_of prow_g + int_of pcol_g) ÷ 2));
  mipmap ← set_field set_b mipmap (y * width + x)
             (uchar ((int_of prow_b + int_of pcol_b) ÷ 2));
  set_field set_a mipmap (y * width + x)
    (uchar ((int_of prow_a + int_of pcol_a) ÷ 2)).

(** Manual mipmap generation (basic scaling algorithm). *)
Definition GenNextMipmap (junk : nat -> Color.t) (srcData : list Color.t)
    (srcWidth srcHeight : Z) : M (list Color.t) :=
  let width := srcWidth ÷ 2 in
  let height := srcHeight ÷ 2 in
  let mipmap := malloc junk (width * height) in
  mipmap ← for_loop 0 height 1 (fun y mipmap =>
             for_loop 0 width 1
               (GenNextMipmap_pixel srcData srcWidth width y) mipmap) mipmap;
  TraceLog DEBUG ("Mipmap generated successfully (" ++ format_int width
                  ++ "x" ++ format_int height ++ ")");;
  mret mipmap.

(** The box filter on one component: the mean of the means of the two
    rows, each rounded down. *)
Definition box (p00 p01 p10 p11 : Z) : Z :=
  ((p00 + p01) / 2 + (p10 + p11) / 2) / 2.

Definition components : list (Color.t -> byte) :=
  [Color.r; Color.g; Color.b; Color.a].

(** [q] is the box filter of the block of 2 by 2 pixels of [srcData] at
    [2*x], [2*y]. *)
Definition box_filtered (srcData : list Color.t) (srcWidth : Z) (x y : Z)
    (q : Color.t) : Prop :=
  exists p00 p01 p10 p11,
    elt srcData (2 * y * srcWidth + 2 * x) = Some p00
    /\ elt srcData (2 * y * srcWidth + 2 * x + 1) = Some p01
    /\ elt srcData ((2 * y + 1) * srcWidth + 2 * x) = Some p10
    /\ elt srcData ((2 * y + 1) * srcWidth + 2 * x + 1) = Some p11
    /\ Forall (fun f => int_of (f q) =
                 box (int_of (f p00)) (int_of (f p01))
                     (int_of (f p10)) (int_of (f p11))) components.

(** What [TraceLog] prints for a message of the DEBUG level. *)
Definition debug_lines (text : string) : list string :=
  ["DEBUG: "; text; String "010"%char EmptyString]%string.

(** An image of 2 by 2 pixels. *)
Definition example_image : list Color.t :=
  [Color.mk Byte.xff Byte.x00 Byte.x00 Byte.xff;
   Color.mk Byte.x00 Byte.xff Byte.x00 Byte.xff;
   Color.mk Byte.x00 Byte.x00 Byte.xff Byte.xff;
   Color.mk Byte.x01 Byte.x01 Byte.x01 Byte.x00].

(** [while (cond) body], with the local variables that the body changes in
    [acc]. The result is [None] when the fuel is used up and the test
    still holds. *)
Fixpoint while_fuel {A : Type} (fuel : nat) (cond : A -> bool)
    (body : A -> M A) (acc : A) : M (option A) :=
  if cond acc then
    match fuel with
    | O => mret None
    | S fuel' => acc' ← body acc; while_fuel fuel' cond body acc'
    end
  else mret (Some acc).

(** [realloc(block, n)] when it succeeds: a block of [n] elements that
    keeps what fits of [block]; [junk] gives what the rest holds. *)
Definition realloc {A : Type} (junk : nat -> A) (block : list A) (n : Z)
    : list A :=
  take (Z.to_nat n) block
  ++ map junk (seq (length block) (Z.to_nat n - length block)).

(** The first loop of [GenerateMipmaps]: count mipmap levels required.
    The result is [width], [height], [mipmapCount] and [size] at the end
    of the loop. *)
Definition count_levels (fuel : nat) (baseWidth baseHeight : Z)
    : M (option (Z * Z * Z * Z)) :=
  while_fuel fuel
    (fun '(width, height, mipmapCount, size) =>
       negb (width =? 1) && negb (height =? 1))
    (fun '(width, height, mipmapCount, size) =>
       let width := if negb (width =? 1) then width ÷ 2 else width in
       let height := if negb (height =? 1) then height ÷ 2 else height in
       TraceLog DEBUG ("Next mipmap size: " ++ format_int width ++ " x "
                       ++ format_int height);;
       mret (width, height, mipmapCount + 1, size + width * height * 4))
    (baseWidth, baseHeight, 1, baseWidth * baseHeight * 4).

(** The loop that fills [image] from the bytes of [data]. *)
Definition load_image (data : list byte) (size : Z) (image : list Color.t)
    : M (list Color.t * Z) :=
  for_loop 0 size 4 (fun i '(image, j) =>
    v ← array_get data i;
    image ← set_field set_r image j v;
    v ← array_get data (i + 1);
    image ← set_field set_g image j v;
    v ← array_get data (i + 2);
    image ← set_field set_b image j v;
    v ← array_get data (i + 3);
    image ← set_field set_a image j v;
    mret (image, j + 1)) (image, 0).

(** The loop that adds [mipmap] to [data], from [offset] on. *)
Definition store_mipmap (mipmap : list Color.t) (size offset : Z)
    (data : list byte) : M (list byte * Z) :=
  for_loop 0 size 4 (fun i '(data, j) =>
    c ← array_get mipmap j;
    data ← array_set data (offset + i) (Color.r c);
    c ← array_get mipmap j;
    data ← array_set data (offset + i + 1) (Color.g c);
    c ← array_get mipmap j;
    data ← array_set data (offset + i + 2) (Color.b c);
    c ← array_get mipmap j;
    data ← array_set data (offset + i + 3) (Color.a c);
    mret (data, j + 1)) (data, 0).

(** The body of the last loop of [GenerateMipmaps]: the mipmap of level
    [mip] is generated from [image], the level before, and added to
    [data]. [acc] holds [data], [image], [width], [height] and
    [offset]. *)
Definition add_level (junk : Z -> nat -> Color.t) (mip : Z)
    (acc : list byte * list Color.t * Z * Z * Z)
    : M (list byte * list Color.t * Z * Z * Z) :=
  let '(data, image, width, height, offset) := acc in
  mipmap ← GenNextMipmap (junk mip) image width height;
  let offset := offset + width * height * 4 in
  let width := width ÷ 2 in
  let height := height ÷ 2 in
  let size := width * height * 4 in
  '(data, _) ← store_mipmap mipmap size offset data;
  mret (data, mipmap, width, height, offset).

(** Mipmaps data is generated after image data. [realloc_ok] tells
    whether [realloc] succeeds; [junk_data] and [junk] give what the new
    blocks hold. The result is [None] when the fuel does not take the
    first loop to its end, and else the count that the function returns,
    with the block that it has filled. *)
Definition GenerateMipmaps (fuel : nat) (realloc_ok : bool)
    (junk_data : nat -> byte) (junk : Z -> nat -> Color.t)
    (data : list byte) (baseWidth baseHeight : Z)
    : M (option (Z * list byte)) :=
  counted ← count_levels fuel baseWidth baseHeight;
  match counted with
  | None => mret None
  | Some (_, _, mipmapCount, size) =>
      TraceLog DEBUG ("Total mipmaps required: " ++ format_int mipmapCount);;
      TraceLog DEBUG ("Total size of data required: " ++ format_int size);;
      data ← (if realloc_ok then mret (realloc junk_data data size)
              else TraceLog WARNING
                     "Mipmaps required memory could not be allocated";;
                   mret data);
      let width := baseWidth in
      let height := baseHeight in
      let size := width * height * 4 in
      let image := malloc (junk 0) (width * height) in
      '(image, _) ← load_image data size image;
      TraceLog DEBUG ("Mipmap base (" ++ format_int width ++ "x"
                      ++ format_int height ++ ")");;
      '(data, _, _, _, _) ←
        for_loop 1 mipmapCount 1 (add_level junk)
          (data, image, width, height, 0);
      mret (Some (mipmapCount, data))
  end.

(** The pixels of level [k] of an image of [width] by [height]. *)
Definition level_pixels (width height : Z) (k : nat) : Z :=
  (width / 2 ^ Z.of_nat k) * (height / 2 ^ Z.of_nat k).

(** The bytes of the first [n] levels, of 4 bytes a pixel. *)
Fixpoint chain_size (width height : Z) (n : nat) : Z :=
  match n with
  | O => 0
  | S k => chain_size width height k + level_pixels width height k * 4
  end.

(** The levels after the base level: both dimensions are halved until one
    of them is 1. *)
Definition halvings (width height : Z) : Z :=
  Z.min (Z.log2 width) (Z.log2 height).

(** Image data of 4 by 2 pixels. *)
Definition example_data : list byte := replicate 32 Byte.x10.

(** ** Sequences at the capacity of the ledger *)

(** Texture 5 bound 300 times, then the scenario with textures 5 and 6:
    more bindings than the array of draw calls has entries, and a ledger
    of three. *)
Definition many_bindings : list LedgerCall :=
  replicate 300 (bind_texture 5) ++ scenario_ABA 5 6.

(** Texture [i] is bound and one vertex submitted with it. *)
Definition texture_with_vertex (i : nat) : list LedgerCall :=
  [bind_texture (Z.of_nat i); quad_vertex f32_0 f32_0 f32_0].

(** Textures 1 to 256, one vertex with each: the calls that fill the 256
    entries of the array of draw calls. *)
Definition full_ledger_calls : list LedgerCall :=
  texture_with_vertex 1 ++ flat_map texture_with_vertex (seq 2 255).

(** The ledger that these calls give. *)
Definition full_ledger : list DrawCall.t :=
  (fun i => DrawCall.mk (Z.of_nat i) 1) <$> seq 1 256.

(** A configuration whose quads buffer has room for the 256 vertices of
    these calls. *)
Definition roomy_config : Config :=
  {| graphics_api := GRAPHICS_API_OPENGL_33;
     MAX_LINES_BATCH := 2;
     MAX_TRIANGLES_BATCH := 2;
     MAX_QUADS_BATCH := 64 |}.

(** ** The indexed draws in the words of the specification *)

(** The unsigned integer types that [glDrawElements] takes for the
    indices, with the width of an index in bits. *)
Definition index_width (type : GLenum) : option Z :=
  match type with
  | GL_UNSIGNED_BYTE => Some 8
  | GL_UNSIGNED_SHORT => Some 16
  | GL_UNSIGNED_INT => Some 32
  | _ => None
  end.

(** One indexed draw: the texture bound for it, the position in the
    index array of the first index it reads, and the number of indices. *)
Record QuadDraw := mkQuadDraw {
  draw_texture : Z;
  draw_first : Z;
  draw_count : Z
}.

(** The draws of the quads as the specification words them: the ledger
    is iterated in order; every entry gives one draw of
    [(vertexCount / 4) * 6] indices that starts at the running index
    offset, which then advances by that count. *)
Fixpoint quad_draws (l : list DrawCall.t) (offset : Z) : list QuadDraw :=
  match l with
  | [] => []
  | entry :: rest =>
      let indexCount := (DrawCall.vertexCount entry ÷ 4) * 6 in
      mkQuadDraw (DrawCall.textureId entry) offset indexCount
      :: quad_draws rest (offset + indexCount)
  end.

(** The two OpenGL calls of a draw for an index array whose elements have
    the type [type] and take [width] bytes each: [glDrawElements] is given
    the position of the first index in bytes. *)
Definition draw_calls (type : GLenum) (width : Z) (d : QuadDraw)
    : list GLCall :=
  [glBindTexture GL_TEXTURE_2D (draw_texture d);
   glDrawElements GL_TRIANGLES (draw_count d) type (width * draw_first d)].

(** ** A staged point and a full buffer *)

(** The calls that fill the triangles buffer of the example (six
    vertices), end the shape, push the modelview matrix and submit one
    more vertex, which goes to the temp buffer. *)
Definition staged_after_full_calls : list Call :=
  [c_rlMatrixMode RL_MODELVIEW; c_rlBegin RL_TRIANGLES;
   c_rlColor4ub Byte.xff Byte.x00 Byte.x00 Byte.xff]
  ++ replicate 6 (c_rlVertex3f f32_0 f32_0 f32_0)
  ++ [c_rlEnd; c_rlPushMatrix; c_rlVertex3f f32_1 f32_1 f32_1].

Definition example_staged_after_full : State :=
  final_state (boot_then example_boot staged_after_full_calls).

(** * Properties *)

(** ** Running the monad *)

Lemma bind_Ret {A B : Type} (m : M A) (k : A -> M B) st a st' :
  m st = Ret a st' -> (m ≫= k) st = k a st'.
Proof. intros E. unfold mbind, M_bind. now rewrite E. Qed.

Lemma bind_Exit {A B : Type} (m : M A) (k : A -> M B) st c st' :
  m st = Exit c st' -> (m ≫= k) st = Exit c st'.
Proof. intros E. unfold mbind, M_bind. now rewrite E. Qed.

Lemma bind_OutOfBounds {A B : Type} (m : M A) (k : A -> M B) st st' :
  m st = OutOfBounds st' -> (m ≫= k) st = OutOfBounds st'.
Proof. intros E. unfold mbind, M_bind. now rewrite E. Qed.

Lemma in_bounds_spec {A : Type} (a : list A) (i : Z) :
  in_bounds a i = true <-> 0 <= i < Z.of_nat (length a).
Proof. unfold in_bounds. rewrite andb_true_iff. lia. Qed.

Lemma in_bounds_false {A : Type} (a : list A) (i : Z) :
  in_bounds a i = false <-> (i < 0 \/ Z.of_nat (length a) <= i).
Proof. unfold in_bounds. rewrite andb_false_iff. lia. Qed.

Lemma in_bounds_insert {A : Type} (a : list A) (n : nat) (x : A) (i : Z) :
  in_bounds (<[n := x]> a) i = in_bounds a i.
Proof. unfold in_bounds. now rewrite length_insert. Qed.

Lemma load_Ret {A : Type} (arr : Var (list A)) (i : Z) (x : A) st :
  0 <= i -> rd arr st !! Z.to_nat i = Some x -> load arr i st = Ret x st.
Proof.
  intros Hi Hx. unfold load, read, array_get, mbind, M_bind.
  assert (Hb : in_bounds (rd arr st) i = true).
  { apply in_bounds_spec. apply lookup_lt_Some in Hx. lia. }
  now rewrite Hb, Hx.
Qed.

Lemma load_OutOfBounds {A : Type} (arr : Var (list A)) (i : Z) st :
  in_bounds (rd arr st) i = false -> load arr i st = OutOfBounds st.
Proof.
  intros Hb. unfold load, read, array_get, mbind, M_bind. now rewrite Hb.
Qed.

Lemma store_Ret {A : Type} (arr : Var (list A)) (i : Z) (x : A) st :
  in_bounds (rd arr st) i = true ->
  store arr i x st = Ret tt (wr arr (<[Z.to_nat i := x]> (rd arr st)) st).
Proof.
  intros Hb. unfold store, read, array_set, assign, mbind, M_bind.
  now rewrite Hb.
Qed.

Lemma store_OutOfBounds {A : Type} (arr : Var (list A)) (i : Z) (x : A) st :
  in_bounds (rd arr st) i = false -> store arr i x st = OutOfBounds st.
Proof.
  intros Hb. unfold store, read, array_set, mbind, M_bind. now rewrite Hb.
Qed.

(** A counted loop whose body returns and re-establishes the invariant
    leaves through its test: the fuel is never what stops it. *)
Lemma for_fuel_inv {A : Type} (I : Z -> A -> State -> Prop)
    (bound step : Z) (body : Z -> A -> M A) :
  1 <= step ->
  (forall i acc st, i < bound -> I i acc st ->
     exists acc' st', body i acc st = Ret acc' st' /\ I (i + step) acc' st') ->
  forall fuel i acc st,
    bound - i <= Z.of_nat fuel -> I i acc st ->
    exists i' acc' st',
      for_fuel fuel i bound step body acc st = Ret acc' st'
      /\ bound <= i' /\ I i' acc' st'.
Proof.
  intros Hstep Hbody fuel. induction fuel as [|fuel IH]; intros i acc st Hf HI.
  - exists i, acc, st. cbn. split; [reflexivity|]. split; [lia|assumption].
  - cbn [for_fuel]. destruct (Z.ltb_spec i bound) as [Hlt|Hge].
    + destruct (Hbody i acc st Hlt HI) as (acc' & st' & Eb & HI').
      destruct (IH (i + step) acc' st') as (i' & acc'' & st'' & E & Hle & HI'');
        [lia|assumption|].
      exists i', acc'', st''. split; [|now split].
      now rewrite (bind_Ret _ _ _ _ _ Eb).
    + exists i, acc, st. split; [reflexivity|]. split; [lia|assumption].
Qed.

Lemma for_loop_inv {A : Type} (I : Z -> A -> State -> Prop)
    (i0 bound step : Z) (body : Z -> A -> M A) acc st :
  1 <= step ->
  (forall i acc st, i < bound -> I i acc st ->
     exists acc' st', body i acc st = Ret acc' st' /\ I (i + step) acc' st') ->
  I i0 acc st ->
  exists i' acc' st',
    for_loop i0 bound step body acc st = Ret acc' st'
    /\ bound <= i' /\ I i' acc' st'.
Proof.
  intros Hstep Hbody HI. unfold for_loop.
  apply (for_fuel_inv I bound step body Hstep Hbody); [lia|assumption].
Qed.

(** The same for a loop that counts one by one and has no local state. *)
Lemma for_each_inv (I : Z -> State -> Prop) (i0 bound : Z)
    (body : Z -> M unit) st :
  i0 <= bound ->
  (forall i st, i0 <= i < bound -> I i st ->
     exists st', body i st = Ret tt st' /\ I (i + 1) st') ->
  I i0 st ->
  exists st', for_each i0 bound body st = Ret tt st' /\ I bound st'.
Proof.
  intros Hle Hbody HI. unfold for_each.
  destruct (for_loop_inv (fun i (_ : unit) s => i0 <= i <= bound /\ I i s)
              i0 bound 1 (fun i _ => body i) tt st) as (i' & [] & st' & E & Hb & Hr & HI').
  - lia.
  - intros i [] s Hlt [Hr HIs].
    destruct (Hbody i s) as (s' & Eb & HI'); [lia|assumption|].
    exists tt, s'. split; [assumption|]. split; [lia|assumption].
  - split; [lia|assumption].
  - exists st'. split; [assumption|]. now replace bound with i' by lia.
Qed.

Lemma for_each_none (i0 bound : Z) (body : Z -> M unit) st :
  bound <= i0 -> for_each i0 bound body st = Ret tt st.
Proof.
  intros Hle. unfold for_each, for_loop.
  destruct (Z.to_nat (bound - i0)) as [|n]; cbn [for_fuel]; [reflexivity|].
  destruct (Z.ltb_spec i0 bound); [lia|reflexivity].
Qed.

(** ** What a computation leaves alone *)

Lemma keeps_ret {A B : Type} (f : State -> B) (a : A) : keeps f (mret a : M A).
Proof. intros st. reflexivity. Qed.

Lemma keeps_bind {A B C : Type} (f : State -> C) (m : M A) (k : A -> M B) :
  keeps f m -> (forall a, keeps f (k a)) -> keeps f (m ≫= k).
Proof.
  intros Hm Hk st. specialize (Hm st). unfold mbind, M_bind.
  destruct (m st) as [a st'|c st'|st']; cbn in *; [|assumption..].
  now rewrite Hk.
Qed.

Lemma keeps_read {A B : Type} (f : State -> B) (v : Var A) : keeps f (read v).
Proof. intros st. reflexivity. Qed.

Lemma keeps_get {B : Type} (f : State -> B) : keeps f get.
Proof. intros st. reflexivity. Qed.

Lemma keeps_fun_Ret {A B : Type} (f : State -> B) (g : State -> A) :
  keeps f (fun st => Ret (g st) st).
Proof. intros st. reflexivity. Qed.

Lemma keeps_assign {A B : Type} (f : State -> B) (v : Var A) (a : A) :
  untouched f v -> keeps f (assign v a).
Proof. intros H st. apply H. Qed.

Lemma keeps_exit {B : Type} (f : State -> B) (c : Z) : keeps f (exit c).
Proof. intros st. reflexivity. Qed.

Lemma keeps_load {A B : Type} (f : State -> B) (arr : Var (list A)) (i : Z) :
  keeps f (load arr i).
Proof.
  intros st. unfold load, read, array_get, mbind, M_bind.
  destruct (in_bounds _ _); [|reflexivity].
  destruct (_ !! _); reflexivity.
Qed.

Lemma keeps_store {A B : Type} (f : State -> B) (arr : Var (list A)) (i : Z)
    (x : A) :
  untouched f arr -> keeps f (store arr i x).
Proof.
  intros H st. unfold store, read, array_set, assign, mbind, M_bind.
  destruct (in_bounds _ _); cbn; [apply H|reflexivity].
Qed.

Lemma keeps_when {B : Type} (f : State -> B) (b : bool) (c : M unit) :
  keeps f c -> keeps f (when b c).
Proof. intros H. destruct b; [assumption|apply keeps_ret]. Qed.

Lemma keeps_for_fuel {A B : Type} (f : State -> B) (bound step : Z)
    (body : Z -> A -> M A) :
  (forall i acc, keeps f (body i acc)) ->
  forall fuel i acc, keeps f (for_fuel fuel i bound step body acc).
Proof.
  intros Hbody fuel. induction fuel as [|fuel IH]; intros i acc; cbn [for_fuel].
  - apply keeps_ret.
  - destruct (i <? bound); [|apply keeps_ret].
    apply keeps_bind; [apply Hbody|intros acc'; apply IH].
Qed.

Lemma keeps_for_loop {A B : Type} (f : State -> B) (i0 bound step : Z)
    (body : Z -> A -> M A) acc :
  (forall i acc, keeps f (body i acc)) ->
  keeps f (for_loop i0 bound step body acc).
Proof. intros H. now apply keeps_for_fuel. Qed.

Lemma keeps_for_each {B : Type} (f : State -> B) (i0 bound : Z)
    (body : Z -> M unit) :
  (forall i, keeps f (body i)) -> keeps f (for_each i0 bound body).
Proof. intros H. apply keeps_for_loop. intros i _. apply H. Qed.

Lemma keeps_fprintf {B : Type} (f : State -> B) (text : string) :
  (forall v st, f (set_stdout v st) = f st) -> keeps f (fprintf text).
Proof. intros H st. apply H. Qed.

Lemma keeps_TraceLog {B : Type} (f : State -> B) msgType (text : string) :
  (forall v st, f (set_stdout v st) = f st) -> keeps f (TraceLog msgType text).
Proof.
  intros H. unfold TraceLog.
  repeat (apply keeps_bind; [|intros ?]);
    try (apply keeps_fprintf; assumption).
  - destruct msgType; try (apply keeps_fprintf; assumption). apply keeps_ret.
  - apply keeps_when, keeps_exit.
Qed.

Lemma keeps_gl {B : Type} (f : State -> B) (c : GLCall) :
  (forall v st, f (set_gl_calls v st) = f st) -> keeps f (gl c).
Proof. intros H st. apply H. Qed.

Lemma keeps_preserves {A B : Type} (f : State -> B) (P : B -> Prop) (m : M A) :
  keeps f m -> preserves (fun st => P (f st)) m.
Proof. intros H st HP. now rewrite H. Qed.

Lemma keeps_Ret {A B : Type} (f : State -> B) (m : M A) st a st' :
  keeps f m -> m st = Ret a st' -> f st' = f st.
Proof. intros H E. specialize (H st). now rewrite E in H. Qed.

(** Side conditions of the shape [untouched f v] and their like are
    settled by computation, after a case on where [currentMatrix] points. *)
Ltac solve_untouched :=
  first
    [ assumption
    | let st := fresh "st" in
      intros ? st; cbn;
      repeat match goal with
             | |- context [match currentMatrix ?s with _ => _ end] =>
                 destruct (currentMatrix s)
             end;
      reflexivity ].

Ltac keeps_step :=
  match goal with
  | |- keeps _ (_ ≫= _) => apply keeps_bind; [|intros ?]
  | |- keeps _ (mret _) => apply keeps_ret
  | |- keeps _ (read _) => apply keeps_read
  | |- keeps _ get => apply keeps_get
  | |- keeps _ (assign _ _) => apply keeps_assign; solve_untouched
  | |- keeps _ (store _ _ _) => apply keeps_store; solve_untouched
  | |- keeps _ (load _ _) => apply keeps_load
  | |- keeps _ (when _ _) => apply keeps_when
  | |- keeps _ (exit _) => apply keeps_exit
  | |- keeps _ (for_each _ _ _) => apply keeps_for_each; intros ?
  | |- keeps _ (for_loop _ _ _ _ _) => apply keeps_for_loop; intros ? ?
  | |- keeps _ (TraceLog _ _) => apply keeps_TraceLog; solve_untouched
  | |- keeps _ (gl _) => apply keeps_gl; solve_untouched
  | |- keeps _ (fun st => Ret _ _) =>
      let st := fresh "st" in intros st; cbn; solve [reflexivity | destruct (currentMatrix st); reflexivity]
  | |- keeps _ (match ?x with _ => _ end) => destruct x
  | |- keeps _ (if ?b then _ else _) => destruct b
  end.

Ltac keeps_auto := repeat keeps_step.

Section Frames.
Context `{cfg : Config} `{rm : Raymath}.

(** Only [rlPushMatrix] and [rlPopMatrix] assign to [stackCounter]. *)
Lemma rlVertex3f_keeps_stackCounter x y z : keeps stackCounter (rlVertex3f x y z).
Proof. unfold rlVertex3f. keeps_auto. Qed.

Lemma rlEnd_keeps_stackCounter : keeps stackCounter rlEnd.
Proof.
  unfold rlEnd, rlEnd_temp, rlEnd_counts, add_colors, add_texcoords,
    repeat_last_color.
  keeps_auto; apply rlVertex3f_keeps_stackCounter.
Qed.

Lemma rlglDraw_keeps_stackCounter : keeps stackCounter rlglDraw.
Proof.
  unfold rlglDraw, UpdateDefaultBuffers, rlglDraw_batches, rlglDraw_reset,
    draw_entry.
  keeps_auto.
Qed.

Lemma rlglInit_keeps_stackCounter : keeps stackCounter rlglInit.
Proof. unfold rlglInit, LoadDefaultBuffers. keeps_auto. Qed.

End Frames.

(** ** The matrix stack *)

Section MatrixStack.
Context `{cfg : Config} `{rm : Raymath}.

Lemma rlPushMatrix_stackCounter st :
  stackCounter (final_state (rlPushMatrix st)) = stackCounter st \/
  stackCounter (final_state (rlPushMatrix st)) = stackCounter st + 1.
Proof.
  unfold rlPushMatrix, TraceLog, rlLoadIdentity, when, store, read, assign,
    array_set, fprintf, exit, mbind, M_bind, mret, M_ret.
  cbn.
  destruct (stackCounter st =? _); cbn; [now left|].
  destruct (in_bounds _ _); cbn; [|now left].
  destruct (currentMatrix st); cbn; destruct (currentMatrixMode st); cbn;
    now right.
Qed.

Lemma rlPopMatrix_stackCounter st :
  0 <= stackCounter st -> 0 <= stackCounter (final_state (rlPopMatrix st)).
Proof.
  unfold rlPopMatrix, when, load, read, assign, array_get, mbind, M_bind,
    mret, M_ret.
  cbn. intros H.
  destruct (Z.ltb_spec 0 (stackCounter st)); cbn; [|assumption].
  destruct (in_bounds _ _); cbn; [|assumption].
  destruct (_ !! _); cbn; [|assumption].
  destruct (currentMatrix st); cbn; lia.
Qed.

Lemma rlPopMatrix_empty st :
  stackCounter st = 0 -> rlPopMatrix st = Ret tt st.
Proof.
  intros H. unfold rlPopMatrix, when, read, mbind, M_bind. cbn.
  now rewrite H.
Qed.

(** Every call leaves a depth that is not negative. *)
Lemma call_stackCounter_nonneg c :
  preserves (fun st => 0 <= stackCounter st) (call c).
Proof.
  destruct c; cbn [call];
    lazymatch goal with
    | |- preserves _ rlPushMatrix =>
        intros st H;
        destruct (rlPushMatrix_stackCounter st) as [E|E]; rewrite E; lia
    | |- preserves _ rlPopMatrix =>
        intros st H; now apply rlPopMatrix_stackCounter
    | |- _ => apply (keeps_preserves stackCounter (fun n => 0 <= n))
    end;
    lazymatch goal with
    | |- keeps _ (rlVertex3f _ _ _) => apply rlVertex3f_keeps_stackCounter
    | |- keeps _ rlEnd => apply rlEnd_keeps_stackCounter
    | |- keeps _ rlglDraw => apply rlglDraw_keeps_stackCounter
    | |- _ =>
        unfold rlMatrixMode, rlLoadIdentity, rlTranslatef, rlRotatef,
          rlScalef, rlMultMatrixf, rlFrustum, rlOrtho, rlBegin, rlVertex2i,
          rlVertex2f, rlTexCoord2f, rlNormal3f, rlColor4ub, rlEnableTexture,
          rlDisableTexture;
        keeps_auto; apply rlVertex3f_keeps_stackCounter
    end.
Qed.

(** C10. In every state that a client can reach, the depth of the
    transform stack is at least 0; and when the stack is empty
    ([stackCounter] is 0), [rlPopMatrix] returns and changes nothing: the
    current matrix, the contents of the stack and the counter are as
    before, as is the rest of the state. *)
Theorem C10_stack_depth_nonneg_and_pop_on_empty st :
  reachable st ->
  0 <= stackCounter st
  /\ (stackCounter st = 0 -> rlPopMatrix st = Ret tt st).
Proof.
  intros Hr. split; [|apply rlPopMatrix_empty].
  induction Hr as [b st E|st c st' Hr IH E].
  - rewrite (keeps_Ret stackCounter _ _ _ _ rlglInit_keeps_stackCounter E).
    cbn. lia.
  - pose proof (call_stackCounter_nonneg c st IH) as H.
    now rewrite E in H.
Qed.

(** [rlPushMatrix] with one slot left: the message is printed on the
    ERROR level and [TraceLog] ends the process; nothing else happened. *)
Lemma rlPushMatrix_last_slot st :
  stackCounter st = MATRIX_STACK_SIZE - 1 ->
  rlPushMatrix st =
    Exit 1 (set_stdout (stdout st ++ ["ERROR: "%string]
                          ++ ["Stack Buffer Overflow (MAX 16 Matrix)"%string]
                          ++ [String "010"%char EmptyString]) st).
Proof.
  intros H. unfold rlPushMatrix, TraceLog, when, read, fprintf, exit, mbind,
    M_bind, mret, M_ret.
  cbn. rewrite H, Z.eqb_refl. destruct st; cbn.
  now rewrite <- !app_assoc.
Qed.

End MatrixStack.

(** Witness of C10: the state after initialisation in the example. *)
Lemma C10_witness :
  0 <= stackCounter example_init
  /\ (stackCounter example_init = 0 ->
      rlPopMatrix example_init = Ret tt example_init).
Proof.
  apply (C10_stack_depth_nonneg_and_pop_on_empty example_init).
  apply (reachable_init example_boot). vm_compute. reflexivity.
Defined.

(** C9, as the code has it. When [rlPushMatrix] is called with
    [stackCounter] equal to [MATRIX_STACK_SIZE - 1], the overflow is
    reported on the ERROR level, on which [TraceLog] ends the process with
    [exit(1)]: the call does not return, the current matrix is not stored
    and the counter is not incremented (the state is as before, but for
    the three pieces of text printed). *)
Theorem C9_push_at_limit_logs_error_and_exits `{Config} `{Raymath} st :
  stackCounter st = MATRIX_STACK_SIZE - 1 ->
  rlPushMatrix st =
    Exit 1 (set_stdout
              (stdout st ++ error_lines "Stack Buffer Overflow (MAX 16 Matrix)")
              st).
Proof. apply rlPushMatrix_last_slot. Qed.

(** Witness of C9: the example after fifteen pushes. *)
Lemma C9_witness :
  stackCounter example_pushed15 = MATRIX_STACK_SIZE - 1
  /\ rlPushMatrix example_pushed15 =
       Exit 1 (set_stdout
                 (stdout example_pushed15
                    ++ error_lines "Stack Buffer Overflow (MAX 16 Matrix)")
                 example_pushed15).
Proof.
  split; [vm_compute; reflexivity|].
  apply (C9_push_at_limit_logs_error_and_exits example_pushed15).
  vm_compute; reflexivity.
Defined.

(** C9 as stated fails: after fifteen pushes the sixteenth is the one that
    the code reports as an overflow, and it does not continue: there is no
    state in which the call returns, so no matrix is stored and no counter
    incremented. *)
Lemma C9_counterexample :
  stackCounter example_pushed15 = MATRIX_STACK_SIZE - 1
  /\ ~ (exists st',
          rlPushMatrix example_pushed15 = Ret tt st'
          /\ stackCounter st' = stackCounter example_pushed15 + 1).
Proof.
  split; [vm_compute; reflexivity|].
  intros (st' & E & _). vm_compute in E. discriminate E.
Qed.

(** ** Vertices at the limit of a buffer *)

Section Overflow.
Context `{cfg : Config} `{rm : Raymath}.

Lemma TraceLog_ERROR text st :
  TraceLog ERROR text st = Exit 1 (set_stdout (stdout st ++ error_lines text) st).
Proof.
  unfold TraceLog, when, fprintf, exit, mbind, M_bind. destruct st; cbn.
  now rewrite <- !app_assoc.
Qed.

Lemma rlVertex3f_overflow x y z st :
  useTempBuffer st = false ->
  batch_limit (currentDrawMode st)
    <= active_vCounter st ÷ vertices_per (currentDrawMode st) ->
  rlVertex3f x y z st =
    Exit 1 (set_stdout
              (stdout st ++ error_lines (overflow_text (currentDrawMode st)))
              st).
Proof.
  intros Ht Hfull. unfold active_vCounter in Hfull.
  unfold rlVertex3f, read, mbind, M_bind. cbn. rewrite Ht.
  destruct (currentDrawMode st); cbn in *;
    match goal with
    | |- context [?a <? ?b] => destruct (Z.ltb_spec a b); [lia|]
    end;
    apply TraceLog_ERROR.
Qed.

End Overflow.

(** C6, as the code has it, for the vertex buffers. When the buffer of
    the active topology is at its limit ([vCounter] divided by the
    vertices of one primitive has reached the batch size) and the temp
    buffer is not in use, a further [rlVertex3f] stores nothing and
    changes no counter, so the buffer keeps the vertices it had; the
    overflow is reported on the ERROR level, on which [TraceLog] ends the
    process with [exit(1)]. *)
Theorem C6_vertex_at_limit_is_dropped_and_exits `{Config} `{Raymath} x y z st :
  useTempBuffer st = false ->
  batch_limit (currentDrawMode st)
    <= active_vCounter st ÷ vertices_per (currentDrawMode st) ->
  rlVertex3f x y z st =
    Exit 1 (set_stdout
              (stdout st ++ error_lines (overflow_text (currentDrawMode st)))
              st).
Proof. apply rlVertex3f_overflow. Qed.

(** Witness of C6: the lines buffer of the example, filled to its limit. *)
Lemma C6_witness :
  useTempBuffer example_lines_full = false
  /\ batch_limit (currentDrawMode example_lines_full)
       <= active_vCounter example_lines_full
            ÷ vertices_per (currentDrawMode example_lines_full)
  /\ rlVertex3f f32_1 f32_1 f32_1 example_lines_full =
       Exit 1 (set_stdout
                 (stdout example_lines_full
                    ++ error_lines
                         (overflow_text (currentDrawMode example_lines_full)))
                 example_lines_full).
Proof.
  split; [vm_compute; reflexivity|].
  split; [vm_compute; discriminate|].
  apply (C6_vertex_at_limit_is_dropped_and_exits f32_1 f32_1 f32_1
           example_lines_full).
  - vm_compute; reflexivity.
  - vm_compute; discriminate.
Defined.

(** C6 as stated fails: with the lines buffer of the example holding its
    four vertices, the fifth submission is fatal. The call does not
    return, and what is printed is on the ERROR level, not a warning. *)
Lemma C6_counterexample :
  PC.vCounter (lines example_lines_full) = 2 * MAX_LINES_BATCH
  /\ currentDrawMode example_lines_full = RL_LINES
  /\ ~ (exists st',
          rlVertex3f f32_1 f32_1 f32_1 example_lines_full = Ret tt st')
  /\ rlVertex3f f32_1 f32_1 f32_1 example_lines_full =
       Exit 1 (set_stdout
                 ["ERROR: "%string; "MAX_LINES_BATCH overflow"%string;
                  String "010"%char EmptyString]
                 example_lines_full).
Proof.
  split; [vm_compute; reflexivity|].
  split; [vm_compute; reflexivity|].
  split; [|vm_compute; reflexivity].
  intros (st' & E). vm_compute in E. discriminate E.
Qed.

(** ** Reading and writing arrays *)

Lemma elt_Some_in_bounds {A : Type} (a : list A) (i : Z) (x : A) :
  elt a i = Some x -> in_bounds a i = true.
Proof.
  unfold elt. destruct (Z.leb_spec 0 i) as [Hi|Hi]; [|discriminate].
  intros H. apply lookup_lt_Some in H. apply in_bounds_spec. lia.
Qed.

Lemma in_bounds_elt {A : Type} (a : list A) (i : Z) :
  in_bounds a i = true -> exists x, elt a i = Some x.
Proof.
  intros H. apply in_bounds_spec in H. unfold elt.
  destruct (Z.leb_spec 0 i) as [Hi|Hi]; [|lia].
  destruct (lookup_lt_is_Some_2 a (Z.to_nat i)) as [x Hx]; [lia|eauto].
Qed.

Lemma elt_insert_eq {A : Type} (a : list A) (i : Z) (x : A) :
  in_bounds a i = true -> elt (<[Z.to_nat i := x]> a) i = Some x.
Proof.
  intros H. apply in_bounds_spec in H. unfold elt.
  destruct (Z.leb_spec 0 i) as [Hi|Hi]; [|lia].
  apply list_lookup_insert_eq. lia.
Qed.

Lemma elt_insert_ne {A : Type} (a : list A) (i j : Z) (x : A) :
  0 <= i -> i <> j -> elt (<[Z.to_nat i := x]> a) j = elt a j.
Proof.
  intros Hi Hne. unfold elt. destruct (Z.leb_spec 0 j) as [Hj|Hj]; [|reflexivity].
  apply list_lookup_insert_ne. lia.
Qed.

Lemma elt_length {A : Type} (a : list A) (i : Z) :
  Z.of_nat (length a) <= i -> elt a i = None.
Proof.
  intros H. unfold elt. destruct (Z.leb_spec 0 i) as [Hi|Hi]; [|reflexivity].
  apply lookup_ge_None. lia.
Qed.

Lemma bind_read {A B : Type} (v : Var A) (k : A -> M B) st :
  (read v ≫= k) st = k (rd v st) st.
Proof. reflexivity. Qed.

Lemma bind_assign {A B : Type} (v : Var A) (a : A) (k : unit -> M B) st :
  (assign v a ≫= k) st = k tt (wr v a st).
Proof. reflexivity. Qed.

Lemma bind_load {A B : Type} (arr : Var (list A)) (i : Z) (x : A)
    (k : A -> M B) st :
  elt (rd arr st) i = Some x -> (load arr i ≫= k) st = k x st.
Proof.
  intros H. apply bind_Ret. unfold elt in H.
  destruct (Z.leb_spec 0 i) as [Hi|Hi]; [|discriminate]. now apply load_Ret.
Qed.

Lemma bind_store {A B : Type} (arr : Var (list A)) (i : Z) (x : A)
    (k : unit -> M B) st :
  in_bounds (rd arr st) i = true ->
  (store arr i x ≫= k) st = k tt (wr arr (<[Z.to_nat i := x]> (rd arr st)) st).
Proof. intros H. apply bind_Ret. now apply store_Ret. Qed.

Lemma bind_assoc {A B C : Type} (m : M A) (f : A -> M B) (g : B -> M C) st :
  ((m ≫= f) ≫= g) st = (m ≫= (fun a => f a ≫= g)) st.
Proof. unfold mbind, M_bind. destruct (m st); reflexivity. Qed.

Lemma bind_mret {A : Type} (m : M A) st : (m ≫= mret) st = m st.
Proof. unfold mbind, M_bind, mret, M_ret. destruct (m st); reflexivity. Qed.

(** ** Completing the colors *)

Section Colors.
Context (cCounter : Var Z) (colors : Var (list byte)).
Context (Hvars : distinct_vars cCounter colors).

(** One round copies the four components of the color before
    [cCounter] and counts one more color. *)
Lemma repeat_last_color_spec st c l :
  rd cCounter st = c -> rd colors st = l ->
  1 <= c -> 4 * c + 4 <= Z.of_nat (length l) ->
  exists st',
    repeat_last_color cCounter colors st = Ret tt st'
    /\ rd cCounter st' = c + 1
    /\ length (rd colors st') = length l
    /\ (forall i, i < 4 * c \/ 4 * c + 4 <= i ->
          elt (rd colors st') i = elt l i)
    /\ (forall r, 0 <= r < 4 ->
          elt (rd colors st') (4 * c + r) = elt l (4 * c - 4 + r)).
Proof.
  intros Hc Hl Hc1 Hlen.
  destruct Hvars as [Haa Hna Hnn Han].
  assert (Hin : forall i, 0 <= i < 4 * c + 4 -> in_bounds l i = true).
  { intros i Hi. apply in_bounds_spec. lia. }
  destruct (in_bounds_elt l (4 * c - 4)) as [b0 Hb0]; [apply Hin; lia|].
  destruct (in_bounds_elt l (4 * c - 3)) as [b1 Hb1]; [apply Hin; lia|].
  destruct (in_bounds_elt l (4 * c - 2)) as [b2 Hb2]; [apply Hin; lia|].
  destruct (in_bounds_elt l (4 * c - 1)) as [b3 Hb3]; [apply Hin; lia|].
  set (l1 := <[Z.to_nat (4 * c) := b0]> l).
  set (l2 := <[Z.to_nat (4 * c + 1) := b1]> l1).
  set (l3 := <[Z.to_nat (4 * c + 2) := b2]> l2).
  set (l4 := <[Z.to_nat (4 * c + 3) := b3]> l3).
  exists (wr cCounter (c + 1) (wr colors l4 (wr colors l3 (wr colors l2 (wr colors l1 st))))).
  split.
  { unfold repeat_last_color.
    rewrite bind_read, Hc.
    rewrite (bind_load _ _ b0) by now rewrite Hl.
    rewrite bind_store by (rewrite Hl; apply Hin; lia).
    rewrite Hl. fold l1.
    rewrite bind_read, Hna, Hc.
    rewrite (bind_load _ _ b1)
      by (rewrite Haa; unfold l1; rewrite elt_insert_ne by lia; assumption).
    rewrite bind_store
      by (rewrite Haa; unfold l1; rewrite in_bounds_insert; apply Hin; lia).
    rewrite Haa. fold l2.
    rewrite bind_read, Hna, Hna, Hc.
    rewrite (bind_load _ _ b2)
      by (rewrite Haa; unfold l2, l1; rewrite !elt_insert_ne by lia; assumption).
    rewrite bind_store
      by (rewrite Haa; unfold l2, l1; rewrite !in_bounds_insert; apply Hin; lia).
    rewrite Haa. fold l3.
    rewrite bind_read, !Hna, Hc.
    rewrite (bind_load _ _ b3)
      by (rewrite Haa; unfold l3, l2, l1; rewrite !elt_insert_ne by lia;
          assumption).
    rewrite bind_store
      by (rewrite Haa; unfold l3, l2, l1; rewrite !in_bounds_insert;
          apply Hin; lia).
    rewrite Haa. fold l4.
    rewrite bind_read, !Hna, Hc. reflexivity. }
  rewrite Hnn, Han, Haa.
  split; [reflexivity|]. split.
  { unfold l4, l3, l2, l1. now rewrite !length_insert. }
  split.
  - intros i Hi. unfold l4, l3, l2, l1. now rewrite !elt_insert_ne by lia.
  - intros r Hr. unfold l4, l3, l2, l1.
    assert (r = 0 \/ r = 1 \/ r = 2 \/ r = 3) as [-> | [-> | [-> | ->]]] by lia.
    + rewrite !elt_insert_ne by lia. rewrite !Z.add_0_r.
      rewrite elt_insert_eq by (apply Hin; lia). now rewrite Hb0.
    + rewrite !elt_insert_ne by lia.
      rewrite elt_insert_eq by (rewrite !in_bounds_insert; apply Hin; lia).
      now replace (4 * c - 4 + 1) with (4 * c - 3) by lia.
    + rewrite !elt_insert_ne by lia.
      rewrite elt_insert_eq by (rewrite !in_bounds_insert; apply Hin; lia).
      now replace (4 * c - 4 + 2) with (4 * c - 2) by lia.
    + rewrite elt_insert_eq by (rewrite !in_bounds_insert; apply Hin; lia).
      now replace (4 * c - 4 + 3) with (4 * c - 1) by lia.
Qed.

Context (vCounter : Var Z).

(** With at least one color in the buffer and room for one color per
    vertex, the loop returns with as many colors as vertices: the colors
    before [cCounter] are as they were, and each added color is a copy of
    the last one that was there. *)
Lemma add_colors_spec st v c l :
  rd vCounter st = v -> rd cCounter st = c -> rd colors st = l ->
  1 <= c <= v -> 4 * v <= Z.of_nat (length l) ->
  exists st',
    add_colors vCounter cCounter colors st = Ret tt st'
    /\ rd cCounter st' = v
    /\ length (rd colors st') = length l
    /\ (forall i, i < 4 * c \/ 4 * v <= i -> elt (rd colors st') i = elt l i)
    /\ (forall j r, c <= j < v -> 0 <= r < 4 ->
          elt (rd colors st') (4 * j + r) = elt l (4 * (c - 1) + r)).
Proof.
  intros Hv Hc Hl Hcv Hlen. unfold add_colors.
  rewrite bind_read, Hv, bind_read, Hc.
  destruct (Z.eqb_spec v c) as [->|Hne]; cbn [negb when].
  { exists st. split; [reflexivity|]. split; [assumption|].
    split; [now rewrite Hl|]. split; [intros; now rewrite Hl|]. intros; lia. }
  set (I := fun (i : Z) (s : State) =>
    rd cCounter s = c + i
    /\ length (rd colors s) = length l
    /\ (forall i', i' < 4 * c \/ 4 * (c + i) <= i' ->
          elt (rd colors s) i' = elt l i')
    /\ (forall j r, c <= j < c + i -> 0 <= r < 4 ->
          elt (rd colors s) (4 * j + r) = elt l (4 * (c - 1) + r))).
  destruct (for_each_inv I 0 (v - c)
              (fun _ => repeat_last_color cCounter colors) st)
    as (st' & E & Hc' & Hlen' & Hout & Hin).
  - lia.
  - intros i s Hi (Hci & Hleni & Houti & Hini).
    destruct (repeat_last_color_spec s (c + i) (rd colors s))
      as (s' & Es & Hcs & Hlens & Houts & Hins);
      [assumption|reflexivity|lia|lia|].
    exists s'. split; [assumption|]. unfold I. split; [lia|].
    split; [congruence|]. split.
    + intros i' Hi'. rewrite Houts by lia. apply Houti. lia.
    + intros j r Hj Hr.
      destruct (Z.eq_dec j (c + i)) as [->|Hji].
      * rewrite Hins by assumption.
        destruct (Z.eq_dec i 0) as [->|Hi0].
        -- rewrite Houti by lia. f_equal. lia.
        -- replace (4 * (c + i) - 4 + r) with (4 * (c + i - 1) + r) by lia.
           apply Hini; lia.
      * rewrite Houts by lia. apply Hini; lia.
  - unfold I. split; [lia|]. split; [now rewrite Hl|].
    split; [intros; now rewrite Hl|]. intros; lia.
  - exists st'. split; [assumption|]. split; [lia|]. split; [assumption|].
    split.
    + intros i Hi. apply Hout. lia.
    + intros j r Hj Hr. apply Hin; lia.
Qed.

(** With no less colors than vertices there is nothing to add. *)
Lemma add_colors_skip st :
  rd vCounter st <= rd cCounter st ->
  add_colors vCounter cCounter colors st = Ret tt st.
Proof.
  intros H. unfold add_colors. rewrite !bind_read.
  destruct (Z.eqb_spec (rd vCounter st) (rd cCounter st)) as [Hz|Hz];
    cbn [negb when]; [reflexivity|].
  apply for_each_none. lia.
Qed.

(** With vertices and no color at all, the first round reads before the
    start of the array. *)
Lemma add_colors_no_color st :
  rd cCounter st = 0 -> 0 < rd vCounter st ->
  add_colors vCounter cCounter colors st = OutOfBounds st.
Proof.
  intros Hc Hv. unfold add_colors. rewrite !bind_read, Hc.
  destruct (Z.eqb_spec (rd vCounter st) 0) as [Hz|Hz]; [lia|].
  cbn [negb when].
  unfold for_each, for_loop.
  destruct (Z.to_nat (rd vCounter st - 0 - 0)) as [|fuel] eqn:En; [lia|].
  cbn [for_fuel].
  destruct (Z.ltb_spec 0 (rd vCounter st - 0)) as [Hlt|Hlt]; [|lia].
  apply bind_OutOfBounds. unfold repeat_last_color.
  rewrite bind_read, Hc. apply bind_OutOfBounds, load_OutOfBounds.
  apply in_bounds_false. lia.
Qed.

End Colors.

(** ** The buffers as counters and arrays *)

Lemma lines_color_vars : distinct_vars lines_cCounter lines_colors.
Proof. split; reflexivity. Qed.

Lemma triangles_color_vars : distinct_vars triangles_cCounter triangles_colors.
Proof. split; reflexivity. Qed.

Lemma quads_color_vars : distinct_vars quads_cCounter quads_colors.
Proof. split; reflexivity. Qed.

Lemma quads_texcoord_vars : distinct_vars quads_tcCounter quads_texcoords.
Proof. split; reflexivity. Qed.

(** ** Completing the texcoords *)

Section Texcoords.
Context `{cfg : Config} `{rm : Raymath}.

(** With room for one texcoord per vertex, the loop returns with as many
    texcoords as vertices: those before [tcCounter] are as they were, and
    each added component is [0.0f]. *)
Lemma add_texcoords_spec st v t l :
  PCTI.vCounter (quads st) = v -> PCTI.tcCounter (quads st) = t ->
  PCTI.texcoords (quads st) = l ->
  0 <= t <= v -> 2 * v <= Z.of_nat (length l) ->
  exists st',
    add_texcoords st = Ret tt st'
    /\ PCTI.tcCounter (quads st') = v
    /\ length (PCTI.texcoords (quads st')) = length l
    /\ (forall i, i < 2 * t \/ 2 * v <= i ->
          elt (PCTI.texcoords (quads st')) i = elt l i)
    /\ (forall i, 2 * t <= i < 2 * v ->
          elt (PCTI.texcoords (quads st')) i = Some f32_0).
Proof.
  intros Hv Ht Hl Htv Hlen. unfold add_texcoords.
  rewrite bind_read. change (rd quads_vCounter st) with (PCTI.vCounter (quads st)).
  rewrite Hv, bind_read.
  change (rd quads_tcCounter st) with (PCTI.tcCounter (quads st)). rewrite Ht.
  destruct (Z.eqb_spec v t) as [->|Hne]; cbn [negb when].
  { exists st. split; [reflexivity|]. split; [assumption|].
    split; [now rewrite Hl|]. split; [intros; now rewrite Hl|]. intros; lia. }
  set (I := fun (i : Z) (s : State) =>
    rd quads_tcCounter s = t + i
    /\ length (rd quads_texcoords s) = length l
    /\ (forall i', i' < 2 * t \/ 2 * (t + i) <= i' ->
          elt (rd quads_texcoords s) i' = elt l i')
    /\ (forall i', 2 * t <= i' < 2 * (t + i) ->
          elt (rd quads_texcoords s) i' = Some f32_0)).
  destruct (for_each_inv I 0 (v - t)
              (fun _ =>
                 t ← read quads_tcCounter;
                 store quads_texcoords (2 * t) f32_0;;
                 store quads_texcoords (2 * t + 1) f32_0;;
                 assign quads_tcCounter (t + 1)) st)
    as (st' & E & Ht' & Hlen' & Hout & Hin).
  - lia.
  - intros i s Hi (Hti & Hleni & Houti & Hini).
    destruct quads_texcoord_vars as [Haa Hna Hnn Han].
    set (a := rd quads_texcoords s) in *.
    set (a1 := <[Z.to_nat (2 * (t + i)) := f32_0]> a).
    set (a2 := <[Z.to_nat (2 * (t + i) + 1) := f32_0]> a1).
    assert (Hb : forall k, 0 <= k < 2 * (t + i) + 2 -> in_bounds a k = true).
    { intros k Hk. apply in_bounds_spec. lia. }
    exists (wr quads_tcCounter (t + i + 1)
              (wr quads_texcoords a2 (wr quads_texcoords a1 s))).
    split.
    { rewrite bind_read, Hti.
      rewrite bind_store by (apply Hb; lia). fold a a1.
      rewrite bind_store by (rewrite Haa; unfold a1; rewrite in_bounds_insert;
                             apply Hb; lia).
      rewrite Haa. fold a2. reflexivity. }
    unfold I. rewrite Hnn, Han, Haa. split; [lia|]. split.
    { unfold a2, a1. now rewrite !length_insert. }
    split.
    + intros i' Hi'. unfold a2, a1. rewrite !elt_insert_ne by lia.
      apply Houti. lia.
    + intros i' Hi'. unfold a2, a1.
      destruct (Z.eq_dec i' (2 * (t + i) + 1)) as [->|H1].
      { apply elt_insert_eq. rewrite in_bounds_insert. apply Hb. lia. }
      rewrite elt_insert_ne by lia.
      destruct (Z.eq_dec i' (2 * (t + i))) as [->|H0].
      { apply elt_insert_eq. apply Hb. lia. }
      rewrite elt_insert_ne by lia. apply Hini. lia.
  - unfold I. split; [cbn; lia|]. split; [cbn; now rewrite Hl|].
    split; [intros; cbn; now rewrite Hl|]. intros; lia.
  - exists st'. split; [assumption|]. split; [cbn in Ht'; lia|].
    split; [assumption|]. split.
    + intros i Hi. apply Hout. lia.
    + intros i Hi. apply Hin. lia.
Qed.

End Texcoords.

(** ** [rlEnd] when the temp buffer is not in use *)

(** [frame f E]: the observation [f] is the same before and after the run
    [E], once the computation is shown to keep it. *)
Ltac frame f E :=
  match type of E with
  | ?m ?s = Ret ?a ?s' => apply (keeps_Ret f m s a s'); [|exact E]
  end.

Lemma add_colors_keeps {B : Type} (f : State -> B) (vCounter cCounter : Var Z)
    (colors : Var (list byte)) :
  untouched f cCounter -> untouched f colors ->
  keeps f (add_colors vCounter cCounter colors).
Proof.
  intros Hc Ha. unfold add_colors, repeat_last_color. keeps_auto.
Qed.

Section End_.
Context `{cfg : Config} `{rm : Raymath}.

Lemma rlEnd_temp_off st :
  useTempBuffer st = false -> rlEnd_temp st = Ret tt st.
Proof.
  intros H. unfold rlEnd_temp. rewrite bind_read. cbn [rd v_useTempBuffer].
  now rewrite H.
Qed.

(** With vertices in the active buffer and no color at all, [rlEnd] reads
    before the start of the color array. *)
Lemma rlEnd_no_color st :
  useTempBuffer st = false ->
  active_cCounter st = 0 -> 0 < active_vCounter st ->
  rlEnd st = OutOfBounds st.
Proof.
  intros Ht Hc Hv. unfold rlEnd.
  rewrite (bind_Ret _ _ _ _ _ (rlEnd_temp_off st Ht)).
  apply bind_OutOfBounds. unfold rlEnd_counts. rewrite bind_read.
  unfold active_cCounter, active_vCounter in *. cbn [rd v_currentDrawMode].
  destruct (currentDrawMode st).
  - now apply add_colors_no_color.
  - now apply add_colors_no_color.
  - apply bind_OutOfBounds. now apply add_colors_no_color.
Qed.

Lemma add_colors_quads_returns st :
  quads_colors_ready st ->
  exists st',
    add_colors quads_vCounter quads_cCounter quads_colors st = Ret tt st'
    /\ PCTI.vCounter (quads st') = PCTI.vCounter (quads st)
    /\ PCTI.tcCounter (quads st') = PCTI.tcCounter (quads st)
    /\ PCTI.vertices (quads st') = PCTI.vertices (quads st)
    /\ PCTI.texcoords (quads st') = PCTI.texcoords (quads st)
    /\ currentDepth st' = currentDepth st.
Proof.
  intros Hready.
  assert (exists st', add_colors quads_vCounter quads_cCounter quads_colors st
                      = Ret tt st') as [st' E].
  { destruct Hready as [Hle|[Hc Hlen]].
    - exists st. now apply add_colors_skip.
    - destruct (Z.le_gt_cases (PCTI.vCounter (quads st))
                  (PCTI.cCounter (quads st))) as [Hle|Hgt].
      + exists st. now apply add_colors_skip.
      + destruct (add_colors_spec quads_cCounter quads_colors quads_color_vars
                    quads_vCounter st _ _ _ eq_refl eq_refl eq_refl)
          as (st' & E & _); [cbn; lia|cbn; lia|].
        now exists st'. }
  exists st'. split; [assumption|].
  repeat split.
  - frame (fun s => PCTI.vCounter (quads s)) E; apply add_colors_keeps; solve_untouched.
  - frame (fun s => PCTI.tcCounter (quads s)) E; apply add_colors_keeps; solve_untouched.
  - frame (fun s => PCTI.vertices (quads s)) E; apply add_colors_keeps; solve_untouched.
  - frame (fun s => PCTI.texcoords (quads s)) E; apply add_colors_keeps; solve_untouched.
  - frame currentDepth E; apply add_colors_keeps; solve_untouched.
Qed.

(** In quads mode, with less texcoords than vertices, [rlEnd] brings the
    texcoord count to the vertex count by storing [0.0f] in both
    components of every missing slot. *)
Lemma rlEnd_zero_fills_texcoords st v t :
  currentDrawMode st = RL_QUADS -> useTempBuffer st = false ->
  PCTI.vCounter (quads st) = v -> PCTI.tcCounter (quads st) = t ->
  0 <= t < v ->
  2 * v <= Z.of_nat (length (PCTI.texcoords (quads st))) ->
  quads_colors_ready st ->
  exists st',
    rlEnd st = Ret tt st'
    /\ PCTI.tcCounter (quads st') = v
    /\ PCTI.vCounter (quads st') = v
    /\ PCTI.vertices (quads st') = PCTI.vertices (quads st)
    /\ (forall i, 2 * t <= i < 2 * v ->
          elt (PCTI.texcoords (quads st')) i = Some f32_0)
    /\ (forall i, i < 2 * t ->
          elt (PCTI.texcoords (quads st')) i
          = elt (PCTI.texcoords (quads st)) i).
Proof.
  intros Hmode Htemp Hv Ht Htv Hlen Hready.
  destruct (add_colors_quads_returns st Hready)
    as (st1 & E1 & Hv1 & Ht1 & Hvs1 & Htex1 & _).
  destruct (add_texcoords_spec st1 v t (PCTI.texcoords (quads st)))
    as (st2 & E2 & Ht2 & Hlen2 & Hout2 & Hin2);
    [congruence|congruence|assumption|lia|assumption|].
  assert (Hv2 : PCTI.vCounter (quads st2) = PCTI.vCounter (quads st1)).
  { frame (fun s => PCTI.vCounter (quads s)) E2.
    unfold add_texcoords. keeps_auto. }
  assert (Hvs2 : PCTI.vertices (quads st2) = PCTI.vertices (quads st1)).
  { frame (fun s => PCTI.vertices (quads s)) E2.
    unfold add_texcoords. keeps_auto. }
  eexists. split.
  { unfold rlEnd. rewrite (bind_Ret _ _ _ _ _ (rlEnd_temp_off st Htemp)).
    unfold rlEnd_counts. rewrite bind_assoc, bind_read.
    cbn [rd v_currentDrawMode]. rewrite Hmode.
    rewrite bind_assoc, (bind_Ret _ _ _ _ _ E1), (bind_Ret _ _ _ _ _ E2).
    rewrite bind_read. reflexivity. }
  cbn. repeat split; try congruence.
  - intros i Hi. now apply Hin2.
  - intros i Hi. apply Hout2. lia.
Qed.

End End_.

Section EndColors.
Context `{cfg : Config} `{rm : Raymath}.

Lemma add_texcoords_skip st :
  PCTI.vCounter (quads st) <= PCTI.tcCounter (quads st) ->
  add_texcoords st = Ret tt st.
Proof.
  intros H. unfold add_texcoords. rewrite !bind_read. cbn [rd quads_vCounter quads_tcCounter].
  destruct (Z.eqb_spec (PCTI.vCounter (quads st)) (PCTI.tcCounter (quads st)))
    as [Hz|Hz]; cbn [negb when]; [reflexivity|].
  apply for_each_none. lia.
Qed.

Lemma add_texcoords_keeps {B : Type} (f : State -> B) :
  untouched f quads_tcCounter -> untouched f quads_texcoords ->
  keeps f add_texcoords.
Proof. intros H1 H2. unfold add_texcoords. keeps_auto. Qed.

Lemma add_texcoords_returns st :
  quads_texcoords_ready st -> exists st', add_texcoords st = Ret tt st'.
Proof.
  intros [Hle|[Ht Hlen]].
  - exists st. now apply add_texcoords_skip.
  - destruct (Z.le_gt_cases (PCTI.vCounter (quads st))
                (PCTI.tcCounter (quads st))) as [Hle|Hgt].
    + exists st. now apply add_texcoords_skip.
    + destruct (add_texcoords_spec st _ _ _ eq_refl eq_refl eq_refl)
        as (st' & E & _); [lia|lia|].
      now exists st'.
Qed.

(** With at least one color in the active buffer, less colors than
    vertices and room for the copies, [rlEnd] returns with one color per
    vertex: each added color is a copy of the last color that was there;
    the positions and the colors that were there are as before. *)
Lemma rlEnd_completes_colors st v c :
  useTempBuffer st = false ->
  active_vCounter st = v -> active_cCounter st = c ->
  1 <= c <= v ->
  4 * v <= Z.of_nat (length (active_colors st)) ->
  (currentDrawMode st = RL_QUADS -> quads_texcoords_ready st) ->
  exists st',
    rlEnd st = Ret tt st'
    /\ currentDrawMode st' = currentDrawMode st
    /\ active_cCounter st' = v
    /\ active_vCounter st' = v
    /\ active_vertices st' = active_vertices st
    /\ (forall j r, c <= j < v -> 0 <= r < 4 ->
          elt (active_colors st') (4 * j + r)
          = elt (active_colors st) (4 * (c - 1) + r))
    /\ (forall i, i < 4 * c ->
          elt (active_colors st') i = elt (active_colors st) i).
Proof.
  intros Htemp Hv Hc Hcv Hlen Htex.
  unfold active_vCounter, active_cCounter, active_colors, active_vertices in *.
  unfold rlEnd. rewrite (bind_Ret _ _ _ _ _ (rlEnd_temp_off st Htemp)).
  unfold rlEnd_counts. rewrite bind_assoc, bind_read.
  cbn [rd v_currentDrawMode].
  destruct (currentDrawMode st) eqn:Hmode.
  - destruct (add_colors_spec lines_cCounter lines_colors lines_color_vars
                lines_vCounter st v c _ Hv Hc eq_refl Hcv Hlen)
      as (st1 & E1 & Hc1 & _ & Hout & Hin).
    assert (Hm1 : currentDrawMode st1 = currentDrawMode st)
      by (frame currentDrawMode E1; apply add_colors_keeps; solve_untouched).
    assert (Hv1 : PC.vCounter (lines st1) = PC.vCounter (lines st))
      by (frame (fun s => PC.vCounter (lines s)) E1;
          apply add_colors_keeps; solve_untouched).
    assert (Hvs1 : PC.vertices (lines st1) = PC.vertices (lines st))
      by (frame (fun s => PC.vertices (lines s)) E1;
          apply add_colors_keeps; solve_untouched).
    eexists. split.
    { rewrite (bind_Ret _ _ _ _ _ E1), bind_read. reflexivity. }
    cbn. rewrite Hm1, Hmode. cbn in Hc1, Hout, Hin.
    repeat split; try congruence.
    + intros j r Hj Hr. now apply Hin.
    + intros i Hi. apply Hout. lia.
  - destruct (add_colors_spec triangles_cCounter triangles_colors
                triangles_color_vars triangles_vCounter st v c _ Hv Hc eq_refl
                Hcv Hlen)
      as (st1 & E1 & Hc1 & _ & Hout & Hin).
    assert (Hm1 : currentDrawMode st1 = currentDrawMode st)
      by (frame currentDrawMode E1; apply add_colors_keeps; solve_untouched).
    assert (Hv1 : PC.vCounter (triangles st1) = PC.vCounter (triangles st))
      by (frame (fun s => PC.vCounter (triangles s)) E1;
          apply add_colors_keeps; solve_untouched).
    assert (Hvs1 : PC.vertices (triangles st1) = PC.vertices (triangles st))
      by (frame (fun s => PC.vertices (triangles s)) E1;
          apply add_colors_keeps; solve_untouched).
    eexists. split.
    { rewrite (bind_Ret _ _ _ _ _ E1), bind_read. reflexivity. }
    cbn. rewrite Hm1, Hmode. cbn in Hc1, Hout, Hin.
    repeat split; try congruence.
    + intros j r Hj Hr. now apply Hin.
    + intros i Hi. apply Hout. lia.
  - destruct (add_colors_spec quads_cCounter quads_colors quads_color_vars
                quads_vCounter st v c _ Hv Hc eq_refl Hcv Hlen)
      as (st1 & E1 & Hc1 & _ & Hout & Hin).
    assert (Hm1 : currentDrawMode st1 = currentDrawMode st)
      by (frame currentDrawMode E1; apply add_colors_keeps; solve_untouched).
    assert (Hv1 : PCTI.vCounter (quads st1) = PCTI.vCounter (quads st))
      by (frame (fun s => PCTI.vCounter (quads s)) E1;
          apply add_colors_keeps; solve_untouched).
    assert (Hvs1 : PCTI.vertices (quads st1) = PCTI.vertices (quads st))
      by (frame (fun s => PCTI.vertices (quads s)) E1;
          apply add_colors_keeps; solve_untouched).
    assert (Ht1 : PCTI.tcCounter (quads st1) = PCTI.tcCounter (quads st))
      by (frame (fun s => PCTI.tcCounter (quads s)) E1;
          apply add_colors_keeps; solve_untouched).
    assert (Htx1 : PCTI.texcoords (quads st1) = PCTI.texcoords (quads st))
      by (frame (fun s => PCTI.texcoords (quads s)) E1;
          apply add_colors_keeps; solve_untouched).
    destruct (add_texcoords_returns st1) as [st2 E2].
    { unfold quads_texcoords_ready. rewrite Hv1, Ht1, Htx1.
      now apply Htex. }
    assert (Hm2 : currentDrawMode st2 = currentDrawMode st1)
      by (frame currentDrawMode E2; apply add_texcoords_keeps; solve_untouched).
    assert (Hv2 : PCTI.vCounter (quads st2) = PCTI.vCounter (quads st1))
      by (frame (fun s => PCTI.vCounter (quads s)) E2;
          apply add_texcoords_keeps; solve_untouched).
    assert (Hvs2 : PCTI.vertices (quads st2) = PCTI.vertices (quads st1))
      by (frame (fun s => PCTI.vertices (quads s)) E2;
          apply add_texcoords_keeps; solve_untouched).
    assert (Hc2 : PCTI.cCounter (quads st2) = PCTI.cCounter (quads st1))
      by (frame (fun s => PCTI.cCounter (quads s)) E2;
          apply add_texcoords_keeps; solve_untouched).
    assert (Hcs2 : PCTI.colors (quads st2) = PCTI.colors (quads st1))
      by (frame (fun s => PCTI.colors (quads s)) E2;
          apply add_texcoords_keeps; solve_untouched).
    eexists. split.
    { rewrite bind_assoc, (bind_Ret _ _ _ _ _ E1), (bind_Ret _ _ _ _ _ E2).
      rewrite bind_read. reflexivity. }
    cbn. rewrite Hm2, Hm1, Hmode. cbn in Hc1, Hout, Hin.
    repeat split; try congruence.
    + intros j r Hj Hr. rewrite Hcs2. now apply Hin.
    + intros i Hi. rewrite Hcs2. apply Hout. lia.
Qed.

End EndColors.

(** C2, where the code departs from it. A shape with vertices and no
    color, in a buffer that holds no color yet: [rlEnd] has to copy "the
    last color" and reads the four bytes before the start of the color
    array. The model reports the access; there is no default color. *)
Theorem C2_end_shape_without_color_reads_out_of_bounds `{Config} `{Raymath} st :
  useTempBuffer st = false ->
  active_cCounter st = 0 -> 0 < active_vCounter st ->
  rlEnd st = OutOfBounds st.
Proof. apply rlEnd_no_color. Qed.

(** Witness of C2: one vertex of a line and no color, after
    initialisation. *)
Lemma C2_witness :
  useTempBuffer example_line_no_color = false
  /\ active_cCounter example_line_no_color = 0
  /\ 0 < active_vCounter example_line_no_color
  /\ rlEnd example_line_no_color = OutOfBounds example_line_no_color.
Proof.
  split; [vm_compute; reflexivity|].
  split; [vm_compute; reflexivity|].
  split; [vm_compute; reflexivity|].
  apply (C2_end_shape_without_color_reads_out_of_bounds example_line_no_color);
    vm_compute; reflexivity.
Defined.

(** C3, as the code has it. For a quads shape with less texcoords than
    vertices when [rlEnd] is called (the temp buffer not in use, and the
    colors not stopping [rlEnd]), [rlEnd] returns with the texcoord count
    equal to the vertex count; both components of every missing slot are
    [0.0f], the texcoords that were there and the positions are as
    before. *)
Theorem C3_missing_texcoords_are_zero_filled `{Config} `{Raymath} st v t :
  currentDrawMode st = RL_QUADS -> useTempBuffer st = false ->
  PCTI.vCounter (quads st) = v -> PCTI.tcCounter (quads st) = t ->
  0 <= t < v ->
  2 * v <= Z.of_nat (length (PCTI.texcoords (quads st))) ->
  quads_colors_ready st ->
  exists st',
    rlEnd st = Ret tt st'
    /\ PCTI.tcCounter (quads st') = v
    /\ PCTI.vCounter (quads st') = v
    /\ PCTI.vertices (quads st') = PCTI.vertices (quads st)
    /\ (forall i, 2 * t <= i < 2 * v ->
          elt (PCTI.texcoords (quads st')) i = Some f32_0)
    /\ (forall i, i < 2 * t ->
          elt (PCTI.texcoords (quads st')) i
          = elt (PCTI.texcoords (quads st)) i).
Proof. apply rlEnd_zero_fills_texcoords. Qed.

(** Witness of C3: a quad with one texcoord and two vertices. *)
Lemma C3_witness :
  exists st',
    rlEnd example_quads_open = Ret tt st'
    /\ PCTI.tcCounter (quads st') = 2
    /\ PCTI.vCounter (quads st') = 2
    /\ PCTI.vertices (quads st') = PCTI.vertices (quads example_quads_open)
    /\ (forall i, 2 * 1 <= i < 2 * 2 ->
          elt (PCTI.texcoords (quads st')) i = Some f32_0)
    /\ (forall i, i < 2 * 1 ->
          elt (PCTI.texcoords (quads st')) i
          = elt (PCTI.texcoords (quads example_quads_open)) i).
Proof.
  apply (C3_missing_texcoords_are_zero_filled example_quads_open 2 1).
  - vm_compute; reflexivity.
  - vm_compute; reflexivity.
  - vm_compute; reflexivity.
  - vm_compute; reflexivity.
  - lia.
  - vm_compute; discriminate.
  - right. split; vm_compute; discriminate.
Defined.

(** C3 as stated fails: the last texcoord written is (1, 1), one slot is
    missing when [rlEnd] is called, and the slot is completed with
    (0, 0), not with a copy of (1, 1). *)
Lemma C3_counterexample :
  currentDrawMode example_quads_open = RL_QUADS
  /\ PCTI.tcCounter (quads example_quads_open) = 1
  /\ PCTI.vCounter (quads example_quads_open) = 2
  /\ elt (PCTI.texcoords (quads example_quads_open)) 0 = Some f32_1
  /\ elt (PCTI.texcoords (quads example_quads_open)) 1 = Some f32_1
  /\ exists st',
       rlEnd example_quads_open = Ret tt st'
       /\ PCTI.tcCounter (quads st') = 2
       /\ elt (PCTI.texcoords (quads st')) 2 = Some f32_0
       /\ elt (PCTI.texcoords (quads st')) 3 = Some f32_0
       /\ elt (PCTI.texcoords (quads st')) 2
          <> elt (PCTI.texcoords (quads example_quads_open)) 0.
Proof.
  repeat (split; [vm_compute; reflexivity|]).
  exists (final_state (rlEnd example_quads_open)).
  repeat (split; [vm_compute; reflexivity|]).
  vm_compute. discriminate.
Qed.

(** ** The ledger as a list *)

Lemma setActiveTexture_snoc handle init cur :
  setActiveTexture handle (init ++ [cur]) =
    if DrawCall.textureId cur =? handle then init ++ [cur]
    else if DrawCall.vertexCount cur =? 0
         then init ++ [set_textureId handle cur]
         else init ++ [cur; DrawCall.mk handle 0].
Proof.
  unfold setActiveTexture. rewrite last_snoc, removelast_last.
  repeat case_match; try reflexivity. now rewrite <- app_assoc.
Qed.

Lemma countQuadVertex_snoc init cur :
  countQuadVertex (init ++ [cur]) =
    init ++ [set_vertexCount (DrawCall.vertexCount cur + 1) cur].
Proof. unfold countQuadVertex. now rewrite last_snoc, removelast_last. Qed.

Lemma ledger_total_app l1 l2 :
  ledger_total (l1 ++ l2) = ledger_total l1 + ledger_total l2.
Proof.
  unfold ledger_total. induction l1 as [|d l1 IH]; cbn; [reflexivity|].
  rewrite IH. lia.
Qed.

Lemma neighbours_differ_snoc l d :
  neighbours_differ (l ++ [d]) <->
  neighbours_differ l
  /\ (forall p, last l = Some p -> DrawCall.textureId p <> DrawCall.textureId d).
Proof.
  induction l as [|a l IH].
  - cbn. split; [intros _; split; [exact I|intros p Hp; discriminate]|auto].
  - destruct l as [|b l].
    + cbn. split.
      * intros [H _]. split; [auto|]. intros p [= <-]. exact H.
      * intros [_ H]. split; [apply H; reflexivity|auto].
    + change ((a :: b :: l) ++ [d]) with (a :: (b :: l) ++ [d]).
      change (neighbours_differ (a :: (b :: l) ++ [d]))
        with (DrawCall.textureId a <> DrawCall.textureId b
              /\ neighbours_differ ((b :: l) ++ [d])).
      change (neighbours_differ (a :: b :: l))
        with (DrawCall.textureId a <> DrawCall.textureId b
              /\ neighbours_differ (b :: l)).
      change (last (a :: b :: l)) with (last (b :: l)).
      rewrite IH. tauto.
Qed.

(** What a sequence of bindings and quad vertices does to a ledger with
    a current entry: the total grows by the number of vertices, every
    entry but the last has vertices, the ledger grows by at most one entry
    per binding, and neighbours differ as long as no binding re-selects
    the texture before an empty current entry. *)
Lemma ledger_after_props cs :
  forall init cur,
    0 <= DrawCall.vertexCount cur ->
    Forall (fun d => 0 < DrawCall.vertexCount d) init ->
    let l := init ++ [cur] in
    let l' := ledger_after cs l in
    ledger_total l' = ledger_total l + quad_vertices cs
    /\ closed_entries_nonempty l'
    /\ (exists init' cur', l' = init' ++ [cur'] /\ 0 <= DrawCall.vertexCount cur')
    /\ Z.of_nat (length l') <= Z.of_nat (length l) + bindings cs
    /\ (neighbours_differ l -> no_rebind_previous cs l -> neighbours_differ l').
Proof.
  induction cs as [|c cs IH]; intros init cur Hcur Hinit l l'.
  - subst l l'. cbn [ledger_after no_rebind_previous].
    change (quad_vertices []) with 0. change (bindings []) with 0.
    split; [lia|].
    split; [unfold closed_entries_nonempty; now rewrite removelast_last|].
    split; [eauto|]. split; [lia|auto].
  - destruct c as [handle|x y z].
    + assert (Hb : bindings (bind_texture handle :: cs) = bindings cs + 1).
      { unfold bindings. rewrite filter_cons_True by reflexivity. cbn [length]. lia. }
      assert (Hq : quad_vertices (bind_texture handle :: cs) = quad_vertices cs).
      { unfold quad_vertices. now rewrite filter_cons_False by discriminate. }
      subst l l'. cbn [ledger_after no_rebind_previous]. rewrite Hb, Hq.
      unfold rebinds_previous. rewrite last_snoc, removelast_last.
      rewrite setActiveTexture_snoc.
      destruct (Z.eqb_spec (DrawCall.textureId cur) handle) as [Ht|Ht].
      { destruct (IH init cur Hcur Hinit) as (H1 & H2 & H3 & H4 & H5).
        repeat split; try assumption; try lia. intros Hn [_ Hr]. auto. }
      destruct (Z.eqb_spec (DrawCall.vertexCount cur) 0) as [Hz|Hz].
      * destruct (IH init (set_textureId handle cur)) as (H1 & H2 & H3 & H4 & H5);
          [cbn; lia|assumption|].
        rewrite !ledger_total_app in *. cbn in H1 |- *.
        rewrite !length_app in *. cbn [length] in *.
        repeat split; try assumption; try lia.
        intros Hn [Hreb Hr]. apply H5; [|assumption].
        apply neighbours_differ_snoc in Hn as [Hn _].
        apply neighbours_differ_snoc. split; [assumption|].
        intros p Hp. rewrite Hp in Hreb. cbn.
        destruct (Z.eqb_spec (DrawCall.textureId p) handle); [discriminate|assumption].
      * change (init ++ [cur; DrawCall.mk handle 0])
          with (init ++ [cur] ++ [DrawCall.mk handle 0]).
        rewrite app_assoc.
        destruct (IH (init ++ [cur]) (DrawCall.mk handle 0))
          as (H1 & H2 & H3 & H4 & H5).
        { cbn; lia. }
        { apply Forall_app. split; [assumption|].
          apply Forall_singleton. lia. }
        rewrite !ledger_total_app in *. cbn in H1 |- *.
        rewrite !length_app in *. cbn [length] in *.
        repeat split; try assumption; try lia.
        intros Hn [_ Hr]. apply H5; [|assumption].
        apply neighbours_differ_snoc. split; [assumption|].
        intros p Hp. rewrite last_snoc in Hp. injection Hp as <-. exact Ht.
    + assert (Hb : bindings (quad_vertex x y z :: cs) = bindings cs).
      { unfold bindings. now rewrite filter_cons_False by discriminate. }
      assert (Hq : quad_vertices (quad_vertex x y z :: cs) = quad_vertices cs + 1).
      { unfold quad_vertices. rewrite filter_cons_True by reflexivity. cbn [length]. lia. }
      subst l l'. cbn [ledger_after no_rebind_previous]. rewrite Hb, Hq.
      rewrite countQuadVertex_snoc.
      destruct (IH init (set_vertexCount (DrawCall.vertexCount cur + 1) cur))
        as (H1 & H2 & H3 & H4 & H5); [cbn; lia|assumption|].
      rewrite !ledger_total_app in *. cbn in H1 |- *.
      rewrite !length_app in *. cbn [length] in *.
      repeat split; try assumption; try lia.
      intros Hn Hr. apply H5; [|assumption].
      apply neighbours_differ_snoc in Hn as [Hn Hp].
      apply neighbours_differ_snoc. split; [assumption|]. exact Hp.
Qed.

(** ** The ledger in the state *)

Lemma ledger_snoc st cur :
  elt (draws st) (drawsCounter st - 1) = Some cur ->
  ledger st = take (Z.to_nat (drawsCounter st - 1)) (draws st) ++ [cur].
Proof.
  unfold elt, ledger. destruct (Z.leb_spec 0 (drawsCounter st - 1)) as [Hn|Hn];
    [|discriminate].
  intros H. replace (Z.to_nat (drawsCounter st)) with (S (Z.to_nat (drawsCounter st - 1))) by lia.
  now apply take_S_r.
Qed.

Lemma take_insert_snoc {A : Type} (a : list A) (n : nat) (x : A) :
  (n < length a)%nat -> take (S n) (<[n := x]> a) = take n a ++ [x].
Proof.
  intros Hn. rewrite (take_S_r _ _ x) by now apply list_lookup_insert_eq.
  now rewrite take_insert_ge by lia.
Qed.

Section Ledger.
Context `{cfg : Config} `{rm : Raymath}.

(** [rlEnableTexture] does to the ledger what [setActiveTexture] says,
    as long as the result fits in [draws]. *)
Lemma rlEnableTexture_spec id st :
  ledger_ok st ->
  Z.of_nat (length (setActiveTexture id (ledger st)))
    <= Z.of_nat (length (draws st)) ->
  exists st',
    rlEnableTexture id st = Ret tt st'
    /\ ledger st' = setActiveTexture id (ledger st)
    /\ ledger_ok st'
    /\ length (draws st') = length (draws st)
    /\ drawsCounter st' = Z.of_nat (length (ledger st'))
    /\ same_but_ledger st st'.
Proof.
  intros (cur & Hcur & Hcount) Hroom.
  pose proof (ledger_snoc st cur Hcur) as Hl.
  pose proof (elt_Some_in_bounds _ _ _ Hcur) as Hb.
  apply in_bounds_spec in Hb.
  set (n := drawsCounter st) in *. set (a := draws st) in *.
  assert (Hlen : Z.of_nat (length (ledger st)) = n).
  { unfold ledger. fold n a. rewrite length_take. lia. }
  rewrite Hl, setActiveTexture_snoc in Hroom |- *.
  unfold rlEnableTexture. rewrite bind_read. cbn [rd v_drawsCounter]. fold n.
  rewrite (bind_load _ _ cur) by exact Hcur.
  destruct (Z.eqb_spec (DrawCall.textureId cur) id) as [Ht|Ht]; cbn [negb when].
  { exists st. split; [reflexivity|]. split; [exact Hl|].
    split; [exists cur; auto|]. split; [reflexivity|].
    split; [fold n; lia|]. unfold same_but_ledger. now destruct st. }
  destruct (Z.ltb_spec 0 (DrawCall.vertexCount cur)) as [Hpos|Hzero];
    cbn [when].
  - (* a new entry *)
    destruct (Z.eqb_spec (DrawCall.vertexCount cur) 0) as [Hz|Hz]; [lia|].
    rewrite length_app, length_take in Hroom. cbn [length] in Hroom.
    assert (Hn : n < Z.of_nat (length a)) by lia.
    destruct (in_bounds_elt a n) as [d Hd]; [apply in_bounds_spec; lia|].
    set (a1 := <[Z.to_nat n := set_textureId id d]> a).
    set (a2 := <[Z.to_nat n := set_vertexCount 0 (set_textureId id d)]> a1).
    exists (wr v_draws a2 (wr v_draws a1 (wr v_drawsCounter (n + 1) st))).
    split.
    { rewrite bind_assign, bind_read. cbn [rd wr v_drawsCounter v_draws].
      cbn [drawsCounter set_drawsCounter].
      replace (n + 1 - 1) with n by lia.
      rewrite (bind_load _ _ d) by exact Hd.
      rewrite bind_store by (apply in_bounds_spec; cbn; fold a; lia).
      cbn [rd wr v_draws draws set_drawsCounter]. fold a a1.
      rewrite (bind_load _ _ (set_textureId id d))
        by (cbn; apply elt_insert_eq; apply in_bounds_spec; fold a; lia).
      rewrite store_Ret by (cbn; unfold a1; rewrite in_bounds_insert;
                            apply in_bounds_spec; fold a; lia).
      reflexivity. }
    assert (Hl' : ledger (wr v_draws a2 (wr v_draws a1 (wr v_drawsCounter (n + 1) st)))
                  = (take (Z.to_nat (n - 1)) a ++ [cur]) ++ [DrawCall.mk id 0]).
    { unfold ledger. cbn. unfold a2.
      replace (Z.to_nat (n + 1)) with (S (Z.to_nat n)) by lia.
      rewrite take_insert_snoc by (unfold a1; rewrite length_insert; lia).
      unfold a1. rewrite take_insert_ge by lia.
      f_equal. rewrite <- Hl. reflexivity. }
    split; [rewrite Hl', <- app_assoc; reflexivity|].
    split.
    { exists (DrawCall.mk id 0). split; [|cbn; lia]. cbn.
      replace (n + 1 - 1) with n by lia. unfold a2.
      apply elt_insert_eq. unfold a1. rewrite in_bounds_insert.
      apply in_bounds_spec. lia. }
    split; [cbn; unfold a2, a1; now rewrite !length_insert|].
    split.
    { rewrite Hl', !length_app, length_take. cbn. lia. }
    unfold same_but_ledger. now destruct st.
  - (* the empty entry is reused *)
    assert (Hz : DrawCall.vertexCount cur = 0) by lia.
    destruct (Z.eqb_spec (DrawCall.vertexCount cur) 0) as [_|Hnz]; [|lia].
    set (a1 := <[Z.to_nat (n - 1) := set_textureId id cur]> a).
    set (a2 := <[Z.to_nat (n - 1) := set_vertexCount 0 (set_textureId id cur)]> a1).
    exists (wr v_draws a2 (wr v_draws a1 st)).
    split.
    { rewrite bind_Ret with (a := tt) (st' := st) by reflexivity.
      rewrite bind_read. cbn [rd v_drawsCounter]. fold n.
      rewrite (bind_load _ _ cur) by exact Hcur.
      rewrite bind_store by (apply in_bounds_spec; cbn; fold a; lia).
      cbn [rd wr v_draws draws]. fold a a1.
      rewrite (bind_load _ _ (set_textureId id cur))
        by (cbn; apply elt_insert_eq; apply in_bounds_spec; fold a; lia).
      rewrite store_Ret by (cbn; unfold a1; rewrite in_bounds_insert;
                            apply in_bounds_spec; fold a; lia).
      reflexivity. }
    assert (Hl' : ledger (wr v_draws a2 (wr v_draws a1 st))
                  = take (Z.to_nat (n - 1)) a ++ [set_textureId id cur]).
    { unfold ledger. cbn. fold n. unfold a2.
      replace (Z.to_nat n) with (S (Z.to_nat (n - 1))) by lia.
      rewrite take_insert_snoc by (unfold a1; rewrite length_insert; lia).
      unfold a1. rewrite take_insert_ge by lia.
      f_equal. unfold set_vertexCount, set_textureId. cbn. now rewrite Hz. }
    split; [exact Hl'|].
    split.
    { exists (set_vertexCount 0 (set_textureId id cur)). split; [|cbn; lia].
      cbn. fold n. unfold a2. apply elt_insert_eq. unfold a1.
      rewrite in_bounds_insert. apply in_bounds_spec. lia. }
    split; [cbn; unfold a2, a1; now rewrite !length_insert|].
    split.
    { rewrite Hl', length_app, length_take. cbn. fold n. lia. }
    unfold same_but_ledger. now destruct st.
Qed.

End Ledger.

(** ** A vertex that is accepted *)

Section Accept.
Context `{cfg : Config} `{rm : Raymath}.

Lemma rlVertex3f_off x y z st :
  useTempBuffer st = false -> rlVertex3f x y z st = rlVertex3f_batch x y z st.
Proof.
  intros H. unfold rlVertex3f. rewrite bind_read. cbn [rd v_useTempBuffer].
  now rewrite H.
Qed.

Lemma put_position_length x y z v a :
  length (put_position x y z v a) = length a.
Proof. unfold put_position. now rewrite !length_insert. Qed.

(** The three stores of a position and the increment of the counter. *)
Lemma store_position (vCounter : Var Z) (vertices : Var (list float))
    (Hvars : distinct_vars vCounter vertices) x y z v st :
  0 <= v -> 3 * v + 3 <= Z.of_nat (length (rd vertices st)) ->
  (store vertices (3 * v) x;;
   store vertices (3 * v + 1) y;;
   store vertices (3 * v + 2) z;;
   assign vCounter (v + 1)) st
  = Ret tt (wr vCounter (v + 1)
              (wr vertices (put_position x y z v (rd vertices st))
                 (wr vertices
                    (<[Z.to_nat (3 * v + 1) := y]>
                       (<[Z.to_nat (3 * v) := x]> (rd vertices st)))
                    (wr vertices (<[Z.to_nat (3 * v) := x]> (rd vertices st))
                       st)))).
Proof.
  intros Hv Hlen. destruct Hvars as [Haa Hna Hnn Han].
  rewrite bind_store by (apply in_bounds_spec; lia).
  rewrite bind_store
    by (rewrite Haa, in_bounds_insert; apply in_bounds_spec; lia).
  rewrite Haa.
  rewrite bind_store
    by (rewrite Haa, !in_bounds_insert; apply in_bounds_spec; lia).
  rewrite Haa. reflexivity.
Qed.

(** The same, followed by more. *)
Lemma store_position_then (vCounter : Var Z) (vertices : Var (list float))
    (Hvars : distinct_vars vCounter vertices) {B : Type} (k : unit -> M B)
    x y z v st :
  0 <= v -> 3 * v + 3 <= Z.of_nat (length (rd vertices st)) ->
  (store vertices (3 * v) x;;
   store vertices (3 * v + 1) y;;
   store vertices (3 * v + 2) z;;
   assign vCounter (v + 1) ≫= k) st
  = k tt (wr vCounter (v + 1)
            (wr vertices (put_position x y z v (rd vertices st))
               (wr vertices
                  (<[Z.to_nat (3 * v + 1) := y]>
                     (<[Z.to_nat (3 * v) := x]> (rd vertices st)))
                  (wr vertices (<[Z.to_nat (3 * v) := x]> (rd vertices st))
                     st)))).
Proof.
  intros Hv Hlen. destruct Hvars as [Haa Hna Hnn Han].
  rewrite bind_store by (apply in_bounds_spec; lia).
  rewrite bind_store
    by (rewrite Haa, in_bounds_insert; apply in_bounds_spec; lia).
  rewrite Haa.
  rewrite bind_store
    by (rewrite Haa, !in_bounds_insert; apply in_bounds_spec; lia).
  rewrite Haa. reflexivity.
Qed.

Lemma lines_vertex_vars : distinct_vars lines_vCounter lines_vertices.
Proof. split; reflexivity. Qed.

Lemma triangles_vertex_vars : distinct_vars triangles_vCounter triangles_vertices.
Proof. split; reflexivity. Qed.

Lemma quads_vertex_vars : distinct_vars quads_vCounter quads_vertices.
Proof. split; reflexivity. Qed.

(** With the temp buffer not in use and room in the active buffer (and,
    for quads, a current entry in the ledger), [rlVertex3f] returns: the
    position is stored after the ones that were there, the vertex count
    of the buffer grows by one and, for quads, so does the count of the
    current ledger entry. *)
Lemma rlVertex3f_accept x y z st v :
  useTempBuffer st = false ->
  active_vCounter st = v -> 0 <= v ->
  v ÷ vertices_per (currentDrawMode st) < batch_limit (currentDrawMode st) ->
  3 * v + 3 <= Z.of_nat (length (active_vertices st)) ->
  (currentDrawMode st = RL_QUADS -> ledger_ok st) ->
  exists st',
    rlVertex3f x y z st = Ret tt st'
    /\ currentDrawMode st' = currentDrawMode st
    /\ active_vCounter st' = v + 1
    /\ active_vertices st' = put_position x y z v (active_vertices st)
    /\ (currentDrawMode st = RL_QUADS ->
        ledger st' = countQuadVertex (ledger st)
        /\ ledger_ok st'
        /\ drawsCounter st' = drawsCounter st
        /\ length (draws st') = length (draws st)).
Proof.
  intros Htemp Hv Hv0 Hroom Hlen Hledger.
  rewrite (rlVertex3f_off x y z st Htemp).
  unfold active_vCounter, active_vertices in *.
  unfold rlVertex3f_batch. rewrite bind_read. cbn [rd v_currentDrawMode].
  destruct (currentDrawMode st) eqn:Hmode; cbn [vertices_per batch_limit] in Hroom.
  - rewrite bind_read. cbn [rd lines_vCounter]. rewrite Hv.
    destruct (Z.ltb_spec (v ÷ 2) MAX_LINES_BATCH) as [_|Hge]; [|lia].
    eexists. split.
    { now rewrite (store_position _ _ lines_vertex_vars) by assumption. }
    cbn. rewrite Hmode. repeat split; discriminate.
  - rewrite bind_read. cbn [rd triangles_vCounter]. rewrite Hv.
    destruct (Z.ltb_spec (v ÷ 3) MAX_TRIANGLES_BATCH) as [_|Hge]; [|lia].
    eexists. split.
    { now rewrite (store_position _ _ triangles_vertex_vars) by assumption. }
    cbn. rewrite Hmode. repeat split; discriminate.
  - rewrite bind_read. cbn [rd quads_vCounter]. rewrite Hv.
    destruct (Z.ltb_spec (v ÷ 4) MAX_QUADS_BATCH) as [_|Hge]; [|lia].
    destruct (Hledger eq_refl) as (cur & Hcur & Hcount).
    pose proof (ledger_snoc st cur Hcur) as Hl.
    pose proof (elt_Some_in_bounds _ _ _ Hcur) as Hb.
    eexists. split.
    { rewrite (store_position_then _ _ quads_vertex_vars) by assumption.
      rewrite bind_read. cbn [rd wr v_drawsCounter quads_vCounter quads_vertices].
      cbn [drawsCounter set_quads].
      rewrite (bind_load _ _ cur) by exact Hcur.
      rewrite store_Ret by exact Hb. reflexivity. }
    cbn. rewrite Hmode. repeat split.
    + rewrite Hl, countQuadVertex_snoc. unfold ledger. cbn.
      apply in_bounds_spec in Hb.
      replace (Z.to_nat (drawsCounter st))
        with (S (Z.to_nat (drawsCounter st - 1))) by lia.
      now rewrite take_insert_snoc by lia.
    + exists (set_vertexCount (DrawCall.vertexCount cur + 1) cur).
      split; [|cbn; lia]. cbn. now apply elt_insert_eq.
    + now rewrite length_insert.
Qed.

End Accept.

(** ** Sequences of bindings and quad vertices *)

Lemma setActiveTexture_length handle l :
  (length (setActiveTexture handle l) <= length l + 1)%nat.
Proof.
  destruct l as [|d l] using rev_ind; [cbn; lia|].
  rewrite setActiveTexture_snoc. repeat case_match; rewrite !length_app; cbn; lia.
Qed.

Section Sequences.
Context `{cfg : Config} `{rm : Raymath}.

Lemma rlVertex3f_keeps_useTempBuffer x y z :
  keeps useTempBuffer (rlVertex3f x y z).
Proof. unfold rlVertex3f. keeps_auto. Qed.

Lemma quads_batch_start_open st :
  quads_batch_start st -> quads_batch_open st.
Proof.
  intros (Hm & Ht & Hv & Hlen & Hd & Hn & texture & Hl).
  repeat split; try assumption; [lia|rewrite Hl, Hn; reflexivity|].
  exists (DrawCall.mk texture 0). split; [|cbn; lia].
  unfold ledger in Hl. rewrite Hn in Hl. unfold elt. rewrite Hn. cbn.
  destruct (draws st) as [|d ds]; [discriminate|].
  change (Z.to_nat 1) with 1%nat in Hl. change (1 - 1) with 0.
  change (Z.to_nat 0) with 0%nat. cbn in Hl |- *. congruence.
Qed.

(** The code follows the ledger as a list, call after call, as long as
    the quads buffer and the array of draw calls have room. *)
Lemma ledger_run_spec cs :
  forall st,
    quads_batch_open st ->
    PCTI.vCounter (quads st) + quad_vertices cs <= 4 * MAX_QUADS_BATCH ->
    Z.of_nat (length (ledger st)) + bindings cs <= MAX_DRAWS_BY_TEXTURE ->
    exists st',
      ledger_run cs st = Ret tt st'
      /\ quads_batch_open st'
      /\ ledger st' = ledger_after cs (ledger st)
      /\ PCTI.vCounter (quads st') = PCTI.vCounter (quads st) + quad_vertices cs.
Proof.
  induction cs as [|c cs IH]; intros st Hopen Hv Hb.
  - exists st. cbn. change (quad_vertices []) with 0.
    repeat split; try apply Hopen; lia.
  - destruct Hopen as (Hm & Ht & Hv0 & Hlen & Hd & Hn & Hok).
    destruct c as [handle|x y z]; cbn [ledger_run ledger_call ledger_after].
    + assert (Hbc : bindings (bind_texture handle :: cs) = bindings cs + 1).
      { unfold bindings. rewrite filter_cons_True by reflexivity. cbn [length]. lia. }
      assert (Hqc : quad_vertices (bind_texture handle :: cs) = quad_vertices cs).
      { unfold quad_vertices. now rewrite filter_cons_False by discriminate. }
      rewrite Hbc in Hb. rewrite Hqc in Hv |- *.
      pose proof (setActiveTexture_length handle (ledger st)) as Hgrow.
      assert (Hb0 : 0 <= bindings cs) by (unfold bindings; lia).
      destruct (rlEnableTexture_spec handle st Hok)
        as (st1 & E1 & Hl1 & Hok1 & Hd1 & Hn1 & Hsame); [lia|].
      assert (Hq1 : quads st1 = quads st) by (rewrite Hsame; reflexivity).
      destruct (IH st1) as (st' & E & Hopen' & Hl' & Hv').
      { repeat split; try assumption.
        - rewrite Hsame; exact Hm.
        - rewrite Hsame; exact Ht.
        - now rewrite Hq1.
        - now rewrite Hq1.
        - now rewrite Hd1. }
      { now rewrite Hq1. }
      { rewrite Hl1. lia. }
      exists st'. split; [now rewrite (bind_Ret _ _ _ _ _ E1)|].
      split; [assumption|]. split; [now rewrite Hl', Hl1|].
      now rewrite Hv', Hq1.
    + assert (Hbc : bindings (quad_vertex x y z :: cs) = bindings cs).
      { unfold bindings. now rewrite filter_cons_False by discriminate. }
      assert (Hqc : quad_vertices (quad_vertex x y z :: cs) = quad_vertices cs + 1).
      { unfold quad_vertices. rewrite filter_cons_True by reflexivity. cbn [length]. lia. }
      rewrite Hbc in Hb. rewrite Hqc in Hv |- *.
      assert (Hq0 : 0 <= quad_vertices cs) by (unfold quad_vertices; lia).
      destruct (rlVertex3f_accept x y z st (PCTI.vCounter (quads st)))
        as (st1 & E1 & Hm1 & Hv1 & Hvs1 & Hled).
      { assumption. }
      { unfold active_vCounter. now rewrite Hm. }
      { assumption. }
      { rewrite Hm. cbn. apply Z.quot_lt_upper_bound; lia. }
      { unfold active_vertices. rewrite Hm. lia. }
      { intros _. assumption. }
      destruct (Hled Hm) as (Hl1 & Hok1 & Hn1 & Hd1).
      rewrite Hm in Hm1.
      unfold active_vCounter in Hv1. unfold active_vertices in Hvs1.
      rewrite Hm1 in Hv1, Hvs1. rewrite Hm in Hvs1.
      assert (Ht1 : useTempBuffer st1 = false).
      { rewrite <- Ht. frame useTempBuffer E1.
        apply rlVertex3f_keeps_useTempBuffer. }
      assert (Hlen1 : length (ledger st1) = length (ledger st)).
      { unfold ledger. rewrite !length_take, Hn1, Hd1. reflexivity. }
      destruct (IH st1) as (st' & E & Hopen' & Hl' & Hv').
      { repeat split; try assumption.
        - lia.
        - rewrite Hvs1, put_position_length. assumption.
        - now rewrite Hd1.
        - now rewrite Hn1, Hlen1. }
      { lia. }
      { rewrite Hlen1. lia. }
      exists st'. split; [now rewrite (bind_Ret _ _ _ _ _ E1)|].
      split; [assumption|]. split; [now rewrite Hl', Hl1|]. lia.
Qed.

End Sequences.

(** ** Sequences within the capacity of the ledger *)

Lemma setActiveTexture_grows handle l :
  (length l <= length (setActiveTexture handle l))%nat.
Proof.
  destruct l as [|d l _] using rev_ind; [cbn; lia|].
  rewrite setActiveTexture_snoc. repeat case_match; rewrite !length_app; cbn; lia.
Qed.

Lemma countQuadVertex_length l : length (countQuadVertex l) = length l.
Proof.
  destruct l as [|d l _] using rev_ind; [reflexivity|].
  rewrite countQuadVertex_snoc, !length_app. reflexivity.
Qed.

(** The ledger never shrinks between two flushes. *)
Lemma ledger_after_grows cs l :
  (length l <= length (ledger_after cs l))%nat.
Proof.
  revert l. induction cs as [|[handle|x y z] cs IH]; intros l;
    cbn [ledger_after]; [lia| |].
  - pose proof (setActiveTexture_grows handle l).
    pose proof (IH (setActiveTexture handle l)). lia.
  - pose proof (IH (countQuadVertex l)).
    rewrite countQuadVertex_length in *. lia.
Qed.

Section Within.
Context `{cfg : Config} `{rm : Raymath}.

(** The code follows the ledger as a list, call after call, as long as
    the vertices fit in the quads buffer and the entries of the ledger in
    the array of draw calls, however many bindings are made. *)
Lemma ledger_run_within cs :
  forall st,
    quads_batch_open st ->
    PCTI.vCounter (quads st) + quad_vertices cs <= 4 * MAX_QUADS_BATCH ->
    Z.of_nat (length (ledger_after cs (ledger st))) <= MAX_DRAWS_BY_TEXTURE ->
    exists st',
      ledger_run cs st = Ret tt st'
      /\ quads_batch_open st'
      /\ ledger st' = ledger_after cs (ledger st)
      /\ PCTI.vCounter (quads st') = PCTI.vCounter (quads st) + quad_vertices cs.
Proof.
  induction cs as [|c cs IH]; intros st Hopen Hv Hb.
  - exists st. cbn. change (quad_vertices []) with 0.
    repeat split; try apply Hopen; lia.
  - destruct Hopen as (Hm & Ht & Hv0 & Hlen & Hd & Hn & Hok).
    destruct c as [handle|x y z]; cbn [ledger_run ledger_call ledger_after] in *.
    + assert (Hqc : quad_vertices (bind_texture handle :: cs) = quad_vertices cs).
      { unfold quad_vertices. now rewrite filter_cons_False by discriminate. }
      rewrite Hqc in Hv |- *.
      pose proof (ledger_after_grows cs (setActiveTexture handle (ledger st)))
        as Hgrow.
      destruct (rlEnableTexture_spec handle st Hok)
        as (st1 & E1 & Hl1 & Hok1 & Hd1 & Hn1 & Hsame); [lia|].
      assert (Hq1 : quads st1 = quads st) by (rewrite Hsame; reflexivity).
      destruct (IH st1) as (st' & E & Hopen' & Hl' & Hv').
      { repeat split; try assumption.
        - rewrite Hsame; exact Hm.
        - rewrite Hsame; exact Ht.
        - now rewrite Hq1.
        - now rewrite Hq1.
        - now rewrite Hd1. }
      { now rewrite Hq1. }
      { now rewrite Hl1. }
      exists st'. split; [now rewrite (bind_Ret _ _ _ _ _ E1)|].
      split; [assumption|]. split; [now rewrite Hl', Hl1|].
      now rewrite Hv', Hq1.
    + assert (Hqc : quad_vertices (quad_vertex x y z :: cs) = quad_vertices cs + 1).
      { unfold quad_vertices. rewrite filter_cons_True by reflexivity. cbn [length]. lia. }
      rewrite Hqc in Hv |- *.
      assert (Hq0 : 0 <= quad_vertices cs) by (unfold quad_vertices; lia).
      destruct (rlVertex3f_accept x y z st (PCTI.vCounter (quads st)))
        as (st1 & E1 & Hm1 & Hv1 & Hvs1 & Hled).
      { assumption. }
      { unfold active_vCounter. now rewrite Hm. }
      { assumption. }
      { rewrite Hm. cbn. apply Z.quot_lt_upper_bound; lia. }
      { unfold active_vertices. rewrite Hm. lia. }
      { intros _. assumption. }
      destruct (Hled Hm) as (Hl1 & Hok1 & Hn1 & Hd1).
      rewrite Hm in Hm1.
      unfold active_vCounter in Hv1. unfold active_vertices in Hvs1.
      rewrite Hm1 in Hv1, Hvs1. rewrite Hm in Hvs1.
      assert (Ht1 : useTempBuffer st1 = false).
      { rewrite <- Ht. frame useTempBuffer E1.
        apply rlVertex3f_keeps_useTempBuffer. }
      assert (Hlen1 : length (ledger st1) = length (ledger st)).
      { unfold ledger. rewrite !length_take, Hn1, Hd1. reflexivity. }
      destruct (IH st1) as (st' & E & Hopen' & Hl' & Hv').
      { repeat split; try assumption.
        - lia.
        - rewrite Hvs1, put_position_length. assumption.
        - now rewrite Hd1.
        - now rewrite Hn1, Hlen1. }
      { lia. }
      { now rewrite Hl1. }
      exists st'. split; [now rewrite (bind_Ret _ _ _ _ _ E1)|].
      split; [assumption|]. split; [now rewrite Hl', Hl1|]. lia.
Qed.

End Within.

(** C1, as the code has it. For every sequence of [rlEnableTexture] calls
    and quad-vertex submissions made from the start of a batch (quads
    mode, right after a flush or initialisation) whose vertices fit in
    the quads buffer and whose ledger fits in the array of draw calls,
    however many calls it has, every call returns, every vertex is
    accepted, and in the resulting ledger: the sum of the vertex counts
    is the number of quad vertices submitted; every entry but the last
    has vertices; and no two consecutive entries have the same texture
    provided no call binds, while the current entry is still empty, the
    texture of the entry before it. *)
Theorem C1_ledger_total_and_neighbours `{Config} `{Raymath} cs st :
  quads_batch_start st ->
  quad_vertices cs <= 4 * MAX_QUADS_BATCH ->
  Z.of_nat (length (ledger_after cs (ledger st))) <= MAX_DRAWS_BY_TEXTURE ->
  exists st',
    ledger_run cs st = Ret tt st'
    /\ ledger st' = ledger_after cs (ledger st)
    /\ ledger_total (ledger st') = quad_vertices cs
    /\ PCTI.vCounter (quads st') = quad_vertices cs
    /\ closed_entries_nonempty (ledger st')
    /\ (no_rebind_previous cs (ledger st) -> neighbours_differ (ledger st')).
Proof.
  intros Hstart Hq Hb.
  pose proof (quads_batch_start_open st Hstart) as Hopen.
  destruct Hstart as (_ & _ & Hv & _ & _ & _ & texture & Hl).
  destruct (ledger_run_within cs st Hopen) as (st' & E & _ & Hl' & Hv').
  { rewrite Hv. lia. }
  { exact Hb. }
  destruct (ledger_after_props cs [] (DrawCall.mk texture 0))
    as (Htot & Hclosed & _ & _ & Hnb); [cbn; lia|constructor|].
  cbn [app] in Htot, Hclosed, Hnb. rewrite <- Hl, <- Hl' in Htot, Hclosed, Hnb.
  exists st'. split; [assumption|]. split; [assumption|].
  split; [rewrite Htot, Hl; cbn; lia|]. split; [lia|]. split; [assumption|].
  intros Hno. apply Hnb; [|assumption]. rewrite Hl. cbn. auto.
Qed.

Lemma example_quads_start_ok : quads_batch_start example_quads_start.
Proof.
  repeat split; try (vm_compute; reflexivity). exists 1. vm_compute. reflexivity.
Qed.

(** Witness of C1: texture 5 is bound 300 times, more often than the
    array of draw calls has entries, and then textures 5, 6 and 5 again,
    a quad with each. *)
Lemma C1_witness :
  exists st',
    ledger_run many_bindings example_quads_start = Ret tt st'
    /\ ledger st' = ledger_after many_bindings (ledger example_quads_start)
    /\ ledger_total (ledger st') = quad_vertices many_bindings
    /\ PCTI.vCounter (quads st') = quad_vertices many_bindings
    /\ closed_entries_nonempty (ledger st')
    /\ (no_rebind_previous many_bindings (ledger example_quads_start) ->
        neighbours_differ (ledger st')).
Proof.
  apply (C1_ledger_total_and_neighbours many_bindings example_quads_start).
  - repeat split; try (vm_compute; reflexivity). exists 1. vm_compute. reflexivity.
  - vm_compute. discriminate.
  - vm_compute. discriminate.
Defined.

(** C1 as stated fails. Texture 5 is bound and a quad submitted, texture
    6 is bound, and texture 5 is bound again before any vertex: the empty
    entry made for texture 6 is reused for texture 5, next to the entry
    that texture 5 already has. With one more quad the ledger is
    (5, 4), (5, 4): two consecutive entries with the same texture. *)
Lemma C1_counterexample :
  exists st',
    ledger_run example_rebind example_quads_start = Ret tt st'
    /\ ledger st' = [DrawCall.mk 5 4; DrawCall.mk 5 4]
    /\ ~ neighbours_differ (ledger st').
Proof.
  exists (final_state (ledger_run example_rebind example_quads_start)).
  split; [vm_compute; reflexivity|].
  assert (E : ledger (final_state (ledger_run example_rebind example_quads_start))
              = [DrawCall.mk 5 4; DrawCall.mk 5 4]) by (vm_compute; reflexivity).
  split; [exact E|]. rewrite E. cbn. intros [Hne _]. now apply Hne.
Qed.

Section Scenario.
Context `{cfg : Config} `{rm : Raymath}.

Lemma countQuadVertex_last init texture k :
  countQuadVertex (init ++ [DrawCall.mk texture k])
  = init ++ [DrawCall.mk texture (k + 1)].
Proof. now rewrite countQuadVertex_snoc. Qed.

Lemma setActiveTexture_new init texture k handle :
  texture <> handle -> k <> 0 ->
  setActiveTexture handle (init ++ [DrawCall.mk texture k])
  = (init ++ [DrawCall.mk texture k]) ++ [DrawCall.mk handle 0].
Proof.
  intros Ht Hk. rewrite setActiveTexture_snoc. cbn [DrawCall.textureId DrawCall.vertexCount].
  destruct (Z.eqb_spec texture handle) as [|_]; [contradiction|].
  destruct (Z.eqb_spec k 0) as [|_]; [contradiction|].
  now rewrite <- app_assoc.
Qed.

Lemma ledger_after_app cs1 cs2 l :
  ledger_after (cs1 ++ cs2) l = ledger_after cs2 (ledger_after cs1 l).
Proof.
  revert l. induction cs1 as [|c cs1 IH]; intros l; [reflexivity|].
  destruct c; cbn [app ledger_after]; apply IH.
Qed.

Lemma ledger_after_bind handle l :
  ledger_after [bind_texture handle] l = setActiveTexture handle l.
Proof. reflexivity. Qed.

Lemma ledger_after_one_quad init texture k :
  ledger_after one_quad (init ++ [DrawCall.mk texture k])
  = init ++ [DrawCall.mk texture (k + 4)].
Proof.
  unfold one_quad. cbn [ledger_after]. rewrite !countQuadVertex_last.
  now replace (k + 1 + 1 + 1 + 1) with (k + 4) by lia.
Qed.

Lemma setActiveTexture_first handle texture :
  setActiveTexture handle [DrawCall.mk texture 0] = [] ++ [DrawCall.mk handle 0].
Proof.
  change [DrawCall.mk texture 0] with ([] ++ [DrawCall.mk texture 0]).
  rewrite setActiveTexture_snoc.
  cbn [DrawCall.textureId DrawCall.vertexCount set_textureId].
  destruct (Z.eqb_spec texture handle) as [->|_]; reflexivity.
Qed.

Lemma scenario_ABA_ledger A B texture :
  A <> B ->
  ledger_after (scenario_ABA A B) [DrawCall.mk texture 0]
  = [DrawCall.mk A 4; DrawCall.mk B 4; DrawCall.mk A 4].
Proof.
  intros Hne. unfold scenario_ABA.
  rewrite !ledger_after_app, !ledger_after_bind.
  rewrite setActiveTexture_first, ledger_after_one_quad.
  rewrite setActiveTexture_new by (congruence || lia).
  rewrite ledger_after_one_quad.
  rewrite setActiveTexture_new by (congruence || lia).
  rewrite ledger_after_one_quad.
  reflexivity.
Qed.

End Scenario.

(** Within the capacity of the array of draw calls [rlEnableTexture] does
    to the ledger what [setActiveTexture] is specified to do: with the
    texture of the current (last) entry the
    ledger is unchanged; with another texture a new entry without vertices
    is appended when the current entry has vertices, and the current,
    empty entry is reused otherwise, the texture of the current entry
    being the new one in both cases. This holds in every state whose
    current entry exists, as long as the new ledger fits in the array of
    draw calls, and nothing but the ledger changes. From the start of a
    batch, binding [A], a quad, binding [B], a quad, binding [A] again and
    a quad give the three entries (A, 4), (B, 4), (A, 4). *)
Lemma rlEnableTexture_within_capacity `{Config} `{Raymath} :
  (forall id st,
     ledger_ok st ->
     Z.of_nat (length (setActiveTexture id (ledger st)))
       <= Z.of_nat (length (draws st)) ->
     exists st',
       rlEnableTexture id st = Ret tt st'
       /\ ledger st' = setActiveTexture id (ledger st)
       /\ same_but_ledger st st')
  /\ (forall A B st,
        A <> B -> quads_batch_start st -> 3 <= MAX_QUADS_BATCH ->
        exists st',
          ledger_run (scenario_ABA A B) st = Ret tt st'
          /\ ledger st' = [DrawCall.mk A 4; DrawCall.mk B 4; DrawCall.mk A 4]).
Proof.
  split.
  - intros id st Hok Hroom.
    destruct (rlEnableTexture_spec id st Hok Hroom)
      as (st' & E & Hl & _ & _ & _ & Hsame).
    now exists st'.
  - intros A B st Hne Hstart Hmax.
    pose proof (quads_batch_start_open st Hstart) as Hopen.
    destruct Hstart as (_ & _ & Hv & _ & _ & _ & texture & Hl).
    destruct (ledger_run_spec (scenario_ABA A B) st Hopen)
      as (st' & E & _ & Hl' & _).
    { rewrite Hv. change (quad_vertices (scenario_ABA A B)) with 12. lia. }
    { rewrite Hl. change (bindings (scenario_ABA A B)) with 3.
      cbn [length]. unfold MAX_DRAWS_BY_TEXTURE. lia. }
    exists st'. split; [assumption|].
    rewrite Hl', Hl. now apply scenario_ABA_ledger.
Qed.

(** On the example: binding texture 6 while the current entry, of
    texture 5, has a quad; and the scenario with textures 5 and 6. *)
Lemma rlEnableTexture_within_capacity_example :
  (exists st',
     rlEnableTexture 6
       (final_state (ledger_run (bind_texture 5 :: one_quad) example_quads_start))
     = Ret tt st'
     /\ ledger st' = [DrawCall.mk 5 4; DrawCall.mk 6 0])
  /\ (exists st',
        ledger_run (scenario_ABA 5 6) example_quads_start = Ret tt st'
        /\ ledger st' = [DrawCall.mk 5 4; DrawCall.mk 6 4; DrawCall.mk 5 4]).
Proof.
  split.
  - destruct (proj1 rlEnableTexture_within_capacity 6
                (final_state
                   (ledger_run (bind_texture 5 :: one_quad) example_quads_start)))
      as (st' & E & Hl & _).
    + exists (DrawCall.mk 5 4). split; [vm_compute; reflexivity|].
      vm_compute. discriminate.
    + vm_compute. discriminate.
    + exists st'. split; [exact E|]. rewrite Hl. vm_compute. reflexivity.
  - apply (proj2 rlEnableTexture_within_capacity 5 6 example_quads_start).
    + discriminate.
    + repeat split; try (vm_compute; reflexivity). exists 1.
      vm_compute. reflexivity.
    + vm_compute. discriminate.
Qed.

(** ** Computations that only make OpenGL calls *)

Lemma with_gl_nil st : with_gl [] st = st.
Proof. unfold with_gl. rewrite app_nil_r. now destruct st. Qed.

Lemma with_gl_app cs1 cs2 st :
  with_gl cs2 (with_gl cs1 st) = with_gl (cs1 ++ cs2) st.
Proof. unfold with_gl. cbn. now rewrite app_assoc. Qed.

Lemma emits_ret {A : Type} P (a : A) st : emits P (mret a : M A) st.
Proof. exists a, []. split; [now rewrite with_gl_nil|constructor]. Qed.

Lemma emits_read {A : Type} P (v : Var A) st : emits P (read v) st.
Proof. exists (rd v st), []. split; [now rewrite with_gl_nil|constructor]. Qed.

Lemma emits_gl P c st : P c -> emits P (gl c) st.
Proof. intros H. exists tt, [c]. split; [reflexivity|now constructor]. Qed.

Lemma emits_bind {A B : Type} P (m : M A) (k : A -> M B) st :
  emits P m st ->
  (forall a cs, emits P (k a) (with_gl cs st)) ->
  emits P (m ≫= k) st.
Proof.
  intros (a & cs & E & HP) Hk.
  destruct (Hk a cs) as (b & cs' & E' & HP').
  exists b, (cs ++ cs'). split.
  - now rewrite (bind_Ret _ _ _ _ _ E), E', with_gl_app.
  - now apply Forall_app.
Qed.

(** [get] hands the state itself to what follows. *)
Lemma emits_bind_get {B : Type} P (k : State -> M B) st :
  emits P (k st) st -> emits P (get ≫= k) st.
Proof. intros H. exact H. Qed.

Lemma emits_when P (b : bool) (c : M unit) st :
  (b = true -> emits P c st) -> emits P (when b c) st.
Proof. destruct b; cbn; [auto|intros _; apply emits_ret]. Qed.

Lemma emits_weaken {A : Type} (P Q : GLCall -> Prop) (m : M A) st :
  (forall c, P c -> Q c) -> emits P m st -> emits Q m st.
Proof.
  intros HPQ (a & cs & E & HP). exists a, cs. split; [assumption|].
  eapply Forall_impl; eauto.
Qed.

Lemma emits_around_nil {A : Type} P (m : M A) st :
  emits P m st -> emits_around P [] m st.
Proof.
  intros (a & cs & E & HP). exists a, cs, []. cbn. rewrite app_nil_r.
  repeat split; [assumption|assumption|constructor].
Qed.

Lemma emits_around_bind_l {A B : Type} P mid (m : M A) (k : A -> M B) st :
  emits P m st ->
  (forall a cs, emits_around P mid (k a) (with_gl cs st)) ->
  emits_around P mid (m ≫= k) st.
Proof.
  intros (a & cs & E & HP) Hk.
  destruct (Hk a cs) as (b & before & after & E' & Hb & Ha).
  exists b, (cs ++ before), after. split.
  - now rewrite (bind_Ret _ _ _ _ _ E), E', with_gl_app, <- app_assoc.
  - split; [now apply Forall_app|assumption].
Qed.

Lemma emits_around_bind_r {A B : Type} P mid (m : M A) (k : A -> M B) st :
  emits_around P mid m st ->
  (forall a cs, emits P (k a) (with_gl cs st)) ->
  emits_around P mid (m ≫= k) st.
Proof.
  intros (a & before & after & E & Hb & Ha) Hk.
  destruct (Hk a (before ++ mid ++ after)) as (b & cs' & E' & HP').
  exists b, before, (after ++ cs'). split.
  - rewrite (bind_Ret _ _ _ _ _ E), E', with_gl_app. do 2 f_equal.
    now rewrite <- !app_assoc.
  - split; [assumption|now apply Forall_app].
Qed.

(** The steps that settle [emits] for a block of the flush. A test is
    settled by cases, unless a hypothesis tells its value. *)
Ltac emits_step :=
  lazymatch goal with
  | |- emits _ (get ≫= _) _ => apply emits_bind_get
  | |- emits _ (_ ≫= _) _ => apply emits_bind; [|intros ? ?]
  | |- emits _ (mret _) _ => apply emits_ret
  | |- emits _ (read _) _ => apply emits_read
  | |- emits _ (gl _) _ => apply emits_gl; exact I
  | |- emits _ (when ?b _) _ =>
      apply emits_when;
      let H := fresh "Hb" in intros H; try discriminate H
  | |- emits _ (if ?b then _ else _) _ => destruct b
  end.

Ltac emits_auto := repeat emits_step.

Section Flush.
Context `{cfg : Config} `{rm : Raymath}.

Lemma UpdateDefaultBuffers_emits st :
  emits not_indexed_draw UpdateDefaultBuffers st.
Proof. unfold UpdateDefaultBuffers. emits_auto. Qed.

(** With the three buffers empty nothing is uploaded. *)
Lemma UpdateDefaultBuffers_empty st :
  PC.vCounter (lines st) = 0 -> PC.vCounter (triangles st) = 0 ->
  PCTI.vCounter (quads st) = 0 ->
  emits no_upload_no_draw UpdateDefaultBuffers st.
Proof.
  intros Hl Ht Hq. unfold UpdateDefaultBuffers. apply emits_bind_get.
  rewrite Hl, Ht, Hq. change (0 <? 0) with false. emits_auto.
Qed.

(** With the three buffers empty nothing is drawn. *)
Lemma rlglDraw_batches_empty st :
  PC.vCounter (lines st) = 0 -> PC.vCounter (triangles st) = 0 ->
  PCTI.vCounter (quads st) = 0 ->
  emits no_upload_no_draw rlglDraw_batches st.
Proof.
  intros Hl Ht Hq. unfold rlglDraw_batches. apply emits_bind_get.
  cbv zeta. rewrite Hl, Ht, Hq. change (0 <? 0) with false. cbn [orb].
  emits_auto.
Qed.

(** The end of [rlglDraw] is the reset. *)
Lemma rlglDraw_reset_spec st :
  0 < Z.of_nat (length (draws st)) ->
  rlglDraw_reset st = Ret tt (reset_batches st).
Proof.
  intros Hlen. destruct st as [? ? ? ? ? ? ? ? [] [] [] ? ? ? ? ? ? dr ? ? ? ? ? ? ? ? ? ?].
  cbn in Hlen. destruct dr as [|d ds]; [cbn in Hlen; lia|]. reflexivity.
Qed.

End Flush.

(** ** The indexed draws of the quads *)

Section QuadDraws.
Context `{cfg : Config} `{rm : Raymath}.

Lemma ledger_indices_snoc l d :
  ledger_indices (l ++ [d]) = ledger_indices l + DrawCall.vertexCount d ÷ 4 * 6.
Proof.
  unfold ledger_indices. induction l as [|e l IH]; cbn; [lia|].
  rewrite IH. lia.
Qed.

Lemma ledger_draw_calls_snoc l d offset :
  ledger_draw_calls (l ++ [d]) offset =
    ledger_draw_calls l offset
    ++ [glBindTexture GL_TEXTURE_2D (DrawCall.textureId d);
        glDrawElements GL_TRIANGLES (DrawCall.vertexCount d ÷ 4 * 6)
          index_type (index_size * (offset + ledger_indices l))].
Proof.
  revert offset. induction l as [|e l IH]; intros offset.
  - cbn. unfold ledger_indices. cbn. now rewrite Z.add_0_r.
  - cbn [app ledger_draw_calls]. rewrite IH.
    change (ledger_indices (e :: l))
      with (DrawCall.vertexCount e ÷ 4 * 6 + ledger_indices l).
    now rewrite Z.add_assoc.
Qed.

Lemma bind_mret_l {A B : Type} (a : A) (k : A -> M B) st :
  (mret a ≫= k) st = k a st.
Proof. reflexivity. Qed.

Lemma gl_Ret (c : GLCall) st : gl c st = Ret tt (with_gl [c] st).
Proof. reflexivity. Qed.

Lemma bind_gl {B : Type} (c : GLCall) (k : unit -> M B) st :
  (gl c ≫= k) st = k tt (with_gl [c] st).
Proof. reflexivity. Qed.

(** One round of the loop: the texture of entry [i] is bound and its
    indices are drawn from the running offset, which advances. *)
Lemma draw_entry_spec i offset d st :
  elt (draws st) i = Some d ->
  draw_entry i offset st =
    Ret (offset + DrawCall.vertexCount d ÷ 4 * 6)
      (with_gl [glBindTexture GL_TEXTURE_2D (DrawCall.textureId d);
                glDrawElements GL_TRIANGLES (DrawCall.vertexCount d ÷ 4 * 6)
                  index_type (index_size * offset)] st).
Proof.
  intros Hd. unfold draw_entry.
  rewrite (bind_load _ _ d) by exact Hd.
  cbv zeta. rewrite (bind_load _ _ d) by exact Hd.
  rewrite !bind_gl.
  rewrite (bind_load _ _ d) by exact Hd.
  now rewrite with_gl_app.
Qed.

(** The loop of [rlglDraw] over the draw calls issues the draws of the
    ledger, entry after entry, and nothing else. *)
Lemma draw_loop_spec st :
  0 <= drawsCounter st <= Z.of_nat (length (draws st)) ->
  for_loop 0 (drawsCounter st) 1 draw_entry 0 st
  = Ret (ledger_indices (ledger st))
      (with_gl (ledger_draw_calls (ledger st) 0) st).
Proof.
  intros Hn.
  set (I := fun (i offset : Z) (s : State) =>
    0 <= i <= drawsCounter st
    /\ offset = ledger_indices (take (Z.to_nat i) (draws st))
    /\ s = with_gl (ledger_draw_calls (take (Z.to_nat i) (draws st)) 0) st).
  destruct (for_loop_inv I 0 (drawsCounter st) 1 draw_entry 0 st)
    as (i' & off & st' & E & Hi' & Hr & Hoff & Hst).
  - lia.
  - intros i offset s Hi (Hr & Hoff & Hs).
    destruct (in_bounds_elt (draws st) i) as [d Hd];
      [apply in_bounds_spec; lia|].
    assert (Hd' : draws st !! Z.to_nat i = Some d).
    { unfold elt in Hd. destruct (Z.leb_spec 0 i); [assumption|discriminate]. }
    eexists _, _. split.
    { apply draw_entry_spec. rewrite Hs. exact Hd. }
    unfold I. split; [lia|].
    replace (Z.to_nat (i + 1)) with (S (Z.to_nat i)) by lia.
    rewrite (take_S_r _ _ d) by exact Hd'.
    split.
    + rewrite ledger_indices_snoc. congruence.
    + rewrite ledger_draw_calls_snoc, Hs, with_gl_app, Z.add_0_l.
      now rewrite Hoff.
  - unfold I. split; [lia|]. change (Z.to_nat 0) with 0%nat. cbn.
    split; [reflexivity|]. now rewrite with_gl_nil.
  - rewrite E. replace i' with (drawsCounter st) in * by lia.
    unfold ledger. congruence.
Qed.

Lemma emits_around_bind_get {B : Type} P mid (k : State -> M B) st :
  emits_around P mid (k st) st -> emits_around P mid (get ≫= k) st.
Proof. intros H. exact H. Qed.

(** The draw part of a flush: nothing but OpenGL calls, among which the
    indexed draws are those of the ledger when the quads buffer has
    vertices, and none otherwise. *)
Lemma rlglDraw_batches_spec st :
  draws_in_bounds st ->
  emits_around not_indexed_draw
    (if 0 <? PCTI.vCounter (quads st)
     then ledger_draw_calls (ledger st) 0 else [])
    rlglDraw_batches st.
Proof.
  intros [_ Hn]. unfold rlglDraw_batches.
  apply emits_around_bind_get. cbv zeta.
  apply emits_around_bind_l; [emits_auto|intros _ cs1].
  apply emits_around_bind_l; [emits_auto|intros _ cs2].
  apply emits_around_bind_l; [emits_auto|intros _ cs3].
  apply emits_around_bind_r; [|intros _ cs4; emits_auto].
  destruct (Z.ltb_spec 0 (PCTI.vCounter (quads st))) as [Hq|Hq]; cbn [when];
    [specialize (Hn Hq)|apply emits_around_nil, emits_ret].
  apply emits_around_bind_l; [emits_auto|intros _ cs5].
  rewrite !with_gl_app.
  set (s := with_gl _ st).
  assert (Hls : ledger s = ledger st) by reflexivity.
  pose proof (draw_loop_spec s Hn) as Hloop. rewrite Hls in Hloop.
  exists tt, [].
  destruct (vaoSupported st); cbn [negb when].
  - exists [glBindTexture GL_TEXTURE_2D 0]. split.
    + rewrite bind_read. cbn [rd v_drawsCounter].
      rewrite (bind_Ret _ _ _ _ _ Hloop), bind_mret_l, gl_Ret.
      cbn [app]. now rewrite with_gl_app.
    + split; repeat constructor.
  - exists [glBindBuffer GL_ARRAY_BUFFER 0; glBindBuffer GL_ELEMENT_ARRAY_BUFFER 0;
            glBindTexture GL_TEXTURE_2D 0]. split.
    + rewrite bind_read. cbn [rd v_drawsCounter].
      rewrite (bind_Ret _ _ _ _ _ Hloop), bind_assoc, !bind_gl, gl_Ret.
      cbn [app]. rewrite !with_gl_app. reflexivity.
    + split; repeat constructor.
Qed.

End QuadDraws.

(** ** The flush as a whole *)

Section FlushWhole.
Context `{cfg : Config} `{rm : Raymath}.

Lemma reset_batches_ledger st :
  0 < Z.of_nat (length (draws st)) ->
  ledger (reset_batches st) = [DrawCall.mk (whiteTexture st) 0].
Proof.
  intros Hlen. unfold ledger. cbn. change (Z.to_nat 1) with 1%nat.
  destruct (draws st) as [|d ds]; [cbn in Hlen; lia|reflexivity].
Qed.

(** A flush returns, makes OpenGL calls and resets the batch. Its
    indexed draws are those of the ledger when the quads buffer has
    vertices, and there is none otherwise. *)
Lemma rlglDraw_spec st :
  draws_in_bounds st ->
  exists before after,
    rlglDraw st =
      Ret tt (reset_batches
                (with_gl (before
                          ++ (if 0 <? PCTI.vCounter (quads st)
                              then ledger_draw_calls (ledger st) 0 else [])
                          ++ after) st))
    /\ Forall not_indexed_draw before
    /\ Forall not_indexed_draw after.
Proof.
  intros Hb.
  destruct (UpdateDefaultBuffers_emits st) as (a0 & cs0 & E0 & H0).
  destruct (rlglDraw_batches_spec (with_gl cs0 st) Hb)
    as (a1 & before & after & E1 & Hbefore & Hafter).
  exists (cs0 ++ before), after. split.
  - unfold rlglDraw.
    rewrite (bind_Ret _ _ _ _ _ E0), (bind_Ret _ _ _ _ _ E1).
    rewrite rlglDraw_reset_spec by apply Hb.
    rewrite with_gl_app, <- app_assoc. reflexivity.
  - split; [now apply Forall_app|assumption].
Qed.

(** With the three buffers empty, the calls of a flush neither upload
    nor draw. *)
Lemma rlglDraw_empty st :
  buffers_empty st -> 0 < Z.of_nat (length (draws st)) ->
  exists cs,
    rlglDraw st = Ret tt (reset_batches (with_gl cs st))
    /\ Forall no_upload_no_draw cs.
Proof.
  intros (Hl & Ht & Hq) Hlen.
  destruct (UpdateDefaultBuffers_empty st Hl Ht Hq) as (a0 & cs0 & E0 & H0).
  destruct (rlglDraw_batches_empty (with_gl cs0 st) Hl Ht Hq)
    as (a1 & cs1 & E1 & H1).
  exists (cs0 ++ cs1). split.
  - unfold rlglDraw.
    rewrite (bind_Ret _ _ _ _ _ E0), (bind_Ret _ _ _ _ _ E1).
    rewrite rlglDraw_reset_spec by exact Hlen.
    now rewrite with_gl_app.
  - now apply Forall_app.
Qed.

End FlushWhole.

(** C7. A flush returns and ends in the reset: the counters of the three
    buffers are 0, the ledger is the single entry (white texture, 0), the
    depth counter is [-1.0f], and every other global is as it was before
    the flush, except for the record of the OpenGL calls made (see
    [reset_batches]). With the three buffers empty those calls neither
    upload buffer data nor draw. *)
Theorem C7_flush_resets_and_empty_flush_draws_nothing `{Config} `{Raymath} st :
  draws_in_bounds st ->
  exists cs st',
    rlglDraw st = Ret tt st'
    /\ st' = reset_batches (with_gl cs st)
    /\ PC.vCounter (lines st') = 0 /\ PC.cCounter (lines st') = 0
    /\ PC.vCounter (triangles st') = 0 /\ PC.cCounter (triangles st') = 0
    /\ PCTI.vCounter (quads st') = 0 /\ PCTI.tcCounter (quads st') = 0
    /\ PCTI.cCounter (quads st') = 0
    /\ ledger st' = [DrawCall.mk (whiteTexture st) 0]
    /\ currentDepth st' = f32_opp f32_1
    /\ (buffers_empty st -> Forall no_upload_no_draw cs).
Proof.
  intros Hb.
  assert (exists cs,
            rlglDraw st = Ret tt (reset_batches (with_gl cs st))
            /\ (buffers_empty st -> Forall no_upload_no_draw cs))
    as (cs & E & Hempty).
  { destruct (Z.eq_dec (PC.vCounter (lines st)) 0) as [Hl|Hl];
      [destruct (Z.eq_dec (PC.vCounter (triangles st)) 0) as [Ht|Ht];
       [destruct (Z.eq_dec (PCTI.vCounter (quads st)) 0) as [Hq|Hq]|]|].
    - destruct (rlglDraw_empty st) as (cs & E & Hcs);
        [now repeat split|apply Hb|].
      exists cs. auto.
    - destruct (rlglDraw_spec st Hb) as (before & after & E & _).
      eexists. split; [exact E|]. intros (_ & _ & Hq'). contradiction.
    - destruct (rlglDraw_spec st Hb) as (before & after & E & _).
      eexists. split; [exact E|]. intros (_ & Ht' & _). contradiction.
    - destruct (rlglDraw_spec st Hb) as (before & after & E & _).
      eexists. split; [exact E|]. intros (Hl' & _). contradiction. }
  exists cs, (reset_batches (with_gl cs st)).
  split; [exact E|]. split; [reflexivity|].
  repeat (split; [reflexivity|]).
  split; [|split; [reflexivity|exact Hempty]].
  apply (reset_batches_ledger (with_gl cs st)). apply Hb.
Qed.

(** Witness of C7: a flush right after initialisation, with the three
    buffers empty. *)
Lemma C7_witness :
  exists cs st',
    rlglDraw example_init = Ret tt st'
    /\ st' = reset_batches (with_gl cs example_init)
    /\ PC.vCounter (lines st') = 0 /\ PC.cCounter (lines st') = 0
    /\ PC.vCounter (triangles st') = 0 /\ PC.cCounter (triangles st') = 0
    /\ PCTI.vCounter (quads st') = 0 /\ PCTI.tcCounter (quads st') = 0
    /\ PCTI.cCounter (quads st') = 0
    /\ ledger st' = [DrawCall.mk (whiteTexture example_init) 0]
    /\ currentDepth st' = f32_opp f32_1
    /\ (buffers_empty example_init -> Forall no_upload_no_draw cs).
Proof.
  apply (C7_flush_resets_and_empty_flush_draws_nothing example_init).
  split; [vm_compute; reflexivity|]. intros Hq. vm_compute in Hq. discriminate Hq.
Defined.

(** ** Initialisation *)

Lemma length_fill_array {A : Type} (n : Z) (v : A) :
  length (fill_array n v) = Z.to_nat n.
Proof. apply length_replicate. Qed.

Lemma elt_fill_array {A : Type} (n : Z) (v : A) (i : Z) :
  0 <= i < n -> elt (fill_array n v) i = Some v.
Proof.
  intros Hi. unfold elt, fill_array. destruct (Z.leb_spec 0 i); [|lia].
  apply lookup_replicate_2. lia.
Qed.

(** Six stores in a row into one array. *)
Lemma store6 {A R : Type} (arr : Var (list A))
    (Haa : forall a st, rd arr (wr arr a st) = a)
    (Hww : forall a b st, wr arr a (wr arr b st) = wr arr a st)
    (i : Z) (v0 v1 v2 v3 v4 v5 : A) (r : R) st :
  0 <= i -> i + 6 <= Z.of_nat (length (rd arr st)) ->
  (store arr i v0;; store arr (i + 1) v1;; store arr (i + 2) v2;;
   store arr (i + 3) v3;; store arr (i + 4) v4;; store arr (i + 5) v5;;
   mret r) st
  = Ret r
      (wr arr
         (<[Z.to_nat (i + 5) := v5]>
            (<[Z.to_nat (i + 4) := v4]>
               (<[Z.to_nat (i + 3) := v3]>
                  (<[Z.to_nat (i + 2) := v2]>
                     (<[Z.to_nat (i + 1) := v1]>
                        (<[Z.to_nat i := v0]> (rd arr st)))))))
         st).
Proof.
  intros Hi Hlen.
  rewrite bind_store by (apply in_bounds_spec; lia).
  do 5 (rewrite bind_store
          by (rewrite Haa, !in_bounds_insert; apply in_bounds_spec; lia);
        rewrite Haa, Hww).
  reflexivity.
Qed.

Section Init.
Context `{cfg : Config} `{rm : Raymath}.

(** The loop of [LoadDefaultBuffers] over the index array: the six
    indices of every quad are those of [quad_indices], converted to the
    element type of the array. *)
Lemma index_loop_spec st :
  Z.of_nat (length (PCTI.indices (quads st))) = 6 * MAX_QUADS_BATCH ->
  exists k idx,
    for_loop 0 (6 * MAX_QUADS_BATCH) 6 (fun i k =>
        store quads_indices i (to_index (4 * k));;
        store quads_indices (i + 1) (to_index (4 * k + 1));;
        store quads_indices (i + 2) (to_index (4 * k + 2));;
        store quads_indices (i + 3) (to_index (4 * k));;
        store quads_indices (i + 4) (to_index (4 * k + 2));;
        store quads_indices (i + 5) (to_index (4 * k + 3));;
        mret (k + 1)) 0 st
    = Ret k (wr quads_indices idx st)
    /\ length idx = length (PCTI.indices (quads st))
    /\ (forall q j, 0 <= q < MAX_QUADS_BATCH -> 0 <= j < 6 ->
          elt idx (6 * q + j) = to_index <$> elt (quad_indices q) j).
Proof.
  intros Hlen.
  set (body := fun i k => _).
  set (I := fun (i k : Z) (s : State) =>
    i = 6 * k /\ 0 <= k
    /\ exists idx,
         s = wr quads_indices idx st
         /\ length idx = length (PCTI.indices (quads st))
         /\ (forall q j, 0 <= q < k -> 0 <= j < 6 ->
               elt idx (6 * q + j) = to_index <$> elt (quad_indices q) j)).
  destruct (for_loop_inv I 0 (6 * MAX_QUADS_BATCH) 6 body 0 st)
    as (i' & k' & st' & E & Hi' & Hik & Hk' & idx & -> & Hl & Hpat).
  - lia.
  - intros i k s Hi (-> & Hk & idx & -> & Hl & Hpat).
    eexists _, _. split.
    { unfold body. apply store6; try reflexivity; [lia|].
      cbn. lia. }
    unfold I. split; [lia|]. split; [lia|].
    eexists. split; [reflexivity|].
    cbn [rd quads_indices quads wr set_quads PCTI.indices].
    split; [now rewrite !length_insert|].
    intros q j Hq Hj.
    assert (Hb : forall n, 0 <= n < 6 * k + 6 -> in_bounds idx n = true)
      by (intros n Hn; apply in_bounds_spec; lia).
    destruct (Z.eq_dec q k) as [->|Hne].
    + assert (j = 0 \/ j = 1 \/ j = 2 \/ j = 3 \/ j = 4 \/ j = 5)
        as [-> | [-> | [-> | [-> | [-> | ->]]]]] by lia;
        cbn [quad_indices elt Z.leb Z.to_nat Pos.to_nat Pos.iter_op Nat.add
             lookup list_lookup fmap option_fmap option_map];
        rewrite ?Z.add_0_r;
        rewrite ?elt_insert_ne by lia;
        (rewrite elt_insert_eq
           by (rewrite ?in_bounds_insert; apply Hb; lia));
        reflexivity.
    + rewrite !elt_insert_ne by lia. apply Hpat; lia.
  - unfold I. split; [lia|]. split; [lia|]. exists (PCTI.indices (quads st)).
    split; [now destruct st as [? ? ? ? ? ? ? ? ? ? [] ? ? ? ? ? ? ? ? ? ? ? ? ? ? ? ? ?]|].
    split; [reflexivity|]. intros; lia.
  - exists k', idx. split; [exact E|]. split; [exact Hl|].
    intros q j Hq Hj. apply Hpat; lia.
Qed.

End Init.

Lemma bind_Ret_inv {A B : Type} (m : M A) (k : A -> M B) st b st' :
  (m ≫= k) st = Ret b st' ->
  exists a s, m st = Ret a s /\ k a s = Ret b st'.
Proof.
  unfold mbind, M_bind. destruct (m st) as [a s|c s|s]; try discriminate.
  intros E. now exists a, s.
Qed.

Lemma ensures_bind_r {A B : Type} (P : State -> Prop) (m : M A) (k : A -> M B) :
  (forall a, ensures P (k a)) -> ensures P (m ≫= k).
Proof.
  intros H st b st' E. apply bind_Ret_inv in E as (a & s & _ & E).
  exact (H a s b st' E).
Qed.

Lemma ensures_bind_l {A B C : Type} (f : State -> C) (P : C -> Prop)
    (m : M A) (k : A -> M B) :
  ensures (fun st => P (f st)) m -> (forall a, keeps f (k a)) ->
  ensures (fun st => P (f st)) (m ≫= k).
Proof.
  intros Hm Hk st b st' E. apply bind_Ret_inv in E as (a & s & Em & E).
  rewrite (keeps_Ret f _ _ _ _ (Hk a) E). exact (Hm st a s Em).
Qed.

Section InitIndices.
Context `{cfg : Config} `{rm : Raymath}.

(** [LoadDefaultBuffers] returns, with the index array filled. *)
Lemma LoadDefaultBuffers_spec st :
  0 <= MAX_QUADS_BATCH ->
  exists st',
    LoadDefaultBuffers st = Ret tt st'
    /\ Z.of_nat (length (PCTI.indices (quads st'))) = 6 * MAX_QUADS_BATCH
    /\ (forall q j, 0 <= q < MAX_QUADS_BATCH -> 0 <= j < 6 ->
          elt (PCTI.indices (quads st')) (6 * q + j)
          = to_index <$> elt (quad_indices q) j).
Proof.
  intros Hmax. unfold LoadDefaultBuffers.
  rewrite !bind_assign.
  set (s1 := wr v_quads _ _).
  destruct (index_loop_spec s1) as (k & idx & E & Hl & Hpat).
  { cbn. rewrite length_fill_array. lia. }
  eexists. split.
  { rewrite (bind_Ret _ _ _ _ _ E), !bind_assign. reflexivity. }
  cbn. split; [|exact Hpat].
  rewrite Hl. cbn. rewrite length_fill_array. lia.
Qed.

Lemma rlVertex3f_keeps_indices x y z :
  keeps (fun st => PCTI.indices (quads st)) (rlVertex3f x y z).
Proof. unfold rlVertex3f. keeps_auto. Qed.

(** No call of a client writes the index array. *)
Lemma call_keeps_indices c :
  keeps (fun st => PCTI.indices (quads st)) (call c).
Proof.
  destruct c; cbn [call];
    unfold rlMatrixMode, rlPushMatrix, rlPopMatrix, rlLoadIdentity,
      rlTranslatef, rlRotatef, rlScalef, rlMultMatrixf, rlFrustum, rlOrtho,
      rlBegin, rlEnd, rlEnd_temp, rlEnd_counts, add_colors, add_texcoords,
      repeat_last_color, rlVertex2i, rlVertex2f, rlTexCoord2f, rlNormal3f,
      rlColor4ub, rlEnableTexture, rlDisableTexture, rlglDraw,
      UpdateDefaultBuffers, rlglDraw_batches, rlglDraw_reset, draw_entry;
    keeps_auto;
    lazymatch goal with
    | |- keeps _ (rlVertex3f _ _ _) => apply rlVertex3f_keeps_indices
    end.
Qed.

(** What initialisation leaves in the index array: for every quad, the
    six indices of [quad_indices], converted to the element type. *)
Lemma rlglInit_indices :
  ensures (fun st => forall q j, 0 <= q < MAX_QUADS_BATCH -> 0 <= j < 6 ->
             elt (PCTI.indices (quads st)) (6 * q + j)
             = to_index <$> elt (quad_indices q) j) rlglInit.
Proof.
  unfold rlglInit.
  do 5 (apply ensures_bind_r; intros ?).
  apply (ensures_bind_l (fun st => PCTI.indices (quads st))
           (fun idx => forall q j, 0 <= q < MAX_QUADS_BATCH -> 0 <= j < 6 ->
              elt idx (6 * q + j) = to_index <$> elt (quad_indices q) j)).
  - intros s1 [] s2 E q j Hq Hj.
    destruct (LoadDefaultBuffers_spec s1) as (s2' & E' & _ & Hpat); [lia|].
    rewrite E' in E. injection E as ->. now apply Hpat.
  - intros ?. keeps_auto.
Qed.

(** In every state that a client can reach, the index array holds, for
    every quad, the six indices of [quad_indices], converted to the
    element type of the array. *)
Lemma reachable_indices st :
  reachable st ->
  forall q j, 0 <= q < MAX_QUADS_BATCH -> 0 <= j < 6 ->
    elt (PCTI.indices (quads st)) (6 * q + j)
    = to_index <$> elt (quad_indices q) j.
Proof.
  induction 1 as [b st E|st c st' Hr IH E].
  - exact (rlglInit_indices _ _ _ E).
  - pose proof (keeps_Ret (fun st => PCTI.indices (quads st)) _ _ _ _
                  (call_keeps_indices c) E) as K.
    cbn beta in K. now rewrite K.
Qed.

End InitIndices.

(** ** The ledger array in reachable states *)

Lemma ensures_and {A : Type} (P Q : State -> Prop) (m : M A) :
  ensures P m -> ensures Q m -> ensures (fun st => P st /\ Q st) m.
Proof. intros HP HQ st a st' E. split; [exact (HP _ _ _ E)|exact (HQ _ _ _ E)]. Qed.

Lemma ensures_assign {A B : Type} (f : State -> B) (P : B -> Prop)
    (v : Var A) (a : A) :
  (forall st, P (f (wr v a st))) -> ensures (fun st => P (f st)) (assign v a).
Proof. intros H st [] st' E. injection E as <-. apply H. Qed.

Lemma keeps_store_draws_length i x :
  keeps (fun st => length (draws st)) (store v_draws i x).
Proof.
  intros st. unfold store, read, assign, array_set, out_of_bounds, mbind,
    M_bind, mret, M_ret.
  cbn. destruct (in_bounds _ _); cbn; [apply length_insert|reflexivity].
Qed.

Ltac keeps_length :=
  repeat first [ apply keeps_store_draws_length | keeps_step ].

Section DrawsOk.
Context `{cfg : Config} `{rm : Raymath}.

Lemma rlVertex3f_keeps_draws_length x y z :
  keeps (fun st => length (draws st)) (rlVertex3f x y z).
Proof. unfold rlVertex3f. keeps_length. Qed.

Lemma rlVertex3f_keeps_drawsCounter x y z :
  keeps drawsCounter (rlVertex3f x y z).
Proof. unfold rlVertex3f. keeps_auto. Qed.

Lemma rlglInit_draws_ok : ensures draws_ok rlglInit.
Proof.
  unfold rlglInit. do 7 (apply ensures_bind_r; intros ?).
  apply ensures_and.
  - apply (ensures_bind_l (fun st => length (draws st))
             (fun n => Z.of_nat n = MAX_DRAWS_BY_TEXTURE)).
    + intros st [] st' E. injection E as <-. cbn.
      unfold fill_array. now rewrite length_replicate.
    + intros ?. keeps_length.
  - apply ensures_bind_r; intros ?.
    apply (ensures_bind_l drawsCounter
             (fun n => 1 <= n <= MAX_DRAWS_BY_TEXTURE)).
    + intros st [] st' E. injection E as <-. cbn. unfold MAX_DRAWS_BY_TEXTURE. lia.
    + intros ?. keeps_auto.
Qed.

Lemma rlEnableTexture_draws_ok id st st' :
  draws_ok st -> rlEnableTexture id st = Ret tt st' -> draws_ok st'.
Proof.
  intros [Hlen Hc]. unfold draws_ok.
  unfold rlEnableTexture, when, load, store, read, assign, array_get,
    array_set, out_of_bounds, mbind, M_bind, mret, M_ret.
  cbn.
  repeat first
    [ discriminate
    | match goal with
      | |- context [if ?b then _ else _] => destruct b eqn:?; cbn
      | |- context [match ?o with Some _ => _ | None => _ end] =>
          destruct o eqn:?; cbn
      end ].
  all: intros E; injection E as <-; cbn;
    rewrite ?length_insert;
    repeat match goal with
           | H : in_bounds _ _ = true |- _ =>
               apply in_bounds_spec in H; rewrite ?length_insert in H
           end;
    split; lia.
Qed.

Lemma rlglDraw_draws_ok st st' :
  draws_ok st -> rlglDraw st = Ret tt st' -> draws_ok st'.
Proof.
  intros [Hlen Hc] E. split.
  - assert (keeps (fun st => length (draws st)) rlglDraw) as K.
    { unfold rlglDraw, UpdateDefaultBuffers, rlglDraw_batches,
        rlglDraw_reset, draw_entry.
      keeps_length. }
    pose proof (keeps_Ret _ _ _ _ _ K E) as K'. cbn beta in K'.
    now rewrite K'.
  - assert (ensures (fun st => 1 <= drawsCounter st <= MAX_DRAWS_BY_TEXTURE)
              rlglDraw) as K; [|exact (K _ _ _ E)].
    unfold rlglDraw, rlglDraw_reset.
    do 2 (apply ensures_bind_r; intros ?).
    apply (ensures_bind_l drawsCounter
             (fun n => 1 <= n <= MAX_DRAWS_BY_TEXTURE)).
    + apply ensures_assign. intros s. cbn. unfold MAX_DRAWS_BY_TEXTURE. lia.
    + intros ?. keeps_auto.
Qed.

Lemma call_draws_ok c st st' :
  draws_ok st -> call c st = Ret tt st' -> draws_ok st'.
Proof.
  intros Hok E.
  destruct c; cbn [call] in E;
    lazymatch type of E with
    | rlEnableTexture _ _ = _ => exact (rlEnableTexture_draws_ok _ _ _ Hok E)
    | rlglDraw _ = _ => exact (rlglDraw_draws_ok _ _ Hok E)
    | ?m _ = _ =>
        assert (keeps (fun st => length (draws st)) m) as Kl;
        [|assert (keeps drawsCounter m) as Kc]
    end.
  all: try (unfold rlMatrixMode, rlPushMatrix, rlPopMatrix, rlLoadIdentity,
      rlTranslatef, rlRotatef, rlScalef, rlMultMatrixf, rlFrustum, rlOrtho,
      rlBegin, rlEnd, rlEnd_temp, rlEnd_counts, add_colors, add_texcoords,
      repeat_last_color, rlVertex2i, rlVertex2f, rlTexCoord2f, rlNormal3f,
      rlColor4ub, rlDisableTexture;
    lazymatch goal with
    | |- keeps drawsCounter _ =>
        keeps_auto;
        lazymatch goal with
        | |- keeps _ (rlVertex3f _ _ _) => apply rlVertex3f_keeps_drawsCounter
        end
    | |- keeps _ _ =>
        keeps_length;
        lazymatch goal with
        | |- keeps _ (rlVertex3f _ _ _) => apply rlVertex3f_keeps_draws_length
        end
    end).
  all: pose proof (keeps_Ret _ _ _ _ _ Kl E) as Kl';
    pose proof (keeps_Ret _ _ _ _ _ Kc E) as Kc'; cbn beta in Kl';
    destruct Hok as [Hlen Hc]; split; [now rewrite Kl'|now rewrite Kc'].
Qed.

(** In every state that a client can reach, the ledger array has its 256
    entries and [drawsCounter] is between 1 and 256. *)
Lemma reachable_draws_ok st : reachable st -> draws_ok st.
Proof.
  induction 1 as [b st E|st c st' Hr IH E].
  - exact (rlglInit_draws_ok _ _ _ E).
  - exact (call_draws_ok _ _ _ IH E).
Qed.

End DrawsOk.

Lemma draws_ok_in_bounds st : draws_ok st -> draws_in_bounds st.
Proof.
  unfold draws_ok, draws_in_bounds, MAX_DRAWS_BY_TEXTURE. lia.
Qed.

(** ** The indexed draws of a flush *)

Section Reach.
Context `{cfg : Config} `{rm : Raymath}.

Lemma run_reachable cs st st' :
  reachable st -> run cs st = Ret tt st' -> reachable st'.
Proof.
  revert st. induction cs as [|c cs IH]; intros st Hr E.
  - injection E as <-. exact Hr.
  - cbn [run] in E. apply bind_Ret_inv in E as ([] & s & Ec & E).
    apply (IH s); [|exact E]. exact (reachable_call st c s Hr Ec).
Qed.

Lemma boot_then_reachable b cs st :
  boot_then b cs = Ret tt st -> reachable st.
Proof.
  unfold boot_then. intros E.
  apply bind_Ret_inv in E as ([] & s & Ei & E).
  apply (run_reachable cs s); [|exact E]. exact (reachable_init b s Ei).
Qed.

(** The indices of a quad below the capacity fit the element type when
    four times the capacity does. *)
Lemma to_index_quad_indices k j :
  4 * MAX_QUADS_BATCH <= 2 ^ index_bits ->
  0 <= k < MAX_QUADS_BATCH -> 0 <= j < 6 ->
  to_index <$> elt (quad_indices k) j = elt (quad_indices k) j.
Proof.
  intros Hfit Hk Hj.
  assert (j = 0 \/ j = 1 \/ j = 2 \/ j = 3 \/ j = 4 \/ j = 5)
    as [-> | [-> | [-> | [-> | [-> | ->]]]]] by lia;
    unfold elt, quad_indices; cbn;
    match goal with
    | |- context [Z.to_nat ?z] =>
        let n := eval vm_compute in (Z.to_nat z) in
        change (Z.to_nat z) with n
    end;
    cbn; f_equal; unfold to_index; apply Z.mod_small; lia.
Qed.

End Reach.

(** The calls that the model of the flush makes for the ledger are the
    draws of the specification, for the element type and the element
    width of the index array. *)
Lemma index_type_width `{Config} :
  index_width index_type = Some index_bits /\ index_size = index_bits / 8.
Proof.
  unfold index_width, index_type, index_bits, index_size.
  destruct graphics_api; split; reflexivity.
Qed.

Lemma ledger_draw_calls_quad_draws `{Config} l offset :
  ledger_draw_calls l offset
  = flat_map (draw_calls index_type (index_bits / 8)) (quad_draws l offset).
Proof.
  destruct index_type_width as [_ Hsize].
  revert offset. induction l as [|entry rest IH]; intros offset; [reflexivity|].
  cbn [ledger_draw_calls quad_draws flat_map draw_calls app
       draw_texture draw_first draw_count].
  rewrite IH, Hsize. reflexivity.
Qed.

(** C5. In a state that a client can reach with vertices in the quads
    buffer, a flush returns and its indexed draws are those that the
    specification words (see [quad_draws]), entry by entry of the ledger
    and in order: the texture of the entry is bound and one indexed draw
    of [(vertexCount / 4) * 6] indices is issued at the running index
    offset, which then advances by that count; no other indexed draw is
    made before or after. The indices are read as elements of the type
    that the index array has ([index_bits] wide), and the draw is given
    the byte at which the index at the running offset starts in that
    array. When four times the capacity fits the element type of the
    index array, the six indices of quad [k] are
    [4k, 4k+1, 4k+2, 4k, 4k+2, 4k+3] for every [k] below the capacity; they
    are written by the initialisation and no call writes them again. *)
Theorem C5_quad_draws_follow_ledger_and_index_pattern `{Config} `{Raymath} st :
  reachable st ->
  (0 < PCTI.vCounter (quads st) ->
   exists before after type,
     index_width type = Some index_bits
     /\ rlglDraw st =
          Ret tt (reset_batches
                    (with_gl (before
                              ++ flat_map (draw_calls type (index_bits / 8))
                                   (quad_draws (ledger st) 0)
                              ++ after) st))
     /\ Forall not_indexed_draw before
     /\ Forall not_indexed_draw after)
  /\ (4 * MAX_QUADS_BATCH <= 2 ^ index_bits ->
      forall k j, 0 <= k < MAX_QUADS_BATCH -> 0 <= j < 6 ->
        elt (PCTI.indices (quads st)) (6 * k + j) = elt (quad_indices k) j)
  /\ (forall c st', call c st = Ret tt st' ->
        PCTI.indices (quads st') = PCTI.indices (quads st)).
Proof.
  intros Hr. split; [|split].
  - intros Hq.
    destruct (rlglDraw_spec st (draws_ok_in_bounds st (reachable_draws_ok st Hr)))
      as (before & after & E & Hb & Ha).
    exists before, after, index_type.
    apply Z.ltb_lt in Hq. rewrite Hq in E.
    rewrite ledger_draw_calls_quad_draws in E.
    split; [apply index_type_width|]. auto.
  - intros Hfit k j Hk Hj.
    rewrite (reachable_indices st Hr k j Hk Hj).
    now apply to_index_quad_indices.
  - intros c st' E.
    exact (keeps_Ret (fun st => PCTI.indices (quads st)) _ _ _ _
             (call_keeps_indices c) E).
Qed.

(** Witness of C5: two quads of different textures are in the buffer. *)
Lemma C5_witness :
  (0 < PCTI.vCounter (quads example_two_quads) ->
   exists before after type,
     index_width type = Some index_bits
     /\ rlglDraw example_two_quads =
          Ret tt (reset_batches
                    (with_gl (before
                              ++ flat_map (draw_calls type (index_bits / 8))
                                   (quad_draws (ledger example_two_quads) 0)
                              ++ after)
                       example_two_quads))
     /\ Forall not_indexed_draw before
     /\ Forall not_indexed_draw after)
  /\ (4 * MAX_QUADS_BATCH <= 2 ^ index_bits ->
      forall k j, 0 <= k < MAX_QUADS_BATCH -> 0 <= j < 6 ->
        elt (PCTI.indices (quads example_two_quads)) (6 * k + j)
        = elt (quad_indices k) j)
  /\ (forall c st', call c example_two_quads = Ret tt st' ->
        PCTI.indices (quads st') = PCTI.indices (quads example_two_quads)).
Proof.
  apply (C5_quad_draws_follow_ledger_and_index_pattern example_two_quads).
  apply (boot_then_reachable example_boot
           ([c_rlBegin RL_QUADS; c_rlEnableTexture 5;
             c_rlColor4ub Byte.xff Byte.xff Byte.xff Byte.xff]
            ++ replicate 4 (c_rlVertex3f f32_0 f32_0 f32_0)
            ++ [c_rlEnableTexture 6]
            ++ replicate 4 (c_rlVertex3f f32_1 f32_1 f32_0)
            ++ [c_rlEnd])).
  vm_compute. reflexivity.
Defined.

(** ** The temp buffer *)

Lemma replay_snoc points p v vertices :
  replay (points ++ [p]) v vertices
  = put_position (Vector3.x p) (Vector3.y p) (Vector3.z p)
      (v + Z.of_nat (length points)) (replay points v vertices).
Proof.
  revert v vertices. induction points as [|q points IH]; intros v vertices.
  - cbn. now rewrite Z.add_0_r.
  - cbn [app replay length]. rewrite IH. f_equal. lia.
Qed.

Lemma replay_length points v vertices :
  length (replay points v vertices) = length vertices.
Proof.
  revert v vertices. induction points as [|q points IH]; intros v vertices.
  - reflexivity.
  - cbn [replay]. now rewrite IH, put_position_length.
Qed.

Lemma set_xyz x y z p : set_z z (set_y y (set_x x p)) = Vector3.mk x y z.
Proof. reflexivity. Qed.

Lemma staged_stage p st :
  0 <= tempBufferCount st < Z.of_nat (length (tempBuffer st)) ->
  staged (stage p st) = staged st ++ [p].
Proof.
  intros Hn. unfold staged, stage. cbn.
  replace (Z.to_nat (tempBufferCount st + 1))
    with (S (Z.to_nat (tempBufferCount st))) by lia.
  apply take_insert_snoc. lia.
Qed.

Section TempBuffer.
Context `{cfg : Config} `{rm : Raymath}.

(** With the temp buffer in use, [rlVertex3f] stores the point there and
    counts it. *)
Lemma rlVertex3f_stages x y z st :
  useTempBuffer st = true ->
  0 <= tempBufferCount st < Z.of_nat (length (tempBuffer st)) ->
  rlVertex3f x y z st = Ret tt (stage (Vector3.mk x y z) st).
Proof.
  intros Htemp Hn.
  destruct (lookup_lt_is_Some_2 (tempBuffer st) (Z.to_nat (tempBufferCount st)))
    as [p Hp]; [lia|].
  assert (Hb : in_bounds (tempBuffer st) (tempBufferCount st) = true)
    by (apply in_bounds_spec; lia).
  unfold rlVertex3f. rewrite bind_read. cbn [rd v_useTempBuffer].
  rewrite Htemp, bind_read. cbn [rd v_tempBufferCount].
  rewrite (bind_load _ _ p)
    by (unfold elt; destruct (Z.leb_spec 0 (tempBufferCount st)); [exact Hp|lia]).
  rewrite bind_store by exact Hb.
  rewrite (bind_load _ _ (set_x x p))
    by (apply elt_insert_eq; exact Hb).
  rewrite bind_store by (cbn; now rewrite in_bounds_insert).
  rewrite (bind_load _ _ (set_y y (set_x x p)))
    by (apply elt_insert_eq; cbn; now rewrite in_bounds_insert).
  rewrite bind_store by (cbn; now rewrite !in_bounds_insert).
  unfold assign, stage. cbn. rewrite !list_insert_insert_eq.
  destruct st; reflexivity.
Qed.

Lemma transform_staged_0 mat buffer : transform_staged mat 0 buffer = buffer.
Proof. reflexivity. Qed.

Lemma transform_staged_length mat n buffer :
  length (transform_staged mat n buffer) = length buffer.
Proof.
  unfold transform_staged.
  now rewrite length_app, length_fmap, <- length_app, take_drop.
Qed.

Lemma transform_staged_elt mat i buffer p :
  0 <= i -> buffer !! Z.to_nat i = Some p ->
  elt (transform_staged mat i buffer) i = Some p.
Proof.
  intros Hi Hp. unfold elt, transform_staged.
  destruct (Z.leb_spec 0 i) as [_|Hlt]; [|lia].
  pose proof (lookup_lt_Some _ _ _ Hp) as Hlen.
  rewrite lookup_app_r by (rewrite length_fmap, length_take; lia).
  rewrite length_fmap, length_take, lookup_drop.
  rewrite <- Hp. f_equal. lia.
Qed.

Lemma transform_staged_step mat i buffer p :
  0 <= i -> buffer !! Z.to_nat i = Some p ->
  <[Z.to_nat i := VectorTransform p mat]> (transform_staged mat i buffer)
  = transform_staged mat (i + 1) buffer.
Proof.
  intros Hi Hp. unfold transform_staged.
  pose proof (lookup_lt_Some _ _ _ Hp) as Hlen.
  replace (Z.to_nat (i + 1)) with (S (Z.to_nat i)) by lia.
  rewrite (take_S_r _ _ _ Hp), (drop_S _ _ _ Hp), fmap_app, <- app_assoc.
  rewrite insert_app_r_alt by (rewrite length_fmap, length_take; lia).
  rewrite length_fmap, length_take.
  replace (Z.to_nat i - Z.to_nat i `min` length buffer)%nat with 0%nat by lia.
  reflexivity.
Qed.

Lemma take_transform_staged mat n buffer :
  0 <= n <= Z.of_nat (length buffer) ->
  take (Z.to_nat n) (transform_staged mat n buffer)
  = (fun p => VectorTransform p mat) <$> take (Z.to_nat n) buffer.
Proof.
  intros Hn. unfold transform_staged.
  apply take_app_length'. rewrite length_fmap, length_take. lia.
Qed.

(** The first loop of [rlEnd]: the staged points are transformed in
    place, by the matrix that [currentMatrix] points to. *)
Lemma transform_loop st n :
  0 <= n <= Z.of_nat (length (tempBuffer st)) ->
  for_each 0 n (fun i =>
      p ← load v_tempBuffer i;
      m ← read deref_currentMatrix;
      store v_tempBuffer i (VectorTransform p m)) st
  = Ret tt (set_tempBuffer
              (transform_staged (rd deref_currentMatrix st) n (tempBuffer st))
              st).
Proof.
  intros Hn.
  set (mat := rd deref_currentMatrix st).
  set (I := fun (i : Z) (s : State) =>
    s = set_tempBuffer (transform_staged mat i (tempBuffer st)) st).
  destruct (for_each_inv I 0 n (fun i =>
      p ← load v_tempBuffer i;
      m ← read deref_currentMatrix;
      store v_tempBuffer i (VectorTransform p m)) st) as (st' & E & HI).
  - lia.
  - intros i s Hi ->.
    destruct (lookup_lt_is_Some_2 (tempBuffer st) (Z.to_nat i)) as [p Hp];
      [lia|].
    eexists. split; [|reflexivity].
    rewrite (bind_load _ _ p)
      by (cbn [rd v_tempBuffer tempBuffer set_tempBuffer];
          apply transform_staged_elt; [lia|exact Hp]).
    rewrite bind_read.
    replace (rd deref_currentMatrix (set_tempBuffer _ st)) with mat
      by (unfold mat; cbn; now destruct (currentMatrix st)).
    rewrite store_Ret
      by (apply in_bounds_spec; cbn; rewrite transform_staged_length; lia).
    cbn [rd v_tempBuffer tempBuffer set_tempBuffer].
    rewrite transform_staged_step by (lia || exact Hp).
    reflexivity.
  - unfold I. rewrite transform_staged_0. now destruct st.
  - rewrite E. now rewrite HI.
Qed.

Lemma rlVertex3f_batch_keeps_beside x y z :
  keeps beside_positions (rlVertex3f_batch x y z).
Proof. unfold rlVertex3f_batch. keeps_auto. Qed.

Lemma vertices_per_pos mode : 0 < vertices_per mode.
Proof. destruct mode; cbn; lia. Qed.

(** The second loop of [rlEnd]: with the temp buffer out of use, its
    points go to the active buffer through [rlVertex3f], one vertex after
    the other. *)
Lemma replay_loop st n :
  useTempBuffer st = false ->
  0 <= n <= Z.of_nat (length (tempBuffer st)) ->
  replay_room n st ->
  exists st',
    for_each 0 n (fun i =>
        p ← load v_tempBuffer i;
        rlVertex3f (Vector3.x p) (Vector3.y p) (Vector3.z p)) st
    = Ret tt st'
    /\ useTempBuffer st' = false
    /\ beside_positions st' = beside_positions st
    /\ currentDrawMode st' = currentDrawMode st
    /\ active_vCounter st' = active_vCounter st + n
    /\ active_vertices st'
       = replay (take (Z.to_nat n) (tempBuffer st)) (active_vCounter st)
           (active_vertices st).
Proof.
  intros Htemp Hn (Hv & Hlimit & Hlen & Hledger).
  set (I := fun (i : Z) (s : State) =>
    useTempBuffer s = false
    /\ beside_positions s = beside_positions st
    /\ currentDrawMode s = currentDrawMode st
    /\ active_vCounter s = active_vCounter st + i
    /\ active_vertices s
       = replay (take (Z.to_nat i) (tempBuffer st)) (active_vCounter st)
           (active_vertices st)
    /\ (currentDrawMode st = RL_QUADS -> ledger_ok s)).
  destruct (for_each_inv I 0 n (fun i =>
      p ← load v_tempBuffer i;
      rlVertex3f (Vector3.x p) (Vector3.y p) (Vector3.z p)) st)
    as (st' & E & Ht' & Hb' & Hm' & Hv' & Hvs' & _).
  - lia.
  - intros i s Hi (Hts & Hbs & Hms & Hvs & Hvss & Hls).
    assert (HT : tempBuffer s = tempBuffer st)
      by (unfold beside_positions in Hbs; congruence).
    destruct (lookup_lt_is_Some_2 (tempBuffer st) (Z.to_nat i)) as [p Hp];
      [lia|].
    destruct (rlVertex3f_accept (Vector3.x p) (Vector3.y p) (Vector3.z p) s
                (active_vCounter st + i) Hts Hvs)
      as (s' & Es & Hm1 & Hv1 & Hvs1 & Hl1).
    { lia. }
    { rewrite Hms.
      apply Z.le_lt_trans
        with ((active_vCounter st + n - 1) ÷ vertices_per (currentDrawMode st));
        [|apply Hlimit; lia].
      apply Z.quot_le_mono; [apply vertices_per_pos|lia]. }
    { rewrite Hvss, replay_length. lia. }
    { rewrite Hms. exact Hls. }
    exists s'. split.
    { rewrite (bind_load _ _ p); [exact Es|].
      cbn [rd v_tempBuffer]. rewrite HT. unfold elt.
      destruct (Z.leb_spec 0 i); [exact Hp|lia]. }
    unfold I. split.
    { rewrite <- Hts. frame useTempBuffer Es.
      apply rlVertex3f_keeps_useTempBuffer. }
    split.
    { rewrite <- Hbs. rewrite rlVertex3f_off in Es by exact Hts.
      frame beside_positions Es. apply rlVertex3f_batch_keeps_beside. }
    split; [congruence|]. split; [lia|]. split.
    { rewrite Hvs1, Hvss.
      replace (Z.to_nat (i + 1)) with (S (Z.to_nat i)) by lia.
      rewrite (take_S_r _ _ _ Hp), replay_snoc, length_take.
      f_equal. lia. }
    intros Hq. apply Hl1. congruence.
  - unfold I. repeat split; try reflexivity; [exact Htemp|lia|exact Hledger].
  - exists st'. split; [exact E|]. repeat split; assumption.
Qed.

(** The first part of [rlEnd] with the temp buffer in use. *)
Lemma rlEnd_temp_spec st :
  useTempBuffer st = true ->
  0 <= tempBufferCount st <= Z.of_nat (length (tempBuffer st)) ->
  replay_room (tempBufferCount st) st ->
  exists st',
    rlEnd_temp st = Ret tt st'
    /\ useTempBuffer st' = false
    /\ tempBufferCount st' = 0
    /\ currentDrawMode st' = currentDrawMode st
    /\ active_vCounter st' = active_vCounter st + tempBufferCount st
    /\ active_vertices st'
       = replay ((fun p => VectorTransform p (rd deref_currentMatrix st))
                   <$> staged st)
           (active_vCounter st) (active_vertices st)
    /\ active_cCounter st' = active_cCounter st
    /\ active_colors st' = active_colors st
    /\ PCTI.tcCounter (quads st') = PCTI.tcCounter (quads st)
    /\ PCTI.texcoords (quads st') = PCTI.texcoords (quads st).
Proof.
  intros Htemp Hn Hroom.
  set (n := tempBufferCount st) in *.
  set (mat := rd deref_currentMatrix st).
  set (s2 := set_useTempBuffer false
               (set_tempBuffer (transform_staged mat n (tempBuffer st)) st)).
  destruct (replay_loop s2 n) as (s3 & E3 & Ht3 & Hb3 & Hm3 & Hv3 & Hvs3).
  { reflexivity. }
  { cbn. rewrite transform_staged_length. exact Hn. }
  { exact Hroom. }
  exists (set_tempBufferCount 0 s3). split.
  { unfold rlEnd_temp. rewrite bind_read. cbn [rd v_useTempBuffer].
    rewrite Htemp. cbn [when]. rewrite bind_read.
    cbn [rd v_tempBufferCount]. fold n.
    rewrite (bind_Ret _ _ _ _ _ (transform_loop st n Hn)).
    rewrite bind_assign, bind_read.
    cbn [wr rd v_useTempBuffer v_tempBufferCount].
    change (tempBufferCount (set_useTempBuffer false (set_tempBuffer _ st)))
      with n.
    fold mat s2. rewrite (bind_Ret _ _ _ _ _ E3). reflexivity. }
  unfold beside_positions in Hb3. cbn in Hb3.
  injection Hb3 as HT Hcount Hlc Hlcs Htc Htcs Hqc Hqcs Hqt Hqts.
  unfold active_vCounter, active_vertices, active_cCounter, active_colors in *.
  cbn in Hm3, Hv3, Hvs3 |- *. rewrite Hm3 in Hv3, Hvs3 |- *.
  rewrite take_transform_staged in Hvs3 by exact Hn.
  change (staged st) with (take (Z.to_nat n) (tempBuffer st)).
  destruct (currentDrawMode st); repeat split; assumption.
Qed.

Lemma add_colors_returns (vCounter cCounter : Var Z) (colors : Var (list byte))
    (Hvars : distinct_vars cCounter colors) st :
  rd vCounter st <= rd cCounter st
  \/ (1 <= rd cCounter st
      /\ 4 * rd vCounter st <= Z.of_nat (length (rd colors st))) ->
  exists st', add_colors vCounter cCounter colors st = Ret tt st'.
Proof.
  intros [Hle|[Hc Hlen]].
  - exists st. now apply add_colors_skip.
  - destruct (Z.le_gt_cases (rd vCounter st) (rd cCounter st)) as [Hle|Hgt].
    + exists st. now apply add_colors_skip.
    + destruct (add_colors_spec cCounter colors Hvars vCounter st _ _ _
                  eq_refl eq_refl eq_refl) as (st' & E & _); [lia|lia|].
      now exists st'.
Qed.

Lemma rlEnd_counts_keeps_beside : keeps beside_colors rlEnd_counts.
Proof.
  unfold rlEnd_counts, add_colors, add_texcoords, repeat_last_color.
  keeps_auto.
Qed.

(** The second part of [rlEnd] returns when the colors and texcoords are
    ready for the vertices of the active buffer. *)
Lemma rlEnd_counts_returns st :
  end_ready (active_vCounter st) st ->
  exists st', rlEnd_counts st = Ret tt st'.
Proof.
  unfold end_ready, active_vCounter, active_cCounter, active_colors.
  intros [Hc Ht]. unfold rlEnd_counts. rewrite bind_read.
  cbn [rd v_currentDrawMode]. destruct (currentDrawMode st).
  - now apply (add_colors_returns _ _ _ lines_color_vars).
  - now apply (add_colors_returns _ _ _ triangles_color_vars).
  - destruct (add_colors_returns quads_vCounter _ _ quads_color_vars st Hc)
      as (s1 & E1).
    destruct (add_texcoords_returns s1) as (s2 & E2).
    { assert (Hk : (PCTI.vCounter (quads s1), PCTI.tcCounter (quads s1),
                    PCTI.texcoords (quads s1))
                   = (PCTI.vCounter (quads st), PCTI.tcCounter (quads st),
                      PCTI.texcoords (quads st))).
      { frame (fun s => (PCTI.vCounter (quads s), PCTI.tcCounter (quads s),
                         PCTI.texcoords (quads s))) E1.
        apply add_colors_keeps; solve_untouched. }
      injection Hk as Hv1 Ht1 Hts1. unfold quads_texcoords_ready.
      rewrite Hv1, Ht1, Hts1. now apply Ht. }
    exists s2. now rewrite (bind_Ret _ _ _ _ _ E1).
Qed.

(** [rlEnd] with the temp buffer in use. *)
Lemma rlEnd_staged st :
  useTempBuffer st = true ->
  0 <= tempBufferCount st <= Z.of_nat (length (tempBuffer st)) ->
  replay_room (tempBufferCount st) st ->
  end_ready (active_vCounter st + tempBufferCount st) st ->
  exists st',
    rlEnd st = Ret tt st'
    /\ currentDrawMode st' = currentDrawMode st
    /\ active_vertices st'
       = replay ((fun p => VectorTransform p (rd deref_currentMatrix st))
                   <$> staged st)
           (active_vCounter st) (active_vertices st)
    /\ active_vCounter st' = active_vCounter st + tempBufferCount st
    /\ tempBufferCount st' = 0
    /\ useTempBuffer st' = false.
Proof.
  intros Htemp Hn Hroom Hready.
  destruct (rlEnd_temp_spec st Htemp Hn Hroom)
    as (s1 & E1 & Ht1 & Hn1 & Hm1 & Hv1 & Hvs1 & Hc1 & Hcs1 & Htc1 & Htcs1).
  destruct (rlEnd_counts_returns s1) as (s2 & E2).
  { unfold end_ready in *.
    rewrite Hv1, Hc1, Hcs1, Hm1, Htc1, Htcs1. exact Hready. }
  assert (Hk : beside_colors s2 = beside_colors s1)
    by (frame beside_colors E2; apply rlEnd_counts_keeps_beside).
  unfold beside_colors in Hk.
  injection Hk as Hm2 Hlv Hlvs Htv Htvs Hqv Hqvs Hn2 Ht2.
  eexists. split.
  { unfold rlEnd.
    rewrite (bind_Ret _ _ _ _ _ E1), (bind_Ret _ _ _ _ _ E2), bind_read.
    reflexivity. }
  unfold active_vCounter, active_vertices in *.
  cbn [wr v_currentDepth set_currentDepth currentDrawMode lines triangles
       quads tempBufferCount useTempBuffer].
  rewrite Hm2, Hm1 in *.
  repeat split; try congruence;
    destruct (currentDrawMode st); congruence.
Qed.

End TempBuffer.

(** C8, as the code has it. While [useTempBuffer] is set, [rlVertex3f]
    returns after storing
    its point at the end of the temp buffer and counting it: the staged
    points are those of before followed by the new one, and the three
    primitive buffers and the ledger are as they were (there must be room
    in the temp buffer). [rlEnd] then returns with every staged point
    transformed by the matrix that [currentMatrix] points to at that
    moment and stored, in the order of submission, in the buffer of the
    active topology after the vertices it has; the count of the temp
    buffer is 0 and the flag is lowered. The active buffer must have room
    for the staged points, and its colors and texcoords must be ready for
    the second part of [rlEnd]. *)
Theorem C8_temp_buffer_stages_and_replays `{Config} `{Raymath} st :
  useTempBuffer st = true ->
  0 <= tempBufferCount st ->
  (forall x y z,
     tempBufferCount st < Z.of_nat (length (tempBuffer st)) ->
     let st' := stage (Vector3.mk x y z) st in
     rlVertex3f x y z st = Ret tt st'
     /\ staged st' = staged st ++ [Vector3.mk x y z]
     /\ lines st' = lines st /\ triangles st' = triangles st
     /\ quads st' = quads st /\ draws st' = draws st
     /\ useTempBuffer st' = true)
  /\ (tempBufferCount st <= Z.of_nat (length (tempBuffer st)) ->
      replay_room (tempBufferCount st) st ->
      end_ready (active_vCounter st + tempBufferCount st) st ->
      exists st',
        rlEnd st = Ret tt st'
        /\ currentDrawMode st' = currentDrawMode st
        /\ active_vertices st'
           = replay ((fun p => VectorTransform p (rd deref_currentMatrix st))
                       <$> staged st)
               (active_vCounter st) (active_vertices st)
        /\ active_vCounter st' = active_vCounter st + tempBufferCount st
        /\ tempBufferCount st' = 0
        /\ useTempBuffer st' = false).
Proof.
  intros Htemp Hn. split.
  - intros x y z Hlt st'. split; [apply rlVertex3f_stages; [assumption|lia]|].
    split; [apply staged_stage; lia|].
    repeat split. exact Htemp.
  - intros Hle Hroom Hready. apply rlEnd_staged; [assumption|lia|assumption..].
Qed.

(** Witness of C8: the example with three points in the temp buffer, a
    fourth one submitted there, and the three replayed by [rlEnd] under a
    translation. *)
Lemma C8_witness :
  (rlVertex3f f32_1 f32_1 f32_1 example_staged
   = Ret tt (stage (Vector3.mk f32_1 f32_1 f32_1) example_staged)
   /\ staged (stage (Vector3.mk f32_1 f32_1 f32_1) example_staged)
      = staged example_staged ++ [Vector3.mk f32_1 f32_1 f32_1])
  /\ exists st',
       rlEnd example_staged = Ret tt st'
       /\ take 9 (active_vertices st')
          = [f32_1; f32_1; f32_0;
             f32_add f32_1 f32_1; f32_1; f32_0;
             f32_1; f32_add f32_1 f32_1; f32_0]
       /\ active_vCounter st' = 3
       /\ tempBufferCount st' = 0
       /\ useTempBuffer st' = false.
Proof.
  destruct (C8_temp_buffer_stages_and_replays example_staged)
    as [Hstage Hend]; [vm_compute; reflexivity|vm_compute; discriminate|].
  split.
  - destruct (Hstage f32_1 f32_1 f32_1) as (E & Hs & _);
      [vm_compute; reflexivity|].
    split; [exact E|exact Hs].
  - destruct Hend as (st' & E & _ & Hvs & Hv & Hn & Ht).
    + vm_compute. discriminate.
    + unfold replay_room. repeat split; try (vm_compute; easy).
    + unfold end_ready. split; [right; split; vm_compute; easy|].
      intros Hq. vm_compute in Hq. discriminate Hq.
    + exists st'. split; [exact E|]. split; [|split; [|split]].
      * rewrite Hvs. vm_compute. reflexivity.
      * rewrite Hv. vm_compute. reflexivity.
      * exact Hn.
      * exact Ht.
Defined.

(** C8 as stated fails. The triangles buffer of the example holds its six
    vertices when the modelview matrix is pushed and one more vertex is
    submitted, which goes to the temp buffer. [rlEnd] transforms the
    staged point, lowers the flag and hands the point to [rlVertex3f],
    which finds the buffer at its limit and reports the overflow on the
    ERROR level: the process exits. The staged point is not replayed and
    the count of the temp buffer is not reset. *)
Lemma C8_counterexample :
  boot_then example_boot staged_after_full_calls
  = Ret tt example_staged_after_full
  /\ useTempBuffer example_staged_after_full = true
  /\ staged example_staged_after_full = [Vector3.mk f32_1 f32_1 f32_1]
  /\ ~ (exists st', rlEnd example_staged_after_full = Ret tt st')
  /\ exists st',
       rlEnd example_staged_after_full = Exit 1 st'
       /\ tempBufferCount st' = 1
       /\ triangles st' = triangles example_staged_after_full.
Proof.
  split; [vm_compute; reflexivity|].
  split; [vm_compute; reflexivity|].
  split; [vm_compute; reflexivity|].
  split.
  - intros (st' & E). vm_compute in E. discriminate E.
  - eexists. split; [vm_compute; reflexivity|].
    split; vm_compute; reflexivity.
Qed.


(** ** Where a batch starts *)

Lemma keeps_store_quads_vertices_length i x :
  keeps (fun st => length (PCTI.vertices (quads st)))
    (store quads_vertices i x).
Proof.
  intros st. unfold store, read, assign, array_set, out_of_bounds, mbind,
    M_bind, mret, M_ret.
  cbn. destruct (in_bounds _ _); cbn; [apply length_insert|reflexivity].
Qed.

Ltac keeps_vertices_length :=
  repeat first
    [ lazymatch goal with
      | |- keeps _ (store quads_vertices _ _) =>
          apply keeps_store_quads_vertices_length
      end
    | keeps_step ].

Section BatchStart.
Context `{cfg : Config} `{rm : Raymath}.

Lemma rlVertex3f_keeps_quads_vertices_length x y z :
  keeps (fun st => length (PCTI.vertices (quads st))) (rlVertex3f x y z).
Proof. unfold rlVertex3f. keeps_vertices_length. Qed.

Lemma call_keeps_quads_vertices_length c :
  keeps (fun st => length (PCTI.vertices (quads st))) (call c).
Proof.
  destruct c; cbn [call];
    unfold rlMatrixMode, rlPushMatrix, rlPopMatrix, rlLoadIdentity,
      rlTranslatef, rlRotatef, rlScalef, rlMultMatrixf, rlFrustum, rlOrtho,
      rlBegin, rlEnd, rlEnd_temp, rlEnd_counts, add_colors, add_texcoords,
      repeat_last_color, rlVertex2i, rlVertex2f, rlTexCoord2f, rlNormal3f,
      rlColor4ub, rlEnableTexture, rlDisableTexture, rlglDraw,
      UpdateDefaultBuffers, rlglDraw_batches, rlglDraw_reset, draw_entry;
    keeps_auto;
    lazymatch goal with
    | |- keeps _ (rlVertex3f _ _ _) =>
        apply rlVertex3f_keeps_quads_vertices_length
    end.
Qed.

Lemma rlglInit_quads_vertices_length :
  0 <= MAX_QUADS_BATCH ->
  ensures (fun st => Z.of_nat (length (PCTI.vertices (quads st)))
                     = 3 * 4 * MAX_QUADS_BATCH) rlglInit.
Proof.
  intros Hmax. unfold rlglInit. do 5 (apply ensures_bind_r; intros ?).
  apply (ensures_bind_l (fun st => length (PCTI.vertices (quads st)))
           (fun n => Z.of_nat n = 3 * 4 * MAX_QUADS_BATCH));
    [|intros ?; keeps_auto].
  unfold LoadDefaultBuffers. do 2 (apply ensures_bind_r; intros ?).
  apply (ensures_bind_l (fun st => length (PCTI.vertices (quads st)))
           (fun n => Z.of_nat n = 3 * 4 * MAX_QUADS_BATCH));
    [|intros ?; keeps_auto].
  apply ensures_assign. intros st. cbn. rewrite length_fill_array. lia.
Qed.

(** In every state that a client can reach, the positions of the quads
    are the array that the initialisation allocated. *)
Lemma reachable_quads_vertices_length st :
  0 <= MAX_QUADS_BATCH -> reachable st ->
  Z.of_nat (length (PCTI.vertices (quads st))) = 3 * 4 * MAX_QUADS_BATCH.
Proof.
  intros Hmax. induction 1 as [b st E|st c st' Hr IH E].
  - exact (rlglInit_quads_vertices_length Hmax _ _ _ E).
  - pose proof (keeps_Ret (fun st => length (PCTI.vertices (quads st)))
                  _ _ _ _ (call_keeps_quads_vertices_length c) E) as K.
    cbn beta in K. now rewrite K.
Qed.

(** A flush in quads mode, the temp buffer out of use, ends at the start
    of a batch. *)
Lemma flush_starts_batch st :
  0 <= MAX_QUADS_BATCH -> reachable st ->
  currentDrawMode st = RL_QUADS -> useTempBuffer st = false ->
  exists st', rlglDraw st = Ret tt st' /\ quads_batch_start st'.
Proof.
  intros Hmax Hr Hmode Htemp.
  pose proof (reachable_draws_ok st Hr) as Hok.
  destruct (rlglDraw_spec st (draws_ok_in_bounds st Hok))
    as (before & after & E & _).
  eexists. split; [exact E|].
  destruct Hok as [Hlen Hc].
  repeat split; try assumption.
  - cbn. now apply reachable_quads_vertices_length.
  - cbn. now rewrite length_insert.
  - eexists. apply reset_batches_ledger. cbn. unfold MAX_DRAWS_BY_TEXTURE in Hlen.
    lia.
Qed.

Lemma rlglInit_quads_vCounter :
  ensures (fun st => PCTI.vCounter (quads st) = 0) rlglInit.
Proof.
  unfold rlglInit. do 5 (apply ensures_bind_r; intros ?).
  apply (ensures_bind_l (fun st => PCTI.vCounter (quads st)) (fun n => n = 0));
    [|intros ?; keeps_auto].
  unfold LoadDefaultBuffers. do 4 (apply ensures_bind_r; intros ?).
  apply (ensures_bind_l (fun st => PCTI.vCounter (quads st)) (fun n => n = 0));
    [|intros ?; keeps_auto].
  apply ensures_assign. reflexivity.
Qed.

Lemma rlglInit_ledger :
  ensures (fun st => drawsCounter st = 1
                     /\ ledger st = [DrawCall.mk (whiteTexture st) 0])
    rlglInit.
Proof.
  unfold rlglInit. do 7 (apply ensures_bind_r; intros ?).
  intros st [] st' E.
  rewrite !bind_assign, bind_read in E.
  change ((get ≫= ?k) ?s) with (k s s) in E.
  cbn [rd wr v_drawsCounter drawsCounter set_drawsCounter] in E.
  change (1 - 1) with 0 in E.
  rewrite (bind_load _ _ (DrawCall.mk 0 0)) in E
    by (apply elt_fill_array; unfold MAX_DRAWS_BY_TEXTURE; lia).
  rewrite store_Ret in E by reflexivity.
  injection E as <-. split; reflexivity.
Qed.

(** Initialisation followed by [rlBegin(RL_QUADS)] is the start of a
    batch. *)
Lemma init_starts_batch b st :
  0 <= MAX_QUADS_BATCH ->
  rlglInit (static_state b) = Ret tt st ->
  exists st', rlBegin RL_QUADS st = Ret tt st' /\ quads_batch_start st'.
Proof.
  intros Hmax E. eexists. split; [reflexivity|].
  pose proof (reachable_draws_ok st (reachable_init b st E)) as [Hlen _].
  destruct (rlglInit_ledger _ _ _ E) as [Hc Hl].
  assert (Htemp : useTempBuffer st = false).
  { assert (keeps useTempBuffer rlglInit) as K
      by (unfold rlglInit, LoadDefaultBuffers; keeps_auto).
    exact (keeps_Ret _ _ _ _ _ K E). }
  repeat split; cbn; try assumption.
  - exact (rlglInit_quads_vCounter _ _ _ E).
  - exact (rlglInit_quads_vertices_length Hmax _ _ _ E).
  - eexists. exact Hl.
Qed.

(** A texture switch that needs a new entry when the 256 entries of the
    array are in use: [drawsCounter] is incremented without a test and the
    entry is accessed past the end of the array. *)
Lemma rlEnableTexture_full id st cur :
  drawsCounter st = Z.of_nat (length (draws st)) ->
  elt (draws st) (drawsCounter st - 1) = Some cur ->
  DrawCall.textureId cur <> id -> 0 < DrawCall.vertexCount cur ->
  rlEnableTexture id st
  = OutOfBounds (set_drawsCounter (drawsCounter st + 1) st).
Proof.
  intros Hfull Hcur Hne Hpos. unfold rlEnableTexture.
  rewrite bind_read. cbn [rd v_drawsCounter].
  rewrite (bind_load _ _ cur) by exact Hcur.
  destruct (Z.eqb_spec (DrawCall.textureId cur) id) as [Heq|_];
    [contradiction|].
  destruct (Z.ltb_spec 0 (DrawCall.vertexCount cur)) as [_|Hle]; [|lia].
  cbn [negb when]. rewrite bind_assign, bind_read.
  cbn [wr rd v_drawsCounter drawsCounter set_drawsCounter].
  apply bind_OutOfBounds, load_OutOfBounds.
  apply in_bounds_false. cbn. lia.
Qed.

End BatchStart.

(** ** The ledger filled by calls *)

Section FullLedger.
Context `{cfg : Config} `{rm : Raymath}.

(** From the single empty entry of a batch start, textures 1 to 256 with
    a vertex each give 256 entries. *)
Lemma full_ledger_calls_after texture :
  ledger_after full_ledger_calls [DrawCall.mk texture 0] = full_ledger.
Proof.
  unfold full_ledger_calls. rewrite ledger_after_app.
  cbn [texture_with_vertex ledger_after].
  rewrite setActiveTexture_first, countQuadVertex_snoc.
  vm_compute. reflexivity.
Qed.

(** The calls return when the quads buffer has room for their 256
    vertices, and leave every entry of the array of draw calls in use,
    the last one with texture 256 and one vertex. *)
Lemma full_ledger_calls_run st :
  quads_batch_start st -> 64 <= MAX_QUADS_BATCH ->
  exists st',
    ledger_run full_ledger_calls st = Ret tt st'
    /\ ledger st' = full_ledger
    /\ drawsCounter st' = Z.of_nat (length (draws st'))
    /\ elt (draws st') (drawsCounter st' - 1) = Some (DrawCall.mk 256 1).
Proof.
  intros Hstart Hmax.
  pose proof (quads_batch_start_open st Hstart) as Hopen.
  destruct Hstart as (_ & _ & Hv & _ & _ & _ & texture & Hl).
  destruct (ledger_run_within full_ledger_calls st Hopen)
    as (st' & E & Hopen' & Hl' & _).
  { rewrite Hv. change (quad_vertices full_ledger_calls) with 256. lia. }
  { rewrite Hl, full_ledger_calls_after. vm_compute. discriminate. }
  rewrite Hl, full_ledger_calls_after in Hl'.
  destruct Hopen' as (_ & _ & _ & _ & Hd & Hn & cur & Hcur & _).
  assert (drawsCounter st' = 256) as Hc.
  { rewrite Hn, Hl'. reflexivity. }
  exists st'. split; [exact E|]. split; [exact Hl'|].
  split; [rewrite Hd, Hc; reflexivity|].
  pose proof (ledger_snoc st' cur Hcur) as Hs.
  rewrite Hl' in Hs. apply (f_equal last) in Hs.
  rewrite last_snoc in Hs. vm_compute in Hs. injection Hs as <-.
  exact Hcur.
Qed.

End FullLedger.

(** C4, where the code leaves it. After initialisation and
    [rlBegin(RL_QUADS)], binding the textures 1 to 256 with one vertex
    each returns and leaves 256 entries in the ledger: every entry of the
    array of draw calls is in use and the current one has a vertex.
    Binding texture 257 then is, by the claim, the ledger with the entry
    (257, 0) appended; [rlEnableTexture] increments [drawsCounter] to 257
    without a test and accesses [draws[256]], outside the array. The
    quads buffer must have room for the 256 vertices. *)
Theorem C4_binding_past_the_last_entry_is_out_of_bounds `{Config} `{Raymath}
    b st0 :
  64 <= MAX_QUADS_BATCH ->
  rlglInit (static_state b) = Ret tt st0 ->
  exists st1,
    (rlBegin RL_QUADS;; ledger_run full_ledger_calls) st0 = Ret tt st1
    /\ ledger st1 = full_ledger
    /\ setActiveTexture 257 (ledger st1) = full_ledger ++ [DrawCall.mk 257 0]
    /\ rlEnableTexture 257 st1 = OutOfBounds (set_drawsCounter 257 st1).
Proof.
  intros Hmax Einit.
  assert (0 <= MAX_QUADS_BATCH) as Hmax0 by lia.
  destruct (init_starts_batch b st0 Hmax0 Einit) as (st & Eb & Hstart).
  destruct (full_ledger_calls_run st Hstart Hmax)
    as (st1 & E & Hl & Hfull & Hcur).
  exists st1. split; [now rewrite (bind_Ret _ _ _ _ _ Eb)|].
  split; [exact Hl|]. split; [rewrite Hl; vm_compute; reflexivity|].
  rewrite (rlEnableTexture_full 257 st1 (DrawCall.mk 256 1) Hfull Hcur)
    by (cbn; lia).
  assert (drawsCounter st1 = 256) as ->; [|reflexivity].
  pose proof (ledger_snoc st1 _ Hcur) as Hs.
  apply (f_equal (fun l => Z.of_nat (length l))) in Hs.
  rewrite Hl, length_app, length_take in Hs.
  pose proof (elt_Some_in_bounds _ _ _ Hcur) as Hb.
  apply in_bounds_spec in Hb.
  change (Z.of_nat (length full_ledger)) with 256 in Hs. cbn [length] in Hs.
  lia.
Qed.

(** Witness of C4: the example, initialised with room for 64 quads. *)
Lemma C4_witness :
  exists st1,
    (rlBegin RL_QUADS;; ledger_run (H := roomy_config) full_ledger_calls)
      (final_state (boot_then (H := roomy_config) example_boot []))
    = Ret tt st1
    /\ ledger st1 = full_ledger
    /\ setActiveTexture 257 (ledger st1) = full_ledger ++ [DrawCall.mk 257 0]
    /\ rlEnableTexture 257 st1 = OutOfBounds (set_drawsCounter 257 st1).
Proof.
  apply (C4_binding_past_the_last_entry_is_out_of_bounds (H := roomy_config)
           example_boot
           (final_state (boot_then (H := roomy_config) example_boot []))).
  - vm_compute. discriminate.
  - vm_compute. reflexivity.
Defined.


(** * More of [rlgl.c] *)

(** ** The matrix stack in use *)

Lemma keeps_store_stack_length i x :
  keeps (fun st => length (stack st)) (store v_stack i x).
Proof.
  intros st. unfold store, read, assign, array_set, out_of_bounds, mbind,
    M_bind, mret, M_ret.
  cbn. destruct (in_bounds _ _); cbn; [apply length_insert|reflexivity].
Qed.

Ltac keeps_stack_length :=
  repeat first
    [ lazymatch goal with
      | |- keeps _ (store v_stack _ _) => apply keeps_store_stack_length
      end
    | keeps_step ].

Lemma wr_deref_twice m m' st :
  wr deref_currentMatrix m (wr deref_currentMatrix m' st)
  = wr deref_currentMatrix m st.
Proof.
  destruct st as [? ? ? ? [] ? ? ? ? ? ? ? ? ? ? ? ? ? ? ? ? ? ? ? ? ? ? ?];
    reflexivity.
Qed.

Lemma rd_wr_deref m st : rd deref_currentMatrix (wr deref_currentMatrix m st) = m.
Proof.
  destruct st as [? ? ? ? [] ? ? ? ? ? ? ? ? ? ? ? ? ? ? ? ? ? ? ? ? ? ? ?];
    reflexivity.
Qed.

Section Stack.
Context `{cfg : Config} `{rm : Raymath}.

(** A push below the limit: the current matrix is saved in the slot that
    [stackCounter] designates, the current matrix is the identity, the
    counter is one more, and the temp buffer is in use in modelview mode. *)
Lemma rlPushMatrix_spec st :
  stackCounter st <> MATRIX_STACK_SIZE - 1 ->
  0 <= stackCounter st < Z.of_nat (length (stack st)) ->
  rlPushMatrix st
  = Ret tt (set_stackCounter (stackCounter st + 1)
              (wr deref_currentMatrix MatrixIdentity (after_push_pop st))).
Proof.
  intros Hne Hn. unfold rlPushMatrix.
  rewrite bind_read. cbn [rd v_stackCounter].
  destruct (Z.eqb_spec (stackCounter st) (MATRIX_STACK_SIZE - 1)) as [Heq|_];
    [contradiction|].
  cbn [when]. rewrite bind_mret_l, !bind_read.
  rewrite bind_store by (apply in_bounds_spec; cbn; lia).
  unfold rlLoadIdentity. rewrite bind_assign, bind_read, bind_assign, bind_read.
  unfold after_push_pop. cbn.
  destruct st as [? ? ? ? [] [] ? ? ? ? ? ? ? ? ? ? ? ? ? ? ? [] ? ? ? ? ? ?];
    reflexivity.
Qed.

(** When a push returns, it was below the limit and inside the stack. *)
Lemma rlPushMatrix_Ret st st' :
  rlPushMatrix st = Ret tt st' ->
  stackCounter st <> MATRIX_STACK_SIZE - 1
  /\ 0 <= stackCounter st < Z.of_nat (length (stack st)).
Proof.
  unfold rlPushMatrix. rewrite bind_read. cbn [rd v_stackCounter].
  destruct (Z.eqb_spec (stackCounter st) (MATRIX_STACK_SIZE - 1)) as [Heq|Hne].
  - intros E. exfalso. cbn [when] in E. revert E.
    unfold TraceLog, fprintf, when, exit, is_ERROR, mbind, M_bind, mret, M_ret.
    cbn. discriminate.
  - cbn [when]. rewrite bind_mret_l, !bind_read. intros E.
    split; [assumption|].
    destruct (in_bounds (stack st) (stackCounter st)) eqn:Hb.
    + now apply in_bounds_spec in Hb.
    + exfalso. rewrite (bind_OutOfBounds _ _ _ st) in E; [discriminate|].
      now apply store_OutOfBounds.
Qed.

Lemma rlPopMatrix_spec st mat :
  0 < stackCounter st ->
  elt (stack st) (stackCounter st - 1) = Some mat ->
  rlPopMatrix st
  = Ret tt (set_stackCounter (stackCounter st - 1)
              (wr deref_currentMatrix mat st)).
Proof.
  intros Hn Hmat. unfold rlPopMatrix. rewrite bind_read.
  cbn [rd v_stackCounter].
  destruct (Z.ltb_spec 0 (stackCounter st)) as [_|Hle]; [|lia].
  cbn [when]. rewrite (bind_load _ _ mat) by exact Hmat.
  rewrite bind_assign. unfold assign. cbn.
  destruct (currentMatrix st); reflexivity.
Qed.

Lemma wr_rd_deref st : wr deref_currentMatrix (rd deref_currentMatrix st) st = st.
Proof.
  destruct st as [? ? ? ? [] ? ? ? ? ? ? ? ? ? ? ? ? ? ? ? ? ? ? ? ? ? ? ?];
    reflexivity.
Qed.

Lemma transformation_spec c st :
  is_transformation c = true ->
  exists m, call c st = Ret tt (wr deref_currentMatrix m st).
Proof.
  destruct c; try discriminate; intros _; cbn [call];
    unfold rlLoadIdentity, rlTranslatef, rlRotatef, rlScalef, rlMultMatrixf,
      rlFrustum, rlOrtho;
    eexists; try rewrite bind_read; reflexivity.
Qed.

Lemma run_transformations ts st :
  forallb is_transformation ts = true ->
  exists m, run ts st = Ret tt (wr deref_currentMatrix m st).
Proof.
  revert st. induction ts as [|c ts IH]; intros st Hts.
  - exists (rd deref_currentMatrix st). now rewrite wr_rd_deref.
  - cbn [forallb] in Hts. apply andb_prop in Hts as [Hc Hts].
    destruct (transformation_spec c st Hc) as [m1 E1].
    destruct (IH (wr deref_currentMatrix m1 st) Hts) as [m E].
    exists m. cbn [run]. rewrite (bind_Ret _ _ _ _ _ E1), E.
    now rewrite wr_deref_twice.
Qed.

(** A push, transformations of the current matrix and the pop. *)
Lemma push_transform_pop ts st :
  stackCounter st <> MATRIX_STACK_SIZE - 1 ->
  0 <= stackCounter st < Z.of_nat (length (stack st)) ->
  forallb is_transformation ts = true ->
  (rlPushMatrix;; run ts;; rlPopMatrix) st = Ret tt (after_push_pop st).
Proof.
  intros Hne Hn Hts.
  rewrite (bind_Ret _ _ _ _ _ (rlPushMatrix_spec st Hne Hn)).
  set (s1 := set_stackCounter _ _).
  destruct (run_transformations ts s1 Hts) as [m E].
  rewrite (bind_Ret _ _ _ _ _ E).
  assert (Hs : stack (wr deref_currentMatrix m s1)
               = <[Z.to_nat (stackCounter st) := rd deref_currentMatrix st]>
                   (stack st)).
  { unfold s1, after_push_pop.
    destruct st as [? ? ? ? [] ? ? ? ? ? ? ? ? ? ? ? ? ? ? ? ? ? ? ? ? ? ? ?];
      reflexivity. }
  assert (Hc : stackCounter (wr deref_currentMatrix m s1) = stackCounter st + 1).
  { unfold s1, after_push_pop.
    destruct st as [? ? ? ? [] ? ? ? ? ? ? ? ? ? ? ? ? ? ? ? ? ? ? ? ? ? ? ?];
      reflexivity. }
  rewrite (rlPopMatrix_spec _ (rd deref_currentMatrix st)).
  - rewrite wr_deref_twice. unfold s1, after_push_pop.
    destruct st as [? ? ? ? [] ? ? ? ? ? ? ? ? ? ? ? ? ? ? ? ? ? ? ? ? ? ? ?];
      cbn; rewrite Z.add_simpl_r; reflexivity.
  - rewrite Hc. lia.
  - rewrite Hs, Hc. replace (stackCounter st + 1 - 1) with (stackCounter st) by lia.
    apply elt_insert_eq. apply in_bounds_spec. lia.
Qed.

Lemma rlglInit_stack_ok b st :
  rlglInit (static_state b) = Ret tt st -> stack_ok st.
Proof.
  intros E. split.
  - assert (keeps (fun st => length (stack st)) rlglInit) as K
      by (unfold rlglInit, LoadDefaultBuffers; keeps_stack_length).
    pose proof (keeps_Ret _ _ _ _ _ K E) as K'. cbn beta in K'.
    rewrite K'. reflexivity.
  - rewrite (keeps_Ret stackCounter _ _ _ _ rlglInit_keeps_stackCounter E).
    cbn. unfold MATRIX_STACK_SIZE. lia.
Qed.

Lemma call_stack_ok c st st' :
  stack_ok st -> call c st = Ret tt st' -> stack_ok st'.
Proof.
  intros [Hlen Hc] E.
  destruct c; cbn [call] in E;
    lazymatch type of E with
    | rlPushMatrix _ = _ =>
        destruct (rlPushMatrix_Ret _ _ E) as [Hne Hn];
        rewrite (rlPushMatrix_spec st Hne Hn) in E; injection E as <-;
        split; cbn;
        [ destruct (currentMatrix st); cbn; rewrite length_insert; exact Hlen
        | destruct (currentMatrix st); cbn; lia ]
    | rlPopMatrix _ = _ =>
        destruct (Z.eq_dec (stackCounter st) 0) as [Hz|Hz];
        [ rewrite (rlPopMatrix_empty st Hz) in E; injection E as <-;
          now split
        | destruct (lookup_lt_is_Some_2 (stack st)
                      (Z.to_nat (stackCounter st - 1))) as [mat Hmat];
          [ lia
          | rewrite (rlPopMatrix_spec st mat) in E;
            [ injection E as <-; split; cbn;
              [ destruct (currentMatrix st); exact Hlen
              | destruct (currentMatrix st); cbn; lia ]
            | lia
            | unfold elt; destruct (Z.leb_spec 0 (stackCounter st - 1));
              [exact Hmat|lia] ] ] ]
    | ?m _ = _ =>
        assert (keeps (fun st => length (stack st)) m) as Kl;
        [|assert (keeps stackCounter m) as Kc]
    end.
  all: try (unfold rlMatrixMode, rlLoadIdentity,
      rlTranslatef, rlRotatef, rlScalef, rlMultMatrixf, rlFrustum, rlOrtho,
      rlBegin, rlEnd, rlEnd_temp, rlEnd_counts, add_colors, add_texcoords,
      repeat_last_color, rlVertex2i, rlVertex2f, rlTexCoord2f, rlNormal3f,
      rlColor4ub, rlEnableTexture, rlDisableTexture, rlglDraw,
      UpdateDefaultBuffers, rlglDraw_batches, rlglDraw_reset, draw_entry;
    keeps_auto;
    lazymatch goal with
    | |- keeps stackCounter (rlVertex3f _ _ _) =>
        apply rlVertex3f_keeps_stackCounter
    | |- keeps _ (rlVertex3f _ _ _) => unfold rlVertex3f; keeps_auto
    end).
  all: pose proof (keeps_Ret _ _ _ _ _ Kl E) as Kl';
    pose proof (keeps_Ret _ _ _ _ _ Kc E) as Kc'; cbn beta in Kl';
    split; [now rewrite Kl'|now rewrite Kc'].
Qed.

Lemma reachable_stack_ok st : reachable st -> stack_ok st.
Proof.
  induction 1 as [b st E|st c st' Hr IH E].
  - exact (rlglInit_stack_ok b st E).
  - exact (call_stack_ok _ _ _ IH E).
Qed.

End Stack.

(** X1. In every state that a client can reach, the matrix stack has its
    sixteen slots and [stackCounter] is between 0 and 15; [rlPopMatrix]
    returns; and below 15 [rlPushMatrix] returns with the counter one
    more. No access to the stack is out of its bounds. *)
Theorem X1_matrix_stack_stays_in_bounds `{Config} `{Raymath} st :
  reachable st ->
  stack_ok st
  /\ (exists st', rlPopMatrix st = Ret tt st')
  /\ (stackCounter st < MATRIX_STACK_SIZE - 1 ->
      exists st',
        rlPushMatrix st = Ret tt st'
        /\ stackCounter st' = stackCounter st + 1).
Proof.
  intros Hr. pose proof (reachable_stack_ok st Hr) as Hok.
  split; [exact Hok|]. destruct Hok as [Hlen Hc]. split.
  - destruct (Z.eq_dec (stackCounter st) 0) as [Hz|Hz].
    + exists st. now apply rlPopMatrix_empty.
    + destruct (lookup_lt_is_Some_2 (stack st)
                  (Z.to_nat (stackCounter st - 1))) as [mat Hmat]; [lia|].
      eexists. apply (rlPopMatrix_spec st mat); [lia|].
      unfold elt. destruct (Z.leb_spec 0 (stackCounter st - 1));
        [exact Hmat|lia].
  - intros Hlt. eexists. split.
    + apply rlPushMatrix_spec; lia.
    + reflexivity.
Qed.

(** Witness of X1: the state after initialisation in the example. *)
Lemma X1_witness :
  stack_ok example_init
  /\ (exists st', rlPopMatrix example_init = Ret tt st')
  /\ (stackCounter example_init < MATRIX_STACK_SIZE - 1 ->
      exists st',
        rlPushMatrix example_init = Ret tt st'
        /\ stackCounter st' = stackCounter example_init + 1).
Proof.
  apply (X1_matrix_stack_stays_in_bounds example_init).
  apply (reachable_init example_boot). vm_compute. reflexivity.
Defined.

(** X2. A push, then any transformations of the current matrix
    ([rlLoadIdentity], [rlTranslatef], [rlRotatef], [rlScalef],
    [rlMultMatrixf], [rlFrustum], [rlOrtho]), then a pop: the calls return
    and the two matrices, the pointer to the current one and the counter
    of the stack are as before the push. All that differs from the state
    before is the slot of the stack that the push used and, in modelview
    mode, the temp buffer flag, which stays raised. The push has to be
    below the limit and inside the stack. *)
Theorem X2_push_transform_pop_restores_matrix `{Config} `{Raymath} ts st :
  stackCounter st <> MATRIX_STACK_SIZE - 1 ->
  0 <= stackCounter st < Z.of_nat (length (stack st)) ->
  forallb is_transformation ts = true ->
  exists st',
    (rlPushMatrix;; run ts;; rlPopMatrix) st = Ret tt st'
    /\ st' = after_push_pop st
    /\ modelview st' = modelview st
    /\ projection st' = projection st
    /\ currentMatrix st' = currentMatrix st
    /\ stackCounter st' = stackCounter st.
Proof.
  intros Hne Hn Hts. exists (after_push_pop st).
  split; [now apply push_transform_pop|]. now repeat split.
Qed.

(** Witness of X2: a scaling and a rotation between push and pop, after a
    translation. *)
Lemma X2_witness :
  exists st',
    (rlPushMatrix;;
     run [c_rlScalef f32_1 f32_1 f32_0; c_rlRotatef f32_1 f32_0 f32_0 f32_1];;
     rlPopMatrix) example_translated = Ret tt st'
    /\ st' = after_push_pop example_translated
    /\ modelview st' = modelview example_translated
    /\ projection st' = projection example_translated
    /\ currentMatrix st' = currentMatrix example_translated
    /\ stackCounter st' = stackCounter example_translated.
Proof.
  apply (X2_push_transform_pop_restores_matrix
           [c_rlScalef f32_1 f32_1 f32_0; c_rlRotatef f32_1 f32_0 f32_0 f32_1]
           example_translated).
  - vm_compute. discriminate.
  - split; vm_compute; [discriminate|reflexivity].
  - reflexivity.
Defined.

(** ** Invariants of the batch *)

Lemma maintains_bind {A B : Type} (I : State -> Prop) (m : M A) (k : A -> M B) :
  maintains I m -> (forall a, maintains I (k a)) -> maintains I (m ≫= k).
Proof.
  intros Hm Hk st b st' HI E. apply bind_Ret_inv in E as (a & s & Em & E).
  exact (Hk a s b st' (Hm st a s HI Em) E).
Qed.

Lemma maintains_keeps {A B : Type} (f : State -> B) (P : B -> Prop) (m : M A) :
  keeps f m -> maintains (fun st => P (f st)) m.
Proof.
  intros K st a st' HI E. now rewrite (keeps_Ret f m st a st' K E).
Qed.

Lemma maintains_and {A : Type} (I J : State -> Prop) (m : M A) :
  maintains I m -> maintains J m -> maintains (fun st => I st /\ J st) m.
Proof.
  intros HI HJ st a st' [H1 H2] E. split; [exact (HI _ _ _ H1 E)|exact (HJ _ _ _ H2 E)].
Qed.

Lemma maintains_when (I : State -> Prop) (b : bool) (m : M unit) :
  maintains I m -> maintains I (when b m).
Proof.
  intros Hm. destruct b; [exact Hm|]. intros st a st' HI E.
  injection E as _ <-. exact HI.
Qed.

Lemma maintains_for_fuel {A : Type} (I : State -> Prop) (bound step : Z)
    (body : Z -> A -> M A) :
  (forall i acc, maintains I (body i acc)) ->
  forall fuel i acc, maintains I (for_fuel fuel i bound step body acc).
Proof.
  intros Hbody fuel. induction fuel as [|fuel IH]; intros i acc st a st' HI E.
  - injection E as _ <-. exact HI.
  - cbn [for_fuel] in E. destruct (i <? bound).
    + apply bind_Ret_inv in E as (acc' & s & Eb & E).
      exact (IH _ _ _ _ _ (Hbody i acc st acc' s HI Eb) E).
    + injection E as _ <-. exact HI.
Qed.

Lemma maintains_for_each (I : State -> Prop) (i0 bound : Z) (body : Z -> M unit) :
  (forall i, maintains I (body i)) -> maintains I (for_each i0 bound body).
Proof. intros H. apply maintains_for_fuel. intros i _. apply H. Qed.

(** A store keeps what depends on the array through its length only. *)
Lemma keeps_store_same_length {A B : Type} (f : State -> B)
    (arr : Var (list A)) (i : Z) (x : A) :
  (forall a st, length a = length (rd arr st) -> f (wr arr a st) = f st) ->
  keeps f (store arr i x).
Proof.
  intros H st. unfold store, read, array_set, assign, mbind, M_bind.
  destruct (in_bounds _ _); cbn; [|reflexivity].
  apply H. apply length_insert.
Qed.

Ltac keeps_lengths :=
  repeat first
    [ keeps_step
    | apply keeps_store_same_length;
      let H := fresh in
      intros ? ? H; unfold array_lengths; cbn in H |- *; rewrite ?H;
      reflexivity ].

Section Lengths.
Context `{cfg : Config} `{rm : Raymath}.

Lemma rlVertex3f_keeps_array_lengths x y z :
  keeps array_lengths (rlVertex3f x y z).
Proof. unfold rlVertex3f. keeps_lengths. Qed.

Lemma call_keeps_array_lengths c : keeps array_lengths (call c).
Proof.
  destruct c; cbn [call];
    unfold rlMatrixMode, rlPushMatrix, rlPopMatrix, rlLoadIdentity,
      rlTranslatef, rlRotatef, rlScalef, rlMultMatrixf, rlFrustum, rlOrtho,
      rlBegin, rlEnd, rlEnd_temp, rlEnd_counts, add_colors, add_texcoords,
      repeat_last_color, rlVertex2i, rlVertex2f, rlTexCoord2f, rlNormal3f,
      rlColor4ub, rlEnableTexture, rlDisableTexture, rlglDraw,
      UpdateDefaultBuffers, rlglDraw_batches, rlglDraw_reset, draw_entry;
    keeps_lengths;
    lazymatch goal with
    | |- keeps _ (rlVertex3f _ _ _) => apply rlVertex3f_keeps_array_lengths
    end.
Qed.

End Lengths.

Lemma quot_lt_bound v per limit :
  0 <= v -> 0 < per -> v ÷ per < limit -> v + 1 <= per * limit.
Proof.
  intros Hv Hp Hq.
  pose proof (Z.quot_rem' v per) as Hr.
  pose proof (Z.rem_bound_pos v per Hv Hp) as Hb.
  nia.
Qed.

Ltac ensures_of E P :=
  match type of E with
  | ?m ?s = Ret ?a ?s' =>
      let K := fresh "K" in
      assert (ensures P m) as K; [|exact (K s a s' E)]
  end.

Ltac ensures_until_assign v :=
  repeat lazymatch goal with
         | |- ensures _ (assign v _ ≫= _) => fail
         | |- ensures _ (_ ≫= _) => apply ensures_bind_r; intros ?
         end.

Section Counters.
Context `{cfg : Config} `{rm : Raymath}.

(** [rlVertex3f] counts a vertex only below the limit of its buffer. *)
Lemma rlVertex3f_counters x y z :
  maintains counters_in_capacity (rlVertex3f x y z).
Proof.
  intros st a st' (Hl & Ht & Hq) E.
  unfold rlVertex3f in E. rewrite bind_read in E.
  cbn [rd v_useTempBuffer] in E. destruct (useTempBuffer st).
  { assert (Hk : vertex_counters st' = vertex_counters st)
      by (frame vertex_counters E; keeps_auto).
    unfold vertex_counters in Hk. injection Hk as H1 H2 H3.
    unfold counters_in_capacity. now rewrite H1, H2, H3. }
  rewrite bind_read in E. cbn [rd v_currentDrawMode] in E.
  destruct (currentDrawMode st); rewrite bind_read in E;
    cbn [rd lines_vCounter triangles_vCounter quads_vCounter] in E;
    match type of E with
    | context [?a <? ?b] => destruct (Z.ltb_spec a b) as [Hlt|Hge]
    end;
    try (rewrite TraceLog_ERROR in E; discriminate E).
  - assert (H1 : PC.vCounter (lines st') = PC.vCounter (lines st) + 1).
    { ensures_of E (fun s => PC.vCounter (lines s) = PC.vCounter (lines st) + 1).
      do 3 (apply ensures_bind_r; intros ?).
      intros s [] s' Es. injection Es as <-. reflexivity. }
    assert (Hk : (PC.vCounter (triangles st'), PCTI.vCounter (quads st'))
                 = (PC.vCounter (triangles st), PCTI.vCounter (quads st)))
      by (frame (fun s => (PC.vCounter (triangles s), PCTI.vCounter (quads s))) E;
          keeps_auto).
    injection Hk as H2 H3. unfold counters_in_capacity.
    rewrite H1, H2, H3. pose proof (quot_lt_bound _ 2 _ (proj1 Hl) eq_refl Hlt).
    lia.
  - assert (H1 : PC.vCounter (triangles st') = PC.vCounter (triangles st) + 1).
    { ensures_of E (fun s => PC.vCounter (triangles s)
                             = PC.vCounter (triangles st) + 1).
      do 3 (apply ensures_bind_r; intros ?).
      intros s [] s' Es. injection Es as <-. reflexivity. }
    assert (Hk : (PC.vCounter (lines st'), PCTI.vCounter (quads st'))
                 = (PC.vCounter (lines st), PCTI.vCounter (quads st)))
      by (frame (fun s => (PC.vCounter (lines s), PCTI.vCounter (quads s))) E;
          keeps_auto).
    injection Hk as H2 H3. unfold counters_in_capacity.
    rewrite H1, H2, H3. pose proof (quot_lt_bound _ 3 _ (proj1 Ht) eq_refl Hlt).
    lia.
  - assert (H1 : PCTI.vCounter (quads st') = PCTI.vCounter (quads st) + 1).
    { ensures_of E (fun s => PCTI.vCounter (quads s)
                             = PCTI.vCounter (quads st) + 1).
      do 3 (apply ensures_bind_r; intros ?).
      apply (ensures_bind_l (fun s => PCTI.vCounter (quads s))
               (fun n => n = PCTI.vCounter (quads st) + 1)).
      - apply ensures_assign. reflexivity.
      - intros ?. keeps_auto. }
    assert (Hk : (PC.vCounter (lines st'), PC.vCounter (triangles st'))
                 = (PC.vCounter (lines st), PC.vCounter (triangles st)))
      by (frame (fun s => (PC.vCounter (lines s), PC.vCounter (triangles s))) E;
          keeps_auto).
    injection Hk as H2 H3. unfold counters_in_capacity.
    rewrite H1, H2, H3. pose proof (quot_lt_bound _ 4 _ (proj1 Hq) eq_refl Hlt).
    lia.
Qed.

Lemma rlglDraw_counters :
  ensures (fun st => vertex_counters st = (0, 0, 0)) rlglDraw.
Proof.
  assert (H1 : ensures (fun st => PC.vCounter (lines st) = 0) rlglDraw).
  { unfold rlglDraw, rlglDraw_reset. ensures_until_assign lines_vCounter.
    apply (ensures_bind_l (fun s => PC.vCounter (lines s)) (fun n => n = 0));
      [apply ensures_assign; reflexivity|intros ?; keeps_auto]. }
  assert (H2 : ensures (fun st => PC.vCounter (triangles st) = 0) rlglDraw).
  { unfold rlglDraw, rlglDraw_reset. ensures_until_assign triangles_vCounter.
    apply (ensures_bind_l (fun s => PC.vCounter (triangles s)) (fun n => n = 0));
      [apply ensures_assign; reflexivity|intros ?; keeps_auto]. }
  assert (H3 : ensures (fun st => PCTI.vCounter (quads st) = 0) rlglDraw).
  { unfold rlglDraw, rlglDraw_reset. ensures_until_assign quads_vCounter.
    apply (ensures_bind_l (fun s => PCTI.vCounter (quads s)) (fun n => n = 0));
      [apply ensures_assign; reflexivity|intros ?; keeps_auto]. }
  intros st a st' E. unfold vertex_counters.
  now rewrite (H1 _ _ _ E), (H2 _ _ _ E), (H3 _ _ _ E).
Qed.

Lemma call_counters c :
  capacities_nonneg -> maintains counters_in_capacity (call c).
Proof.
  intros (Hl & Ht & Hq).
  assert (Hk : forall (A : Type) (m : M A), keeps vertex_counters m ->
                 maintains counters_in_capacity m).
  { intros A m K st a st' Hinv E.
    pose proof (keeps_Ret _ _ _ _ _ K E) as Hk. unfold vertex_counters in Hk.
    injection Hk as H1 H2 H3. unfold counters_in_capacity in *.
    now rewrite H1, H2, H3. }
  destruct c; cbn [call];
    lazymatch goal with
    | |- maintains _ (rlVertex3f _ _ _) => apply rlVertex3f_counters
    | |- maintains _ (rlVertex2f _ _) =>
        unfold rlVertex2f; apply maintains_bind;
        [apply Hk; keeps_auto|intros ?; apply rlVertex3f_counters]
    | |- maintains _ (rlVertex2i _ _) =>
        unfold rlVertex2i; apply maintains_bind;
        [apply Hk; keeps_auto|intros ?; apply rlVertex3f_counters]
    | |- maintains _ rlglDraw =>
        intros st a st' _ E;
        pose proof (rlglDraw_counters _ _ _ E) as Hz;
        unfold vertex_counters in Hz; injection Hz as H1 H2 H3;
        unfold counters_in_capacity; rewrite H1, H2, H3; lia
    | |- maintains _ rlEnd =>
        unfold rlEnd; apply maintains_bind;
        [ unfold rlEnd_temp; apply maintains_bind; [apply Hk; keeps_auto|];
          intros ?; apply maintains_when;
          apply maintains_bind; [apply Hk; keeps_auto|]; intros ?;
          apply maintains_bind; [apply Hk; keeps_auto|]; intros ?;
          apply maintains_bind; [apply Hk; keeps_auto|]; intros ?;
          apply maintains_bind; [apply Hk; keeps_auto|]; intros ?;
          apply maintains_bind; [|intros ?; apply Hk; keeps_auto];
          apply maintains_for_each; intros ?;
          apply maintains_bind; [apply Hk; keeps_auto|]; intros ?;
          apply rlVertex3f_counters
        | intros ?; apply Hk;
          unfold rlEnd_counts, add_colors, add_texcoords, repeat_last_color;
          keeps_auto ]
    | |- _ =>
        apply Hk;
        unfold rlMatrixMode, rlPushMatrix, rlPopMatrix, rlLoadIdentity,
          rlTranslatef, rlRotatef, rlScalef, rlMultMatrixf, rlFrustum,
          rlOrtho, rlBegin, rlTexCoord2f, rlNormal3f, rlColor4ub,
          rlEnableTexture, rlDisableTexture;
        keeps_auto
    end.
Qed.

Lemma LoadDefaultBuffers_buffers :
  ensures (fun st =>
      array_lengths st
      = ((Z.to_nat (3 * 2 * MAX_LINES_BATCH), Z.to_nat (4 * 2 * MAX_LINES_BATCH)),
         (Z.to_nat (3 * 3 * MAX_TRIANGLES_BATCH),
          Z.to_nat (4 * 3 * MAX_TRIANGLES_BATCH)),
         (Z.to_nat (3 * 4 * MAX_QUADS_BATCH), Z.to_nat (2 * 4 * MAX_QUADS_BATCH),
          Z.to_nat (4 * 4 * MAX_QUADS_BATCH), Z.to_nat (6 * MAX_QUADS_BATCH)))
      /\ vertex_counters st = (0, 0, 0))
    LoadDefaultBuffers.
Proof.
  intros st a st' E. unfold LoadDefaultBuffers in E.
  rewrite !bind_assign in E. split.
  - assert (Hk : array_lengths st' = array_lengths _)
      by (frame array_lengths E; keeps_lengths).
    rewrite Hk. unfold array_lengths. cbn. now rewrite !length_fill_array.
  - assert (Hk : (PC.vCounter (lines st'), PC.vCounter (triangles st'))
                 = (_, _))
      by (frame (fun s => (PC.vCounter (lines s), PC.vCounter (triangles s))) E;
          keeps_auto).
    cbn in Hk. injection Hk as H1 H2.
    assert (H3 : PCTI.vCounter (quads st') = 0).
    { ensures_of E (fun s => PCTI.vCounter (quads s) = 0).
      apply ensures_bind_r; intros ?.
      apply (ensures_bind_l (fun s => PCTI.vCounter (quads s)) (fun n => n = 0));
        [apply ensures_assign; reflexivity|intros ?; keeps_auto]. }
    unfold vertex_counters. now rewrite H1, H2, H3.
Qed.

Lemma rlglInit_buffers :
  capacities_nonneg ->
  ensures (fun st => arrays_allocated st /\ counters_in_capacity st) rlglInit.
Proof.
  intros (Hl & Ht & Hq) st a st' E.
  set (P := fun p : _ * (Z * Z * Z) =>
      fst p
      = ((Z.to_nat (3 * 2 * MAX_LINES_BATCH), Z.to_nat (4 * 2 * MAX_LINES_BATCH)),
         (Z.to_nat (3 * 3 * MAX_TRIANGLES_BATCH),
          Z.to_nat (4 * 3 * MAX_TRIANGLES_BATCH)),
         (Z.to_nat (3 * 4 * MAX_QUADS_BATCH), Z.to_nat (2 * 4 * MAX_QUADS_BATCH),
          Z.to_nat (4 * 4 * MAX_QUADS_BATCH), Z.to_nat (6 * MAX_QUADS_BATCH)))
      /\ snd p = (0, 0, 0)).
  assert (H : ensures (fun s => P (array_lengths s, vertex_counters s))
                rlglInit).
  { unfold rlglInit. do 5 (apply ensures_bind_r; intros ?).
    apply (ensures_bind_l (fun s => (array_lengths s, vertex_counters s)) P).
    - exact LoadDefaultBuffers_buffers.
    - intros ?. keeps_lengths. }
  destruct (H _ _ _ E) as [Hlen Hc]. unfold P in Hlen, Hc. cbn [fst snd] in Hlen, Hc.
  unfold array_lengths in Hlen. unfold vertex_counters in Hc.
  injection Hlen as L1 L2 L3 L4 L5 L6 L7 L8. injection Hc as C1 C2 C3.
  split.
  - unfold arrays_allocated. rewrite L1, L2, L3, L4, L5, L6, L7, L8. lia.
  - unfold counters_in_capacity. rewrite C1, C2, C3. lia.
Qed.

(** In every state that a client can reach, the arrays of the three
    buffers are the allocated ones and no vertex counter is beyond the
    capacity of its buffer. *)
Lemma reachable_buffers st :
  capacities_nonneg -> reachable st ->
  arrays_allocated st /\ counters_in_capacity st.
Proof.
  intros Hcap. induction 1 as [b st E|st c st' Hr [IHa IHc] E].
  - exact (rlglInit_buffers Hcap _ _ _ E).
  - split.
    + pose proof (keeps_Ret _ _ _ _ _ (call_keeps_array_lengths c) E) as Hk.
      unfold array_lengths in Hk.
      injection Hk as L1 L2 L3 L4 L5 L6 L7 L8.
      unfold arrays_allocated in *.
      now rewrite L1, L2, L3, L4, L5, L6, L7, L8.
    + exact (call_counters c Hcap _ _ _ IHc E).
Qed.

End Counters.

(** ** The ledger counts the vertices of the quads *)

Lemma ledger_counted_countQuadVertex l v :
  l <> [] ->
  Forall (fun d => 0 <= DrawCall.vertexCount d) l /\ ledger_total l = v ->
  Forall (fun d => 0 <= DrawCall.vertexCount d) (countQuadVertex l)
  /\ ledger_total (countQuadVertex l) = v + 1.
Proof.
  destruct l as [|cur init _] using rev_ind; [congruence|]. intros _ [Hf Ht].
  rewrite countQuadVertex_snoc. rewrite ledger_total_app in *.
  apply Forall_app in Hf as [Hi Hc]. rewrite Forall_singleton in Hc.
  cbn beta in Hc.
  split.
  - apply Forall_app. split; [exact Hi|]. apply Forall_singleton. cbn. lia.
  - cbn in *. lia.
Qed.

Lemma ledger_counted_setActiveTexture id l v :
  Forall (fun d => 0 <= DrawCall.vertexCount d) l /\ ledger_total l = v ->
  Forall (fun d => 0 <= DrawCall.vertexCount d) (setActiveTexture id l)
  /\ ledger_total (setActiveTexture id l) = v.
Proof.
  destruct l as [|cur init _] using rev_ind; [auto|]. intros [Hf Ht].
  rewrite setActiveTexture_snoc.
  destruct (DrawCall.textureId cur =? id); [auto|].
  rewrite ledger_total_app in Ht.
  apply Forall_app in Hf as [Hi Hc]. rewrite Forall_singleton in Hc.
  cbn beta in Hc.
  destruct (Z.eqb_spec (DrawCall.vertexCount cur) 0) as [Hz|Hz].
  - split.
    + apply Forall_app. split; [exact Hi|]. apply Forall_singleton. exact Hc.
    + rewrite ledger_total_app. cbn in *. lia.
  - split.
    + apply Forall_app. split; [exact Hi|].
      repeat constructor; [exact Hc|cbn; lia].
    + rewrite ledger_total_app. cbn in *. lia.
Qed.

Lemma batch_ok_view `{Config} st st' :
  batch_view st' = batch_view st -> batch_ok st -> batch_ok st'.
Proof.
  unfold batch_view, array_lengths, vertex_counters.
  intros Hv (Ha & Hc & Hd & Hl).
  injection Hv as L1 L2 L3 L4 L5 L6 L7 L8 C1 C2 C3 Hdr Hn.
  unfold batch_ok, arrays_allocated, counters_in_capacity, draws_ok,
    ledger_counted, ledger in *.
  now rewrite L1, L2, L3, L4, L5, L6, L7, L8, C1, C2, C3, Hdr, Hn.
Qed.

Lemma draws_ok_ledger_ok st :
  draws_ok st -> Forall (fun d => 0 <= DrawCall.vertexCount d) (ledger st) ->
  ledger_ok st /\ ledger st <> [].
Proof.
  intros [Hlen Hc] Hf.
  destruct (lookup_lt_is_Some_2 (draws st) (Z.to_nat (drawsCounter st - 1)))
    as [cur Hcur]; [lia|].
  assert (He : elt (draws st) (drawsCounter st - 1) = Some cur)
    by (unfold elt; destruct (Z.leb_spec 0 (drawsCounter st - 1)); [exact Hcur|lia]).
  pose proof (ledger_snoc st cur He) as Hl. rewrite Hl in Hf.
  apply Forall_app in Hf as [_ Hcount]. rewrite Forall_singleton in Hcount.
  cbn beta in Hcount.
  split.
  - exists cur. now split.
  - rewrite Hl. now destruct (take _ _).
Qed.

Section LedgerCount.
Context `{cfg : Config} `{rm : Raymath}.

Lemma rlVertex3f_batch_ok x y z : maintains batch_ok (rlVertex3f x y z).
Proof.
  intros st a st' Hok E. pose proof Hok as (Ha & Hc & Hd & Hl).
  assert (Ha' : arrays_allocated st').
  { pose proof (keeps_Ret _ _ _ _ _ (rlVertex3f_keeps_array_lengths x y z) E) as Hk.
    unfold array_lengths in Hk. injection Hk as L1 L2 L3 L4 L5 L6 L7 L8.
    unfold arrays_allocated in *. now rewrite L1, L2, L3, L4, L5, L6, L7, L8. }
  assert (Hc' : counters_in_capacity st')
    by exact (rlVertex3f_counters x y z _ _ _ Hc E).
  assert (Hd' : draws_ok st').
  { pose proof (keeps_Ret _ _ _ _ _ (rlVertex3f_keeps_draws_length x y z) E) as K1.
    pose proof (keeps_Ret _ _ _ _ _ (rlVertex3f_keeps_drawsCounter x y z) E) as K2.
    cbn beta in K1. unfold draws_ok in *. now rewrite K1, K2. }
  split; [exact Ha'|]. split; [exact Hc'|]. split; [exact Hd'|].
  destruct (useTempBuffer st) eqn:Ht.
  { unfold rlVertex3f in E. rewrite bind_read in E.
    cbn [rd v_useTempBuffer] in E. rewrite Ht in E.
    assert (Hk : (draws st', drawsCounter st', PCTI.vCounter (quads st'))
                 = (draws st, drawsCounter st, PCTI.vCounter (quads st)))
      by (frame (fun s => (draws s, drawsCounter s, PCTI.vCounter (quads s))) E;
          keeps_auto).
    injection Hk as H1 H2 H3. unfold ledger_counted, ledger in *.
    now rewrite H1, H2, H3. }
  destruct (currentDrawMode st) eqn:Hmode.
  1, 2: rewrite rlVertex3f_off in E by exact Ht;
    unfold rlVertex3f_batch in E; rewrite bind_read in E;
    cbn [rd v_currentDrawMode] in E; rewrite Hmode in E;
    assert (Hk : (draws st', drawsCounter st', PCTI.vCounter (quads st'))
                 = (draws st, drawsCounter st, PCTI.vCounter (quads st)))
      by (frame (fun s => (draws s, drawsCounter s, PCTI.vCounter (quads s))) E;
          keeps_auto);
    injection Hk as H1 H2 H3; unfold ledger_counted, ledger in *;
    now rewrite H1, H2, H3.
  destruct (Z.lt_ge_cases (PCTI.vCounter (quads st) ÷ 4) MAX_QUADS_BATCH)
    as [Hlt|Hge].
  - destruct (draws_ok_ledger_ok st Hd (proj1 Hl)) as [Hlok Hne].
    destruct (rlVertex3f_accept x y z st (PCTI.vCounter (quads st)) Ht)
      as (s & Es & _ & Hv & _ & Hq).
    { unfold active_vCounter. now rewrite Hmode. }
    { apply Hc. }
    { now rewrite Hmode. }
    { unfold active_vertices. rewrite Hmode.
      destruct Ha as (_ & _ & _ & _ & Hqv & _). rewrite Hqv.
      pose proof (quot_lt_bound _ 4 _ (proj1 (proj2 (proj2 Hc))) eq_refl Hlt).
      lia. }
    { intros _. exact Hlok. }
    rewrite Es in E. injection E as _ <-.
    destruct (Hq Hmode) as (Hls & _).
    unfold active_vCounter in Hv.
    assert (Hm : currentDrawMode s = RL_QUADS).
    { rewrite <- Hmode. frame currentDrawMode Es.
      unfold rlVertex3f. keeps_auto. }
    rewrite Hm in Hv. unfold ledger_counted. rewrite Hls, Hv.
    now apply ledger_counted_countQuadVertex.
  - rewrite rlVertex3f_overflow in E; [discriminate| exact Ht|].
    unfold active_vCounter. rewrite Hmode. cbn. lia.
Qed.

Lemma maintains_batch_view {A : Type} (m : M A) :
  keeps batch_view m -> maintains batch_ok m.
Proof.
  intros K st a st' Hok E.
  exact (batch_ok_view st st' (keeps_Ret _ _ _ _ _ K E) Hok).
Qed.

Ltac keeps_view :=
  repeat first
    [ keeps_step
    | apply keeps_store_same_length;
      let H := fresh in
      intros ? ? H; unfold batch_view, array_lengths; cbn in H |- *;
      rewrite ?H; reflexivity ].

Lemma rlEnableTexture_batch_ok id : maintains batch_ok (rlEnableTexture id).
Proof.
  intros st a st' (Ha & Hc & Hd & Hl) E. destruct a.
  assert (Hk : (array_lengths st', vertex_counters st')
               = (array_lengths st, vertex_counters st))
    by (frame (fun s => (array_lengths s, vertex_counters s)) E;
        unfold rlEnableTexture; keeps_auto).
  unfold array_lengths, vertex_counters in Hk.
  injection Hk as L1 L2 L3 L4 L5 L6 L7 L8 C1 C2 C3.
  split; [|split; [|split]].
  - unfold arrays_allocated in *. now rewrite L1, L2, L3, L4, L5, L6, L7, L8.
  - unfold counters_in_capacity in *. now rewrite C1, C2, C3.
  - exact (rlEnableTexture_draws_ok id st st' Hd E).
  - destruct (draws_ok_ledger_ok st Hd (proj1 Hl)) as [Hlok Hne].
    destruct (Z_le_gt_dec
                (Z.of_nat (length (setActiveTexture id (ledger st))))
                (Z.of_nat (length (draws st)))) as [Hroom|Hfull].
    + destruct (rlEnableTexture_spec id st Hlok Hroom)
        as (s & Es & Hls & _).
      rewrite Es in E. injection E as <-.
      unfold ledger_counted. rewrite Hls, C3.
      now apply ledger_counted_setActiveTexture.
    + exfalso. destruct Hlok as (cur & Hcur & Hcount).
      pose proof (ledger_snoc st cur Hcur) as Hsn.
      assert (Hlen : length (ledger st) = Z.to_nat (drawsCounter st)).
      { unfold ledger. rewrite length_take. destruct Hd. lia. }
      rewrite Hsn, setActiveTexture_snoc in Hfull.
      rewrite Hsn, length_app in Hlen. cbn [length] in Hlen.
      destruct Hd as [Hdl Hdc].
      destruct (Z.eqb_spec (DrawCall.textureId cur) id) as [Heq|Hne'];
        [rewrite length_app in Hfull; cbn [length] in Hfull; lia|].
      destruct (Z.eqb_spec (DrawCall.vertexCount cur) 0) as [Hz|Hnz];
        [rewrite length_app in Hfull; cbn [length] in Hfull; lia|].
      rewrite length_app in Hfull. cbn [length] in Hfull.
      rewrite (rlEnableTexture_full id st cur) in E;
        [discriminate|lia|exact Hcur|exact Hne'|lia].
Qed.

Lemma rlglDraw_batch_ok : capacities_nonneg -> maintains batch_ok rlglDraw.
Proof.
  intros Hcap st a st' (Ha & Hc & Hd & Hl) E. destruct a.
  split; [|split; [|split]].
  - pose proof (keeps_Ret _ _ _ _ _ (call_keeps_array_lengths c_rlglDraw) E)
      as Hk.
    unfold array_lengths in Hk. injection Hk as L1 L2 L3 L4 L5 L6 L7 L8.
    unfold arrays_allocated in *. now rewrite L1, L2, L3, L4, L5, L6, L7, L8.
  - exact (call_counters c_rlglDraw Hcap _ _ _ Hc E).
  - exact (rlglDraw_draws_ok _ _ Hd E).
  - destruct (rlglDraw_spec st (draws_ok_in_bounds st Hd))
      as (before & after & Es & _).
    rewrite Es in E. injection E as <-.
    unfold ledger_counted.
    rewrite reset_batches_ledger by (destruct Hd as [Hdl _]; cbn;
                                     unfold MAX_DRAWS_BY_TEXTURE in Hdl; lia).
    split; [repeat constructor; cbn; lia|reflexivity].
Qed.

Lemma call_batch_ok c : capacities_nonneg -> maintains batch_ok (call c).
Proof.
  intros Hcap.
  destruct c; cbn [call];
    lazymatch goal with
    | |- maintains _ (rlVertex3f _ _ _) => apply rlVertex3f_batch_ok
    | |- maintains _ (rlVertex2f _ _) =>
        unfold rlVertex2f; apply maintains_bind;
        [apply maintains_batch_view; keeps_auto
        |intros ?; apply rlVertex3f_batch_ok]
    | |- maintains _ (rlVertex2i _ _) =>
        unfold rlVertex2i; apply maintains_bind;
        [apply maintains_batch_view; keeps_auto
        |intros ?; apply rlVertex3f_batch_ok]
    | |- maintains _ rlglDraw => now apply rlglDraw_batch_ok
    | |- maintains _ (rlEnableTexture _) => apply rlEnableTexture_batch_ok
    | |- maintains _ rlEnd =>
        unfold rlEnd; apply maintains_bind;
        [ unfold rlEnd_temp; apply maintains_bind;
          [apply maintains_batch_view; keeps_auto|];
          intros ?; apply maintains_when;
          do 4 (apply maintains_bind;
                [apply maintains_batch_view; keeps_auto|]; intros ?);
          apply maintains_bind;
          [|intros ?; apply maintains_batch_view; keeps_auto];
          apply maintains_for_each; intros ?;
          apply maintains_bind; [apply maintains_batch_view; keeps_auto|];
          intros ?; apply rlVertex3f_batch_ok
        | intros ?; apply maintains_batch_view;
          unfold rlEnd_counts, add_colors, add_texcoords, repeat_last_color;
          keeps_view ]
    | |- _ =>
        apply maintains_batch_view;
        unfold rlMatrixMode, rlPushMatrix, rlPopMatrix, rlLoadIdentity,
          rlTranslatef, rlRotatef, rlScalef, rlMultMatrixf, rlFrustum,
          rlOrtho, rlBegin, rlTexCoord2f, rlNormal3f, rlColor4ub,
          rlDisableTexture;
        keeps_view
    end.
Qed.

Lemma rlglInit_batch_ok b st :
  capacities_nonneg -> rlglInit (static_state b) = Ret tt st -> batch_ok st.
Proof.
  intros Hcap E.
  destruct (rlglInit_buffers Hcap _ _ _ E) as [Ha Hc].
  split; [exact Ha|]. split; [exact Hc|].
  split; [exact (rlglInit_draws_ok _ _ _ E)|].
  destruct (rlglInit_ledger _ _ _ E) as [_ Hl].
  unfold ledger_counted. rewrite Hl, (rlglInit_quads_vCounter _ _ _ E).
  split; [repeat constructor; cbn; lia|reflexivity].
Qed.

Lemma reachable_batch_ok st : capacities_nonneg -> reachable st -> batch_ok st.
Proof.
  intros Hcap. induction 1 as [b st E|st c st' Hr IH E].
  - exact (rlglInit_batch_ok b st Hcap E).
  - exact (call_batch_ok c Hcap _ _ _ IH E).
Qed.

End LedgerCount.

(** X3. In every state that a client can reach, the arrays of the three
    buffers have the lengths that [LoadDefaultBuffers] allocated and no
    vertex counter is beyond the capacity of its buffer; with the temp
    buffer out of use, [rlVertex3f] below the limit of the active buffer
    returns, having stored the position inside the array and counted it.
    The batch sizes are taken not to be negative. *)
Theorem X3_vertex_buffers_stay_within_capacity `{Config} `{Raymath} st :
  capacities_nonneg -> reachable st ->
  arrays_allocated st
  /\ counters_in_capacity st
  /\ (forall x y z,
        useTempBuffer st = false ->
        active_vCounter st ÷ vertices_per (currentDrawMode st)
          < batch_limit (currentDrawMode st) ->
        exists st',
          rlVertex3f x y z st = Ret tt st'
          /\ active_vCounter st' = active_vCounter st + 1
          /\ active_vertices st'
             = put_position x y z (active_vCounter st) (active_vertices st)
          /\ 3 * active_vCounter st + 3
             <= Z.of_nat (length (active_vertices st))).
Proof.
  intros Hcap Hr.
  destruct (reachable_batch_ok st Hcap Hr) as (Ha & Hc & Hd & Hl).
  split; [exact Ha|]. split; [exact Hc|].
  intros x y z Htemp Hlt.
  assert (Hv : 0 <= active_vCounter st
               /\ 3 * active_vCounter st + 3
                  <= Z.of_nat (length (active_vertices st))).
  { destruct Ha as (A1 & _ & A3 & _ & A5 & _).
    destruct Hc as (C1 & C2 & C3).
    unfold active_vCounter, active_vertices in *.
    destruct (currentDrawMode st); cbn [vertices_per batch_limit] in Hlt.
    - pose proof (quot_lt_bound _ 2 _ (proj1 C1) eq_refl Hlt). lia.
    - pose proof (quot_lt_bound _ 3 _ (proj1 C2) eq_refl Hlt). lia.
    - pose proof (quot_lt_bound _ 4 _ (proj1 C3) eq_refl Hlt). lia. }
  destruct (rlVertex3f_accept x y z st (active_vCounter st) Htemp eq_refl)
    as (st' & E & _ & Hv' & Hvs' & _); [lia|exact Hlt|lia| |].
  { intros _. exact (proj1 (draws_ok_ledger_ok st Hd (proj1 Hl))). }
  exists st'. repeat split; try assumption; lia.
Qed.

(** Witness of X3: the example with two quads in the buffer. *)
Lemma X3_witness :
  arrays_allocated example_two_quads
  /\ counters_in_capacity example_two_quads
  /\ (forall x y z,
        useTempBuffer example_two_quads = false ->
        active_vCounter example_two_quads
          ÷ vertices_per (currentDrawMode example_two_quads)
          < batch_limit (currentDrawMode example_two_quads) ->
        exists st',
          rlVertex3f x y z example_two_quads = Ret tt st'
          /\ active_vCounter st' = active_vCounter example_two_quads + 1
          /\ active_vertices st'
             = put_position x y z (active_vCounter example_two_quads)
                 (active_vertices example_two_quads)
          /\ 3 * active_vCounter example_two_quads + 3
             <= Z.of_nat (length (active_vertices example_two_quads))).
Proof.
  apply (X3_vertex_buffers_stay_within_capacity example_two_quads).
  - repeat split; vm_compute; discriminate.
  - apply (boot_then_reachable example_boot
             ([c_rlBegin RL_QUADS; c_rlEnableTexture 5;
               c_rlColor4ub Byte.xff Byte.xff Byte.xff Byte.xff]
              ++ replicate 4 (c_rlVertex3f f32_0 f32_0 f32_0)
              ++ [c_rlEnableTexture 6]
              ++ replicate 4 (c_rlVertex3f f32_1 f32_1 f32_0)
              ++ [c_rlEnd])).
    vm_compute. reflexivity.
Defined.

(** X4. In every state that a client can reach, the vertex counts of the
    entries of the ledger are not negative and add up to the number of
    vertices in the quads buffer, and the ledger lies inside its array of
    256 entries. The batch sizes are taken not to be negative. *)
Theorem X4_ledger_counts_the_quad_vertices `{Config} `{Raymath} st :
  capacities_nonneg -> reachable st ->
  ledger_total (ledger st) = PCTI.vCounter (quads st)
  /\ Forall (fun d => 0 <= DrawCall.vertexCount d) (ledger st)
  /\ draws_ok st.
Proof.
  intros Hcap Hr.
  destruct (reachable_batch_ok st Hcap Hr) as (_ & _ & Hd & Hf & Ht).
  split; [exact Ht|]. split; [exact Hf|exact Hd].
Qed.

(** Witness of X4: the example with two quads of different textures. *)
Lemma X4_witness :
  ledger_total (ledger example_two_quads) = PCTI.vCounter (quads example_two_quads)
  /\ Forall (fun d => 0 <= DrawCall.vertexCount d) (ledger example_two_quads)
  /\ draws_ok example_two_quads.
Proof.
  apply (X4_ledger_counts_the_quad_vertices example_two_quads).
  - repeat split; vm_compute; discriminate.
  - apply (boot_then_reachable example_boot
             ([c_rlBegin RL_QUADS; c_rlEnableTexture 5;
               c_rlColor4ub Byte.xff Byte.xff Byte.xff Byte.xff]
              ++ replicate 4 (c_rlVertex3f f32_0 f32_0 f32_0)
              ++ [c_rlEnableTexture 6]
              ++ replicate 4 (c_rlVertex3f f32_1 f32_1 f32_0)
              ++ [c_rlEnd])).
    vm_compute. reflexivity.
Defined.

(** ** Colors and texcoords of a shape *)

Lemma put_color_length x y z w c a : length (put_color x y z w c a) = length a.
Proof. unfold put_color. now rewrite !length_insert. Qed.

Lemma put_color_elt x y z w c a r :
  0 <= c -> 4 * c + 4 <= Z.of_nat (length a) -> 0 <= r < 4 ->
  elt (put_color x y z w c a) (4 * c + r) = elt [x; y; z; w] r.
Proof.
  intros Hc Hlen Hr. unfold put_color.
  assert (Hb : forall n, 0 <= n < 4 * c + 4 -> in_bounds a n = true)
    by (intros n Hn; apply in_bounds_spec; lia).
  assert (r = 0 \/ r = 1 \/ r = 2 \/ r = 3) as [-> | [-> | [-> | ->]]] by lia;
    rewrite ?Z.add_0_r;
    rewrite ?elt_insert_ne by lia;
    (rewrite elt_insert_eq by (rewrite ?in_bounds_insert; apply Hb; lia));
    reflexivity.
Qed.

Lemma put_color_elt_other x y z w c a i :
  0 <= c -> i < 4 * c \/ 4 * c + 4 <= i ->
  elt (put_color x y z w c a) i = elt a i.
Proof.
  intros Hc Hi. unfold put_color. now rewrite !elt_insert_ne by lia.
Qed.

(** The four stores of a color and the increment of the counter. *)
Lemma store_color (cCounter : Var Z) (colors : Var (list byte))
    (Hvars : distinct_vars cCounter colors) x y z w c st :
  0 <= c -> 4 * c + 4 <= Z.of_nat (length (rd colors st)) ->
  exists st',
    (store colors (4 * c) x;;
     store colors (4 * c + 1) y;;
     store colors (4 * c + 2) z;;
     store colors (4 * c + 3) w;;
     assign cCounter (c + 1)) st = Ret tt st'
    /\ rd colors st' = put_color x y z w c (rd colors st)
    /\ rd cCounter st' = c + 1.
Proof.
  intros Hc Hlen. destruct Hvars as [Haa Hna Hnn Han].
  eexists. split.
  - rewrite bind_store by (apply in_bounds_spec; lia).
    rewrite bind_store
      by (rewrite Haa, in_bounds_insert; apply in_bounds_spec; lia).
    rewrite Haa.
    rewrite bind_store
      by (rewrite Haa, !in_bounds_insert; apply in_bounds_spec; lia).
    rewrite Haa.
    rewrite bind_store
      by (rewrite Haa, !in_bounds_insert; apply in_bounds_spec; lia).
    rewrite Haa. reflexivity.
  - unfold assign. now rewrite Han, Haa, Hnn.
Qed.

(** Without room for the four components, one of the stores is out of
    the bounds of the array. *)
Lemma store_color_overflow (cCounter : Var Z) (colors : Var (list byte))
    (Hvars : distinct_vars cCounter colors) x y z w c st :
  Z.of_nat (length (rd colors st)) < 4 * c + 4 ->
  exists st',
    (store colors (4 * c) x;;
     store colors (4 * c + 1) y;;
     store colors (4 * c + 2) z;;
     store colors (4 * c + 3) w;;
     assign cCounter (c + 1)) st = OutOfBounds st'.
Proof.
  intros Hlen. destruct Hvars as [Haa Hna Hnn Han].
  destruct (in_bounds (rd colors st) (4 * c)) eqn:H0;
    [rewrite bind_store by exact H0
    |eexists; apply bind_OutOfBounds, store_OutOfBounds; exact H0].
  destruct (in_bounds (rd colors st) (4 * c + 1)) eqn:H1;
    [rewrite bind_store by (now rewrite Haa, in_bounds_insert)
    |eexists; apply bind_OutOfBounds, store_OutOfBounds;
     now rewrite Haa, in_bounds_insert].
  rewrite Haa.
  destruct (in_bounds (rd colors st) (4 * c + 2)) eqn:H2;
    [rewrite bind_store by (now rewrite Haa, !in_bounds_insert)
    |eexists; apply bind_OutOfBounds, store_OutOfBounds;
     now rewrite Haa, !in_bounds_insert].
  rewrite Haa.
  eexists. apply bind_OutOfBounds, store_OutOfBounds.
  rewrite Haa, !in_bounds_insert. apply in_bounds_false. lia.
Qed.

Section Attributes.
Context `{cfg : Config} `{rm : Raymath}.

Lemma rlColor4ub_keeps_beside x y z w : keeps beside_colors (rlColor4ub x y z w).
Proof. unfold rlColor4ub. keeps_auto. Qed.

(** [rlColor4ub] with room in the color array of the active buffer. *)
Lemma rlColor4ub_spec x y z w st :
  0 <= active_cCounter st ->
  4 * active_cCounter st + 4 <= Z.of_nat (length (active_colors st)) ->
  exists st',
    rlColor4ub x y z w st = Ret tt st'
    /\ active_colors st'
       = put_color x y z w (active_cCounter st) (active_colors st)
    /\ active_cCounter st' = active_cCounter st + 1
    /\ beside_colors st' = beside_colors st.
Proof.
  intros Hc Hlen.
  assert (exists st', rlColor4ub x y z w st = Ret tt st'
            /\ (currentDrawMode st' = currentDrawMode st ->
                active_colors st'
                = put_color x y z w (active_cCounter st) (active_colors st)
                /\ active_cCounter st' = active_cCounter st + 1))
    as (st' & E & Hcol).
  { unfold active_cCounter, active_colors in *. unfold rlColor4ub.
    rewrite bind_read. cbn [rd v_currentDrawMode].
    destruct (currentDrawMode st) eqn:Hmode; rewrite bind_read.
    - destruct (store_color _ _ lines_color_vars x y z w _ st Hc Hlen)
        as (st' & E & H1 & H2).
      exists st'. split; [exact E|]. intros ->. now split.
    - destruct (store_color _ _ triangles_color_vars x y z w _ st Hc Hlen)
        as (st' & E & H1 & H2).
      exists st'. split; [exact E|]. intros ->. now split.
    - destruct (store_color _ _ quads_color_vars x y z w _ st Hc Hlen)
        as (st' & E & H1 & H2).
      exists st'. split; [exact E|]. intros ->. now split. }
  assert (Hk : beside_colors st' = beside_colors st)
    by (frame beside_colors E; apply rlColor4ub_keeps_beside).
  exists st'. split; [exact E|].
  assert (Hm : currentDrawMode st' = currentDrawMode st)
    by (unfold beside_colors in Hk; congruence).
  destruct (Hcol Hm) as [H1 H2]. now repeat split.
Qed.

(** [rlColor4ub] tests no limit: without room in the color array it
    writes out of its bounds. *)
Lemma rlColor4ub_overflow x y z w st :
  Z.of_nat (length (active_colors st)) < 4 * active_cCounter st + 4 ->
  exists st', rlColor4ub x y z w st = OutOfBounds st'.
Proof.
  unfold active_cCounter, active_colors. intros Hlen. unfold rlColor4ub.
  rewrite bind_read. cbn [rd v_currentDrawMode].
  destruct (currentDrawMode st); rewrite bind_read.
  - now apply (store_color_overflow _ _ lines_color_vars).
  - now apply (store_color_overflow _ _ triangles_color_vars).
  - now apply (store_color_overflow _ _ quads_color_vars).
Qed.

(** [rlTexCoord2f] outside quads mode does nothing. *)
Lemma rlTexCoord2f_ignored x y st :
  currentDrawMode st <> RL_QUADS -> rlTexCoord2f x y st = Ret tt st.
Proof.
  intros Hm. unfold rlTexCoord2f. rewrite bind_read.
  cbn [rd v_currentDrawMode]. now destruct (currentDrawMode st).
Qed.

Lemma rlTexCoord2f_spec x y st :
  currentDrawMode st = RL_QUADS ->
  0 <= PCTI.tcCounter (quads st) ->
  2 * PCTI.tcCounter (quads st) + 2
    <= Z.of_nat (length (PCTI.texcoords (quads st))) ->
  rlTexCoord2f x y st
  = Ret tt (wr quads_tcCounter (PCTI.tcCounter (quads st) + 1)
              (wr quads_texcoords
                 (put_texcoord x y (PCTI.tcCounter (quads st))
                    (PCTI.texcoords (quads st))) st)).
Proof.
  intros Hm Ht Hlen. unfold rlTexCoord2f. rewrite bind_read.
  cbn [rd v_currentDrawMode]. rewrite Hm. cbn [is_RL_QUADS when].
  rewrite bind_read. cbn [rd quads_tcCounter].
  rewrite bind_store by (apply in_bounds_spec; cbn; lia).
  rewrite bind_store
    by (cbn; rewrite in_bounds_insert; apply in_bounds_spec; lia).
  unfold assign, put_texcoord. cbn. reflexivity.
Qed.

Lemma rlTexCoord2f_overflow x y st :
  currentDrawMode st = RL_QUADS ->
  Z.of_nat (length (PCTI.texcoords (quads st)))
    < 2 * PCTI.tcCounter (quads st) + 2 ->
  exists st', rlTexCoord2f x y st = OutOfBounds st'.
Proof.
  intros Hm Hlen. unfold rlTexCoord2f. rewrite bind_read.
  cbn [rd v_currentDrawMode]. rewrite Hm. cbn [is_RL_QUADS when].
  rewrite bind_read. cbn [rd quads_tcCounter].
  destruct (in_bounds (rd quads_texcoords st) (2 * PCTI.tcCounter (quads st)))
    eqn:H0;
    [rewrite bind_store by exact H0
    |eexists; apply bind_OutOfBounds, store_OutOfBounds; exact H0].
  eexists. apply bind_OutOfBounds, store_OutOfBounds.
  cbn. rewrite in_bounds_insert. apply in_bounds_false. lia.
Qed.

(** Vertices submitted one after the other, the temp buffer out of use. *)
Lemma vertices_run points : forall st,
  useTempBuffer st = false ->
  replay_room (Z.of_nat (length points)) st ->
  exists st',
    run (map (fun p => c_rlVertex3f (Vector3.x p) (Vector3.y p) (Vector3.z p))
           points) st = Ret tt st'
    /\ useTempBuffer st' = false
    /\ beside_positions st' = beside_positions st
    /\ currentDrawMode st' = currentDrawMode st
    /\ active_vCounter st'
       = active_vCounter st + Z.of_nat (length points)
    /\ active_vertices st'
       = replay points (active_vCounter st) (active_vertices st).
Proof.
  induction points as [|p points IH]; intros st Htemp (Hv & Hlimit & Hlen & Hledger).
  - exists st. cbn. repeat split; try assumption. lia.
  - cbn [length] in *.
    destruct (rlVertex3f_accept (Vector3.x p) (Vector3.y p) (Vector3.z p) st
                (active_vCounter st) Htemp eq_refl Hv)
      as (s1 & E1 & Hm1 & Hv1 & Hvs1 & Hl1).
    { apply Z.le_lt_trans
        with ((active_vCounter st + Z.of_nat (S (length points)) - 1)
              ÷ vertices_per (currentDrawMode st));
        [|apply Hlimit; lia].
      apply Z.quot_le_mono; [apply vertices_per_pos|lia]. }
    { lia. }
    { exact Hledger. }
    assert (Ht1 : useTempBuffer s1 = false)
      by (rewrite <- Htemp; frame useTempBuffer E1;
          apply rlVertex3f_keeps_useTempBuffer).
    assert (Hb1 : beside_positions s1 = beside_positions st).
    { rewrite rlVertex3f_off in E1 by exact Htemp.
      frame beside_positions E1. apply rlVertex3f_batch_keeps_beside. }
    destruct (IH s1 Ht1) as (st' & E & Ht' & Hb' & Hm' & Hv' & Hvs').
    { unfold replay_room. rewrite Hm1, Hv1, Hvs1, put_position_length.
      split; [lia|]. split.
      - intros Hpos.
        replace (active_vCounter st + 1 + Z.of_nat (length points) - 1)
          with (active_vCounter st + Z.of_nat (S (length points)) - 1) by lia.
        apply Hlimit. lia.
      - split; [lia|]. intros Hq. now apply Hl1. }
    exists st'. split.
    { cbn [map run call]. now rewrite (bind_Ret _ _ _ _ _ E1). }
    split; [exact Ht'|]. split; [congruence|]. split; [congruence|].
    split; [rewrite Hv', Hv1; lia|].
    rewrite Hvs', Hv1, Hvs1. reflexivity.
Qed.

End Attributes.

Section Shape.
Context `{cfg : Config} `{rm : Raymath}.

(** A shape of one color. *)
Lemma colored_shape_spec x y z w points st :
  points <> [] ->
  useTempBuffer st = false ->
  active_cCounter st = active_vCounter st ->
  replay_room (Z.of_nat (length points)) st ->
  4 * (active_vCounter st + Z.of_nat (length points))
    <= Z.of_nat (length (active_colors st)) ->
  (currentDrawMode st = RL_QUADS ->
   active_vCounter st + Z.of_nat (length points) <= PCTI.tcCounter (quads st)
   \/ (0 <= PCTI.tcCounter (quads st)
       /\ 2 * (active_vCounter st + Z.of_nat (length points))
          <= Z.of_nat (length (PCTI.texcoords (quads st))))) ->
  exists st',
    run (colored_shape x y z w points) st = Ret tt st'
    /\ currentDrawMode st' = currentDrawMode st
    /\ active_vCounter st' = active_vCounter st + Z.of_nat (length points)
    /\ active_cCounter st' = active_vCounter st'
    /\ active_vertices st'
       = replay points (active_vCounter st) (active_vertices st)
    /\ (forall j r, active_vCounter st <= j < active_vCounter st' ->
          0 <= r < 4 ->
          elt (active_colors st') (4 * j + r) = elt [x; y; z; w] r)
    /\ (forall i, i < 4 * active_vCounter st ->
          elt (active_colors st') i = elt (active_colors st) i).
Proof.
  intros Hne Htemp Hcv Hroom Hlen Htex.
  set (n := Z.of_nat (length points)) in *.
  set (v := active_vCounter st) in *.
  assert (Hn : 1 <= n) by (destruct points; [congruence|cbn in n; lia]).
  pose proof Hroom as (Hv & _ & _ & _). fold v in Hv.
  destruct (rlColor4ub_spec x y z w st) as (s1 & E1 & Hcs1 & Hc1 & Hb1);
    [lia|lia|].
  unfold beside_colors in Hb1.
  injection Hb1 as Hm1 Hlv1 Hlvs1 Htv1 Htvs1 Hqv1 Hqvs1 Hn1 Ht1.
  assert (Hv1 : active_vCounter s1 = v)
    by (unfold v, active_vCounter; rewrite Hm1;
        destruct (currentDrawMode st); assumption).
  assert (Hvs1 : active_vertices s1 = active_vertices st)
    by (unfold active_vertices; rewrite Hm1;
        destruct (currentDrawMode st); assumption).
  assert (Hd1 : (draws s1, drawsCounter s1, PCTI.tcCounter (quads s1),
                 PCTI.texcoords (quads s1))
                = (draws st, drawsCounter st, PCTI.tcCounter (quads st),
                   PCTI.texcoords (quads st)))
    by (frame (fun s => (draws s, drawsCounter s, PCTI.tcCounter (quads s),
                         PCTI.texcoords (quads s))) E1;
        unfold rlColor4ub; keeps_auto).
  injection Hd1 as Hdr1 Hdc1 Htc1 Htcs1.
  destruct (vertices_run points s1) as (s2 & E2 & Ht2 & Hb2 & Hm2 & Hv2 & Hvs2).
  { congruence. }
  { destruct Hroom as (_ & Hlimit & Hl & Hledger).
    unfold replay_room. rewrite Hv1, Hvs1, Hm1. fold n.
    split; [lia|]. split; [exact Hlimit|]. split; [exact Hl|].
    intros Hq. destruct (Hledger Hq) as (cur & Hcur & Hcount).
    exists cur. now rewrite Hdr1, Hdc1. }
  fold n in Hv2. rewrite Hv1 in Hv2, Hvs2. rewrite Hvs1 in Hvs2.
  unfold beside_positions in Hb2.
  injection Hb2 as _ _ Hlc2 Hlcs2 Htc2 Htcs2 Hqc2 Hqcs2 Hqt2 Hqts2.
  assert (Hc2 : active_cCounter s2 = v + 1).
  { rewrite <- Hcv, <- Hc1. unfold active_cCounter. rewrite Hm2.
    destruct (currentDrawMode s1); assumption. }
  assert (Hcs2 : active_colors s2 = put_color x y z w v (active_colors st)).
  { rewrite <- Hcv, <- Hcs1. unfold active_colors. rewrite Hm2.
    destruct (currentDrawMode s1); assumption. }
  destruct (rlEnd_completes_colors s2 (v + n) (v + 1) Ht2 Hv2 Hc2)
    as (st' & E & Hm' & Hc' & Hv' & Hvs' & Hin & Hout).
  { lia. }
  { rewrite Hcs2, put_color_length. exact Hlen. }
  { intros Hq. unfold quads_texcoords_ready.
    assert (Hq0 : currentDrawMode st = RL_QUADS) by congruence.
    assert (Hqv : PCTI.vCounter (quads s2) = v + n)
      by (unfold active_vCounter in Hv2; now rewrite Hq in Hv2).
    rewrite Hqv, Hqt2, Hqts2, Htc1, Htcs1. exact (Htex Hq0). }
  exists st'. split.
  { unfold colored_shape. cbn [run call].
    rewrite (bind_Ret _ _ _ _ _ E1).
    clear -E2 E. revert E2 E. generalize s1.
    induction (map _ points) as [|c cs IH]; intros s E2 E.
    - cbn in E2. injection E2 as ->. cbn [app run call].
      rewrite (bind_Ret _ _ _ _ _ E). reflexivity.
    - cbn [run] in E2. apply bind_Ret_inv in E2 as ([] & s' & Ec & E2).
      cbn [app run]. rewrite (bind_Ret _ _ _ _ _ Ec). now apply IH. }
  split; [congruence|]. split; [exact Hv'|]. split; [congruence|].
  split; [congruence|]. split.
  - intros j r Hj Hr. rewrite Hv' in Hj.
    destruct (Z.eq_dec j v) as [->|Hjv].
    + rewrite Hout by lia. rewrite Hcs2. apply put_color_elt; lia.
    + rewrite Hin by lia. rewrite Hcs2.
      replace (4 * (v + 1 - 1) + r) with (4 * v + r) by lia.
      apply put_color_elt; lia.
  - intros i Hi. rewrite Hout by lia. rewrite Hcs2.
    apply put_color_elt_other; lia.
Qed.

End Shape.

(** X5. [rlColor4ub] stores the four components at the end of the color
    array of the active buffer and counts the color, leaving the
    positions, the vertex counters, the mode and the temp buffer as they
    were; it tests no limit, so that without room for four more bytes it
    writes out of the bounds of the array. *)
Theorem X5_color_submission_has_no_capacity_check `{Config} `{Raymath}
    x y z w st :
  0 <= active_cCounter st ->
  (4 * active_cCounter st + 4 <= Z.of_nat (length (active_colors st)) ->
   exists st',
     rlColor4ub x y z w st = Ret tt st'
     /\ active_colors st'
        = put_color x y z w (active_cCounter st) (active_colors st)
     /\ active_cCounter st' = active_cCounter st + 1
     /\ beside_colors st' = beside_colors st)
  /\ (Z.of_nat (length (active_colors st)) < 4 * active_cCounter st + 4 ->
      exists st', rlColor4ub x y z w st = OutOfBounds st').
Proof.
  intros Hc. split.
  - intros Hlen. now apply rlColor4ub_spec.
  - intros Hlen. now apply rlColor4ub_overflow.
Qed.

(** Witness of X5: a first color in triangles mode, and one color more
    than the array of the triangles takes. *)
Lemma X5_witness :
  (exists st',
     rlColor4ub Byte.xff Byte.x00 Byte.x00 Byte.xff example_triangles_start
     = Ret tt st'
     /\ active_cCounter st' = 1)
  /\ (exists st',
        rlColor4ub Byte.xff Byte.x00 Byte.x00 Byte.xff example_colors_full
        = OutOfBounds st').
Proof.
  split.
  - destruct (X5_color_submission_has_no_capacity_check
                Byte.xff Byte.x00 Byte.x00 Byte.xff example_triangles_start)
      as [Hroom _]; [vm_compute; discriminate|].
    destruct Hroom as (st' & E & _ & Hc & _); [vm_compute; discriminate|].
    exists st'. split; [exact E|]. rewrite Hc. vm_compute. reflexivity.
  - destruct (X5_color_submission_has_no_capacity_check
                Byte.xff Byte.x00 Byte.x00 Byte.xff example_colors_full)
      as [_ Hfull]; [vm_compute; discriminate|].
    apply Hfull. vm_compute. reflexivity.
Defined.

(** X6. [rlTexCoord2f] outside quads mode returns and changes nothing.
    In quads mode it stores the two components at the end of the texcoord
    array of the quads and counts the texcoord, nothing else changing; it
    tests no limit, so that without room for two more floats it writes
    out of the bounds of the array. *)
Theorem X6_texcoords_are_for_quads_only `{Config} `{Raymath} x y st :
  0 <= PCTI.tcCounter (quads st) ->
  (currentDrawMode st <> RL_QUADS -> rlTexCoord2f x y st = Ret tt st)
  /\ (currentDrawMode st = RL_QUADS ->
      2 * PCTI.tcCounter (quads st) + 2
        <= Z.of_nat (length (PCTI.texcoords (quads st))) ->
      rlTexCoord2f x y st
      = Ret tt (wr quads_tcCounter (PCTI.tcCounter (quads st) + 1)
                  (wr quads_texcoords
                     (put_texcoord x y (PCTI.tcCounter (quads st))
                        (PCTI.texcoords (quads st))) st)))
  /\ (currentDrawMode st = RL_QUADS ->
      Z.of_nat (length (PCTI.texcoords (quads st)))
        < 2 * PCTI.tcCounter (quads st) + 2 ->
      exists st', rlTexCoord2f x y st = OutOfBounds st').
Proof.
  intros Ht. split; [apply rlTexCoord2f_ignored|]. split.
  - intros Hm Hlen. now apply rlTexCoord2f_spec.
  - intros Hm Hlen. now apply rlTexCoord2f_overflow.
Qed.

(** Witness of X6: a texcoord in triangles mode and one in quads mode. *)
Lemma X6_witness :
  rlTexCoord2f f32_1 f32_1 example_triangles_start
  = Ret tt example_triangles_start
  /\ exists st',
       rlTexCoord2f f32_1 f32_1 example_quads_start = Ret tt st'
       /\ PCTI.tcCounter (quads st') = 1
       /\ take 2 (PCTI.texcoords (quads st')) = [f32_1; f32_1].
Proof.
  split.
  - destruct (X6_texcoords_are_for_quads_only f32_1 f32_1
                example_triangles_start) as [Hother _];
      [vm_compute; discriminate|].
    apply Hother. vm_compute. discriminate.
  - destruct (X6_texcoords_are_for_quads_only f32_1 f32_1
                example_quads_start) as (_ & Hquads & _);
      [vm_compute; discriminate|].
    eexists. split.
    + apply Hquads; vm_compute; [reflexivity|discriminate].
    + split; vm_compute; reflexivity.
Defined.

(** X7. A shape of one color: [rlColor4ub], then one or more
    [rlVertex3f], then [rlEnd]. From a state with as many colors as
    vertices in the active buffer, the temp buffer out of use and room for
    the vertices and their colors, the calls return, the positions are
    stored in order after those that were there, there are again as many
    colors as vertices, every vertex of the shape has the color given,
    and the colors of the vertices that were there are unchanged. *)
Theorem X7_one_color_colors_every_vertex_of_the_shape `{Config} `{Raymath}
    x y z w points st :
  points <> [] ->
  useTempBuffer st = false ->
  active_cCounter st = active_vCounter st ->
  replay_room (Z.of_nat (length points)) st ->
  4 * (active_vCounter st + Z.of_nat (length points))
    <= Z.of_nat (length (active_colors st)) ->
  (currentDrawMode st = RL_QUADS ->
   active_vCounter st + Z.of_nat (length points) <= PCTI.tcCounter (quads st)
   \/ (0 <= PCTI.tcCounter (quads st)
       /\ 2 * (active_vCounter st + Z.of_nat (length points))
          <= Z.of_nat (length (PCTI.texcoords (quads st))))) ->
  exists st',
    run (colored_shape x y z w points) st = Ret tt st'
    /\ currentDrawMode st' = currentDrawMode st
    /\ active_vCounter st' = active_vCounter st + Z.of_nat (length points)
    /\ active_cCounter st' = active_vCounter st'
    /\ active_vertices st'
       = replay points (active_vCounter st) (active_vertices st)
    /\ (forall j r, active_vCounter st <= j < active_vCounter st' ->
          0 <= r < 4 ->
          elt (active_colors st') (4 * j + r) = elt [x; y; z; w] r)
    /\ (forall i, i < 4 * active_vCounter st ->
          elt (active_colors st') i = elt (active_colors st) i).
Proof. apply colored_shape_spec. Qed.

(** Witness of X7: a red triangle. *)
Lemma X7_witness :
  exists st',
    run (colored_shape Byte.xff Byte.x00 Byte.x00 Byte.xff
           [Vector3.mk f32_0 f32_0 f32_0; Vector3.mk f32_1 f32_0 f32_0;
            Vector3.mk f32_0 f32_1 f32_0]) example_triangles_start
    = Ret tt st'
    /\ active_vCounter st' = 3
    /\ active_cCounter st' = 3
    /\ take 12 (active_colors st')
       = [Byte.xff; Byte.x00; Byte.x00; Byte.xff;
          Byte.xff; Byte.x00; Byte.x00; Byte.xff;
          Byte.xff; Byte.x00; Byte.x00; Byte.xff].
Proof.
  destruct (X7_one_color_colors_every_vertex_of_the_shape
              Byte.xff Byte.x00 Byte.x00 Byte.xff
              [Vector3.mk f32_0 f32_0 f32_0; Vector3.mk f32_1 f32_0 f32_0;
               Vector3.mk f32_0 f32_1 f32_0] example_triangles_start)
    as (st' & E & _ & Hv & Hc & _).
  - discriminate.
  - vm_compute. reflexivity.
  - vm_compute. reflexivity.
  - unfold replay_room. repeat split; try (vm_compute; easy).
  - vm_compute. discriminate.
  - intros Hq. vm_compute in Hq. discriminate Hq.
  - exists st'. split; [exact E|].
    assert (Es : st' = final_state
                   (run (colored_shape Byte.xff Byte.x00 Byte.x00 Byte.xff
                           [Vector3.mk f32_0 f32_0 f32_0;
                            Vector3.mk f32_1 f32_0 f32_0;
                            Vector3.mk f32_0 f32_1 f32_0])
                      example_triangles_start))
      by (rewrite E; reflexivity).
    rewrite Es. vm_compute. repeat split.
Defined.

(** ** Flushes in a row, and the shader of a flush *)

Lemma reset_batches_again cs st :
  reset_batches (with_gl cs (reset_batches st)) = with_gl cs (reset_batches st).
Proof.
  unfold reset_batches, with_gl. cbn. now rewrite list_insert_insert_eq.
Qed.

Lemma emits_gl_program p c st : uses_program p c -> emits (uses_program p) (gl c) st.
Proof. apply emits_gl. Qed.

Ltac emits_program_step :=
  lazymatch goal with
  | |- emits _ (get ≫= _) _ => apply emits_bind_get
  | |- emits _ (_ ≫= _) _ => apply emits_bind; [|intros ? ?]
  | |- emits _ (mret _) _ => apply emits_ret
  | |- emits _ (read _) _ => apply emits_read
  | |- emits _ (gl _) _ =>
      apply emits_gl; cbn; first [exact I | now left | now right]
  | |- emits _ (when ?b _) _ =>
      apply emits_when;
      let H := fresh "Hb" in intros H; try discriminate H
  | |- emits _ (if ?b then _ else _) _ => destruct b
  end.

Ltac emits_program := repeat emits_program_step.

Lemma ledger_draw_calls_program `{Config} p l offset :
  Forall (uses_program p) (ledger_draw_calls l offset).
Proof.
  revert offset. induction l as [|d l IH]; intros offset; cbn.
  - constructor.
  - repeat constructor. apply IH.
Qed.

Section FlushProgram.
Context `{cfg : Config} `{rm : Raymath}.

Lemma rlglDraw_batches_program st :
  draws_in_bounds st ->
  emits (uses_program (Shader.id (currentShader st))) rlglDraw_batches st.
Proof.
  intros [_ Hn]. unfold rlglDraw_batches.
  apply emits_bind_get. cbv zeta.
  apply emits_bind; [emits_program|intros _ cs1].
  apply emits_bind; [emits_program|intros _ cs2].
  apply emits_bind; [emits_program|intros _ cs3].
  apply emits_bind; [|intros _ cs4; emits_program].
  destruct (Z.ltb_spec 0 (PCTI.vCounter (quads st))) as [Hq|Hq]; cbn [when];
    [specialize (Hn Hq)|apply emits_ret].
  apply emits_bind; [emits_program|intros _ cs5].
  rewrite !with_gl_app.
  set (s := with_gl _ st).
  assert (Hls : ledger s = ledger st) by reflexivity.
  pose proof (draw_loop_spec s Hn) as Hloop. rewrite Hls in Hloop.
  destruct (vaoSupported st); cbn [negb when].
  - exists tt, (ledger_draw_calls (ledger st) 0 ++ [glBindTexture GL_TEXTURE_2D 0]).
    split.
    + rewrite bind_read. cbn [rd v_drawsCounter].
      rewrite (bind_Ret _ _ _ _ _ Hloop), bind_mret_l, gl_Ret.
      now rewrite with_gl_app.
    + apply Forall_app. split; [apply ledger_draw_calls_program|].
      repeat constructor.
  - exists tt, (ledger_draw_calls (ledger st) 0
                ++ [glBindBuffer GL_ARRAY_BUFFER 0;
                    glBindBuffer GL_ELEMENT_ARRAY_BUFFER 0;
                    glBindTexture GL_TEXTURE_2D 0]).
    split.
    + rewrite bind_read. cbn [rd v_drawsCounter].
      rewrite (bind_Ret _ _ _ _ _ Hloop), bind_assoc, !bind_gl, gl_Ret.
      rewrite !with_gl_app. reflexivity.
    + apply Forall_app. split; [apply ledger_draw_calls_program|].
      repeat constructor.
Qed.

Lemma UpdateDefaultBuffers_program p st :
  emits (uses_program p) UpdateDefaultBuffers st.
Proof. unfold UpdateDefaultBuffers. emits_program. Qed.

(** A flush makes its calls with the program of the current shader. *)
Lemma rlglDraw_program st :
  draws_in_bounds st ->
  exists cs,
    rlglDraw st = Ret tt (reset_batches (with_gl cs st))
    /\ Forall (uses_program (Shader.id (currentShader st))) cs.
Proof.
  intros Hb.
  destruct (UpdateDefaultBuffers_program (Shader.id (currentShader st)) st)
    as (a0 & cs0 & E0 & H0).
  destruct (rlglDraw_batches_program (with_gl cs0 st) Hb)
    as (a1 & cs1 & E1 & H1).
  exists (cs0 ++ cs1). split.
  - unfold rlglDraw.
    rewrite (bind_Ret _ _ _ _ _ E0), (bind_Ret _ _ _ _ _ E1).
    rewrite rlglDraw_reset_spec by apply Hb.
    now rewrite with_gl_app.
  - now apply Forall_app.
Qed.

Lemma SetCustomShader_same shader st :
  Shader.id (currentShader st) = Shader.id shader ->
  SetCustomShader shader st = Ret tt st.
Proof.
  intros Hid. unfold SetCustomShader. rewrite bind_read.
  cbn [rd v_currentShader]. now rewrite Hid, Z.eqb_refl.
Qed.

Lemma SetCustomShader_other shader st :
  Shader.id (currentShader st) <> Shader.id shader ->
  draws_in_bounds st ->
  exists cs,
    SetCustomShader shader st
    = Ret tt (set_currentShader shader (reset_batches (with_gl cs st)))
    /\ Forall (uses_program (Shader.id (currentShader st))) cs.
Proof.
  intros Hid Hb. destruct (rlglDraw_program st Hb) as (cs & E & Hcs).
  exists cs. split; [|exact Hcs].
  unfold SetCustomShader. rewrite bind_read. cbn [rd v_currentShader].
  destruct (Z.eqb_spec (Shader.id (currentShader st)) (Shader.id shader));
    [contradiction|].
  cbn [negb when]. now rewrite (bind_Ret _ _ _ _ _ E).
Qed.

End FlushProgram.

(** X8. Two flushes in a row: both return, and the second one, which
    finds the three buffers empty, makes no call that uploads buffer data
    or draws and leaves every global as the first flush left it, the
    record of the OpenGL calls apart. *)
Theorem X8_second_flush_in_a_row_draws_nothing `{Config} `{Raymath} st :
  draws_in_bounds st ->
  exists cs1 cs2 st1,
    rlglDraw st = Ret tt st1
    /\ st1 = reset_batches (with_gl cs1 st)
    /\ rlglDraw st1 = Ret tt (with_gl cs2 st1)
    /\ (rlglDraw;; rlglDraw) st = Ret tt (with_gl cs2 st1)
    /\ Forall no_upload_no_draw cs2.
Proof.
  intros Hb. destruct (rlglDraw_spec st Hb) as (before & after & E1 & _).
  set (cs1 := before ++ _ ++ after) in E1.
  destruct (rlglDraw_empty (reset_batches (with_gl cs1 st)))
    as (cs2 & E2 & Hcs2).
  { now repeat split. }
  { cbn. rewrite length_insert. apply Hb. }
  rewrite reset_batches_again in E2.
  exists cs1, cs2, (reset_batches (with_gl cs1 st)).
  split; [exact E1|]. split; [reflexivity|]. split; [exact E2|].
  split; [|exact Hcs2]. now rewrite (bind_Ret _ _ _ _ _ E1).
Qed.

(** Witness of X8: two flushes with two quads in the buffer. *)
Lemma X8_witness :
  exists cs1 cs2 st1,
    rlglDraw example_two_quads = Ret tt st1
    /\ st1 = reset_batches (with_gl cs1 example_two_quads)
    /\ rlglDraw st1 = Ret tt (with_gl cs2 st1)
    /\ (rlglDraw;; rlglDraw) example_two_quads = Ret tt (with_gl cs2 st1)
    /\ Forall no_upload_no_draw cs2.
Proof.
  apply (X8_second_flush_in_a_row_draws_nothing example_two_quads).
  split; [vm_compute; reflexivity|]. intros _. vm_compute.
  split; discriminate.
Defined.

(** X9. [SetCustomShader] with a shader of the program that is current
    returns and changes nothing: the shader given is not installed, whatever
    its other fields. With another program it flushes first, every
    [glUseProgram] of that flush selecting the program that was current (or
    0), and installs the shader after the reset of the batch: vertices
    submitted before the switch are drawn with the shader of before.
    [SetDefaultShader] ends with the program of the default shader
    current. *)
Theorem X9_shader_switch_flushes_with_the_shader_of_before
    `{Config} `{Raymath} shader st :
  draws_in_bounds st ->
  (Shader.id (currentShader st) = Shader.id shader ->
   SetCustomShader shader st = Ret tt st)
  /\ (Shader.id (currentShader st) <> Shader.id shader ->
      exists cs,
        SetCustomShader shader st
        = Ret tt (set_currentShader shader (reset_batches (with_gl cs st)))
        /\ Forall (uses_program (Shader.id (currentShader st))) cs)
  /\ (exists st',
        SetDefaultShader st = Ret tt st'
        /\ Shader.id (currentShader st') = Shader.id (defaultShader st')).
Proof.
  intros Hb. split; [apply SetCustomShader_same|].
  split; [intros Hid; now apply SetCustomShader_other|].
  unfold SetDefaultShader.
  change ((get ≫= ?k) ?s) with (k s s).
  destruct (Z.eq_dec (Shader.id (currentShader st))
              (Shader.id (defaultShader st))) as [Hid|Hid].
  - exists st. split; [now apply SetCustomShader_same|exact Hid].
  - destruct (SetCustomShader_other (defaultShader st) st Hid Hb)
      as (cs & E & _).
    eexists. split; [exact E|]. reflexivity.
Qed.

(** Witness of X9: a switch to another program with two quads in the
    buffer. *)
Lemma X9_witness :
  exists cs,
    SetCustomShader example_shader example_two_quads
    = Ret tt (set_currentShader example_shader
                (reset_batches (with_gl cs example_two_quads)))
    /\ Forall (uses_program (Shader.id (currentShader example_two_quads))) cs.
Proof.
  destruct (X9_shader_switch_flushes_with_the_shader_of_before
              example_shader example_two_quads) as (_ & Hother & _).
  - split; [vm_compute; reflexivity|]. intros _. vm_compute.
    split; discriminate.
  - apply Hother. vm_compute. discriminate.
Defined.

(** ** The temp buffer and the ledger at capacity *)

(** X10. With the temp buffer in use, [rlVertex3f] tests no limit: when
    [tempBufferCount] is not an index of the temp buffer (the 4096 points
    are taken), the point is written out of the bounds of the array. *)
Theorem X10_temp_buffer_has_no_capacity_check `{Config} `{Raymath} x y z st :
  useTempBuffer st = true ->
  Z.of_nat (length (tempBuffer st)) <= tempBufferCount st ->
  rlVertex3f x y z st = OutOfBounds st.
Proof.
  intros Htemp Hfull. unfold rlVertex3f. rewrite bind_read.
  cbn [rd v_useTempBuffer]. rewrite Htemp, bind_read.
  apply bind_OutOfBounds, load_OutOfBounds. apply in_bounds_false.
  cbn. lia.
Qed.

(** Witness of X10: the staged example with 4096 points counted. *)
Lemma X10_witness :
  rlVertex3f f32_1 f32_1 f32_1 example_temp_full = OutOfBounds example_temp_full.
Proof.
  apply (X10_temp_buffer_has_no_capacity_check f32_1 f32_1 f32_1
           example_temp_full).
  - vm_compute. reflexivity.
  - vm_compute. discriminate.
Defined.

(** X11. [rlEnableTexture] tests no limit: when every entry of the array
    of draw calls is in use and the current entry has vertices, a texture
    other than the current one increments [drawsCounter] and accesses the
    entry past the end of the array. *)
Theorem X11_ledger_has_no_capacity_check `{Config} `{Raymath} id st cur :
  drawsCounter st = Z.of_nat (length (draws st)) ->
  elt (draws st) (drawsCounter st - 1) = Some cur ->
  DrawCall.textureId cur <> id -> 0 < DrawCall.vertexCount cur ->
  rlEnableTexture id st
  = OutOfBounds (set_drawsCounter (drawsCounter st + 1) st).
Proof. apply rlEnableTexture_full. Qed.

(** Witness of X11: texture 6 after 256 entries of texture 5. *)
Lemma X11_witness :
  rlEnableTexture 6 example_ledger_full
  = OutOfBounds (set_drawsCounter (drawsCounter example_ledger_full + 1)
                   example_ledger_full).
Proof.
  apply (X11_ledger_has_no_capacity_check 6 example_ledger_full
           (DrawCall.mk 5 4)).
  - vm_compute. reflexivity.
  - vm_compute. reflexivity.
  - discriminate.
  - reflexivity.
Defined.

(** ** Reading the screen back *)

Lemma put_Some {A : Type} (a : list A) (i : Z) (v : A) :
  in_bounds a i = true -> put a i v = Some (<[Z.to_nat i := v]> a).
Proof. intros H. unfold put. now rewrite H. Qed.

Lemma put_None {A : Type} (a : list A) (i : Z) (v : A) :
  in_bounds a i = false -> put a i v = None.
Proof. intros H. unfold put. now rewrite H. Qed.

Lemma count_up_0 {T : Type} (bound : Z) (body : Z -> T -> option T) (acc : T) :
  count_up 0 bound body acc = up_fuel (Z.to_nat bound) 0 bound body acc.
Proof. unfold count_up. now rewrite Z.sub_0_r. Qed.

(** One row of the flip: the bytes of the source row [src] go to the row
    at [dst], made opaque; the rest of the block is left as it was. *)
Lemma flip_row (screenData : list byte) (src dst bound : Z) (n : nat) :
  forall (x0 : Z) (img : list byte),
    0 <= x0 -> x0 + Z.of_nat n = bound ->
    0 <= src -> src + bound <= Z.of_nat (length screenData) ->
    0 <= dst -> dst + bound <= Z.of_nat (length img) ->
    exists img',
      up_fuel n x0 bound (fun x imgData =>
        v ← elt screenData (src + x);
        imgData ← put imgData (dst + x) v;
        if Z.rem (x + 1) 4 =? 0
        then put imgData (dst + x) Byte.xff
        else Some imgData) img = Some img'
      /\ length img' = length img
      /\ (forall i, i < dst + x0 \/ dst + bound <= i -> elt img' i = elt img i)
      /\ (forall x, x0 <= x < bound ->
            elt img' (dst + x) = opaque x (elt screenData (src + x))).
Proof.
  induction n as [|n IH]; intros x0 img Hx0 Hn Hsrc Hs Hdst Hd.
  - exists img. cbn. repeat split; intros; try reflexivity; lia.
  - cbn [up_fuel]. destruct (Z.ltb_spec x0 bound) as [Hlt|Hge]; [|lia].
    destruct (in_bounds_elt screenData (src + x0)) as [v Hv];
      [apply in_bounds_spec; lia|].
    rewrite Hv. cbn [mbind option_bind].
    assert (in_bounds img (dst + x0) = true) as Hb by (apply in_bounds_spec; lia).
    rewrite (put_Some _ _ _ Hb). cbn [mbind option_bind].
    set (img1 := <[Z.to_nat (dst + x0) := v]> img).
    assert (in_bounds img1 (dst + x0) = true) as Hb1
      by (unfold img1; now rewrite in_bounds_insert).
    set (img2 := if Z.rem (x0 + 1) 4 =? 0
                 then <[Z.to_nat (dst + x0) := Byte.xff]> img1 else img1).
    assert ((if Z.rem (x0 + 1) 4 =? 0
             then put img1 (dst + x0) Byte.xff else Some img1) = Some img2) as E2.
    { unfold img2. destruct (Z.rem (x0 + 1) 4 =? 0); [now apply put_Some|reflexivity]. }
    rewrite E2. cbn [mbind option_bind].
    assert (length img2 = length img) as Hl2.
    { unfold img2, img1. destruct (Z.rem (x0 + 1) 4 =? 0);
        now rewrite ?length_insert. }
    assert (forall i, i <> dst + x0 -> elt img2 i = elt img i) as Hother.
    { intros i Hi. unfold img2, img1.
      destruct (Z.rem (x0 + 1) 4 =? 0);
        rewrite ?elt_insert_ne by lia; reflexivity. }
    assert (elt img2 (dst + x0) = opaque x0 (Some v)) as Hhere.
    { unfold img2, opaque. destruct (Z.rem (x0 + 1) 4 =? 0).
      - now apply elt_insert_eq.
      - unfold img1. now apply elt_insert_eq. }
    destruct (IH (x0 + 1) img2) as (img' & E & Hl & Hout & Hin); try lia.
    exists img'. split; [exact E|]. split; [congruence|]. split.
    + intros i Hi. rewrite Hout by lia. apply Hother. lia.
    + intros x Hx. destruct (decide (x = x0)) as [->|Hne].
      * rewrite Hout by lia. now rewrite Hhere, Hv.
      * apply Hin. lia.
Qed.

(** The rows from [y] down to 0 of the framebuffer go to the rows from
    [height - 1 - y] on. *)
Lemma flip_rows (screenData : list byte) (width height : Z) (n : nat) :
  forall (y : Z) (img : list byte),
    0 <= width -> Z.of_nat n = y + 1 -> y < height ->
    Z.of_nat (length screenData) = width * height * 4 ->
    Z.of_nat (length img) = width * height * 4 ->
    exists img',
      down_fuel n y (fun y imgData =>
        count_up 0 (width * 4) (fun x imgData =>
          v ← elt screenData (y * width * 4 + x);
          imgData ← put imgData (((height - 1) - y) * width * 4 + x) v;
          if Z.rem (x + 1) 4 =? 0
          then put imgData (((height - 1) - y) * width * 4 + x) Byte.xff
          else Some imgData) imgData) img = Some img'
      /\ length img' = length img
      /\ (forall i, i < (height - 1 - y) * width * 4 -> elt img' i = elt img i)
      /\ (forall row x, height - 1 - y <= row < height -> 0 <= x < width * 4 ->
            elt img' (row * width * 4 + x) =
            opaque x (elt screenData ((height - 1 - row) * width * 4 + x))).
Proof.
  induction n as [|n IH]; intros y img Hw Hn Hy Hs Hi.
  - exists img. cbn. repeat split; intros; try reflexivity; lia.
  - cbn [down_fuel]. destruct (Z.leb_spec 0 y) as [H0|H0]; [|lia].
    rewrite count_up_0.
    destruct (flip_row screenData (y * width * 4) ((height - 1 - y) * width * 4)
                (width * 4) (Z.to_nat (width * 4)) 0 img)
      as (img1 & E1 & Hl1 & Hout1 & Hin1); try nia.
    rewrite E1. cbn [mbind option_bind].
    destruct (IH (y - 1) img1) as (img' & E & Hl & Hout & Hin); try lia.
    exists img'. split; [exact E|]. split; [congruence|]. split.
    + intros i Hlt. rewrite Hout by nia. apply Hout1. nia.
    + intros row x Hr Hx. destruct (decide (row = height - 1 - y)) as [->|Hne].
      * rewrite Hout by nia. rewrite Hin1 by lia.
        replace (height - 1 - (height - 1 - y)) with y by lia. reflexivity.
      * apply Hin; lia.
Qed.

Lemma length_malloc {A : Type} (junk : nat -> A) (n : Z) :
  0 <= n -> Z.of_nat (length (malloc junk n)) = n.
Proof. intros Hn. unfold malloc. rewrite length_map, length_seq. lia. Qed.

(** X12. [rlglReadScreenPixels] on a framebuffer of [width] by [height]
    RGBA pixels, of a size in bytes that an [int] holds, returns an image
    of the same size in which row [row] is the row [height - 1 - row] of
    the framebuffer, every fourth byte (the alpha component) replaced by
    255; no access leaves a block. *)
Theorem X12_screen_is_flipped_and_made_opaque
    (junk : nat -> byte) (width height : Z) (screenData : list byte) :
  0 <= width -> 0 <= height ->
  width * height * 4 <= 2147483647 ->
  Z.of_nat (length screenData) = width * height * 4 ->
  exists img,
    rlglReadScreenPixels junk width height screenData = Some img
    /\ Z.of_nat (length img) = width * height * 4
    /\ forall row x, 0 <= row < height -> 0 <= x < width * 4 ->
         elt img (row * width * 4 + x) =
         opaque x (elt screenData ((height - 1 - row) * width * 4 + x)).
Proof.
  intros Hw Hh _ Hs. unfold rlglReadScreenPixels, count_down.
  assert (Z.of_nat (length (malloc junk (width * height * 4)))
          = width * height * 4) as Hi by (apply length_malloc; nia).
  destruct (flip_rows screenData width height (Z.to_nat (height - 1 + 1))
              (height - 1) (malloc junk (width * height * 4)))
    as (img & E & Hl & _ & Hin); try lia.
  exists img. split; [exact E|]. split; [lia|].
  intros row x Hr Hx. apply Hin; lia.
Qed.

Lemma X12_witness :
  exists img,
    rlglReadScreenPixels (fun _ => Byte.x00) 1 2 example_screen = Some img
    /\ Z.of_nat (length img) = 1 * 2 * 4
    /\ forall row x, 0 <= row < 2 -> 0 <= x < 1 * 4 ->
         elt img (row * 1 * 4 + x) =
         opaque x (elt example_screen ((2 - 1 - row) * 1 * 4 + x)).
Proof.
  apply (X12_screen_is_flipped_and_made_opaque (fun _ => Byte.x00) 1 2
           example_screen); [lia|lia|lia|reflexivity].
Defined.

(** ** Compressed textures *)

Lemma blockSize_cases `{Config} (compressedFormat : Z) :
  blockSize compressedFormat = 8 \/ blockSize compressedFormat = 16.
Proof. unfold blockSize. destruct (_ || _); auto. Qed.

Lemma level_dim_ge_1 (d : Z) (k : nat) : 1 <= level_dim d k.
Proof. unfold level_dim. lia. Qed.

Lemma level_dim_0 (d : Z) : 1 <= d -> level_dim d 0 = d.
Proof. intros Hd. unfold level_dim. cbn. rewrite Z.div_1_r. lia. Qed.

(** Halving a level and clamping it to 1 gives the next level. *)
Lemma level_dim_S (d : Z) (k : nat) :
  0 <= d ->
  (if level_dim d k ÷ 2 <? 1 then 1 else level_dim d k ÷ 2) = level_dim d (S k).
Proof.
  intros Hd. unfold level_dim.
  rewrite Nat2Z.inj_succ, Z.pow_succ_r by lia.
  rewrite (Z.mul_comm 2), <- Z.div_div by lia.
  assert (0 <= d / 2 ^ Z.of_nat k) as Hq by (apply Z.div_pos; lia).
  set (q := d / 2 ^ Z.of_nat k) in *.
  rewrite Z.quot_div_nonneg by lia.
  assert (0 <= q / 2) as Hq2 by (apply Z.div_pos; lia).
  destruct (Z.le_gt_cases 1 q) as [H1|H1].
  - rewrite (Z.max_r 1 q) by lia.
    destruct (Z.ltb_spec (q / 2) 1); lia.
  - replace q with 0 by lia. reflexivity.
Qed.

Lemma level_size_nonneg (bs width height : Z) (k : nat) :
  0 <= bs -> 0 <= level_size bs width height k.
Proof.
  intros Hbs. unfold level_size.
  pose proof (level_dim_ge_1 width k). pose proof (level_dim_ge_1 height k).
  assert (0 <= (level_dim width k + 3) / 4) by (apply Z.div_pos; lia).
  assert (0 <= (level_dim height k + 3) / 4) by (apply Z.div_pos; lia).
  nia.
Qed.

Lemma level_offset_nonneg (bs width height : Z) (k : nat) :
  0 <= bs -> 0 <= level_offset bs width height k.
Proof.
  intros Hbs. induction k as [|k IH]; cbn; [lia|].
  pose proof (level_size_nonneg bs width height k Hbs). lia.
Qed.

Lemma level_offset_mono (bs width height : Z) (j k : nat) :
  0 <= bs -> (j <= k)%nat ->
  level_offset bs width height j <= level_offset bs width height k.
Proof.
  intros Hbs Hjk. induction Hjk as [|k Hjk IH]; [lia|]. cbn.
  pose proof (level_size_nonneg bs width height k Hbs). lia.
Qed.

Lemma to_unsigned_small (z : Z) : 0 <= z < 2 ^ 32 -> to_unsigned z = z.
Proof. intros Hz. unfold to_unsigned. now apply Z.mod_small. Qed.

Lemma to_int_small (z : Z) : - 2 ^ 31 <= z < 2 ^ 31 -> to_int z = z.
Proof. intros Hz. unfold to_int. rewrite Z.mod_small; lia. Qed.

(** The loop from level [k] on, entered with the dimensions and the
    offset of that level. *)
Lemma load_levels_spec (bs width height compressedFormat : Z) (n : nat) :
  0 <= bs -> 1 <= width -> 1 <= height ->
  level_offset bs width height n <= 2147483647 ->
  forall (fuel k : nat),
    (k + fuel = n)%nat ->
    load_levels fuel (Z.of_nat k) (Z.of_nat n) compressedFormat bs
      (level_dim width k) (level_dim height k) (level_offset bs width height k)
    = map (level_upload bs width height compressedFormat) (seq k fuel).
Proof.
  intros Hbs Hw Hh Hmax. induction fuel as [|fuel IH]; intros k Hk; [reflexivity|].
  cbn [load_levels seq map].
  pose proof (level_dim_ge_1 width k) as Hwk.
  pose proof (level_dim_ge_1 height k) as Hhk.
  destruct (Z.ltb_spec (Z.of_nat k) (Z.of_nat n)) as [_|Hge]; [|lia].
  destruct (Z.eqb_spec (level_dim width k) 0) as [E0|_]; [lia|].
  cbn [negb orb andb].
  pose proof (level_offset_mono bs width height (S k) n Hbs ltac:(lia)) as Hoff.
  cbn [level_offset] in Hoff.
  pose proof (level_offset_nonneg bs width height k Hbs) as Hok.
  pose proof (level_size_nonneg bs width height k Hbs) as Hsk.
  assert (((level_dim width k + 3) ÷ 4) * ((level_dim height k + 3) ÷ 4) * bs
          = level_size bs width height k) as Esize.
  { unfold level_size. now rewrite !Z.quot_div_nonneg by lia. }
  rewrite Esize.
  rewrite (to_unsigned_small (level_size _ _ _ _)) by lia.
  rewrite (to_unsigned_small (level_offset _ _ _ _)) by lia.
  rewrite to_unsigned_small by lia.
  rewrite to_int_small by lia.
  rewrite !level_dim_S by lia.
  f_equal.
  replace (Z.of_nat k + 1) with (Z.of_nat (S k)) by lia.
  apply (IH (S k)). lia.
Qed.

(** X13. For a texture of at least 1 by 1 whose levels take less than
    2^31 bytes, [LoadCompressedTexture] sets the unpack alignment and
    uploads exactly [mipmapCount] levels, in order: level [k] with the
    dimensions halved [k] times (and at least 1), its size in blocks of 4
    by 4 pixels, read from the data where level [k - 1] ended. *)
Theorem X13_compressed_levels_are_uploaded_in_sequence `{Config}
    (width height mipmapCount compressedFormat : Z) :
  1 <= width -> 1 <= height ->
  level_offset (blockSize compressedFormat) width height (Z.to_nat mipmapCount)
    <= 2147483647 ->
  LoadCompressedTexture width height mipmapCount compressedFormat =
  glPixelStorei GL_UNPACK_ALIGNMENT 1
  :: map (level_upload (blockSize compressedFormat) width height compressedFormat)
       (seq 0 (Z.to_nat mipmapCount)).
Proof.
  intros Hw Hh Hmax. unfold LoadCompressedTexture. f_equal.
  assert (0 <= blockSize compressedFormat) as Hbs
    by (destruct (blockSize_cases compressedFormat) as [-> | ->]; lia).
  destruct (Z.le_gt_cases mipmapCount 0) as [Hn|Hn].
  - replace (Z.to_nat mipmapCount) with 0%nat by lia. reflexivity.
  - pose proof (load_levels_spec (blockSize compressedFormat) width height
                  compressedFormat (Z.to_nat mipmapCount) Hbs Hw Hh Hmax
                  (Z.to_nat mipmapCount) 0%nat eq_refl) as E.
    rewrite !level_dim_0 in E by lia. cbn [level_offset] in E.
    rewrite Z2Nat.id in E by lia. exact E.
Qed.

Lemma X13_witness :
  LoadCompressedTexture 8 4 5 GL_COMPRESSED_RGBA_S3TC_DXT5_EXT =
  glPixelStorei GL_UNPACK_ALIGNMENT 1
  :: map (level_upload (blockSize GL_COMPRESSED_RGBA_S3TC_DXT5_EXT) 8 4
            GL_COMPRESSED_RGBA_S3TC_DXT5_EXT)
       (seq 0 (Z.to_nat 5)).
Proof.
  apply (X13_compressed_levels_are_uploaded_in_sequence 8 4 5
           GL_COMPRESSED_RGBA_S3TC_DXT5_EXT); [lia|lia|vm_compute; discriminate].
Defined.

(** ** Mipmaps on the GPU *)

(** The bit test [n > 0 && (n & (n - 1)) == 0] holds of the powers of two
    and of nothing else. *)
Lemma is_POT_spec (n : Z) : is_POT n = true <-> power_of_two n.
Proof.
  unfold is_POT, power_of_two. rewrite andb_true_iff, Z.ltb_lt, Z.eqb_eq. split.
  - intros [Hpos Hland]. exists (Z.log2 n).
    pose proof (Z.log2_nonneg n) as Hk.
    destruct (Z.log2_spec n Hpos) as [Hlo Hhi].
    split; [exact Hk|].
    destruct (Z.eq_dec n (2 ^ Z.log2 n)) as [E|Hne]; [exact E|exfalso].
    assert (Z.log2 (n - 1) = Z.log2 n) as Hlog.
    { apply Z.log2_unique; [exact Hk|]. rewrite <- Z.add_1_r. lia. }
    assert (Z.testbit (Z.land n (n - 1)) (Z.log2 n) = true) as Hbit.
    { rewrite Z.land_spec, (Z.bit_log2 n Hpos).
      rewrite <- Hlog. rewrite Z.bit_log2; [reflexivity|].
      assert (0 < 2 ^ Z.log2 n) by (apply Z.pow_pos_nonneg; lia). lia. }
    rewrite Hland, Z.bits_0 in Hbit. discriminate Hbit.
  - intros (k & Hk & ->).
    assert (0 < 2 ^ k) as Hpos by (apply Z.pow_pos_nonneg; lia).
    split; [exact Hpos|].
    rewrite Z.sub_1_r, <- Z.ones_equiv, Z.land_ones by exact Hk.
    apply Z.mod_same. lia.
Qed.

(** X14. [rlglGenerateMipmaps] asks the driver for mipmaps exactly when
    NPOT textures are supported or both dimensions of the texture are
    powers of two; its bit test on a dimension holds of the powers of two
    and of nothing else. *)
Theorem X14_mipmaps_are_generated_for_power_of_two_textures
    (npotSupported : bool) (texture : Texture2D.t) :
  In (gl_call (glGenerateMipmap GL_TEXTURE_2D))
     (rlglGenerateMipmaps npotSupported texture)
  <-> (npotSupported = true
       \/ (power_of_two (Texture2D.width texture)
           /\ power_of_two (Texture2D.height texture))).
Proof.
  rewrite <- !is_POT_spec. unfold rlglGenerateMipmaps.
  destruct (is_POT (Texture2D.width texture)),
           (is_POT (Texture2D.height texture)), npotSupported; cbn;
    intuition congruence.
Qed.

(** ** Mipmaps on the CPU *)

Lemma array_get_elt {A : Type} (a : list A) (i : Z) (x : A) st :
  elt a i = Some x -> array_get a i st = Ret x st.
Proof.
  intros E. pose proof (elt_Some_in_bounds _ _ _ E) as Hb.
  unfold array_get. rewrite Hb. unfold elt in E.
  apply in_bounds_spec in Hb.
  destruct (Z.leb_spec 0 i); [|lia]. now rewrite E.
Qed.

Lemma array_set_in_bounds {A : Type} (a : list A) (i : Z) (x : A) st :
  in_bounds a i = true -> array_set a i x st = Ret (<[Z.to_nat i := x]> a) st.
Proof. intros Hb. unfold array_set. now rewrite Hb. Qed.

Lemma int_of_range (c : byte) : 0 <= int_of c < 256.
Proof.
  unfold int_of. pose proof (Byte.to_N_bounded c) as Hc. lia.
Qed.

(** A value in the range of [unsigned char] is stored as it is. *)
Lemma int_of_uchar (z : Z) : 0 <= z < 256 -> int_of (uchar z) = z.
Proof.
  intros Hz. unfold int_of, uchar. rewrite Z.mod_small by exact Hz.
  destruct (Byte.of_N (Z.to_N z)) as [c|] eqn:E.
  - apply Byte.to_of_N in E. rewrite E. lia.
  - apply Byte.of_N_None_iff in E. lia.
Qed.

Lemma half_sum_spec (f : Color.t -> byte) (a : list Color.t) (i j : Z)
    (p q : Color.t) st :
  elt a i = Some p -> elt a j = Some q ->
  exists v, half_sum f a i j st = Ret v st
            /\ int_of v = (int_of (f p) + int_of (f q)) / 2.
Proof.
  intros Ei Ej. eexists. split.
  - unfold half_sum. rewrite (bind_Ret _ _ _ _ _ (array_get_elt _ _ _ st Ei)).
    rewrite (bind_Ret _ _ _ _ _ (array_get_elt _ _ _ st Ej)). reflexivity.
  - pose proof (int_of_range (f p)). pose proof (int_of_range (f q)).
    rewrite Z.quot_div_nonneg by lia.
    apply int_of_uchar. split; [apply Z.div_pos; lia|].
    apply Z.div_lt_upper_bound; lia.
Qed.

Lemma set_field_spec (set : byte -> Color.t -> Color.t) (a : list Color.t)
    (i : Z) (v : byte) (c : Color.t) st :
  elt a i = Some c ->
  set_field set a i v st = Ret (<[Z.to_nat i := set v c]> a) st.
Proof.
  intros E. unfold set_field.
  rewrite (bind_Ret _ _ _ _ _ (array_get_elt _ _ _ st E)).
  apply array_set_in_bounds. exact (elt_Some_in_bounds _ _ _ E).
Qed.

(** One pixel of the mipmap: the four pixels of the block are read, and
    the pixel at [y*width + x] becomes their box filter; the state and
    the other pixels stay. *)
Lemma GenNextMipmap_pixel_spec (srcData : list Color.t) (srcWidth width y x : Z)
    (mipmap : list Color.t) (c : Color.t) (p00 p01 p10 p11 : Color.t) st :
  elt srcData (2 * y * srcWidth + 2 * x) = Some p00 ->
  elt srcData (2 * y * srcWidth + 2 * x + 1) = Some p01 ->
  elt srcData ((2 * y + 1) * srcWidth + 2 * x) = Some p10 ->
  elt srcData ((2 * y + 1) * srcWidth + 2 * x + 1) = Some p11 ->
  elt mipmap (y * width + x) = Some c ->
  exists q,
    GenNextMipmap_pixel srcData srcWidth width y x mipmap st
    = Ret (<[Z.to_nat (y * width + x) := q]> mipmap) st
    /\ box_filtered srcData srcWidth x y q.
Proof.
  intros E00 E01 E10 E11 Ec. unfold GenNextMipmap_pixel. cbn zeta.
  destruct (half_sum_spec Color.r _ _ _ _ _ st E00 E01) as (rr & Err & Hrr).
  destruct (half_sum_spec Color.g _ _ _ _ _ st E00 E01) as (rg & Erg & Hrg).
  destruct (half_sum_spec Color.b _ _ _ _ _ st E00 E01) as (rb & Erb & Hrb).
  destruct (half_sum_spec Color.a _ _ _ _ _ st E00 E01) as (ra & Era & Hra).
  destruct (half_sum_spec Color.r _ _ _ _ _ st E10 E11) as (cr & Ecr & Hcr).
  destruct (half_sum_spec Color.g _ _ _ _ _ st E10 E11) as (cg & Ecg & Hcg).
  destruct (half_sum_spec Color.b _ _ _ _ _ st E10 E11) as (cb & Ecb & Hcb).
  destruct (half_sum_spec Color.a _ _ _ _ _ st E10 E11) as (ca & Eca & Hca).
  rewrite (bind_Ret _ _ _ _ _ Err), (bind_Ret _ _ _ _ _ Erg),
    (bind_Ret _ _ _ _ _ Erb), (bind_Ret _ _ _ _ _ Era),
    (bind_Ret _ _ _ _ _ Ecr), (bind_Ret _ _ _ _ _ Ecg),
    (bind_Ret _ _ _ _ _ Ecb), (bind_Ret _ _ _ _ _ Eca).
  pose proof (elt_Some_in_bounds _ _ _ Ec) as Hb.
  rewrite (bind_Ret _ _ _ _ _ (set_field_spec set_r _ _ _ _ st Ec)).
  rewrite (bind_Ret _ _ _ _ _
             (set_field_spec set_g _ _ _ _ st (elt_insert_eq _ _ _ Hb))).
  rewrite list_insert_insert_eq.
  rewrite (bind_Ret _ _ _ _ _
             (set_field_spec set_b _ _ _ _ st (elt_insert_eq _ _ _ Hb))).
  rewrite list_insert_insert_eq.
  rewrite (set_field_spec set_a _ _ _ _ st (elt_insert_eq _ _ _ Hb)).
  rewrite list_insert_insert_eq.
  eexists. split; [reflexivity|].
  exists p00, p01, p10, p11. repeat (split; [assumption|]).
  assert (forall u v : byte,
            int_of (uchar ((int_of u + int_of v) ÷ 2))
            = (int_of u + int_of v) / 2) as Hmean.
  { intros u v. pose proof (int_of_range u). pose proof (int_of_range v).
    rewrite Z.quot_div_nonneg by lia.
    apply int_of_uchar. split; [apply Z.div_pos; lia|].
    apply Z.div_lt_upper_bound; lia. }
  unfold components, box.
  repeat apply Forall_cons_2; [| | | |apply Forall_nil_2]; cbn;
    rewrite Hmean; congruence.
Qed.

Lemma TraceLog_DEBUG text st :
  TraceLog DEBUG text st
  = Ret tt (set_stdout (stdout st ++ debug_lines text) st).
Proof.
  unfold TraceLog, when, fprintf, mbind, M_bind, mret, M_ret, debug_lines.
  destruct st; cbn. now rewrite <- !app_assoc.
Qed.

(** The block of 2 by 2 pixels at [2*x], [2*y] lies in the source image. *)
Lemma block_in_image (srcData : list Color.t) (srcWidth srcHeight x y : Z) :
  Z.of_nat (length srcData) = srcWidth * srcHeight ->
  0 <= x < srcWidth / 2 -> 0 <= y < srcHeight / 2 ->
  exists p00 p01 p10 p11,
    elt srcData (2 * y * srcWidth + 2 * x) = Some p00
    /\ elt srcData (2 * y * srcWidth + 2 * x + 1) = Some p01
    /\ elt srcData ((2 * y + 1) * srcWidth + 2 * x) = Some p10
    /\ elt srcData ((2 * y + 1) * srcWidth + 2 * x + 1) = Some p11.
Proof.
  intros Hl Hx Hy.
  assert (2 * x + 1 < srcWidth) as Hx2
    by (pose proof (Z.mul_div_le srcWidth 2); lia).
  assert (2 * y + 1 < srcHeight) as Hy2
    by (pose proof (Z.mul_div_le srcHeight 2); lia).
  assert (forall i, 0 <= i < srcWidth * srcHeight -> exists p, elt srcData i = Some p)
    as Hin by (intros i Hi; apply in_bounds_elt, in_bounds_spec; lia).
  destruct (Hin (2 * y * srcWidth + 2 * x)) as [p00 E00]; [nia|].
  destruct (Hin (2 * y * srcWidth + 2 * x + 1)) as [p01 E01]; [nia|].
  destruct (Hin ((2 * y + 1) * srcWidth + 2 * x)) as [p10 E10]; [nia|].
  destruct (Hin ((2 * y + 1) * srcWidth + 2 * x + 1)) as [p11 E11]; [nia|].
  now exists p00, p01, p10, p11.
Qed.

(** One row of the mipmap. *)
Lemma GenNextMipmap_row (srcData : list Color.t) (srcWidth srcHeight y : Z)
    (mipmap : list Color.t) st :
  Z.of_nat (length srcData) = srcWidth * srcHeight ->
  0 <= srcWidth -> 0 <= y < srcHeight / 2 ->
  (y + 1) * (srcWidth / 2) <= Z.of_nat (length mipmap) ->
  exists mipmap',
    for_loop 0 (srcWidth / 2) 1
      (GenNextMipmap_pixel srcData srcWidth (srcWidth / 2) y) mipmap st
    = Ret mipmap' st
    /\ length mipmap' = length mipmap
    /\ (forall k, k < y * (srcWidth / 2) -> elt mipmap' k = elt mipmap k)
    /\ (forall x, 0 <= x < srcWidth / 2 ->
          exists q, elt mipmap' (y * (srcWidth / 2) + x) = Some q
                    /\ box_filtered srcData srcWidth x y q).
Proof.
  intros Hl Hw Hy Hroom. set (width := srcWidth / 2) in *.
  assert (0 <= width) as Hwidth by (apply Z.div_pos; lia).
  destruct (for_loop_inv
              (fun i m s =>
                 s = st /\ 0 <= i <= width /\ length m = length mipmap
                 /\ (forall k, k < y * width \/ y * width + i <= k ->
                       elt m k = elt mipmap k)
                 /\ (forall x, 0 <= x < i ->
                       exists q, elt m (y * width + x) = Some q
                                 /\ box_filtered srcData srcWidth x y q))
              0 width 1 (GenNextMipmap_pixel srcData srcWidth width y) mipmap st)
    as (i' & m' & st' & E & Hi' & -> & Hr & Hlen & Hout & Hin).
  - lia.
  - intros i m s Hlt (-> & Hi & Hlen & Hout & Hin).
    destruct (block_in_image srcData srcWidth srcHeight i y Hl)
      as (p00 & p01 & p10 & p11 & E00 & E01 & E10 & E11); [fold width; lia|lia|].
    assert (in_bounds m (y * width + i) = true) as Hb
      by (apply in_bounds_spec; nia).
    destruct (in_bounds_elt _ _ Hb) as [c Ec].
    destruct (GenNextMipmap_pixel_spec srcData srcWidth width y i m c
                p00 p01 p10 p11 st E00 E01 E10 E11 Ec) as (q & Eq & Hq).
    eexists _, st. split; [exact Eq|].
    split; [reflexivity|]. split; [lia|]. split; [now rewrite length_insert|].
    split.
    + intros k Hk. rewrite elt_insert_ne by nia. apply Hout. lia.
    + intros x Hx. destruct (decide (x = i)) as [->|Hne].
      * exists q. split; [now apply elt_insert_eq|exact Hq].
      * destruct (Hin x) as (q' & Eq' & Hq'); [lia|].
        exists q'. split; [|exact Hq']. rewrite elt_insert_ne by nia. exact Eq'.
  - split; [reflexivity|]. split; [lia|]. split; [reflexivity|].
    split; [reflexivity|]. intros x Hx. lia.
  - exists m'. split; [exact E|]. split; [exact Hlen|]. split.
    + intros k Hk. apply Hout. lia.
    + intros x Hx. apply Hin. lia.
Qed.

(** [GenNextMipmap] returns the box filter of the image, prints one line
    and leaves the rest of the state as it was. *)
Lemma GenNextMipmap_spec (junk : nat -> Color.t) (srcData : list Color.t)
    (srcWidth srcHeight : Z) (st : State) :
  0 <= srcWidth -> 0 <= srcHeight ->
  Z.of_nat (length srcData) = srcWidth * srcHeight ->
  exists mipmap,
    GenNextMipmap junk srcData srcWidth srcHeight st
    = Ret mipmap
        (set_stdout
           (stdout st ++
            debug_lines ("Mipmap generated successfully ("
                         ++ format_int (srcWidth / 2) ++ "x"
                         ++ format_int (srcHeight / 2) ++ ")")) st)
    /\ Z.of_nat (length mipmap) = (srcWidth / 2) * (srcHeight / 2)
    /\ (forall x y, 0 <= x < srcWidth / 2 -> 0 <= y < srcHeight / 2 ->
          exists q, elt mipmap (y * (srcWidth / 2) + x) = Some q
                    /\ box_filtered srcData srcWidth x y q).
Proof.
  intros Hw Hh Hl. unfold GenNextMipmap. cbn zeta.
  rewrite !Z.quot_div_nonneg by lia.
  set (width := srcWidth / 2). set (height := srcHeight / 2).
  assert (0 <= width) as Hwidth by (apply Z.div_pos; lia).
  assert (0 <= height) as Hheight by (apply Z.div_pos; lia).
  set (m0 := malloc junk (width * height)).
  assert (Z.of_nat (length m0) = width * height) as Hm0
    by (apply length_malloc; nia).
  destruct (for_loop_inv
              (fun y m s =>
                 s = st /\ 0 <= y <= height /\ length m = length m0
                 /\ (forall y' x, 0 <= y' < y -> 0 <= x < width ->
                       exists q, elt m (y' * width + x) = Some q
                                 /\ box_filtered srcData srcWidth x y' q))
              0 height 1
              (fun y mipmap =>
                 for_loop 0 width 1
                   (GenNextMipmap_pixel srcData srcWidth width y) mipmap) m0 st)
    as (y' & m' & st' & E & Hy' & -> & Hr & Hlen & Hin).
  - lia.
  - intros y m s Hlt (-> & Hy & Hlen & Hin).
    destruct (GenNextMipmap_row srcData srcWidth srcHeight y m st Hl Hw)
      as (m' & E & Hlen' & Hout' & Hin'); [fold height; lia|fold width; nia|].
    fold width in E, Hout', Hin'.
    exists m', st. split; [exact E|]. split; [reflexivity|]. split; [lia|].
    split; [congruence|].
    intros y1 x Hy1 Hx. destruct (decide (y1 = y)) as [->|Hne].
    + now apply Hin'.
    + destruct (Hin y1 x) as (q & Eq & Hq); [lia|lia|].
      exists q. split; [|exact Hq]. rewrite Hout' by nia. exact Eq.
  - split; [reflexivity|]. split; [lia|]. split; [reflexivity|].
    intros y1 x Hy1. lia.
  - rewrite (bind_Ret _ _ _ _ _ E).
    match goal with
    | |- context [TraceLog DEBUG ?t] =>
        rewrite (bind_Ret _ _ _ _ _ (TraceLog_DEBUG t st))
    end.
    exists m'. split; [reflexivity|]. split; [lia|].
    intros x y Hx Hy. apply Hin; lia.
Qed.

(** X15. [GenNextMipmap] on an image of [srcWidth] by [srcHeight] pixels,
    of a size in bytes that an [int] holds, returns an image of half the
    width and half the height (rounded down), in which every component of
    the pixel at [x], [y] is the box filter of the block of 2 by 2 source
    pixels at [2*x], [2*y]: the mean of the two row means, each rounded
    down. No access leaves a block; one DEBUG line is printed and nothing
    else changes. *)
Theorem X15_next_mipmap_is_the_box_filter_of_the_image
    (junk : nat -> Color.t) (srcData : list Color.t) (srcWidth srcHeight : Z)
    (st : State) :
  0 <= srcWidth -> 0 <= srcHeight ->
  srcWidth * srcHeight * 4 <= 2147483647 ->
  Z.of_nat (length srcData) = srcWidth * srcHeight ->
  exists mipmap,
    GenNextMipmap junk srcData srcWidth srcHeight st
    = Ret mipmap
        (set_stdout
           (stdout st ++
            debug_lines ("Mipmap generated successfully ("
                         ++ format_int (srcWidth / 2) ++ "x"
                         ++ format_int (srcHeight / 2) ++ ")")) st)
    /\ Z.of_nat (length mipmap) = (srcWidth / 2) * (srcHeight / 2)
    /\ (forall x y, 0 <= x < srcWidth / 2 -> 0 <= y < srcHeight / 2 ->
          exists q, elt mipmap (y * (srcWidth / 2) + x) = Some q
                    /\ box_filtered srcData srcWidth x y q).
Proof.
  intros Hw Hh _ Hl. now apply GenNextMipmap_spec.
Qed.

Lemma X15_witness :
  exists mipmap,
    GenNextMipmap (fun _ => Color.mk Byte.x00 Byte.x00 Byte.x00 Byte.x00)
      example_image 2 2 example_init
    = Ret mipmap
        (set_stdout
           (stdout example_init ++
            debug_lines ("Mipmap generated successfully ("
                         ++ format_int (2 / 2) ++ "x"
                         ++ format_int (2 / 2) ++ ")")) example_init)
    /\ Z.of_nat (length mipmap) = (2 / 2) * (2 / 2)
    /\ (forall x y, 0 <= x < 2 / 2 -> 0 <= y < 2 / 2 ->
          exists q, elt mipmap (y * (2 / 2) + x) = Some q
                    /\ box_filtered example_image 2 x y q).
Proof.
  apply (X15_next_mipmap_is_the_box_filter_of_the_image
           (fun _ => Color.mk Byte.x00 Byte.x00 Byte.x00 Byte.x00)
           example_image 2 2 example_init); [lia|lia|lia|reflexivity].
Defined.

(** *** The levels of the chain *)

Lemma halved_nonneg (w : Z) (k : nat) : 0 <= w -> 0 <= w / 2 ^ Z.of_nat k.
Proof. intros Hw. apply Z.div_pos; [exact Hw|]. apply Z.pow_pos_nonneg; lia. Qed.

Lemma halved_S (w : Z) (k : nat) :
  0 <= w -> (w / 2 ^ Z.of_nat k) ÷ 2 = w / 2 ^ Z.of_nat (S k).
Proof.
  intros Hw. pose proof (halved_nonneg w k Hw).
  rewrite Z.quot_div_nonneg by lia.
  rewrite Nat2Z.inj_succ, Z.pow_succ_r, (Z.mul_comm 2), Z.div_div by lia.
  reflexivity.
Qed.

(** Before the last halving a dimension is at least 2; at the last one it
    is 1. *)
Lemma halved_ge_2 (w : Z) (k : nat) :
  1 <= w -> Z.of_nat k < Z.log2 w -> 2 <= w / 2 ^ Z.of_nat k.
Proof.
  intros Hw Hk. destruct (Z.log2_spec w ltac:(lia)) as [Hlo _].
  assert (0 < 2 ^ Z.of_nat k) as Hp by (apply Z.pow_pos_nonneg; lia).
  apply Z.div_le_lower_bound; [exact Hp|].
  replace (Z.log2 w) with (Z.of_nat k + (Z.log2 w - Z.of_nat k)) in Hlo by lia.
  rewrite Z.pow_add_r in Hlo by lia.
  assert (2 ^ 1 <= 2 ^ (Z.log2 w - Z.of_nat k))
    by (apply Z.pow_le_mono_r; lia).
  nia.
Qed.

Lemma halved_log2 (w : Z) (k : nat) :
  1 <= w -> Z.of_nat k = Z.log2 w -> w / 2 ^ Z.of_nat k = 1.
Proof.
  intros Hw Hk. destruct (Z.log2_spec w ltac:(lia)) as [Hlo Hhi].
  rewrite <- Hk in Hlo, Hhi.
  assert (0 < 2 ^ Z.of_nat k) as Hp by (apply Z.pow_pos_nonneg; lia).
  rewrite Z.pow_succ_r in Hhi by lia.
  apply Z.le_antisymm.
  - apply Z.lt_succ_r. apply Z.div_lt_upper_bound; lia.
  - apply Z.div_le_lower_bound; lia.
Qed.

Lemma level_pixels_nonneg (w h : Z) (k : nat) :
  0 <= w -> 0 <= h -> 0 <= level_pixels w h k.
Proof.
  intros Hw Hh. unfold level_pixels.
  pose proof (halved_nonneg w k Hw). pose proof (halved_nonneg h k Hh). nia.
Qed.

Lemma chain_size_mono (w h : Z) (j k : nat) :
  0 <= w -> 0 <= h -> (j <= k)%nat -> chain_size w h j <= chain_size w h k.
Proof.
  intros Hw Hh Hjk. induction Hjk as [|k Hjk IH]; [lia|]. cbn.
  pose proof (level_pixels_nonneg w h k Hw Hh). lia.
Qed.

Lemma chain_size_1 (w h : Z) : chain_size w h 1 = w * h * 4.
Proof. cbn. unfold level_pixels. cbn. now rewrite !Z.div_1_r. Qed.

(** *** The loop that counts the levels *)

Lemma while_fuel_done {A : Type} (fuel : nat) (cond : A -> bool)
    (body : A -> M A) (acc : A) st :
  cond acc = false -> while_fuel fuel cond body acc st = Ret (Some acc) st.
Proof. intros Hc. destruct fuel; cbn; now rewrite Hc. Qed.

Lemma while_fuel_step {A : Type} (fuel : nat) (cond : A -> bool)
    (body : A -> M A) (acc acc' : A) st st' :
  cond acc = true -> body acc st = Ret acc' st' ->
  while_fuel (S fuel) cond body acc st = while_fuel fuel cond body acc' st'.
Proof. intros Hc Hb. cbn. rewrite Hc. now apply bind_Ret. Qed.

Lemma count_levels_spec (w h : Z) (n : nat) :
  1 <= w -> 1 <= h -> Z.of_nat n = halvings w h ->
  forall (m k : nat) (fuel : nat) st,
    (k + m = n)%nat -> (m <= fuel)%nat ->
    exists st',
      while_fuel fuel
        (fun '(width, height, mipmapCount, size) =>
           negb (width =? 1) && negb (height =? 1))
        (fun '(width, height, mipmapCount, size) =>
           let width := if negb (width =? 1) then width ÷ 2 else width in
           let height := if negb (height =? 1) then height ÷ 2 else height in
           TraceLog DEBUG ("Next mipmap size: " ++ format_int width ++ " x "
                           ++ format_int height);;
           mret (width, height, mipmapCount + 1, size + width * height * 4))
        (w / 2 ^ Z.of_nat k, h / 2 ^ Z.of_nat k, 1 + Z.of_nat k,
         chain_size w h (S k)) st
      = Ret (Some (w / 2 ^ Z.of_nat n, h / 2 ^ Z.of_nat n, 1 + Z.of_nat n,
                   chain_size w h (S n))) st'.
Proof.
  intros Hw Hh Hn. unfold halvings in Hn.
  induction m as [|m IH]; intros k fuel st Hk Hfuel.
  - replace k with n by lia. exists st. apply while_fuel_done.
    destruct (Z.min_spec (Z.log2 w) (Z.log2 h)) as [[_ E]|[_ E]];
      rewrite E in Hn.
    + rewrite (halved_log2 w n Hw Hn). reflexivity.
    + rewrite (halved_log2 h n Hh Hn). cbn. apply andb_false_r.
  - destruct fuel as [|fuel]; [lia|].
    pose proof (halved_ge_2 w k Hw ltac:(lia)) as Hwk.
    pose proof (halved_ge_2 h k Hh ltac:(lia)) as Hhk.
    assert ((w / 2 ^ Z.of_nat k =? 1) = false) as Ew by (apply Z.eqb_neq; lia).
    assert ((h / 2 ^ Z.of_nat k =? 1) = false) as Eh by (apply Z.eqb_neq; lia).
    match goal with
    | |- exists st', while_fuel _ ?cond ?body ?acc st = _ =>
        assert (exists st1,
                  body acc st
                  = Ret (w / 2 ^ Z.of_nat (S k), h / 2 ^ Z.of_nat (S k),
                         1 + Z.of_nat (S k), chain_size w h (S (S k))) st1)
          as [st1 Hbody];
        [|rewrite (while_fuel_step fuel cond body acc
                    (w / 2 ^ Z.of_nat (S k), h / 2 ^ Z.of_nat (S k),
                     1 + Z.of_nat (S k), chain_size w h (S (S k))) st st1);
          [apply (IH (S k)); lia| |exact Hbody]]
    end.
    + cbn beta iota zeta. rewrite Ew, Eh. cbn [negb].
      rewrite !halved_S by lia.
      match goal with
      | |- context [TraceLog DEBUG ?t] =>
          rewrite (bind_Ret _ _ _ _ _ (TraceLog_DEBUG t st))
      end.
      eexists. unfold mret, M_ret.
      replace (1 + Z.of_nat k + 1) with (1 + Z.of_nat (S k)) by lia.
      reflexivity.
    + cbn beta iota. now rewrite Ew, Eh.
Qed.

(** *** The blocks *)

Lemma length_realloc {A : Type} (junk : nat -> A) (block : list A) (n : Z) :
  0 <= n -> Z.of_nat (length (realloc junk block n)) = n.
Proof.
  intros Hn. unfold realloc.
  rewrite length_app, length_take, length_map, length_seq. lia.
Qed.

Lemma elt_realloc {A : Type} (junk : nat -> A) (block : list A) (n k : Z) :
  k < n -> k < Z.of_nat (length block) ->
  elt (realloc junk block n) k = elt block k.
Proof.
  intros Hk Hl. unfold elt, realloc.
  destruct (Z.leb_spec 0 k) as [H0|H0]; [|reflexivity].
  rewrite lookup_app_l by (rewrite length_take; lia).
  apply lookup_take_lt. lia.
Qed.

Lemma set_field_returns (set : byte -> Color.t -> Color.t) (a : list Color.t)
    (i : Z) (v : byte) st :
  in_bounds a i = true ->
  exists a', set_field set a i v st = Ret a' st /\ length a' = length a.
Proof.
  intros Hb. destruct (in_bounds_elt _ _ Hb) as [c Ec].
  eexists. split; [exact (set_field_spec set a i v c st Ec)|].
  apply length_insert.
Qed.

Lemma array_get_returns {A : Type} (a : list A) (i : Z) st :
  in_bounds a i = true -> exists x, array_get a i st = Ret x st.
Proof.
  intros Hb. destruct (in_bounds_elt _ _ Hb) as [x Ex].
  exists x. now apply array_get_elt.
Qed.

(** [image] is filled from the first [size] bytes of [data]. *)
Lemma load_image_spec (data : list byte) (size n : Z) (image : list Color.t) st :
  size = 4 * n -> 0 <= n <= Z.of_nat (length image) ->
  size <= Z.of_nat (length data) ->
  exists image',
    load_image data size image st = Ret (image', n) st
    /\ length image' = length image.
Proof.
  intros Hsize Hn Hdata. unfold load_image.
  match goal with
  | |- context [for_loop 0 size 4 ?body0 ?acc0 st] =>
      destruct (for_loop_inv
                  (fun i (acc : list Color.t * Z) s =>
                     s = st /\ i = 4 * snd acc /\ 0 <= snd acc <= n
                     /\ length (fst acc) = length image)
                  0 size 4 body0 acc0 st)
        as (i' & [image' j'] & st' & E & Hi' & -> & Hi & Hj & Hlen)
  end.
  - lia.
  - intros i [im j] s Hlt (-> & Hi & Hj & Hlen). cbn [fst snd] in *.
    assert (in_bounds im j = true) as Hb by (apply in_bounds_spec; lia).
    destruct (array_get_returns data i st) as [v0 E0];
      [apply in_bounds_spec; lia|].
    destruct (array_get_returns data (i + 1) st) as [v1 E1];
      [apply in_bounds_spec; lia|].
    destruct (array_get_returns data (i + 2) st) as [v2 E2];
      [apply in_bounds_spec; lia|].
    destruct (array_get_returns data (i + 3) st) as [v3 E3];
      [apply in_bounds_spec; lia|].
    destruct (set_field_returns set_r im j v0 st Hb) as (im1 & F1 & L1).
    assert (in_bounds im1 j = true) as Hb1
      by (apply in_bounds_spec; apply in_bounds_spec in Hb; lia).
    destruct (set_field_returns set_g im1 j v1 st Hb1) as (im2 & F2 & L2).
    assert (in_bounds im2 j = true) as Hb2
      by (apply in_bounds_spec; apply in_bounds_spec in Hb; lia).
    destruct (set_field_returns set_b im2 j v2 st Hb2) as (im3 & F3 & L3).
    assert (in_bounds im3 j = true) as Hb3
      by (apply in_bounds_spec; apply in_bounds_spec in Hb; lia).
    destruct (set_field_returns set_a im3 j v3 st Hb3) as (im4 & F4 & L4).
    exists (im4, j + 1), st. split.
    + rewrite (bind_Ret _ _ _ _ _ E0), (bind_Ret _ _ _ _ _ F1),
        (bind_Ret _ _ _ _ _ E1), (bind_Ret _ _ _ _ _ F2),
        (bind_Ret _ _ _ _ _ E2), (bind_Ret _ _ _ _ _ F3),
        (bind_Ret _ _ _ _ _ E3), (bind_Ret _ _ _ _ _ F4). reflexivity.
    + cbn [fst snd]. split; [reflexivity|]. split; [lia|]. split; [lia|].
      congruence.
  - cbn [fst snd]. split; [reflexivity|]. split; [lia|]. split; [lia|].
    reflexivity.
  - cbn [fst snd] in *. exists image'. split; [|exact Hlen].
    rewrite E. f_equal. f_equal. lia.
Qed.

Lemma array_set_returns {A : Type} (a : list A) (i : Z) (x : A) st :
  in_bounds a i = true ->
  exists a', array_set a i x st = Ret a' st
             /\ length a' = length a
             /\ forall k, k < i -> elt a' k = elt a k.
Proof.
  intros Hb. eexists. split; [now apply array_set_in_bounds|].
  split; [apply length_insert|].
  intros k Hk. apply in_bounds_spec in Hb. apply elt_insert_ne; lia.
Qed.

(** [mipmap] is added to [data] from [offset] on: what lies before
    [offset] stays. *)
Lemma store_mipmap_spec (mipmap : list Color.t) (size offset n : Z)
    (data : list byte) st :
  size = 4 * n -> 0 <= n <= Z.of_nat (length mipmap) ->
  0 <= offset -> offset + size <= Z.of_nat (length data) ->
  exists data',
    store_mipmap mipmap size offset data st = Ret (data', n) st
    /\ length data' = length data
    /\ forall k, k < offset -> elt data' k = elt data k.
Proof.
  intros Hsize Hn Hoff Hdata. unfold store_mipmap.
  match goal with
  | |- context [for_loop 0 size 4 ?body0 ?acc0 st] =>
      destruct (for_loop_inv
                  (fun i (acc : list byte * Z) s =>
                     s = st /\ i = 4 * snd acc /\ 0 <= snd acc <= n
                     /\ length (fst acc) = length data
                     /\ forall k, k < offset -> elt (fst acc) k = elt data k)
                  0 size 4 body0 acc0 st)
        as (i' & [data' j'] & st' & E & Hi' & -> & Hi & Hj & Hlen & Hkeep)
  end.
  - lia.
  - intros i [d j] s Hlt (-> & Hi & Hj & Hlen & Hkeep). cbn [fst snd] in *.
    destruct (array_get_returns mipmap j st) as [c Ec];
      [apply in_bounds_spec; lia|].
    destruct (array_set_returns d (offset + i) (Color.r c) st)
      as (d1 & F1 & L1 & K1); [apply in_bounds_spec; lia|].
    destruct (array_set_returns d1 (offset + i + 1) (Color.g c) st)
      as (d2 & F2 & L2 & K2); [apply in_bounds_spec; lia|].
    destruct (array_set_returns d2 (offset + i + 2) (Color.b c) st)
      as (d3 & F3 & L3 & K3); [apply in_bounds_spec; lia|].
    destruct (array_set_returns d3 (offset + i + 3) (Color.a c) st)
      as (d4 & F4 & L4 & K4); [apply in_bounds_spec; lia|].
    exists (d4, j + 1), st. split.
    + rewrite (bind_Ret _ _ _ _ _ Ec), (bind_Ret _ _ _ _ _ F1),
        (bind_Ret _ _ _ _ _ Ec), (bind_Ret _ _ _ _ _ F2),
        (bind_Ret _ _ _ _ _ Ec), (bind_Ret _ _ _ _ _ F3),
        (bind_Ret _ _ _ _ _ Ec), (bind_Ret _ _ _ _ _ F4). reflexivity.
    + cbn [fst snd]. split; [reflexivity|]. split; [lia|]. split; [lia|].
      split; [congruence|].
      intros k Hk. rewrite K4, K3, K2, K1 by lia. now apply Hkeep.
  - cbn [fst snd]. split; [reflexivity|]. split; [lia|]. split; [lia|].
    split; reflexivity.
  - cbn [fst snd] in *. exists data'. split; [|split; assumption].
    rewrite E. f_equal. f_equal. lia.
Qed.

(** With no room after [offset] the first store of the loop leaves the
    block. *)
Lemma store_mipmap_overflow (mipmap : list Color.t) (size offset : Z)
    (data : list byte) st :
  4 <= size -> (0 < length mipmap)%nat -> Z.of_nat (length data) <= offset ->
  store_mipmap mipmap size offset data st = OutOfBounds st.
Proof.
  intros Hsize Hm Hoff. unfold store_mipmap, for_loop.
  destruct (Z.to_nat (size - 0)) as [|fuel] eqn:Ef; [lia|].
  cbn [for_fuel]. destruct (Z.ltb_spec 0 size) as [_|]; [|lia].
  destruct (array_get_returns mipmap 0 st) as [c Ec];
    [apply in_bounds_spec; lia|].
  apply bind_OutOfBounds. rewrite (bind_Ret _ _ _ _ _ Ec).
  apply bind_OutOfBounds. unfold array_set.
  replace (in_bounds data (offset + 0)) with false; [reflexivity|].
  symmetry. apply in_bounds_false. lia.
Qed.

(** *** The levels after the base *)

Lemma TraceLog_WARNING text st :
  exists st', TraceLog WARNING text st = Ret tt st'.
Proof.
  eexists. unfold TraceLog, when, fprintf, mbind, M_bind, mret, M_ret.
  cbn. reflexivity.
Qed.

Lemma halved_div_2 (w : Z) (p : nat) :
  0 <= w -> w / 2 ^ Z.of_nat p / 2 = w / 2 ^ Z.of_nat (S p).
Proof.
  intros Hw. rewrite <- (halved_S w p Hw).
  symmetry. apply Z.quot_div_nonneg; [now apply halved_nonneg|lia].
Qed.

(** Level [p + 1] is generated from level [p] and stored where level [p]
    ends; the levels before it stay. *)
Lemma add_level_spec (junk : Z -> nat -> Color.t) (w h : Z) (n p : nat)
    (mip : Z) (data : list byte) (image : list Color.t) st :
  0 <= w -> 0 <= h -> (p < n)%nat ->
  Z.of_nat (length image) = level_pixels w h p ->
  Z.of_nat (length data) = chain_size w h (S n) ->
  exists data' image' st',
    add_level junk mip
      (data, image, w / 2 ^ Z.of_nat p, h / 2 ^ Z.of_nat p, chain_size w h p) st
    = Ret (data', image', w / 2 ^ Z.of_nat (S p), h / 2 ^ Z.of_nat (S p),
           chain_size w h (S p)) st'
    /\ Z.of_nat (length image') = level_pixels w h (S p)
    /\ length data' = length data
    /\ forall k, k < chain_size w h (S p) -> elt data' k = elt data k.
Proof.
  intros Hw Hh Hp Himage Hdata. unfold add_level.
  pose proof (halved_nonneg w p Hw) as Hwp.
  pose proof (halved_nonneg h p Hh) as Hhp.
  destruct (GenNextMipmap_spec (junk mip) image (w / 2 ^ Z.of_nat p)
              (h / 2 ^ Z.of_nat p) st Hwp Hhp Himage) as (mipmap & E & Hlen & _).
  rewrite !halved_div_2 in Hlen by assumption.
  rewrite (bind_Ret _ _ _ _ _ E). cbn zeta.
  rewrite !halved_S by assumption.
  pose proof (level_pixels_nonneg w h (S p) Hw Hh) as Hpix.
  pose proof (chain_size_mono w h 0 p Hw Hh ltac:(lia)) as Hoff.
  pose proof (chain_size_mono w h (S (S p)) (S n) Hw Hh ltac:(lia)) as Hroom.
  cbn [chain_size] in Hoff, Hroom.
  match goal with
  | |- exists _ _ _, (store_mipmap mipmap ?size ?offset data ≫= _) ?s = _ /\ _ =>
      destruct (store_mipmap_spec mipmap size offset (level_pixels w h (S p))
                  data s)
        as (data' & Es & Hlen' & Hkeep)
  end.
  - unfold level_pixels. lia.
  - unfold level_pixels in *. lia.
  - pose proof (level_pixels_nonneg w h p Hw Hh). unfold level_pixels in *. lia.
  - cbn [chain_size] in Hdata. unfold level_pixels in *. lia.
  - rewrite (bind_Ret _ _ _ _ _ Es). cbn beta iota.
    exists data', mipmap. eexists. split; [reflexivity|].
    split; [exact Hlen|]. split; [exact Hlen'|].
    intros k Hk. apply Hkeep. cbn [chain_size] in Hk. unfold level_pixels in *.
    lia.
Qed.

(** [GenerateMipmaps] up to its last loop: the levels are counted, the
    block is grown when [realloc] succeeds, and [image] is the base
    level. *)
Lemma GenerateMipmaps_start (fuel : nat) (realloc_ok : bool)
    (junk_data : nat -> byte) (junk : Z -> nat -> Color.t)
    (data : list byte) (w h : Z) (n : nat) st :
  1 <= w -> 1 <= h -> Z.of_nat n = halvings w h -> (n <= fuel)%nat ->
  Z.of_nat (length data) = w * h * 4 ->
  exists image st1,
    Z.of_nat (length image) = w * h
    /\ GenerateMipmaps fuel realloc_ok junk_data junk data w h st
       = ('(data, _, _, _, _) ←
            for_loop 1 (1 + Z.of_nat n) 1 (add_level junk)
              (if realloc_ok
               then realloc junk_data data (chain_size w h (S n)) else data,
               image, w, h, 0);
          mret (Some (1 + Z.of_nat n, data))) st1.
Proof.
  intros Hw Hh Hn Hfuel Hdata. unfold GenerateMipmaps, count_levels.
  destruct (count_levels_spec w h n Hw Hh Hn n 0%nat fuel st eq_refl Hfuel)
    as [st0 E0].
  rewrite chain_size_1 in E0. change (Z.of_nat 0) with 0 in E0.
  rewrite Z.pow_0_r, !Z.div_1_r, Z.add_0_r in E0.
  rewrite (bind_Ret _ _ _ _ _ E0). cbn beta iota.
  rewrite (bind_Ret _ _ _ _ _ (TraceLog_DEBUG _ st0)).
  rewrite (bind_Ret _ _ _ _ _ (TraceLog_DEBUG _ _)).
  set (st2 := set_stdout _ (set_stdout _ st0)).
  set (data1 := if realloc_ok
                then realloc junk_data data (chain_size w h (S n)) else data).
  pose proof (chain_size_mono w h 1 (S n) ltac:(lia) ltac:(lia) ltac:(lia))
    as Hgrow.
  rewrite chain_size_1 in Hgrow.
  assert (w * h * 4 <= Z.of_nat (length data1)) as Hdata1.
  { unfold data1. destruct realloc_ok; [|lia].
    rewrite length_realloc; lia. }
  assert (exists st3,
            (if realloc_ok
             then mret (realloc junk_data data (chain_size w h (S n)))
             else TraceLog WARNING
                    "Mipmaps required memory could not be allocated";;
                  mret data) st2 = Ret data1 st3) as [st3 E3].
  { unfold data1. destruct realloc_ok.
    - exists st2. reflexivity.
    - destruct (TraceLog_WARNING
                  "Mipmaps required memory could not be allocated" st2)
        as [st3 E3].
      exists st3. now rewrite (bind_Ret _ _ _ _ _ E3). }
  rewrite (bind_Ret _ _ _ _ _ E3). cbn zeta.
  destruct (load_image_spec data1 (w * h * 4) (w * h)
              (malloc (junk 0) (w * h)) st3) as (image & E4 & Hlen);
    [lia|rewrite length_malloc; nia|lia|].
  rewrite (bind_Ret _ _ _ _ _ E4). cbn beta iota.
  rewrite (bind_Ret _ _ _ _ _ (TraceLog_DEBUG _ st3)).
  exists image. eexists. split; [|reflexivity].
  rewrite Hlen. apply length_malloc. nia.
Qed.

Lemma halvings_nonneg (w h : Z) : 0 <= halvings w h.
Proof.
  unfold halvings. pose proof (Z.log2_nonneg w). pose proof (Z.log2_nonneg h).
  lia.
Qed.

(** X16. For an RGBA image of at least 1 by 1 pixels whose levels take
    less than 2^31 bytes, and when [realloc] succeeds, [GenerateMipmaps]
    returns 1 plus the number of times that both dimensions can be halved
    before one of them is 1: the chain stops at the smaller dimension.
    The block that it has filled holds the bytes of these levels, the
    base level first and as it was; no access leaves a block. *)
Theorem X16_mipmap_chain_stops_at_the_smaller_dimension
    (fuel : nat) (junk_data : nat -> byte) (junk : Z -> nat -> Color.t)
    (data : list byte) (baseWidth baseHeight : Z) (st : State) :
  1 <= baseWidth -> 1 <= baseHeight ->
  Z.of_nat (length data) = baseWidth * baseHeight * 4 ->
  chain_size baseWidth baseHeight
    (S (Z.to_nat (halvings baseWidth baseHeight))) <= 2147483647 ->
  halvings baseWidth baseHeight <= Z.of_nat fuel ->
  exists data' st',
    GenerateMipmaps fuel true junk_data junk data baseWidth baseHeight st
    = Ret (Some (1 + halvings baseWidth baseHeight, data')) st'
    /\ Z.of_nat (length data')
       = chain_size baseWidth baseHeight
           (S (Z.to_nat (halvings baseWidth baseHeight)))
    /\ forall k, k < baseWidth * baseHeight * 4 -> elt data' k = elt data k.
Proof.
  intros Hw Hh Hdata _ Hfuel.
  pose proof (halvings_nonneg baseWidth baseHeight) as Hn0.
  set (n := Z.to_nat (halvings baseWidth baseHeight)).
  assert (Z.of_nat n = halvings baseWidth baseHeight) as Hn by (unfold n; lia).
  rewrite <- Hn.
  destruct (GenerateMipmaps_start fuel true junk_data junk data baseWidth
              baseHeight n st Hw Hh Hn ltac:(lia) Hdata)
    as (image & st1 & Himage & ->).
  set (data1 := realloc junk_data data (chain_size baseWidth baseHeight (S n))).
  pose proof (chain_size_mono baseWidth baseHeight 1 (S n)
                ltac:(lia) ltac:(lia) ltac:(lia)) as Hgrow.
  rewrite chain_size_1 in Hgrow.
  destruct (for_loop_inv
              (fun mip (acc : list byte * list Color.t * Z * Z * Z) (s : State) =>
                 exists (p : nat) d im,
                   mip = Z.of_nat p + 1 /\ (p <= n)%nat
                   /\ acc = (d, im, baseWidth / 2 ^ Z.of_nat p,
                             baseHeight / 2 ^ Z.of_nat p,
                             chain_size baseWidth baseHeight p)
                   /\ Z.of_nat (length im) = level_pixels baseWidth baseHeight p
                   /\ Z.of_nat (length d)
                      = chain_size baseWidth baseHeight (S n)
                   /\ forall k, k < baseWidth * baseHeight * 4 ->
                        elt d k = elt data k)
              1 (1 + Z.of_nat n) 1 (add_level junk)
              (data1, image, baseWidth, baseHeight, 0) st1)
    as (mip' & acc' & st' & E & Hmip & p & d & im & -> & Hp & -> & _ & Hlen & Hkeep).
  - lia.
  - intros mip acc s Hlt (p & d & im & -> & Hp & -> & Him & Hd & Hkeep).
    destruct (add_level_spec junk baseWidth baseHeight n p (Z.of_nat p + 1)
                d im s) as (d' & im' & s' & E & Him' & Hd' & Hkeep');
      [lia|lia|lia|exact Him|exact Hd|].
    eexists _, s'. split; [exact E|].
    exists (S p), d', im'. split; [lia|]. split; [lia|]. split; [reflexivity|].
    split; [exact Him'|]. split; [lia|].
    intros k Hk. rewrite Hkeep'; [now apply Hkeep|].
    pose proof (chain_size_mono baseWidth baseHeight 1 (S p)
                  ltac:(lia) ltac:(lia) ltac:(lia)) as H1.
    rewrite chain_size_1 in H1. lia.
  - exists 0%nat, data1, image. split; [reflexivity|]. split; [lia|].
    split.
    { change (Z.of_nat 0) with 0. rewrite Z.pow_0_r, !Z.div_1_r. reflexivity. }
    split.
    { unfold level_pixels. change (Z.of_nat 0) with 0.
      rewrite Z.pow_0_r, !Z.div_1_r. exact Himage. }
    split.
    { unfold data1. apply length_realloc.
      pose proof (chain_size_mono baseWidth baseHeight 0 (S n)
                    ltac:(lia) ltac:(lia) ltac:(lia)). assumption. }
    intros k Hk. unfold data1. apply elt_realloc; lia.
  - rewrite (bind_Ret _ _ _ _ _ E). cbn beta iota.
    exists d, st'. split; [reflexivity|]. split; [exact Hlen|exact Hkeep].
Qed.

Lemma X16_witness :
  exists data' st',
    GenerateMipmaps 1 true (fun _ => Byte.x00)
      (fun _ _ => Color.mk Byte.x00 Byte.x00 Byte.x00 Byte.x00)
      example_data 4 2 example_init
    = Ret (Some (1 + halvings 4 2, data')) st'
    /\ Z.of_nat (length data') = chain_size 4 2 (S (Z.to_nat (halvings 4 2)))
    /\ forall k, k < 4 * 2 * 4 -> elt data' k = elt example_data k.
Proof.
  apply (X16_mipmap_chain_stops_at_the_smaller_dimension 1 (fun _ => Byte.x00)
           (fun _ _ => Color.mk Byte.x00 Byte.x00 Byte.x00 Byte.x00)
           example_data 4 2 example_init);
    [lia|lia|reflexivity|vm_compute; discriminate|vm_compute; discriminate].
Defined.

(** X17. When [realloc] fails, [GenerateMipmaps] goes on after its
    warning with the block of the base level alone: for an RGBA image of
    at least 2 by 2 pixels (of a size in bytes that an [int] holds) the
    first byte of the first mipmap is stored outside the block. *)
Theorem X17_failed_realloc_is_only_warned_about
    (fuel : nat) (junk_data : nat -> byte) (junk : Z -> nat -> Color.t)
    (data : list byte) (baseWidth baseHeight : Z) (st : State) :
  2 <= baseWidth -> 2 <= baseHeight ->
  Z.of_nat (length data) = baseWidth * baseHeight * 4 ->
  baseWidth * baseHeight * 4 <= 2147483647 ->
  halvings baseWidth baseHeight <= Z.of_nat fuel ->
  exists st',
    GenerateMipmaps fuel false junk_data junk data baseWidth baseHeight st
    = OutOfBounds st'.
Proof.
  intros Hw Hh Hdata _ Hfuel.
  pose proof (halvings_nonneg baseWidth baseHeight) as Hn0.
  set (n := Z.to_nat (halvings baseWidth baseHeight)).
  assert (Z.of_nat n = halvings baseWidth baseHeight) as Hn by (unfold n; lia).
  assert (1 <= Z.of_nat n) as Hn1.
  { rewrite Hn. unfold halvings.
    pose proof (Z.log2_le_mono 2 baseWidth Hw).
    pose proof (Z.log2_le_mono 2 baseHeight Hh).
    change (Z.log2 2) with 1 in *. lia. }
  destruct (GenerateMipmaps_start fuel false junk_data junk data baseWidth
              baseHeight n st ltac:(lia) ltac:(lia) Hn ltac:(lia) Hdata)
    as (image & st1 & Himage & ->).
  destruct (GenNextMipmap_spec (junk 1) image baseWidth baseHeight st1
              ltac:(lia) ltac:(lia) Himage) as (mipmap & E & Hlen & _).
  eexists. apply bind_OutOfBounds. unfold for_loop.
  destruct (Z.to_nat (1 + Z.of_nat n - 1)) as [|f] eqn:Ef; [lia|].
  cbn [for_fuel]. destruct (Z.ltb_spec 1 (1 + Z.of_nat n)) as [_|]; [|lia].
  apply bind_OutOfBounds. unfold add_level.
  rewrite (bind_Ret _ _ _ _ _ E). cbn zeta.
  apply bind_OutOfBounds. rewrite !Z.quot_div_nonneg by lia.
  assert (1 <= baseWidth / 2) by (apply Z.div_le_lower_bound; lia).
  assert (1 <= baseHeight / 2) by (apply Z.div_le_lower_bound; lia).
  apply store_mipmap_overflow; nia.
Qed.

Lemma X17_witness :
  exists st',
    GenerateMipmaps 1 false (fun _ => Byte.x00)
      (fun _ _ => Color.mk Byte.x00 Byte.x00 Byte.x00 Byte.x00)
      example_data 4 2 example_init
    = OutOfBounds st'.
Proof.
  apply (X17_failed_realloc_is_only_warned_about 1 (fun _ => Byte.x00)
           (fun _ _ => Color.mk Byte.x00 Byte.x00 Byte.x00 Byte.x00)
           example_data 4 2 example_init);
    [lia|lia|reflexivity|lia|vm_compute; discriminate].
Defined.
